(** * pyRevit loader: discovery, cache and ribbon reconciliation

    A shallow embedding of the pyRevit loader script ([__init__.py]) and of
    the cache and session modules of the [pyRevit] library package
    ([Lib/pyRevit/_cache.py], [Lib/pyRevit/session.py]).

    Python strings are [string] (byte strings, as in Python 2), Python lists
    are [list], dictionaries are [gmap] or [gset], exceptions are an explicit
    error result. *)

From Stdlib Require Import ZArith String Ascii List Bool Lia.
From stdpp Require Import gmap strings list sorting.

Open Scope string_scope.
Open Scope Z_scope.
Open Scope list_scope.

Set Warnings "-register-all,-clear-no-such-hyp".

(** ** Exceptions *)

Inductive exn : Type :=
  | UnknownFileNameFormat
  | UnknownAssembly
  | ValueError
  | KeyError
  | IndexError
  | IOError
  | ArgumentException
  | TypeError
  | PyRevitCacheReadError
  | PyRevitCacheWriteError
  | PyRevitCacheExpiredError
  | PyRevitCacheError.

Inductive result (A : Type) : Type :=
  | Ok (a : A)
  | Raise (e : exn).
Arguments Ok {A} a.
Arguments Raise {A} e.

Definition bind {A B} (r : result A) (k : A -> result B) : result B :=
  match r with
  | Ok a => k a
  | Raise e => Raise e
  end.

Notation "'let*' x ':=' r 'in' k" := (bind r (fun x => k))
  (at level 10, x name, r at level 100, k at level 200).
Notation "'let*' ' p ':=' r 'in' k" :=
  (bind r (fun x => match x with p => k end))
  (at level 10, p strict pattern, r at level 100, k at level 200).

Definition is_ok {A} (r : result A) : bool :=
  match r with Ok _ => true | Raise _ => false end.

Global Instance exn_eq_dec : EqDecision exn.
Proof. solve_decision. Defined.

(** ** Python string primitives *)

Module Py.

Definition ascii_eqb (a b : ascii) : bool := Ascii.eqb a b.

Definition is_upper (c : ascii) : bool :=
  let n := nat_of_ascii c in (65 <=? n)%nat && (n <=? 90)%nat.

Definition lower_ascii (c : ascii) : ascii :=
  if is_upper c then ascii_of_nat (nat_of_ascii c + 32) else c.

(** [str.lower()] *)
Fixpoint lower (s : string) : string :=
  match s with
  | EmptyString => EmptyString
  | String c r => String (lower_ascii c) (lower r)
  end.

Definition is_digit (c : ascii) : bool :=
  let n := nat_of_ascii c in (48 <=? n)%nat && (n <=? 57)%nat.

Fixpoint all_digits (s : string) : bool :=
  match s with
  | EmptyString => true
  | String c r => is_digit c && all_digits r
  end.

(** [str.isdigit()]: at least one character and only digits. *)
Definition isdigit (s : string) : bool :=
  match s with
  | EmptyString => false
  | _ => all_digits s
  end.

(** [s[:n]] *)
Fixpoint take (n : nat) (s : string) : string :=
  match n, s with
  | O, _ => EmptyString
  | S _, EmptyString => EmptyString
  | S m, String c r => String c (take m r)
  end.

(** [s[n:]] *)
Fixpoint drop (n : nat) (s : string) : string :=
  match n, s with
  | O, _ => s
  | S _, EmptyString => EmptyString
  | S m, String _ r => drop m r
  end.

(** [s.startswith(p)] *)
Fixpoint startswith (p s : string) : bool :=
  match p, s with
  | EmptyString, _ => true
  | String _ _, EmptyString => false
  | String a p', String b s' => ascii_eqb a b && startswith p' s'
  end.

(** [s.endswith(p)] *)
Definition endswith (p s : string) : bool :=
  (String.length p <=? String.length s)%nat
  && String.eqb (drop (String.length s - String.length p) s) p.

(** [p in s] *)
Fixpoint contains (p s : string) : bool :=
  startswith p s
  || match s with
     | EmptyString => false
     | String _ r => contains p r
     end.

(** [s.split(sep)] for a one-character separator; [rsplit(sep)] without a
    [maxsplit] argument returns the same list. *)
Fixpoint split (sep : ascii) (s : string) : list string :=
  match s with
  | EmptyString => [EmptyString]
  | String c r =>
      if ascii_eqb c sep then EmptyString :: split sep r
      else match split sep r with
           | [] => [String c EmptyString]
           | w :: ws => String c w :: ws
           end
  end.

Definition rsplit (sep : ascii) (s : string) : list string := split sep s.

(** [s.replace(old, new)] for a non-empty [old]: non-overlapping
    occurrences, left to right. [fuel] bounds the number of positions. *)
Fixpoint replace_aux (fuel : nat) (old new s : string) : string :=
  match fuel with
  | O => s
  | S f =>
      match s with
      | EmptyString => EmptyString
      | String c r =>
          if startswith old s
          then new +:+ replace_aux f old new (drop (String.length old) s)
          else String c (replace_aux f old new r)
      end
  end.

Definition replace (old new s : string) : string :=
  match old with
  | EmptyString => s
  | _ => replace_aux (String.length s) old new s
  end.

Definition digit_val (c : ascii) : Z := Z.of_nat (nat_of_ascii c) - 48.

Fixpoint int_acc (acc : Z) (s : string) : Z :=
  match s with
  | EmptyString => acc
  | String c r => int_acc (10 * acc + digit_val c) r
  end.

(** [int(s)] on the strings the decoders pass to it: decimal digit strings
    (every call is guarded by an [isdigit] test on the token or on its
    prefix). The empty string is a [ValueError], as in Python. *)
Definition int (s : string) : result Z :=
  if isdigit s then Ok (int_acc 0 s) else Raise ValueError.

(** Index of the last occurrence of [c] in [s] ([str.rfind]). *)
Fixpoint rfind (c : ascii) (s : string) : option nat :=
  match s with
  | EmptyString => None
  | String a r =>
      match rfind c r with
      | Some i => Some (S i)
      | None => if ascii_eqb a c then Some O else None
      end
  end.

Fixpoint all_dots (s : string) : bool :=
  match s with
  | EmptyString => true
  | String c r => ascii_eqb c "." && all_dots r
  end.

(** [os.path.basename] on a name with [/] or [\] separators (the names the
    loader passes come from [os.listdir] and hold no separator). *)
Fixpoint basename (s : string) : string :=
  match s with
  | EmptyString => EmptyString
  | String c r =>
      if ascii_eqb c "/" || ascii_eqb c "\"
      then basename r
      else if contains "/" r || contains "\" r then basename r else s
  end.

(** [os.path.splitext] on a base name: the extension starts at the last dot,
    unless only dots precede it. *)
Definition splitext (s : string) : string * string :=
  match rfind "." s with
  | Some i => if all_dots (take i s) then (s, EmptyString)
              else (take i s, drop i s)
  | None => (s, EmptyString)
  end.

(** [x in l] for a list of strings. *)
Definition mem (x : string) (l : list string) : bool :=
  existsb (String.eqb x) l.

End Py.

(** ** Settings ([PyRevitUISettings]) *)

Module sessionSettings.
Definition pyRevitAssemblyName := "pyRevit".
Definition tabPostfix := ".tab".
Definition panelBundlePostfix := ".panel".
Definition iconFileFormat := ".png".
Definition linkButtonTypeName := "PushButton".
Definition pushButtonTypeName := "PushButton".
Definition smartButtonTypeName := "SmartButton".
Definition pulldownButtonTypeName := "PulldownButton".
Definition stackedThreeTypeName := "Stack3".
Definition stackedTwoTypeName := "Stack2".
Definition splitButtonTypeName := "SplitButton".
Definition splitPushButtonTypeName := "SplitPushButton".
Definition tooltipParameter := "__doc__".
Definition authorParameter := "__author__".
Definition pyRevitInitScriptName := "__init__".
Definition reloadScriptsOverrideGroupName := "pyRevit".
Definition reloadScriptsOverrideName := "reloadScripts".
Definition masterTabName := "master".

(** The [specialcharacters] table, in the order of the source literal. *)
Definition specialcharacters : list (string * string) :=
  [ (" ", ""); ("~", "");
    ("!", "EXCLAM"); ("@", "AT"); ("#", "NUM"); ("$", "DOLLAR");
    ("%", "PERCENT"); ("^", ""); ("&", "AND"); ("*", "STAR");
    ("\(", ""); ("\)", ""); ("+", "PLUS");
    (";", ""); (":", ""); (",", ""); (String (ascii_of_nat 34) "", "");
    ("{", ""); ("}", ""); ("[", ""); ("]", "");
    ("-", "MINUS"); ("=", "EQUALS"); ("<", ""); (">", "");
    ("?", "QMARK"); (".", "DOT"); ("\/", ""); ("\", "") ].
End sessionSettings.

(** ** The tree of the loader: commands, groups, panels, tabs *)

Definition nl : string := String (ascii_of_nat 10) EmptyString.

(** [os.path.join] of a directory and a plain name. *)
Definition path_join (d f : string) : string := d +:+ "\" +:+ f.

(** [ButtonIcons(filedir, filename)]: the bitmaps are decoded by the host;
    the model keeps the address they are read from. *)
Record ButtonIcons := { iconUri : string }.

Record ScriptCommand := {
  cmd_filePath : string;
  cmd_fileName : string;
  cmd_tooltip : string;
  cmdName : string;
  scriptGroupName : string;
  className : string;
  iconFileName : option string;
  cmd_buttonIcons : option ButtonIcons;
  cmd_tabName : string
}.

Record ScriptGroup := {
  commands : list ScriptCommand;
  sourceDir : string;
  sourceFile : string;
  sourceFileName : string;
  sourceFileExt : string;
  groupOrder : Z;
  grp_panelName : string;
  groupType : option string;
  groupName : string;
  grp_buttonIcons : option ButtonIcons;
  assemblyName : option string;
  assemblyClassName : option string;
  assemblyLocation : option string;
  grp_tabName : string
}.

Record ScriptPanel := {
  panelOrder : Z;
  panelName : string;
  scriptGroups : list ScriptGroup;
  pnl_tabName : string;
  tabDir : string;
  isBundled : bool
}.

(** A handle on a live ribbon panel: the tab and the panel name it was
    created or found under. A handle on a ribbon item of a panel is the
    item's [Name]. *)
Abbreviation PanelHandle := (string * string)%type.

Record ScriptTab := {
  tabName : string;
  tabDirName : string;
  tabFolder : string;
  scriptPanels : list ScriptPanel;
  pyRevitUIPanels : gmap string PanelHandle;
  pyRevitUIButtons : gmap string (list string)
}.

(** A loaded assembly of the host process, as [findassembly] sees it. *)
Record Assembly := {
  asm_FullName : string;
  asm_Name : string;
  asm_Location : string
}.

Global Instance ButtonIcons_eq_dec : EqDecision ButtonIcons.
Proof. solve_decision. Defined.
Global Instance ScriptCommand_eq_dec : EqDecision ScriptCommand.
Proof. solve_decision. Defined.
Global Instance ScriptGroup_eq_dec : EqDecision ScriptGroup.
Proof. solve_decision. Defined.
Global Instance ScriptPanel_eq_dec : EqDecision ScriptPanel.
Proof. solve_decision. Defined.

(** ** The identifier decoders (the constructors of the tree classes) *)

Section Decoders.

(** The assemblies loaded in the host ([AppDomain.CurrentDomain]). *)
Variable loadedAssemblies : list Assembly.

(** [ScriptFileContents(address).extractparameter(param)]: the text scan of
    a script's leading lines, given the directory, the file and the
    parameter name. *)
Variable extractparameter : string -> string -> string -> string.

(** [ScriptGroup.findassembly] *)
Definition findassembly (assemblyname : string) : result Assembly :=
  match List.find (fun a => Py.contains assemblyname (asm_FullName a))
                  loadedAssemblies with
  | Some a => Ok a
  | None => Raise UnknownAssembly
  end.

(** [ScriptTab.__init__] *)
Definition ScriptTab_init (tname tfolder : string) : ScriptTab :=
  {| tabName := Py.replace sessionSettings.tabPostfix "" tname;
     tabDirName := tname;
     tabFolder := tfolder;
     scriptPanels := [];
     pyRevitUIPanels := ∅;
     pyRevitUIButtons := ∅ |}.

(** [ScriptPanel.isdescriptorfile] *)
Definition ScriptPanel_isdescriptorfile (fname fext : string) : bool :=
  String.eqb sessionSettings.iconFileFormat (Py.lower fext)
  && Py.isdigit (Py.take 3 fname).

(** [ScriptPanel.__init__] *)
Definition ScriptPanel_init (tabdir fullpanelfilename tabname : string)
    (bundledpanel : bool) : result ScriptPanel :=
  let mk order name :=
    {| panelOrder := order; panelName := name; scriptGroups := [];
       pnl_tabName := tabname; tabDir := tabdir; isBundled := bundledpanel |} in
  if bundledpanel then
    Ok (mk 0 (Py.replace sessionSettings.panelBundlePostfix ""
                         fullpanelfilename))
  else
    let '(fname, fext) := Py.splitext (Py.basename fullpanelfilename) in
    if ScriptPanel_isdescriptorfile fname fext then
      let namepieces := Py.rsplit "_" fname in
      let namepieceslength := length namepieces in
      if (namepieceslength =? 4)%nat || (namepieceslength =? 6)%nat then
        match namepieces with
        | order :: name :: _ =>
            let* o := Py.int (Py.take 2 order) in
            Ok (mk o name)
        | _ => Raise ValueError
        end
      else Raise UnknownFileNameFormat
    else Raise UnknownFileNameFormat.

(** [ScriptGroup.isdescriptorfile] *)
Definition ScriptGroup_isdescriptorfile (fname fext : string) : bool :=
  String.eqb sessionSettings.iconFileFormat (Py.lower fext)
  && Py.isdigit (Py.take 2 fname).

(** [ScriptGroup.__init__]. A descriptor file whose first token is not a
    number, or whose token count is none of 3, 4 and 6, falls through every
    branch: the constructor returns the object with its initial fields. *)
Definition ScriptGroup_init (filedir f tabname bundledPanelName : string)
    : result ScriptGroup :=
  let '(fname, fext) := Py.splitext (Py.basename f) in
  if ScriptGroup_isdescriptorfile fname fext then
    let g0 :=
      {| commands := []; sourceDir := filedir; sourceFile := f;
         sourceFileName := fname; sourceFileExt := fext;
         groupOrder := 0; grp_panelName := bundledPanelName;
         groupType := None; groupName := "";
         grp_buttonIcons := None;
         assemblyName := None; assemblyClassName := None;
         assemblyLocation := None; grp_tabName := tabname |} in
    let icons := Some {| iconUri := path_join filedir f |} in
    let namepieces := Py.rsplit "_" fname in
    let namepieceslength := length namepieces in
    match namepieces with
    | [] => Ok g0
    | first :: _ =>
      if Py.isdigit first then
        let* g1 :=
          (if (namepieceslength =? 4)%nat || (namepieceslength =? 6)%nat then
             match namepieces with
             | order :: pname :: gtype :: gname :: _ =>
                 let* o := Py.int (Py.drop 2 order) in
                 Ok {| commands := []; sourceDir := filedir; sourceFile := f;
                       sourceFileName := fname; sourceFileExt := fext;
                       groupOrder := o; grp_panelName := pname;
                       groupType := Some gtype; groupName := gname;
                       grp_buttonIcons := icons;
                       assemblyName := None; assemblyClassName := None;
                       assemblyLocation := None; grp_tabName := tabname |}
             | _ => Raise ValueError
             end
           else if (namepieceslength =? 3)%nat then
             match namepieces with
             | [order; gtype; gname] =>
                 let* o := Py.int order in
                 Ok {| commands := []; sourceDir := filedir; sourceFile := f;
                       sourceFileName := fname; sourceFileExt := fext;
                       groupOrder := o; grp_panelName := bundledPanelName;
                       groupType := Some gtype; groupName := gname;
                       grp_buttonIcons := icons;
                       assemblyName := None; assemblyClassName := None;
                       assemblyLocation := None; grp_tabName := tabname |}
             | _ => Raise ValueError
             end
           else Ok g0) in
        if (namepieceslength =? 6)%nat then
          match namepieces with
          | [_; _; _; _; aname; acls] =>
              let* a1 := findassembly aname in
              let* a2 := findassembly (asm_Name a1) in
              Ok {| commands := commands g1; sourceDir := sourceDir g1;
                    sourceFile := sourceFile g1;
                    sourceFileName := sourceFileName g1;
                    sourceFileExt := sourceFileExt g1;
                    groupOrder := groupOrder g1;
                    grp_panelName := grp_panelName g1;
                    groupType := groupType g1; groupName := groupName g1;
                    grp_buttonIcons := grp_buttonIcons g1;
                    assemblyName := Some (asm_Name a1);
                    assemblyClassName := Some acls;
                    assemblyLocation := Some (asm_Location a2);
                    grp_tabName := grp_tabName g1 |}
          | _ => Raise ValueError
          end
        else Ok g1
      else Ok g0
    end
  else Raise UnknownFileNameFormat.

(** [ScriptGroup.islinkbutton] *)
Definition islinkbutton (g : ScriptGroup) : bool :=
  match assemblyName g with Some _ => true | None => false end.

(** The loop over [specialcharacters] in [ScriptCommand.__init__]. *)
Definition clean_classname (s : string) : string :=
  fold_left (fun acc '(char, repl) => Py.replace char repl acc)
            sessionSettings.specialcharacters s.

(** The "custom name adjustments" of [ScriptCommand.__init__]: the init
    script of the master tab takes the name of the reload command. *)
Definition custom_name (fname tabname : string) : string :=
  if Py.contains (Py.lower sessionSettings.pyRevitInitScriptName)
                 (Py.lower fname)
     && String.eqb tabname sessionSettings.masterTabName
  then sessionSettings.reloadScriptsOverrideGroupName +:+ "_"
       +:+ sessionSettings.reloadScriptsOverrideName
  else fname.

(** [ScriptCommand.__init__]; [siblings] are the names present in
    [filedir], which decide [op.exists] for the icon of the script. *)
Definition ScriptCommand_init (siblings : list string)
    (filedir f tabname : string) : result ScriptCommand :=
  let '(fname0, fext) := Py.splitext (Py.basename f) in
  let fname := custom_name fname0 tabname in
  if negb (Py.startswith "_" fname) && String.eqb ".py" (Py.lower fext) then
    let namepieces := Py.rsplit "_" fname in
    let namepieceslength := length namepieces in
    if (namepieceslength =? 2)%nat then
      match namepieces with
      | [gname; cname] =>
          let cls := clean_classname (tabname +:+ gname +:+ cname) in
          let icon := fname +:+ sessionSettings.iconFileFormat in
          let has_icon := Py.mem icon siblings in
          let docstring :=
            extractparameter filedir f sessionSettings.tooltipParameter in
          let author :=
            extractparameter filedir f sessionSettings.authorParameter in
          let tooltip :=
            docstring +:+ nl +:+ nl +:+ "Script Name:" +:+ nl
            +:+ fname +:+ " " +:+ Py.lower fext in
          let tooltip :=
            if negb (String.eqb author "")
            then tooltip +:+ nl +:+ nl +:+ "Author:" +:+ nl +:+ author
            else tooltip in
          Ok {| cmd_filePath := filedir; cmd_fileName := f;
                cmd_tooltip := tooltip; cmdName := cname;
                scriptGroupName := gname; className := cls;
                iconFileName := if has_icon then Some icon else None;
                cmd_buttonIcons :=
                  if has_icon
                  then Some {| iconUri := path_join filedir icon |}
                  else None;
                cmd_tabName := tabname |}
      | _ => Raise ValueError
      end
    else Raise UnknownFileNameFormat
  else Raise UnknownFileNameFormat.

(** ** Python's [sorted] *)

(** A stable insertion sort: among equal keys the input order is kept, which
    is the order every stable sort (Python's included) returns. *)
Fixpoint sorted_insert {A K} (leb : K -> K -> bool) (key : A -> K)
    (x : A) (l : list A) : list A :=
  match l with
  | [] => [x]
  | y :: r => if leb (key x) (key y) then x :: l
              else y :: sorted_insert leb key x r
  end.

Fixpoint sorted_by {A K} (leb : K -> K -> bool) (key : A -> K)
    (l : list A) : list A :=
  match l with
  | [] => []
  | x :: r => sorted_insert leb key x (sorted_by leb key r)
  end.

(** [sorted(names)] on strings: byte-wise lexicographic order. *)
Definition sorted_strings (l : list string) : list string :=
  sorted_by String.leb (fun s => s) l.

(** ** Adoption *)

Definition set_commands (g : ScriptGroup) (cs : list ScriptCommand)
    : ScriptGroup :=
  {| commands := cs; sourceDir := sourceDir g; sourceFile := sourceFile g;
     sourceFileName := sourceFileName g; sourceFileExt := sourceFileExt g;
     groupOrder := groupOrder g; grp_panelName := grp_panelName g;
     groupType := groupType g; groupName := groupName g;
     grp_buttonIcons := grp_buttonIcons g;
     assemblyName := assemblyName g;
     assemblyClassName := assemblyClassName g;
     assemblyLocation := assemblyLocation g; grp_tabName := grp_tabName g |}.

Definition set_scriptGroups (p : ScriptPanel) (gs : list ScriptGroup)
    : ScriptPanel :=
  {| panelOrder := panelOrder p; panelName := panelName p;
     scriptGroups := gs; pnl_tabName := pnl_tabName p; tabDir := tabDir p;
     isBundled := isBundled p |}.

Definition set_scriptPanels (t : ScriptTab) (ps : list ScriptPanel)
    : ScriptTab :=
  {| tabName := tabName t; tabDirName := tabDirName t;
     tabFolder := tabFolder t; scriptPanels := ps;
     pyRevitUIPanels := pyRevitUIPanels t;
     pyRevitUIButtons := pyRevitUIButtons t |}.

(** The test of [ScriptGroup.adoptcommands]; the list of adopted file names
    is read once, before the loop. *)
Definition adoptcommands_test (self : ScriptGroup) (masterTabName : string)
    (already_adopted_commands : list string) (cmd : ScriptCommand) : bool :=
  String.eqb (scriptGroupName cmd) (groupName self)
  && (String.eqb (cmd_tabName cmd) (grp_tabName self)
      || String.eqb (cmd_tabName cmd) masterTabName)
  && negb (Py.mem (cmd_fileName cmd) already_adopted_commands).

(** [ScriptGroup.adoptcommands] *)
Definition adoptcommands (self : ScriptGroup)
    (pyrevitscriptcommands : list ScriptCommand) (masterTabName : string)
    : ScriptGroup :=
  let already_adopted_commands := map cmd_fileName (commands self) in
  fold_left
    (fun self cmd =>
       if adoptcommands_test self masterTabName already_adopted_commands cmd
       then set_commands self (commands self ++ [cmd])
       else self)
    pyrevitscriptcommands self.

Definition adoptgroups_test (self : ScriptPanel)
    (already_adopted_groups : list string) (group : ScriptGroup) : bool :=
  String.eqb (grp_panelName group) (panelName self)
  && String.eqb (grp_tabName group) (pnl_tabName self)
  && negb (Py.mem (groupName group) already_adopted_groups).

(** [ScriptPanel.adoptgroups] *)
Definition adoptgroups (self : ScriptPanel)
    (pyrevitscriptgroups : list ScriptGroup) : ScriptPanel :=
  let already_adopted_groups := map groupName (scriptGroups self) in
  fold_left
    (fun self group =>
       if adoptgroups_test self already_adopted_groups group
       then set_scriptGroups self (scriptGroups self ++ [group])
       else self)
    pyrevitscriptgroups self.

Definition adopt_panels_test (self : ScriptTab)
    (already_adopted_panels : list string) (panel : ScriptPanel) : bool :=
  String.eqb (pnl_tabName panel) (tabName self)
  && negb (Py.mem (panelName panel) already_adopted_panels).

(** [ScriptTab.adopt_panels] *)
Definition adopt_panels (self : ScriptTab)
    (pyrevitscriptpanels : list ScriptPanel) : ScriptTab :=
  let already_adopted_panels := map panelName (scriptPanels self) in
  fold_left
    (fun self panel =>
       if adopt_panels_test self already_adopted_panels panel
       then set_scriptPanels self (scriptPanels self ++ [panel])
       else self)
    pyrevitscriptpanels self.

(** [ScriptTab.get_sorted_scriptpanels] *)
Definition get_sorted_scriptpanels (self : ScriptTab) : list ScriptPanel :=
  sorted_by Z.leb panelOrder (scriptPanels self).

(** [ScriptPanel.get_sorted_scriptgroups] *)
Definition get_sorted_scriptgroups (self : ScriptPanel) : list ScriptGroup :=
  sorted_by Z.leb groupOrder (scriptGroups self).

(** [ScriptTab.hascommands] *)
Definition hascommands (self : ScriptTab) : bool :=
  existsb
    (fun p => existsb (fun g => (0 <? length (commands g))%nat)
                      (scriptGroups p))
    (scriptPanels self).

(** ** Tree discovery *)

(** A directory snapshot. The order of [entries] is the order in which
    [os.listdir] enumerates them. *)
Inductive fsnode : Type :=
  | FsFile (name : string)
  | FsDir (name : string) (entries : list fsnode).

Definition fs_name (e : fsnode) : string :=
  match e with FsFile n => n | FsDir n _ => n end.

Definition fs_isdir (e : fsnode) : bool :=
  match e with FsFile _ => false | FsDir _ _ => true end.

Definition fs_entries (e : fsnode) : list fsnode :=
  match e with FsFile _ => [] | FsDir _ es => es end.

(** [os.listdir] *)
Definition listdir (entries : list fsnode) : list string :=
  map fs_name entries.

(** [op.isdir(op.join(dir, name))] for a name of the directory. *)
Definition isdir (entries : list fsnode) (name : string) : bool :=
  existsb (fun e => String.eqb (fs_name e) name && fs_isdir e) entries.

(** The entries of the sub-directory [name]. *)
Definition subdir (entries : list fsnode) (name : string) : list fsnode :=
  match List.find (fun e => String.eqb (fs_name e) name && fs_isdir e)
                  entries with
  | Some e => fs_entries e
  | None => []
  end.

(** The lists of [PyRevitUISession] that the discovery fills. *)
Record Session := {
  pyRevitScriptPanels : list ScriptPanel;
  pyRevitScriptGroups : list ScriptGroup;
  pyRevitScriptCommands : list ScriptCommand;
  pyRevitScriptTabs : list ScriptTab
}.

Definition new_session : Session :=
  {| pyRevitScriptPanels := []; pyRevitScriptGroups := [];
     pyRevitScriptCommands := []; pyRevitScriptTabs := [] |}.

Definition append_command (self : Session) (c : ScriptCommand) : Session :=
  {| pyRevitScriptPanels := pyRevitScriptPanels self;
     pyRevitScriptGroups := pyRevitScriptGroups self;
     pyRevitScriptCommands := pyRevitScriptCommands self ++ [c];
     pyRevitScriptTabs := pyRevitScriptTabs self |}.

Definition append_group (self : Session) (g : ScriptGroup) : Session :=
  {| pyRevitScriptPanels := pyRevitScriptPanels self;
     pyRevitScriptGroups := pyRevitScriptGroups self ++ [g];
     pyRevitScriptCommands := pyRevitScriptCommands self;
     pyRevitScriptTabs := pyRevitScriptTabs self |}.

Definition append_panel (self : Session) (p : ScriptPanel) : Session :=
  {| pyRevitScriptPanels := pyRevitScriptPanels self ++ [p];
     pyRevitScriptGroups := pyRevitScriptGroups self;
     pyRevitScriptCommands := pyRevitScriptCommands self;
     pyRevitScriptTabs := pyRevitScriptTabs self |}.

Definition set_tabs (self : Session) (ts : list ScriptTab) : Session :=
  {| pyRevitScriptPanels := pyRevitScriptPanels self;
     pyRevitScriptGroups := pyRevitScriptGroups self;
     pyRevitScriptCommands := pyRevitScriptCommands self;
     pyRevitScriptTabs := ts |}.

(** One iteration of the loop of [find_scriptcommands]: every exception of
    the constructor is caught and the entry skipped. *)
Definition find_scriptcommands_step (searchdir : string)
    (entries : list fsnode) (tabname : string)
    (self : Session) (fullfilename : string) : Session :=
  let '(fname, fext) := Py.splitext (Py.basename fullfilename) in
  if negb (isdir entries fullfilename) && String.eqb ".py" (Py.lower fext)
  then
    match ScriptCommand_init (listdir entries) searchdir fullfilename
                             tabname with
    | Ok cmd => append_command self cmd
    | Raise _ => self
    end
  else self.

(** [PyRevitUISession.find_scriptcommands] *)
Definition find_scriptcommands (self : Session) (searchdir : string)
    (entries : list fsnode) (tabname : string) : Session :=
  let files := sorted_strings (listdir entries) in
  fold_left (find_scriptcommands_step searchdir entries tabname) files self.

(** One iteration of the loop of [find_scriptgroups]: only
    [UnknownFileNameFormat] and [UnknownAssembly] are caught. *)
Definition find_scriptgroups_step (searchdir : string)
    (entries : list fsnode) (tabname bundledPanelName : string)
    (self : Session) (fullfilename : string) : result Session :=
  let '(fname, fext) := Py.splitext (Py.basename fullfilename) in
  if negb (isdir entries fullfilename)
     && String.eqb sessionSettings.iconFileFormat (Py.lower fext)
  then
    match ScriptGroup_init searchdir fullfilename tabname
                           bundledPanelName with
    | Ok scriptgroup =>
        let scriptgroup :=
          adoptcommands scriptgroup (pyRevitScriptCommands self)
                        sessionSettings.masterTabName in
        Ok (append_group self scriptgroup)
    | Raise UnknownFileNameFormat => Ok self
    | Raise UnknownAssembly => Ok self
    | Raise e => Raise e
    end
  else Ok self.

(** A [for] loop whose body may raise: the first exception ends the loop. *)
Fixpoint for_each {S A} (body : S -> A -> result S) (l : list A) (s : S)
    : result S :=
  match l with
  | [] => Ok s
  | x :: r => let* s' := body s x in for_each body r s'
  end.

(** [PyRevitUISession.find_scriptgroups] *)
Definition find_scriptgroups (self : Session) (searchdir : string)
    (entries : list fsnode) (tabname bundledPanelName : string)
    : result Session :=
  let self := find_scriptcommands self searchdir entries tabname in
  let files := listdir entries in
  for_each (find_scriptgroups_step searchdir entries tabname
                                   bundledPanelName) files self.

(** One iteration of the loop of [find_scriptpanels]. *)
Definition find_scriptpanels_step (tabdir : string) (entries : list fsnode)
    (tabname : string) (self : Session) (fullfilename : string)
    : result Session :=
  let fullfilepath := path_join tabdir fullfilename in
  let '(fname, fext) := Py.splitext (Py.basename fullfilename) in
  let is_panel_bundled :=
    isdir entries fullfilename
    && negb (Py.startswith "." fullfilename
             || Py.startswith "_" fullfilename)
    && Py.endswith sessionSettings.panelBundlePostfix fullfilename in
  let is_panel_defined_by_png :=
    String.eqb sessionSettings.iconFileFormat (Py.lower fext) in
  if is_panel_bundled || is_panel_defined_by_png then
    match ScriptPanel_init tabdir fullfilename tabname is_panel_bundled with
    | Ok scriptpanel =>
        let* self :=
          (if is_panel_bundled
           then find_scriptgroups self fullfilepath
                  (subdir entries fullfilename) tabname
                  (panelName scriptpanel)
           else Ok self) in
        let collectedscriptpanels :=
          map (fun x => (panelName x, pnl_tabName x))
              (pyRevitScriptPanels self) in
        if bool_decide ((panelName scriptpanel, pnl_tabName scriptpanel)
                        ∈ collectedscriptpanels)
        then Ok self
        else Ok (append_panel self
                   (adoptgroups scriptpanel (pyRevitScriptGroups self)))
    | Raise UnknownFileNameFormat => Ok self
    | Raise e => Raise e
    end
  else Ok self.

(** [PyRevitUISession.find_scriptpanels] *)
Definition find_scriptpanels (self : Session) (tabdir : string)
    (entries : list fsnode) (tabname : string) : result Session :=
  let* self := find_scriptgroups self tabdir entries tabname "" in
  for_each (find_scriptpanels_step tabdir entries tabname)
           (listdir entries) self.

(** The body of [find_scripttabs] for a directory that carries the tab
    postfix: a new tab, or the extension of a tab already found under the
    same directory name. *)
Definition find_scripttab (self : Session) (fulltabpath dirName : string)
    (entries : list fsnode) : result Session :=
  match List.find (fun x => String.eqb (tabDirName x) dirName)
                  (rev (pyRevitScriptTabs self)) with
  | None =>
      let scripttab := ScriptTab_init dirName fulltabpath in
      let* self := find_scriptpanels self fulltabpath entries
                                     (tabName scripttab) in
      let scripttab := adopt_panels scripttab (pyRevitScriptPanels self) in
      Ok (set_tabs self (pyRevitScriptTabs self ++ [scripttab]))
  | Some scripttab =>
      let* self := find_scriptpanels self fulltabpath entries
                                     (tabName scripttab) in
      let adopted := adopt_panels scripttab (pyRevitScriptPanels self) in
      Ok (set_tabs self
            (map (fun x => if String.eqb (tabDirName x) dirName
                           then adopted else x)
                 (pyRevitScriptTabs self)))
  end.

(** [PyRevitUISession.find_scripttabs], by recursion on the directory
    snapshot. *)
Fixpoint find_scripttabs_entry (homeDir : string) (e : fsnode)
    (self : Session) {struct e} : result Session :=
  match e with
  | FsFile _ => Ok self
  | FsDir dirName entries =>
      let fulltabpath := path_join homeDir dirName in
      let hidden := Py.startswith "." dirName || Py.startswith "_" dirName in
      if negb hidden && Py.endswith sessionSettings.tabPostfix dirName then
        find_scripttab self fulltabpath dirName entries
      else if negb hidden then
        (fix loop (es : list fsnode) (self : Session) : result Session :=
           match es with
           | [] => Ok self
           | e' :: r =>
               let* self := find_scripttabs_entry fulltabpath e' self in
               loop r self
           end) entries self
      else Ok self
  end.

Definition find_scripttabs (self : Session) (homeDir : string)
    (entries : list fsnode) : result Session :=
  for_each (fun self e => find_scripttabs_entry homeDir e self) entries self.

(** [PyRevitUISession.create_reload_button] *)
Definition create_reload_button (self : Session) (loaderDir : string)
    (entries : list fsnode) : Session :=
  fold_left
    (fun self fname =>
       if negb (isdir entries fname)
          && Py.contains sessionSettings.pyRevitInitScriptName fname
       then match ScriptCommand_init (listdir entries) loaderDir fname
                    sessionSettings.masterTabName with
            | Ok cmd => append_command self cmd
            | Raise _ => self
            end
       else self)
    (listdir entries) self.

(** The discovery part of [PyRevitUISession.__init__]. *)
Definition discover (loaderDir : string) (loaderEntries : list fsnode)
    (homeDir : string) (homeEntries : list fsnode) : result Session :=
  let self := create_reload_button new_session loaderDir loaderEntries in
  find_scripttabs self homeDir homeEntries.

End Decoders.

(** ** The live ribbon *)

(** Modelled from the spec: the live UI accessor collaborator (the ribbon of
    the host application), which the loader reaches through
    [__revit__.CreateRibbonTab], [GetRibbonPanels], [CreateRibbonPanel],
    [RibbonPanel.GetItems], [AddItem], [AddStackedItems],
    [PulldownButton.GetItems] and [AddPushButton]. Per level it answers
    membership by name, hands out the existing elements, creates an element
    under a name that is not taken (a taken name is refused with an
    exception, as [CreateRibbonTab] is relied upon to do by the loader) and
    lets the fields of an element be rewritten. Nothing is ever removed.
    Bitmaps and long descriptions are not represented. *)
Record PushButton := {
  pb_Name : string;
  pb_ClassName : string;
  pb_AssemblyName : string;
  pb_ToolTip : string;
  pb_Enabled : bool
}.

Record RibbonItem := {
  ri_Name : string;
  ri_ClassName : string;
  ri_AssemblyName : string;
  ri_ToolTip : string;
  ri_Enabled : bool;
  ri_Items : list PushButton
}.

(** Tab name to panel name to the items of the panel, in the order in which
    they were added. *)
Abbreviation Ribbon := (gmap string (gmap string (list RibbonItem))).

(** The operation log: every call that creates, rewrites or disables a
    ribbon element. *)
Inductive uiop : Type :=
  | OpCreateRibbonTab (tab : string)
  | OpCreateRibbonPanel (tab panel : string)
  | OpAddItem (ph : PanelHandle) (name : string)
  | OpAddStackedItems (ph : PanelHandle) (names : list string)
  | OpAddPushButton (ph : PanelHandle) (item name : string)
  | OpUpdateItem (ph : PanelHandle) (name : string)
  | OpUpdatePushButton (ph : PanelHandle) (item name : string)
  | OpDisableItem (ph : PanelHandle) (name : string)
  | OpDisablePushButton (ph : PanelHandle) (item name : string).

Definition is_create (o : uiop) : bool :=
  match o with
  | OpCreateRibbonTab _ | OpCreateRibbonPanel _ _ | OpAddItem _ _
  | OpAddStackedItems _ _ | OpAddPushButton _ _ _ => true
  | _ => false
  end.

Definition is_disable (o : uiop) : bool :=
  match o with
  | OpDisableItem _ _ | OpDisablePushButton _ _ _ => true
  | _ => false
  end.

Definition is_update (o : uiop) : bool :=
  match o with
  | OpUpdateItem _ _ | OpUpdatePushButton _ _ _ => true
  | _ => false
  end.

(** The tab an operation acts on. *)
Definition op_tab (o : uiop) : string :=
  match o with
  | OpCreateRibbonTab t | OpCreateRibbonPanel t _ => t
  | OpAddItem ph _ | OpAddStackedItems ph _ | OpAddPushButton ph _ _
  | OpUpdateItem ph _ | OpUpdatePushButton ph _ _
  | OpDisableItem ph _ | OpDisablePushButton ph _ _ => fst ph
  end.

(** The two counters of [createui] and the operation log. *)
Record Acc := {
  newbuttoncount : nat;
  updatedbuttoncount : nat;
  oplog : list uiop
}.

Definition acc0 : Acc :=
  {| newbuttoncount := 0; updatedbuttoncount := 0; oplog := [] |}.

Definition emit (o : uiop) (a : Acc) : Acc :=
  {| newbuttoncount := newbuttoncount a;
     updatedbuttoncount := updatedbuttoncount a;
     oplog := oplog a ++ [o] |}.

Definition count_new (a : Acc) : Acc :=
  {| newbuttoncount := S (newbuttoncount a);
     updatedbuttoncount := updatedbuttoncount a;
     oplog := oplog a |}.

Definition count_updated (a : Acc) : Acc :=
  {| newbuttoncount := newbuttoncount a;
     updatedbuttoncount := S (updatedbuttoncount a);
     oplog := oplog a |}.

(** A loop over a list whose body works on a state and may raise: the state
    reached when the exception is raised is kept. *)
Fixpoint loop_st {S A} (body : S -> A -> S * option exn) (l : list A)
    (s : S) : S * option exn :=
  match l with
  | [] => (s, None)
  | x :: r =>
      match body s x with
      | (s', None) => loop_st body r s'
      | (s', Some e) => (s', Some e)
      end
  end.

(** [{key(b): b for b in l}], each element standing for its handle: a later
    element replaces an earlier one under the same key. *)
Definition dict_of {X} (key handle : X -> string) (l : list X)
    : gmap string string :=
  fold_left (fun d b => <[key b := handle b]> d) l ∅.

Definition set_pb_fields (cls asm tip : option string) (en : option bool)
    (b : PushButton) : PushButton :=
  {| pb_Name := pb_Name b;
     pb_ClassName := default (pb_ClassName b) cls;
     pb_AssemblyName := default (pb_AssemblyName b) asm;
     pb_ToolTip := default (pb_ToolTip b) tip;
     pb_Enabled := default (pb_Enabled b) en |}.

Definition set_ri_fields (cls asm tip : option string) (en : option bool)
    (b : RibbonItem) : RibbonItem :=
  {| ri_Name := ri_Name b;
     ri_ClassName := default (ri_ClassName b) cls;
     ri_AssemblyName := default (ri_AssemblyName b) asm;
     ri_ToolTip := default (ri_ToolTip b) tip;
     ri_Enabled := default (ri_Enabled b) en;
     ri_Items := ri_Items b |}.

Definition set_ri_Items (cs : list PushButton) (b : RibbonItem)
    : RibbonItem :=
  {| ri_Name := ri_Name b; ri_ClassName := ri_ClassName b;
     ri_AssemblyName := ri_AssemblyName b; ri_ToolTip := ri_ToolTip b;
     ri_Enabled := ri_Enabled b; ri_Items := cs |}.

(** Rewriting the element behind a handle. *)
Definition update_pb (h : string) (f : PushButton -> PushButton)
    (l : list PushButton) : list PushButton :=
  map (fun b => if String.eqb (pb_Name b) h then f b else b) l.

Definition update_ri (h : string) (f : RibbonItem -> RibbonItem)
    (l : list RibbonItem) : list RibbonItem :=
  map (fun b => if String.eqb (ri_Name b) h then f b else b) l.

(** [PushButtonData(name, text, assemblyName, className)] once added. *)
Definition new_pushbutton (name asm cls tip : string) : PushButton :=
  {| pb_Name := name; pb_ClassName := cls; pb_AssemblyName := asm;
     pb_ToolTip := tip; pb_Enabled := true |}.

Definition new_item (name asm cls tip : string) : RibbonItem :=
  {| ri_Name := name; ri_ClassName := cls; ri_AssemblyName := asm;
     ri_ToolTip := tip; ri_Enabled := true; ri_Items := [] |}.

(** [PulldownButton.AddPushButton]: a taken name is refused. *)
Definition AddPushButton (b : PushButton) (l : list PushButton)
    : result (list PushButton) :=
  if Py.mem (pb_Name b) (map pb_Name l) then Raise ArgumentException
  else Ok (l ++ [b]).

(** [RibbonPanel.AddItem]: a taken name is refused. *)
Definition AddItem (b : RibbonItem) (l : list RibbonItem)
    : result (list RibbonItem) :=
  if Py.mem (ri_Name b) (map ri_Name l) then Raise ArgumentException
  else Ok (l ++ [b]).

(** [RibbonPanel.AddStackedItems]: every name must be free and the names
    must differ. *)
Definition AddStackedItems (bs : list RibbonItem) (l : list RibbonItem)
    : result (list RibbonItem) :=
  if existsb (fun b => Py.mem (ri_Name b) (map ri_Name l)) bs
     || negb (bool_decide (NoDup (map ri_Name bs)))
  then Raise ArgumentException
  else Ok (l ++ bs).

(** ** Reconciliation: [create_or_find_pyrevit_panels] and [createui] *)

Section Reconcile.

(** [self.newAssemblyLocation], the assembly built for this run. *)
Variable newAssemblyLocation : string.

(** The state of the loop over the commands of a pulldown or split group:
    the buttons of the ribbon item, the dictionary of the buttons that were
    there before the loop, the counters and the log. *)
Record SubSt := {
  s_buttons : list PushButton;
  s_existing : gmap string string;
  s_acc : Acc
}.

(** The body of [for cmd in scriptGroup.commands] in the pulldown and split
    branch. *)
Definition createui_subbutton (ph : PanelHandle) (item : string)
    (st : SubSt) (cmd : ScriptCommand) : SubSt * option exn :=
  match s_existing st !! className cmd with
  | None =>
      let buttondata :=
        new_pushbutton (className cmd) newAssemblyLocation (className cmd)
                       (cmd_tooltip cmd) in
      match AddPushButton buttondata (s_buttons st) with
      | Ok bs =>
          ({| s_buttons := bs; s_existing := s_existing st;
              s_acc := count_new
                         (emit (OpAddPushButton ph item (className cmd))
                               (s_acc st)) |}, None)
      | Raise e => (st, Some e)
      end
  | Some pushbutton =>
      let asm :=
        if Py.contains sessionSettings.reloadScriptsOverrideName pushbutton
        then None else Some newAssemblyLocation in
      ({| s_buttons :=
            update_pb pushbutton
              (set_pb_fields None asm (Some (cmd_tooltip cmd)) (Some true))
              (s_buttons st);
          s_existing := delete (className cmd) (s_existing st);
          s_acc := count_updated
                     (emit (OpUpdatePushButton ph item pushbutton)
                           (s_acc st)) |}, None)
  end.

(** The loop that disables the buttons left in the dictionary. *)
Definition disable_orphaned_buttons (ph : PanelHandle) (item : string)
    (st : SubSt) : SubSt :=
  fold_left
    (fun st '(_, orphanedButton) =>
       {| s_buttons :=
            update_pb orphanedButton
              (set_pb_fields None None None (Some false)) (s_buttons st);
          s_existing := s_existing st;
          s_acc := emit (OpDisablePushButton ph item orphanedButton)
                        (s_acc st) |})
    (map_to_list (s_existing st)) st.

(** The state of the loop over the groups of a panel: the items of the live
    panel, [pyrevitribbonitemsdict], the counters and the log. *)
Record PanelSt := {
  p_items : list RibbonItem;
  p_dict : gmap string string;
  p_acc : Acc
}.

Definition buttons_of (h : string) (l : list RibbonItem)
    : list PushButton :=
  match List.find (fun b => String.eqb (ri_Name b) h) l with
  | Some b => ri_Items b
  | None => []
  end.

(** The pulldown, split and split-push branch. *)
Definition createui_buttongroup (ph : PanelHandle) (st : PanelSt)
    (scriptGroup : ScriptGroup) : PanelSt * option exn :=
  let found :=
    match p_dict st !! groupName scriptGroup with
    | None =>
        match AddItem (new_item (groupName scriptGroup) "" "" "")
                      (p_items st) with
        | Ok items =>
            Ok ({| p_items := items; p_dict := p_dict st;
                   p_acc := emit (OpAddItem ph (groupName scriptGroup))
                                 (p_acc st) |},
                groupName scriptGroup)
        | Raise e => Raise e
        end
    | Some ribbonitem =>
        Ok ({| p_items := p_items st;
               p_dict := delete (groupName scriptGroup) (p_dict st);
               p_acc := emit (OpUpdateItem ph ribbonitem) (p_acc st) |},
            ribbonitem)
    end in
  match found with
  | Raise e => (st, Some e)
  | Ok (st, ribbonitem) =>
      let buttons := buttons_of ribbonitem (p_items st) in
      let sub0 :=
        {| s_buttons := buttons;
           s_existing := dict_of pb_ClassName pb_Name buttons;
           s_acc := p_acc st |} in
      let '(sub, err) :=
        loop_st (createui_subbutton ph ribbonitem) (commands scriptGroup)
                sub0 in
      let sub :=
        match err with
        | None => disable_orphaned_buttons ph ribbonitem sub
        | Some _ => sub
        end in
      ({| p_items := update_ri ribbonitem (set_ri_Items (s_buttons sub))
                               (p_items st);
          p_dict := p_dict st;
          p_acc := s_acc sub |}, err)
  end.

(** The state of the loop over the commands of a [Stack3] group. *)
Record StackSt := {
  k_panel : PanelSt;
  stackcommands : list RibbonItem
}.

Definition createui_stackbutton (ph : PanelHandle) (st : StackSt)
    (cmd : ScriptCommand) : StackSt :=
  let p := k_panel st in
  match p_dict p !! className cmd with
  | None =>
      {| k_panel := {| p_items := p_items p; p_dict := p_dict p;
                       p_acc := count_new (p_acc p) |};
         stackcommands :=
           stackcommands st
           ++ [new_item (className cmd) newAssemblyLocation (className cmd)
                        (cmd_tooltip cmd)] |}
  | Some ribbonitem =>
      {| k_panel :=
           {| p_items :=
                update_ri ribbonitem
                  (set_ri_fields (Some (className cmd))
                     (Some newAssemblyLocation) None (Some true))
                  (p_items p);
              p_dict := delete (className cmd) (p_dict p);
              p_acc := count_updated
                         (emit (OpUpdateItem ph ribbonitem) (p_acc p)) |};
         stackcommands := stackcommands st |}
  end.

(** The [Stack3] branch: the new buttons are added only when there are
    exactly three of them. *)
Definition createui_stack (ph : PanelHandle) (st : PanelSt)
    (scriptGroup : ScriptGroup) : PanelSt * option exn :=
  let k :=
    fold_left (createui_stackbutton ph) (commands scriptGroup)
              {| k_panel := st; stackcommands := [] |} in
  let p := k_panel k in
  if (length (stackcommands k) =? 3)%nat then
    match AddStackedItems (stackcommands k) (p_items p) with
    | Ok items =>
        ({| p_items := items; p_dict := p_dict p;
            p_acc := emit (OpAddStackedItems ph
                             (map ri_Name (stackcommands k))) (p_acc p) |},
         None)
    | Raise e => (p, Some e)
    end
  else (p, None).

(** The push-button and smart-button branches. The whole branch sits in a
    [try] whose bare [except] skips the group: an empty command list
    ([pop] raises) or a refused [AddItem] leaves the state as it is. The
    [selfInit] hook of a smart button runs last and is not represented. *)
Definition createui_single (ph : PanelHandle) (st : PanelSt)
    (scriptGroup : ScriptGroup) : PanelSt * option exn :=
  match last (commands scriptGroup) with
  | None => (st, None)
  | Some cmd =>
      match p_dict st !! className cmd with
      | None =>
          match AddItem (new_item (className cmd) newAssemblyLocation
                                  (className cmd) (cmd_tooltip cmd))
                        (p_items st) with
          | Ok items =>
              ({| p_items := items; p_dict := p_dict st;
                  p_acc := count_new
                             (emit (OpAddItem ph (className cmd))
                                   (p_acc st)) |}, None)
          | Raise _ => (st, None)
          end
      | Some ribbonitem =>
          ({| p_items :=
                update_ri ribbonitem
                  (set_ri_fields (Some (className cmd))
                     (Some newAssemblyLocation) (Some (cmd_tooltip cmd))
                     (Some true))
                  (p_items st);
              p_dict := delete (className cmd) (p_dict st);
              p_acc := count_updated
                         (emit (OpUpdateItem ph ribbonitem) (p_acc st)) |},
           None)
      end
  end.

(** The link-button branch. *)
Definition createui_link (ph : PanelHandle) (st : PanelSt)
    (scriptGroup : ScriptGroup) : PanelSt * option exn :=
  let asmloc := default "" (assemblyLocation scriptGroup) in
  let cls := default "" (assemblyName scriptGroup) +:+ "."
             +:+ default "" (assemblyClassName scriptGroup) in
  match p_dict st !! groupName scriptGroup with
  | None =>
      match AddItem (new_item (groupName scriptGroup) asmloc cls "")
                    (p_items st) with
      | Ok items =>
          ({| p_items := items; p_dict := p_dict st;
              p_acc := count_new
                         (emit (OpAddItem ph (groupName scriptGroup))
                               (p_acc st)) |}, None)
      | Raise e => (st, Some e)
      end
  | Some ribbonitem =>
      ({| p_items :=
            update_ri ribbonitem
              (set_ri_fields (Some cls) (Some asmloc) None (Some true))
              (p_items st);
          p_dict := delete (groupName scriptGroup) (p_dict st);
          p_acc := count_updated
                     (emit (OpUpdateItem ph ribbonitem) (p_acc st)) |},
       None)
  end.

Definition type_is (scriptGroup : ScriptGroup) (t : string) : bool :=
  match groupType scriptGroup with
  | Some gt => String.eqb gt t
  | None => false
  end.

(** The body of [for scriptGroup in scriptPanel.get_sorted_scriptgroups()]:
    the chain of tests on the group type. *)
Definition createui_group (ph : PanelHandle) (st : PanelSt)
    (scriptGroup : ScriptGroup) : PanelSt * option exn :=
  let groupispulldownbutton :=
    type_is scriptGroup sessionSettings.pulldownButtonTypeName in
  let groupissplitbutton :=
    type_is scriptGroup sessionSettings.splitButtonTypeName
    || type_is scriptGroup sessionSettings.splitPushButtonTypeName in
  if groupispulldownbutton || groupissplitbutton then
    createui_buttongroup ph st scriptGroup
  else if type_is scriptGroup sessionSettings.stackedThreeTypeName then
    createui_stack ph st scriptGroup
  else if type_is scriptGroup sessionSettings.pushButtonTypeName
          && negb (islinkbutton scriptGroup) then
    createui_single ph st scriptGroup
  else if type_is scriptGroup sessionSettings.smartButtonTypeName
          && negb (islinkbutton scriptGroup) then
    createui_single ph st scriptGroup
  else if type_is scriptGroup sessionSettings.linkButtonTypeName
          && islinkbutton scriptGroup then
    createui_link ph st scriptGroup
  else (st, None).

(** The loop that disables the ribbon items left in the dictionary. *)
Definition disable_orphaned_items (ph : PanelHandle) (st : PanelSt)
    : PanelSt :=
  fold_left
    (fun st '(_, orphanedRibbonItem) =>
       {| p_items :=
            update_ri orphanedRibbonItem
              (set_ri_fields None None None (Some false)) (p_items st);
          p_dict := p_dict st;
          p_acc := emit (OpDisableItem ph orphanedRibbonItem) (p_acc st) |})
    (map_to_list (p_dict st)) st.

(** The state of [createui]: the live ribbon, the counters and the log. *)
Record UI := {
  ribbon : Ribbon;
  ui_acc : Acc
}.

Definition panel_items (r : Ribbon) (ph : PanelHandle)
    : list RibbonItem :=
  default [] (r !! fst ph ≫= fun ps => ps !! snd ph).

Definition set_panel_items (r : Ribbon) (ph : PanelHandle)
    (items : list RibbonItem) : Ribbon :=
  alter (fun ps => <[snd ph := items]> ps) (fst ph) r.

(** The body of [for scriptPanel in scriptTab.get_sorted_scriptpanels()]. *)
Definition createui_panel (scriptTab : ScriptTab) (ui : UI)
    (scriptPanel : ScriptPanel) : UI * option exn :=
  match pyRevitUIPanels scriptTab !! panelName scriptPanel with
  | None => (ui, Some KeyError)
  | Some pyrevitribbonpanel =>
      match pyRevitUIButtons scriptTab !! panelName scriptPanel with
      | None => (ui, Some KeyError)
      | Some buttons =>
          let st0 :=
            {| p_items := panel_items (ribbon ui) pyrevitribbonpanel;
               p_dict := dict_of (fun b => b) (fun b => b) buttons;
               p_acc := ui_acc ui |} in
          let '(st, err) :=
            loop_st (createui_group pyrevitribbonpanel)
                    (get_sorted_scriptgroups scriptPanel) st0 in
          let st :=
            match err with
            | None => disable_orphaned_items pyrevitribbonpanel st
            | Some _ => st
            end in
          ({| ribbon := set_panel_items (ribbon ui) pyrevitribbonpanel
                                        (p_items st);
              ui_acc := p_acc st |}, err)
      end
  end.

(** The body of [for scriptTab in self.pyRevitScriptTabs] in [createui]. *)
Definition createui_tab (ui : UI) (scriptTab : ScriptTab)
    : UI * option exn :=
  loop_st (createui_panel scriptTab) (get_sorted_scriptpanels scriptTab) ui.

(** [PyRevitUISession.createui]; the counters start at zero in [ui]. *)
Definition createui (tabs : list ScriptTab) (ui : UI) : UI * option exn :=
  loop_st createui_tab tabs ui.

Definition set_ui_dicts (t : ScriptTab) (ps : gmap string PanelHandle)
    (bs : gmap string (list string)) : ScriptTab :=
  {| tabName := tabName t; tabDirName := tabDirName t;
     tabFolder := tabFolder t; scriptPanels := scriptPanels t;
     pyRevitUIPanels := ps; pyRevitUIButtons := bs |}.

(** The state of [create_or_find_pyrevit_panels] inside one tab. *)
Record FindSt := {
  f_tab : ScriptTab;
  f_ui : UI
}.

(** The body of the loop over the panels of a tab;
    [pyrevitribbonpanels] are the panels found when the tab existed. *)
Definition create_or_find_panel (pyrevitribbonpanels : gmap string PanelHandle)
    (st : FindSt) (panel : ScriptPanel) : FindSt * option exn :=
  let scriptTab := f_tab st in
  let ui := f_ui st in
  match pyrevitribbonpanels !! panelName panel with
  | Some h =>
      ({| f_tab :=
            set_ui_dicts scriptTab
              (<[panelName panel := h]> (pyRevitUIPanels scriptTab))
              (<[panelName panel := map ri_Name (panel_items (ribbon ui) h)]>
                 (pyRevitUIButtons scriptTab));
          f_ui := ui |}, None)
  | None =>
      match ribbon ui !! tabName scriptTab with
      | None => (st, Some ArgumentException)
      | Some ps =>
          match ps !! panelName panel with
          | Some _ => (st, Some ArgumentException)
          | None =>
              let newpanel := (tabName scriptTab, panelName panel) in
              ({| f_tab :=
                    set_ui_dicts scriptTab
                      (<[panelName panel := newpanel]>
                         (pyRevitUIPanels scriptTab))
                      (<[panelName panel := []]>
                         (pyRevitUIButtons scriptTab));
                  f_ui :=
                    {| ribbon :=
                         <[tabName scriptTab :=
                             <[panelName panel := []]> ps]> (ribbon ui);
                       ui_acc :=
                         emit (OpCreateRibbonPanel (tabName scriptTab)
                                                   (panelName panel))
                              (ui_acc ui) |} |}, None)
          end
      end
  end.

(** The body of [for scriptTab in self.pyRevitScriptTabs] in
    [create_or_find_pyrevit_panels]: a tab without commands is skipped. *)
Definition create_or_find_tab (ui : UI) (scriptTab : ScriptTab)
    : FindSt * option exn :=
  if hascommands scriptTab then
    let '(ui, pyrevitribbonpanels) :=
      match ribbon ui !! tabName scriptTab with
      | None =>
          ({| ribbon := <[tabName scriptTab := ∅]> (ribbon ui);
              ui_acc := emit (OpCreateRibbonTab (tabName scriptTab))
                             (ui_acc ui) |},
           (∅ : gmap string PanelHandle))
      | Some ps =>
          (ui, map_imap (fun pn _ => Some (tabName scriptTab, pn)) ps)
      end in
    loop_st (create_or_find_panel pyrevitribbonpanels)
            (get_sorted_scriptpanels scriptTab)
            {| f_tab := scriptTab; f_ui := ui |}
  else ({| f_tab := scriptTab; f_ui := ui |}, None).

(** [PyRevitUISession.create_or_find_pyrevit_panels]: the tabs are returned
    with their [pyRevitUIPanels] and [pyRevitUIButtons] filled. *)
Fixpoint create_or_find_pyrevit_panels (tabs : list ScriptTab) (ui : UI)
    : (list ScriptTab * UI) * option exn :=
  match tabs with
  | [] => (([], ui), None)
  | scriptTab :: r =>
      match create_or_find_tab ui scriptTab with
      | (st, Some e) => ((f_tab st :: r, f_ui st), Some e)
      | (st, None) =>
          let '((r', ui'), err) :=
            create_or_find_pyrevit_panels r (f_ui st) in
          ((f_tab st :: r', ui'), err)
      end
  end.

(** [PyRevitUISession.createpyrevitui] on the live ribbon [r]. *)
Definition createpyrevitui (tabs : list ScriptTab) (r : Ribbon)
    : UI * option exn :=
  match create_or_find_pyrevit_panels tabs
          {| ribbon := r; ui_acc := acc0 |} with
  | ((_, ui), Some e) => (ui, Some e)
  | ((tabs', ui), None) => createui tabs' ui
  end.

End Reconcile.

(** ** The content-hash cache ([_cache.py]) and the session ([session.py]) *)

Module Cache.

(** [re.search(r'(\.panel)|(\.tab)', root, flags=re.IGNORECASE)] *)
Definition pat_search (root : string) : bool :=
  Py.contains ".panel" (Py.lower root) || Py.contains ".tab" (Py.lower root).

(** [re.search(r'(\.py)', filename, flags=re.IGNORECASE)] *)
Definition patfile_search (filename : string) : bool :=
  Py.contains ".py" (Py.lower filename).

Section Fingerprint.

(** Modification times as [op.getmtime] returns them, with the addition
    that [mtime_sum += ...] performs and the initial sum. *)
Variable T : Type.
Variable zero : T.
Variable add : T -> T -> T.

(** [hashlib.md5(str(mtime_sum)).hexdigest()] *)
Variable md5_str : T -> string.

(** A directory tree with the modification time of every entry; the order
    of [entries] is the enumeration order of [os.walk]. *)
Inductive mnode : Type :=
  | MFile (name : string) (mtime : T)
  | MDir (name : string) (mtime : T) (entries : list mnode).

(** [for filename in files] of one directory. *)
Definition add_files (entries : list mnode) (mtime_sum : T) : T :=
  fold_left
    (fun mtime_sum e =>
       match e with
       | MFile filename modtime =>
           if patfile_search filename then add mtime_sum modtime
           else mtime_sum
       | MDir _ _ _ => mtime_sum
       end)
    entries mtime_sum.

(** The loop over [os.walk(root)], top-down. *)
Fixpoint walk (root : string) (e : mnode) (mtime_sum : T) {struct e} : T :=
  match e with
  | MFile _ _ => mtime_sum
  | MDir _ mtime entries =>
      let mtime_sum :=
        if pat_search root then add_files entries (add mtime_sum mtime)
        else mtime_sum in
      (fix walk_dirs (es : list mnode) (mtime_sum : T) : T :=
         match es with
         | [] => mtime_sum
         | MFile _ _ :: r => walk_dirs r mtime_sum
         | (MDir name _ _ as d) :: r =>
             walk_dirs r (walk (path_join root name) d mtime_sum)
         end) entries mtime_sum
  end.

(** [calculate_hash] *)
Definition calculate_hash (tabFolder : string) (tab : mnode) : string :=
  md5_str (walk tabFolder tab zero).

(** The same tree after the files that the file pattern does not match got
    the modification times [g] gives them. *)
Fixpoint touch_unmatched (g : string -> T -> T) (e : mnode) : mnode :=
  match e with
  | MFile n t => MFile n (if patfile_search n then t else g n t)
  | MDir n t es => MDir n t (map (touch_unmatched g) es)
  end.

End Fingerprint.

Arguments MFile {T} name mtime.
Arguments MDir {T} name mtime entries.
Arguments touch_unmatched {T} g e.

(** The values of a parsed cache file that the cache looks at. *)
Inductive jval : Type :=
  | JStr (s : string)
  | JOther.

Global Instance jval_eq_dec : EqDecision jval.
Proof. solve_decision. Defined.

(** What opening and [json.load]-ing a cache file gives: nothing usable, a
    JSON value that is no object, or an object. *)
Inductive cachefile : Type :=
  | Unreadable
  | JsonNoObject
  | JsonObject (d : gmap string jval).

(** The components of a package as the cache and the session iterate them:
    packages, tabs, panels and command groups are iterable, a command is
    not. *)
Inductive component : Type :=
  | Comp (name tabHash : string) (loaded_from_cache : bool)
         (subs : list component)
  | Leaf (name : string).

Definition comp_name (c : component) : string :=
  match c with Comp n _ _ _ => n | Leaf n => n end.

Definition comp_tabHash (c : component) : string :=
  match c with Comp _ h _ _ => h | Leaf _ => "" end.

Definition comp_loaded_from_cache (c : component) : bool :=
  match c with Comp _ _ b _ => b | Leaf _ => false end.

Definition comp_subs (c : component) : list component :=
  match c with Comp _ _ _ l => l | Leaf _ => [] end.

Inductive pyval : Type :=
  | PyNone
  | PyBool (b : bool).

Definition truthy (v : pyval) : bool :=
  match v with PyNone => false | PyBool b => b end.

Section CacheFiles.

(** The constants of the [config] module. *)
Variable USER_TEMP_DIR : string.
Variable PYREVIT_ASSEMBLY_NAME : string.
(** [PyRevitVersion.full_version_as_str()] *)
Variable full_version_as_str : string.

(** [cached_tab.load_from_cache(cached_tab_dict)] *)
Variable load_from_cache :
  component -> gmap string jval -> result component.

(** [get_clean_dict], through which [serialize] dumps a tab. *)
Variable get_clean_dict : component -> gmap string jval.

(** Whether a cache file can be opened for writing. *)
Variable writable : string -> bool.

(** [_parser.get_parsed_package] *)
Variable get_parsed_package : component -> component.

(** [get_cache_file] *)
Definition get_cache_file (cached_tab : component) : string :=
  path_join USER_TEMP_DIR
    (PYREVIT_ASSEMBLY_NAME +:+ "_cache_" +:+ comp_name cached_tab
     +:+ ".json").

(** [read_cache_for] *)
Definition read_cache_for (files : gmap string cachefile)
    (cached_tab : component) : result cachefile :=
  match files !! get_cache_file cached_tab with
  | None | Some Unreadable => Raise PyRevitCacheReadError
  | Some f => Ok f
  end.

(** [serialize], as [json.load] reads its text back. The text is the
    opening brace, the version field followed by a comma, and the dump of
    the fields without its first character. When no field is dumped the
    dump is the two braces, the text ends in a comma and a closing brace,
    and [json.load] refuses it. Otherwise the text is an object in which
    the version field stands before the dumped fields, so that a dumped
    field named [cacheVersion] is the one read back. The version is taken
    to be plain text, which needs no escape inside a JSON string. *)
Definition serialize (obj : component) : cachefile :=
  let cache_dict := get_clean_dict obj in
  if bool_decide (cache_dict = ∅) then Unreadable
  else JsonObject (cache_dict
                   ∪ {[ "cacheVersion" := JStr full_version_as_str ]}).

(** [write_cache_for] *)
Definition write_cache_for (files : gmap string cachefile)
    (parsed_tab : component) : result (gmap string cachefile) :=
  if writable (get_cache_file parsed_tab)
  then Ok (<[get_cache_file parsed_tab := serialize parsed_tab]> files)
  else Raise PyRevitCacheWriteError.

(** [update_cache] *)
Definition update_cache (files : gmap string cachefile)
    (parsed_tab : component) : result (gmap string cachefile) :=
  if negb (comp_loaded_from_cache parsed_tab)
  then write_cache_for files parsed_tab
  else Ok files.

(** [get_cached_tab]: the read error leaves as it is, everything that goes
    wrong inside the [try] becomes a [PyRevitCacheError]. *)
Definition get_cached_tab (files : gmap string cachefile)
    (cached_tab : component) : result component :=
  let* cached_tab_dict := read_cache_for files cached_tab in
  match cached_tab_dict with
  | JsonObject d =>
      match d !! "tabHash" with
      | None => Raise PyRevitCacheError
      | Some h =>
          if bool_decide (h = JStr (comp_tabHash cached_tab)) then
            match d !! "cacheVersion" with
            | None => Raise PyRevitCacheError
            | Some v =>
                if bool_decide (v = JStr full_version_as_str) then
                  match load_from_cache cached_tab d with
                  | Ok t => Ok t
                  | Raise _ => Raise PyRevitCacheError
                  end
                else Raise PyRevitCacheError
            end
          else Raise PyRevitCacheError
      end
  | _ => Raise PyRevitCacheError
  end.

(** [get_cached_package]: it calls itself on every component and returns
    nothing. *)
Fixpoint get_cached_package (cached_pkg : component) : result pyval :=
  match cached_pkg with
  | Leaf _ => Raise TypeError
  | Comp _ _ _ subs =>
      (fix loop (l : list component) : result pyval :=
         match l with
         | [] => Ok PyNone
         | cached_tab :: r =>
             let* u := get_cached_package cached_tab in loop r
         end) subs
  end.

(** [is_cached_tab_valid]: the body is [pass]. *)
Definition is_cached_tab_valid (cached_tab : component) : pyval := PyNone.

(** [is_cache_valid] *)
Definition is_cache_valid (cached_pkg : component) : bool :=
  (fix loop (l : list component) : bool :=
     match l with
     | [] => true
     | cached_tab :: r =>
         if negb (truthy (is_cached_tab_valid cached_tab)) then false
         else loop r
     end) (comp_subs cached_pkg).

(** What [load] does for a package, as the calls it makes. *)
Inductive load_event : Type :=
  | EvGetCachedPackage (pkg_info : component)
  | EvGetParsedPackage (pkg_info : component)
  | EvUpdateCache (package : component)
  | EvCreateAssembly (package : option component).

(** The body of [for pkg_info in get_installed_packages(root_dir)] of
    [session.load]. *)
Definition load_package (files : gmap string cachefile)
    (pkg_info : component)
    : result (gmap string cachefile * list load_event) :=
  if is_cache_valid pkg_info then
    let* u := get_cached_package pkg_info in
    Ok (files, [EvGetCachedPackage pkg_info; EvCreateAssembly None])
  else
    let package := get_parsed_package pkg_info in
    let* files := update_cache files package in
    Ok (files, [EvGetParsedPackage pkg_info; EvUpdateCache package;
                EvCreateAssembly (Some package)]).

(** [session.load] over the installed packages. *)
Fixpoint load (files : gmap string cachefile)
    (installed_packages : list component)
    : result (gmap string cachefile * list load_event) :=
  match installed_packages with
  | [] => Ok (files, [])
  | pkg_info :: r =>
      let* '(files, evs) := load_package files pkg_info in
      let* '(files, evs') := load files r in
      Ok (files, evs ++ evs')
  end.

End CacheFiles.

End Cache.

(** ** Well-formed desired trees *)

(** The branch of [createui] that the type of a group selects. *)
Inductive branch : Type :=
  | BButtonGroup
  | BStack
  | BSingle
  | BLink
  | BNone.

Definition branch_of (scriptGroup : ScriptGroup) : branch :=
  if type_is scriptGroup sessionSettings.pulldownButtonTypeName
     || (type_is scriptGroup sessionSettings.splitButtonTypeName
         || type_is scriptGroup sessionSettings.splitPushButtonTypeName)
  then BButtonGroup
  else if type_is scriptGroup sessionSettings.stackedThreeTypeName
  then BStack
  else if type_is scriptGroup sessionSettings.pushButtonTypeName
          && negb (islinkbutton scriptGroup)
  then BSingle
  else if type_is scriptGroup sessionSettings.smartButtonTypeName
          && negb (islinkbutton scriptGroup)
  then BSingle
  else if type_is scriptGroup sessionSettings.linkButtonTypeName
          && islinkbutton scriptGroup
  then BLink
  else BNone.

(** The names of the ribbon items of the panel that a group looks up. *)
Definition group_keys (g : ScriptGroup) : list string :=
  match branch_of g with
  | BButtonGroup | BLink => [groupName g]
  | BStack => map className (commands g)
  | BSingle => match last (commands g) with
               | Some cmd => [className cmd]
               | None => []
               end
  | BNone => []
  end.

(** The number of buttons a group stands for in the counters. *)
Definition group_buttons (g : ScriptGroup) : nat :=
  match branch_of g with
  | BButtonGroup | BStack => length (commands g)
  | BSingle => match last (commands g) with Some _ => 1 | None => 0 end
  | BLink => 1
  | BNone => 0
  end.

(** Class names differ inside a pulldown or split group, and a [Stack3]
    group has three commands. *)
Definition wf_group (g : ScriptGroup) : bool :=
  match branch_of g with
  | BButtonGroup => bool_decide (NoDup (map className (commands g)))
  | BStack => (length (commands g) =? 3)%nat
  | _ => true
  end.

Definition groups_keys (gs : list ScriptGroup) : list string :=
  concat (map group_keys gs).

Definition groups_buttons (gs : list ScriptGroup) : nat :=
  foldr (fun g n => (group_buttons g + n)%nat) 0%nat gs.

Definition panel_keys (p : ScriptPanel) : list string :=
  groups_keys (get_sorted_scriptgroups p).

(** The item names of a panel are pairwise different. *)
Definition wf_panel (p : ScriptPanel) : bool :=
  bool_decide (NoDup (panel_keys p))
  && forallb wf_group (get_sorted_scriptgroups p).

Definition panels_buttons (ps : list ScriptPanel) : nat :=
  foldr (fun p n =>
           (groups_buttons (get_sorted_scriptgroups p) + n)%nat) 0%nat ps.

(** A tab as discovery leaves it, with a command if it has a panel, and
    with panels of different names. *)
Definition wf_tab (t : ScriptTab) : bool :=
  (hascommands t || bool_decide (scriptPanels t = []))
  && bool_decide (NoDup (map panelName (scriptPanels t)))
  && forallb wf_panel (scriptPanels t)
  && bool_decide (pyRevitUIPanels t = ∅)
  && bool_decide (pyRevitUIButtons t = ∅).

Definition wf_tabs (tabs : list ScriptTab) : bool :=
  bool_decide (NoDup (map tabName tabs)) && forallb wf_tab tabs.

Definition tabs_buttons (tabs : list ScriptTab) : nat :=
  foldr (fun t n =>
           (panels_buttons (get_sorted_scriptpanels t) + n)%nat) 0%nat tabs.

(** The number of commands in the subtree of a tab. *)
Definition tab_command_count (t : ScriptTab) : nat :=
  foldr (fun p n =>
           (foldr (fun g m => (length (commands g) + m)%nat) 0%nat
                  (scriptGroups p) + n)%nat)
        0%nat (scriptPanels t).

(** How a pass changed the counters and the log: [dn] buttons counted as
    new, [du] as updated, and only operations of kind [P] logged. *)
Definition acc_step (P : uiop -> bool) (dn du : nat) (a a' : Acc) : Prop :=
  newbuttoncount a' = (newbuttoncount a + dn)%nat
  /\ updatedbuttoncount a' = (updatedbuttoncount a + du)%nat
  /\ exists l, oplog a' = oplog a ++ l /\ forallb P l = true.

(** The live panel holds what a first pass over the panel [p] leaves: the
    items of the keys of the panel, in the order of the sorted groups, and
    under every pulldown or split group the buttons of its commands. *)
Definition panel_ready (p : ScriptPanel) (items : list RibbonItem) : Prop :=
  map ri_Name items = panel_keys p
  /\ forall g, In g (get_sorted_scriptgroups p) ->
               branch_of g = BButtonGroup ->
               map pb_ClassName (buttons_of (groupName g) items)
               = map className (commands g).

(** The part of [wf_tab] that is about the tree below the tab. *)
Definition tab_tree_ok (t : ScriptTab) : bool :=
  (hascommands t || bool_decide (scriptPanels t = []))
  && bool_decide (NoDup (map panelName (scriptPanels t)))
  && forallb wf_panel (scriptPanels t).

(** What the entry [o] of the live ribbon under the name of a tab and the
    dictionaries of the tab look like: after the panels were created, after
    the first [createui], and after the panels were found again. *)
Definition tab_created (t : ScriptTab)
    (o : option (gmap string (list RibbonItem))) : Prop :=
  hascommands t = true ->
  exists ps,
    o = Some ps
    /\ forall p, In p (scriptPanels t) ->
         pyRevitUIPanels t !! panelName p = Some (tabName t, panelName p)
         /\ pyRevitUIButtons t !! panelName p = Some []
         /\ ps !! panelName p = Some [].

Definition tab_done (t : ScriptTab)
    (o : option (gmap string (list RibbonItem))) : Prop :=
  hascommands t = true ->
  exists ps,
    o = Some ps
    /\ forall p, In p (scriptPanels t) ->
         exists items, ps !! panelName p = Some items /\ panel_ready p items.

Definition tab_found (t : ScriptTab)
    (o : option (gmap string (list RibbonItem))) : Prop :=
  hascommands t = true ->
  exists ps,
    o = Some ps
    /\ forall p, In p (scriptPanels t) ->
         pyRevitUIPanels t !! panelName p = Some (tabName t, panelName p)
         /\ exists items,
              pyRevitUIButtons t !! panelName p = Some (map ri_Name items)
              /\ ps !! panelName p = Some items
              /\ panel_ready p items.

(** ** Small helpers of the loader *)

(** [get_username], on the user name the host application reports: the
    part before the first [@], without its dots. *)
Definition get_username (uname : string) : string :=
  Py.replace "." "" (hd "" (Py.split "@" uname)).

(** [ScriptCommand.getfullscriptaddress] *)
Definition getfullscriptaddress (self : ScriptCommand) : string :=
  path_join (cmd_filePath self) (cmd_fileName self).

(** [ScriptCommand.getscriptbasename] *)
Definition getscriptbasename (self : ScriptCommand) : string :=
  scriptGroupName self +:+ "_" +:+ cmdName self.

(** The loop over [specialcharacters.items()] for an iteration order
    [table] of the dictionary. *)
Definition replace_specialcharacters (table : list (string * string))
    (s : string) : string :=
  fold_left (fun acc '(char, repl) => Py.replace char repl acc) table s.

(** ** Invariants of the discovery *)

(** The session [s'] holds the commands, groups and panels of [s] followed
    by new ones, and the same tabs. *)
Definition session_grows (s s' : Session) : Prop :=
  pyRevitScriptCommands s `prefix_of` pyRevitScriptCommands s'
  /\ pyRevitScriptGroups s `prefix_of` pyRevitScriptGroups s'
  /\ pyRevitScriptPanels s `prefix_of` pyRevitScriptPanels s'
  /\ pyRevitScriptTabs s' = pyRevitScriptTabs s.

(** The same, with the tabs of [s] (by directory name) followed by new
    ones. *)
Definition session_extends (s s' : Session) : Prop :=
  pyRevitScriptCommands s `prefix_of` pyRevitScriptCommands s'
  /\ pyRevitScriptGroups s `prefix_of` pyRevitScriptGroups s'
  /\ pyRevitScriptPanels s `prefix_of` pyRevitScriptPanels s'
  /\ map tabDirName (pyRevitScriptTabs s)
     `prefix_of` map tabDirName (pyRevitScriptTabs s').

(** The panels of the session differ by panel name and tab name. *)
Definition panels_unique (s : Session) : Prop :=
  NoDup (map (fun p => (panelName p, pnl_tabName p))
             (pyRevitScriptPanels s)).

(** A tab as the discovery builds it: named after its directory, with
    panels of its own tab name and of different panel names, and with
    nothing of the live ribbon attached yet. *)
Definition tab_as_discovered (t : ScriptTab) : Prop :=
  tabName t = Py.replace sessionSettings.tabPostfix "" (tabDirName t)
  /\ NoDup (map panelName (scriptPanels t))
  /\ (forall p, In p (scriptPanels t) -> pnl_tabName p = tabName t)
  /\ pyRevitUIPanels t = ∅ /\ pyRevitUIButtons t = ∅.

Definition session_inv (s : Session) : Prop :=
  panels_unique s
  /\ NoDup (map tabDirName (pyRevitScriptTabs s))
  /\ Forall tab_as_discovered (pyRevitScriptTabs s).

(** The entries of a folder that [find_scripttabs] looks at: the
    directories whose name starts with neither a dot nor an underscore. *)
Definition visible_dir (e : fsnode) : bool :=
  fs_isdir e
  && negb (Py.startswith "." (fs_name e) || Py.startswith "_" (fs_name e)).

(** ** What reconciliation keeps of the live ribbon *)

(** The items [l'] of a panel keep those of [l]: the same item names in
    front and in the same order, and under every item name the same button
    names in front and in the same order. *)
Definition items_keep (l l' : list RibbonItem) : Prop :=
  map ri_Name l `prefix_of` map ri_Name l'
  /\ forall h, map pb_Name (buttons_of h l)
               `prefix_of` map pb_Name (buttons_of h l').

(** The ribbon [r'] keeps the tabs, the panels, the items and the buttons
    of [r]. *)
Definition ribbon_keeps (r r' : Ribbon) : Prop :=
  (forall tn ps, r !! tn = Some ps ->
                 exists ps', r' !! tn = Some ps' /\ dom ps ⊆ dom ps')
  /\ forall ph, items_keep (panel_items r ph) (panel_items r' ph).

(** ** The fingerprint without the directory pattern *)

(** The sum that [calculate_hash] would build if every directory counted:
    the modification time of every directory of the tree and of every file
    that the file pattern matches, in the order of [os.walk]. *)
Fixpoint walk_all {T : Type} (add : T -> T -> T) (e : Cache.mnode T)
    (mtime_sum : T) {struct e} : T :=
  match e with
  | Cache.MFile _ _ => mtime_sum
  | Cache.MDir _ mtime entries =>
      (fix walk_dirs (es : list (Cache.mnode T)) (mtime_sum : T) : T :=
         match es with
         | [] => mtime_sum
         | Cache.MFile _ _ :: r => walk_dirs r mtime_sum
         | (Cache.MDir _ _ _ as d) :: r =>
             walk_dirs r (walk_all add d mtime_sum)
         end) entries (Cache.add_files T add entries (add mtime_sum mtime))
  end.

(** ** Console reports ([report], [reportv]) *)

(** The globals [verbose] and [last_report_type], and what was written to
    the standard output. *)
Record Console := {
  verbose : bool;
  last_report_type : string;
  stdout : string
}.

(** [s * n] *)
Fixpoint repeat_string (s : string) (n : nat) : string :=
  match n with
  | O => ""
  | S m => s +:+ repeat_string s m
  end.

Definition verbose_disabled_char : string := "|".

Definition set_last_report_type (t : string) (c : Console) : Console :=
  {| verbose := verbose c; last_report_type := t; stdout := stdout c |}.

(** [report(message, title, newline)]; [print] ends the line. *)
Definition report (message : string) (title newline : bool) (c : Console)
    : Console :=
  let message :=
    if title
    then repeat_string "-" 100 +:+ nl +:+ message +:+ nl
         +:+ repeat_string "-" 100
    else message in
  let message :=
    if newline && String.eqb (last_report_type c) "disabledverbose"
    then nl +:+ message else message in
  {| verbose := verbose c;
     last_report_type := "normal";
     stdout := stdout c +:+ (if newline then message +:+ nl else message) |}.

(** [reportv(message, title)] *)
Definition reportv (message : string) (title : bool) (c : Console)
    : Console :=
  if verbose c
  then set_last_report_type "verbose" (report message title true c)
  else set_last_report_type "disabledverbose"
         (report verbose_disabled_char false false c).

(** A run of [reportv] calls. *)
Definition reportv_all (messages : list (string * bool)) (c : Console)
    : Console :=
  fold_left (fun c '(message, title) => reportv message title c) messages c.

(** ** The session assembly and the files of earlier sessions *)

(** [self.assemblyidentifier] and [self.sessionidentifier] for the version
    number the host reports. *)
Definition assemblyidentifier : string := sessionSettings.pyRevitAssemblyName.

Definition sessionidentifier (revitVersion : string) : string :=
  sessionSettings.pyRevitAssemblyName +:+ revitVersion.

(** The names that [createassembly] makes from the time stamp
    ([datetime.now().strftime('%y%m%d%H%M%S')]) and the user name. *)
Definition sessionname (revitVersion timestamp username : string) : string :=
  sessionidentifier revitVersion +:+ ("_" +:+ timestamp)
  +:+ ("_" +:+ username).

Definition dllname (revitVersion timestamp username : string) : string :=
  sessionname revitVersion timestamp username +:+ ".dll".

Definition logfilename (revitVersion timestamp username : string) : string :=
  sessionname revitVersion timestamp username +:+ ".log".

(** [find_loaded_pyrevit_assemblies], on the assemblies of the host. *)
Definition find_loaded_pyrevit_assemblies (assemblies : list Assembly)
    (loadedPyRevitAssemblies : list Assembly) : list Assembly :=
  fold_left
    (fun loaded loadedAssembly =>
       if Py.contains sessionSettings.pyRevitAssemblyName
                      (asm_FullName loadedAssembly)
       then loaded ++ [loadedAssembly] else loaded)
    assemblies loadedPyRevitAssemblies.

(** [isreloading] *)
Definition isreloading (loadedPyRevitAssemblies : list Assembly) : bool :=
  (0 <? length loadedPyRevitAssemblies)%nat.

(** [os.remove] of a name of a folder. *)
Definition remove_file (f : string) (files : list string) : list string :=
  List.filter (fun x => negb (String.eqb x f)) files.

(** [cleanup]: [revitinstances] is the number of running processes named
    [Revit], [files] the names in the user's temporary folder, and
    [removable] tells whether [os.remove] succeeds on a name. *)
Definition cleanup (revitinstances : nat)
    (loadedPyRevitAssemblies : list Assembly) (sessionidentifier : string)
    (removable : string -> bool) (files : list string) : list string :=
  if (1 <? revitinstances)%nat then files
  else if (revitinstances =? 1)%nat
          && negb (isreloading loadedPyRevitAssemblies) then
    fold_left
      (fun files f =>
         if Py.startswith sessionidentifier f && Py.endswith "dll" f
         then if removable f then remove_file f files else files
         else files)
      files files
  else files.

(** [archivelogs]: the temporary folder and the archive folder after the
    log files were moved; [movable] tells whether [shutil.move] succeeds on
    a name. *)
Definition archivelogs (archive_exists : bool) (revitinstances : nat)
    (loadedPyRevitAssemblies : list Assembly) (movable : string -> bool)
    (files archive : list string) : list string * list string :=
  if archive_exists then
    if (1 <? revitinstances)%nat then (files, archive)
    else if (revitinstances =? 1)%nat
            && negb (isreloading loadedPyRevitAssemblies) then
      fold_left
        (fun '(files, archive) f =>
           if Py.startswith assemblyidentifier f && Py.endswith "log" f
           then if movable f
                then (remove_file f files, remove_file f archive ++ [f])
                else (files, archive)
           else (files, archive))
        files (files, archive)
    else (files, archive)
  else (files, archive).

(** ** The command loader class *)

(** The fields of the session that [find_commandloader_class] sets. *)
Record Loader := {
  commandLoaderClass : option string;
  commandLoaderAssembly : option Assembly;
  isrplfound : bool;
  isrplloggerfound : bool
}.

(** Their values when [PyRevitUISession.__init__] calls it. *)
Definition no_loader : Loader :=
  {| commandLoaderClass := None; commandLoaderAssembly := None;
     isrplfound := false; isrplloggerfound := false |}.

Section CommandLoader.

(** [loadedAssembly.GetType(name)]: the type of that name, if the assembly
    has one. *)
Variable GetType : Assembly -> string -> option string.

(** [sessionSettings.logScriptUsage] *)
Variable logScriptUsage : bool.

(** [find_commandloader_class]; the second component tells whether the
    returned value is true. *)
Definition find_commandloader_class (assemblies : list Assembly)
    (self : Loader) : Loader * bool :=
  match List.find (fun a => Py.contains "RevitPythonLoader" (asm_FullName a))
                  assemblies with
  | Some loadedAssembly =>
      let base :=
        GetType loadedAssembly "RevitPythonLoader.CommandLoaderBase" in
      let '(cls, logger) :=
        if logScriptUsage then
          match GetType loadedAssembly
                  "RevitPythonLoader.CommandLoaderBaseWithLogger" with
          | Some loaderclass => (Some loaderclass, true)
          | None => (base, false)
          end
        else (base, isrplloggerfound self) in
      ({| commandLoaderClass := cls;
          commandLoaderAssembly := Some loadedAssembly;
          isrplfound := true;
          isrplloggerfound := logger |}, true)
  | None =>
      match List.find
              (fun a => Py.contains "RevitPythonShell" (asm_FullName a))
              assemblies with
      | Some loadedAssembly =>
          ({| commandLoaderClass :=
                GetType loadedAssembly "RevitPythonShell.CommandLoaderBase";
              commandLoaderAssembly := Some loadedAssembly;
              isrplfound := false;
              isrplloggerfound := isrplloggerfound self |}, true)
      | None =>
          ({| commandLoaderClass := None;
              commandLoaderAssembly := None;
              isrplfound := isrplfound self;
              isrplloggerfound := isrplloggerfound self |}, false)
      end
  end.

(** The base constructor that [createassembly] asks the loader class for,
    by the number of its string parameters; [None] when [ci] is left at
    [None]. *)
Definition base_constructor (self : Loader) : option nat :=
  if negb logScriptUsage then Some 1%nat
  else if isrplfound self && logScriptUsage then
    if isrplloggerfound self then Some 2%nat else Some 1%nat
  else None.

(** The number of strings that the generated constructor loads before it
    calls the base constructor: the script address and, with the logger,
    the name of the log file. *)
Definition loaded_arguments (self : Loader) : nat :=
  if isrplfound self && logScriptUsage && isrplloggerfound self
  then 2%nat else 1%nat.

End CommandLoader.

(** ** Script metadata ([ScriptFileContents]) *)

Definition double_quote : string := String (ascii_of_nat 34) "".
Definition tab_char : string := String (ascii_of_nat 9) "".

Section ScriptFileContents.

(** [re.compile(pattern, flags=re.IGNORECASE).findall(line)]: the texts
    that the group of the pattern matches in the line. *)
Variable findall : string -> string -> list string.

(** The two patterns, as the source writes them. *)
Definition paramfinder_pattern (param : string) : string :=
  param +:+ "\s*=\s*['" +:+ double_quote +:+ "](.*)['" +:+ double_quote
  +:+ "]".

Definition paramfinderex_pattern : string :=
  "^\s*['" +:+ double_quote +:+ "](.*)['" +:+ double_quote +:+ "]".

(** The chain of [replace] calls on the collected text. *)
Definition unescape (paramstring : string) : string :=
  Py.replace "\t" tab_char
    (Py.replace "\n" nl
       (Py.replace ("\" +:+ double_quote) double_quote
          (Py.replace "\'" "'" paramstring))).

(** The loop of [extractparameter] in the loader script, from a line on,
    with the values of [paramstringfound] and [paramstring]. *)
Fixpoint extractparameter_loop (param : string) (filecontents : list string)
    (paramstringfound : bool) (paramstring : string) : string :=
  match filecontents with
  | [] => paramstring
  | thisline :: rest =>
      if negb paramstringfound then
        match findall (paramfinder_pattern param) thisline with
        | value :: _ => extractparameter_loop param rest true value
        | [] => extractparameter_loop param rest paramstringfound paramstring
        end
      else
        match findall paramfinderex_pattern thisline with
        | value :: _ =>
            extractparameter_loop param rest paramstringfound
              (paramstring +:+ value)
        | [] => paramstring
        end
  end.

(** [ScriptFileContents.extractparameter] of the loader script, on the
    lines of the file. *)
Definition extractparameter (filecontents : list string)
    (param : string) : string :=
  unescape (extractparameter_loop param filecontents false "").

End ScriptFileContents.

(** ** What the entries of a tab directory contribute *)

Section TabDirectory.

Variable loadedAssemblies : list Assembly.
Variable extractparameter : string -> string -> string -> string.

(** The commands that [find_scriptcommands] finds in a directory. *)
Definition found_commands (searchdir : string) (entries : list fsnode)
    (tabname : string) : list ScriptCommand :=
  pyRevitScriptCommands
    (find_scriptcommands extractparameter new_session searchdir entries
                         tabname).

(** What one iteration of the loop of [find_scriptgroups] decodes, before
    the group adopts commands. *)
Definition decode_group (searchdir : string) (entries : list fsnode)
    (tabname bundledPanelName fullfilename : string)
    : result (list ScriptGroup) :=
  let '(fname, fext) := Py.splitext (Py.basename fullfilename) in
  if negb (isdir entries fullfilename)
     && String.eqb sessionSettings.iconFileFormat (Py.lower fext)
  then
    match ScriptGroup_init loadedAssemblies searchdir fullfilename tabname
                           bundledPanelName with
    | Ok scriptgroup => Ok [scriptgroup]
    | Raise UnknownFileNameFormat => Ok []
    | Raise UnknownAssembly => Ok []
    | Raise e => Raise e
    end
  else Ok [].

Fixpoint decode_groups (decode : string -> result (list ScriptGroup))
    (files : list string) : result (list ScriptGroup) :=
  match files with
  | [] => Ok []
  | fullfilename :: rest =>
      let* found := decode fullfilename in
      let* more := decode_groups decode rest in
      Ok (found ++ more)
  end.

(** The groups that [find_scriptgroups] decodes in a directory, in the
    order of the listing. *)
Definition decoded_groups (searchdir : string) (entries : list fsnode)
    (tabname bundledPanelName : string) : result (list ScriptGroup) :=
  decode_groups (decode_group searchdir entries tabname bundledPanelName)
                (listdir entries).

(** The session after [find_scriptgroups] found the commands [cmds] and
    decoded the groups [groups0]: every group adopts from the commands
    found so far. *)
Definition with_found (self : Session) (cmds : list ScriptCommand)
    (groups0 : list ScriptGroup) : Session :=
  {| pyRevitScriptPanels := pyRevitScriptPanels self;
     pyRevitScriptGroups :=
       pyRevitScriptGroups self
       ++ map (fun g => adoptcommands g (pyRevitScriptCommands self ++ cmds)
                                      sessionSettings.masterTabName)
              groups0;
     pyRevitScriptCommands := pyRevitScriptCommands self ++ cmds;
     pyRevitScriptTabs := pyRevitScriptTabs self |}.

(** The two tests of [find_scriptpanels] on an entry. *)
Definition is_panel_bundled (entries : list fsnode) (fullfilename : string)
    : bool :=
  isdir entries fullfilename
  && negb (Py.startswith "." fullfilename || Py.startswith "_" fullfilename)
  && Py.endswith sessionSettings.panelBundlePostfix fullfilename.

Definition is_panel_defined_by_png (fullfilename : string) : bool :=
  String.eqb sessionSettings.iconFileFormat
             (Py.lower (Py.splitext (Py.basename fullfilename)).2).

(** What an entry of a tab directory gives to [find_scriptpanels]: nothing,
    an exception that ends the discovery, or a panel, and with a bundled
    panel the commands and the groups of its directory. *)
Inductive contribution : Type :=
  | NoPanel
  | Failure (e : exn)
  | Panel (scriptpanel : ScriptPanel) (cmds : list ScriptCommand)
          (groups0 : list ScriptGroup).

Definition contribution_of (tabdir : string) (entries : list fsnode)
    (tabname fullfilename : string) : contribution :=
  let bundled := is_panel_bundled entries fullfilename in
  if bundled || is_panel_defined_by_png fullfilename then
    match ScriptPanel_init tabdir fullfilename tabname bundled with
    | Ok scriptpanel =>
        if bundled then
          let fullfilepath := path_join tabdir fullfilename in
          match decoded_groups fullfilepath (subdir entries fullfilename)
                               tabname (panelName scriptpanel) with
          | Ok groups0 =>
              Panel scriptpanel
                    (found_commands fullfilepath (subdir entries fullfilename)
                                    tabname)
                    groups0
          | Raise e => Failure e
          end
        else Panel scriptpanel [] []
    | Raise UnknownFileNameFormat => NoPanel
    | Raise e => Failure e
    end
  else NoPanel.

End TabDirectory.

Definition panel_id (x : ScriptPanel) : string * string :=
  (panelName x, pnl_tabName x).

(** The end of the loop body of [find_scriptpanels]: a panel whose name
    and tab were collected before is dropped, a new one adopts the groups
    collected so far. *)
Definition collect_panel (self : Session) (scriptpanel : ScriptPanel)
    : Session :=
  if bool_decide (panel_id scriptpanel
                  ∈ map panel_id (pyRevitScriptPanels self))
  then self
  else append_panel self
         (adoptgroups scriptpanel (pyRevitScriptGroups self)).

Definition contribute (self : Session) (c : contribution) : result Session :=
  match c with
  | NoPanel => Ok self
  | Failure e => Raise e
  | Panel scriptpanel cmds groups0 =>
      Ok (collect_panel (with_found self cmds groups0) scriptpanel)
  end.

Definition contributed_commands (c : contribution) : list ScriptCommand :=
  match c with Panel _ cmds _ => cmds | _ => [] end.

Definition contributed_groups (c : contribution) : list ScriptGroup :=
  match c with Panel _ _ groups0 => groups0 | _ => [] end.

Definition contributed_panel (c : contribution) : option ScriptPanel :=
  match c with Panel p _ _ => Some p | _ => None end.

(** The entry [a] leaves the entry [b] alone: no script of [a] is named
    after a group of [b], no group descriptor of [a] names the panel of
    [b], and when both name one panel they give it the same sort order
    and the same origin. *)
Definition leaves_alone (a b : contribution) : bool :=
  forallb
    (fun cmd =>
       forallb (fun g => negb (String.eqb (scriptGroupName cmd) (groupName g)))
               (contributed_groups b))
    (contributed_commands a)
  && match contributed_panel b with
     | Some q =>
         forallb (fun g => negb (String.eqb (grp_panelName g) (panelName q)))
                 (contributed_groups a)
         && match contributed_panel a with
            | Some p =>
                negb (String.eqb (panelName p) (panelName q))
                || bool_decide (p = q)
            | None => true
            end
     | None => true
     end.

(** Every entry of the tab directory leaves every other one alone. *)
Definition independent_entries (loadedAssemblies : list Assembly)
    (extractparameter : string -> string -> string -> string)
    (tabdir : string) (entries : list fsnode) (tabname : string) : bool :=
  let c := contribution_of loadedAssemblies extractparameter tabdir entries
                           tabname in
  forallb
    (fun x =>
       forallb (fun y => String.eqb x y || leaves_alone (c x) (c y))
               (listdir entries))
    (listdir entries).

(** Two enumerations of one snapshot of a tab directory: the same entries
    in any order, the entries of every sub-directory in any order. *)
Definition same_node (e e' : fsnode) : Prop :=
  fs_name e' = fs_name e /\ fs_isdir e' = fs_isdir e
  /\ fs_entries e ≡ₚ fs_entries e'.

Definition same_snapshot (entries entries' : list fsnode) : Prop :=
  exists m, entries ≡ₚ m /\ Forall2 same_node m entries'.

(** Two panels that differ by the order of their groups at most, and two
    lists of such panels that differ by the order of the panels at most. *)
Definition same_panel (p q : ScriptPanel) : Prop :=
  panelOrder q = panelOrder p /\ panelName q = panelName p
  /\ pnl_tabName q = pnl_tabName p /\ tabDir q = tabDir p
  /\ isBundled q = isBundled p
  /\ scriptGroups p ≡ₚ scriptGroups q.

Definition same_panels (l l' : list ScriptPanel) : Prop :=
  exists m, l ≡ₚ m /\ Forall2 same_panel m l'.

(** The panels of a tab in the order of the ribbon, each with its groups
    in the order of the ribbon. *)
Definition sorted_tree (t : ScriptTab) : list ScriptPanel :=
  map (fun p => set_scriptGroups p (get_sorted_scriptgroups p))
      (get_sorted_scriptpanels t).

(** Two contributions that differ by the order of the groups at most. *)
Definition same_contribution (a a' : contribution) : Prop :=
  match a, a' with
  | NoPanel, NoPanel => True
  | Failure _, Failure _ => True
  | Panel p cmds g, Panel p' cmds' g' => p' = p /\ cmds' = cmds /\ g ≡ₚ g'
  | _, _ => False
  end.

(** The groups decoded from two enumerations of a directory: the same
    groups up to their order, or an exception in both. *)
Definition same_decoded (r r' : result (list ScriptGroup)) : Prop :=
  match r, r' with
  | Ok g, Ok g' => g ≡ₚ g'
  | Raise _, Raise _ => True
  | _, _ => False
  end.

(** *** The loop of [find_scriptpanels] over independent entries *)

Section PanelLoop.

Variable act : string -> contribution.
Variable s0 : Session.

Definition cmds_of (l : list string) : list ScriptCommand :=
  flat_map (fun x => contributed_commands (act x)) l.

Definition own_groups (x : string) : list ScriptGroup :=
  map (fun g =>
         adoptcommands g
           (pyRevitScriptCommands s0 ++ contributed_commands (act x))
           sessionSettings.masterTabName)
      (contributed_groups (act x)).

Definition groups_of (l : list string) : list ScriptGroup :=
  flat_map own_groups l.

Definition adopted_panel (x : string) : option ScriptPanel :=
  match contributed_panel (act x) with
  | Some p => Some (adoptgroups p (pyRevitScriptGroups s0 ++ own_groups x))
  | None => None
  end.

Fixpoint new_panels (seen : list (string * string)) (l : list string)
    : list ScriptPanel :=
  match l with
  | [] => []
  | x :: r =>
      match adopted_panel x with
      | Some q =>
          if bool_decide (panel_id q ∈ seen) then new_panels seen r
          else q :: new_panels (panel_id q :: seen) r
      | None => new_panels seen r
      end
  end.

Definition after_entries (l : list string) : Session :=
  {| pyRevitScriptPanels :=
       pyRevitScriptPanels s0
       ++ new_panels (map panel_id (pyRevitScriptPanels s0)) l;
     pyRevitScriptGroups := pyRevitScriptGroups s0 ++ groups_of l;
     pyRevitScriptCommands := pyRevitScriptCommands s0 ++ cmds_of l;
     pyRevitScriptTabs := pyRevitScriptTabs s0 |}.

End PanelLoop.

(** ** Sample inputs *)

(** No assembly loaded and no metadata in any script. *)
Definition no_assemblies : list Assembly := [].
Definition no_metadata (_ _ _ : string) : string := "".

(** The loader directory with its init script. *)
Definition loader_dir : list fsnode := [FsFile "__init__.py"].

(** A tab whose only descriptor has four tokens and a two-digit prefix. *)
Definition home_two_digit_prefix : list fsnode :=
  [ FsDir "X.tab"
      [ FsFile "G_Cmd.py"; FsFile "10_A_PulldownButton_G.png" ] ].

(** Two tabs that each hold a pulldown group named after the reload
    command's group. *)
Definition home_two_reload_groups : list fsnode :=
  [ FsDir "X.tab" [ FsDir "P.panel" [ FsFile "10_PulldownButton_pyRevit.png" ] ];
    FsDir "Y.tab" [ FsDir "Q.panel" [ FsFile "10_PulldownButton_pyRevit.png" ] ] ].

(** A script of the same file name in the tab directory and in its bundled
    panel. *)
Definition home_duplicate_script : list fsnode :=
  [ FsDir "X.tab"
      [ FsFile "G_C.py";
        FsDir "P.panel" [ FsFile "G_C.py"; FsFile "10_PulldownButton_G.png" ] ] ].

(** The same two descriptors of equal sort order, enumerated in the two
    possible orders. *)
Definition panel_entries_AB : list fsnode :=
  [ FsFile "10_PulldownButton_A.png"; FsFile "10_PulldownButton_B.png" ].
Definition panel_entries_BA : list fsnode :=
  [ FsFile "10_PulldownButton_B.png"; FsFile "10_PulldownButton_A.png" ].

(** Two descriptors of different sort orders. *)
Definition panel_entries_10_20 : list fsnode :=
  [ FsFile "20_PulldownButton_B.png"; FsFile "10_PulldownButton_A.png" ].
Definition panel_entries_20_10 : list fsnode :=
  [ FsFile "10_PulldownButton_A.png"; FsFile "20_PulldownButton_B.png" ].

(** The sorted children sequence of every panel of a session. *)
Definition children_sequences (r : result Session)
    : list (string * list string) :=
  match r with
  | Ok s => map (fun p => (panelName p,
                           map groupName (get_sorted_scriptgroups p)))
                (pyRevitScriptPanels s)
  | Raise _ => []
  end.

(** Two sessions that hold the same commands, panels and tabs, and the
    same groups up to their order. *)
Definition same_up_to_group_order (s s' : Session) : Prop :=
  pyRevitScriptCommands s' = pyRevitScriptCommands s
  /\ pyRevitScriptPanels s' = pyRevitScriptPanels s
  /\ pyRevitScriptTabs s' = pyRevitScriptTabs s
  /\ pyRevitScriptGroups s' ≡ₚ pyRevitScriptGroups s.

(** The bundled panel [P] of tab [X] before it adopts groups, and the
    session after the groups of its directory were found in the first of
    the two enumeration orders. *)
Definition panel_P : ScriptPanel :=
  {| panelOrder := 0; panelName := "P"; scriptGroups := [];
     pnl_tabName := "X"; tabDir := "home\X.tab"; isBundled := true |}.

Definition session_10_20 : Session :=
  match find_scriptgroups no_assemblies no_metadata new_session
          "home\X.tab\P.panel" panel_entries_10_20 "X" "P" with
  | Ok s => s
  | Raise _ => new_session
  end.

(** A home directory with one tab and one bundled panel of given entries. *)
Definition home_with_panel (panel_entries : list fsnode) : list fsnode :=
  [ FsDir "X.tab" [ FsDir "P.panel" panel_entries ] ].

(** A tab folder with one script and one icon whose name holds [.py];
    the icon is edited between the two snapshots. *)
Definition tab_snapshot (icon_mtime : Z) : Cache.mnode Z :=
  Cache.MDir "X.tab" 100
    [ Cache.MFile "G_A.py" 5; Cache.MFile "logo.py.png" icon_mtime ].

(** A package with one tab, and a cache file of that tab whose version and
    hash are those of the running session. *)
Definition cached_tab : Cache.component :=
  Cache.Comp "X" "hash-of-X" false [].

Definition cached_pkg : Cache.component :=
  Cache.Comp "pkg" "" false [cached_tab].

Definition empty_pkg : Cache.component := Cache.Comp "pkg" "" false [].

Definition mark_loaded (t : Cache.component) (_ : gmap string Cache.jval)
    : result Cache.component :=
  Ok (Cache.Comp (Cache.comp_name t) (Cache.comp_tabHash t) true
                 (Cache.comp_subs t)).

Definition valid_cache_files : gmap string Cache.cachefile :=
  {[ Cache.get_cache_file "temp" "pyRevit" cached_tab :=
       Cache.JsonObject
         (<["tabHash" := Cache.JStr "hash-of-X"]>
            {[ "cacheVersion" := Cache.JStr "4.0" ]}) ]}.

(** A panel with a [Stack3] group of two commands: what discovery finds in
    a tab [X] with the bundled panel [P]. *)
Definition home_stack_of_two : list fsnode :=
  [ FsDir "X.tab"
      [ FsDir "P.panel"
          [ FsFile "10_Stack3_S.png"; FsFile "S_A.py"; FsFile "S_B.py" ] ] ].

(** A tab with a pulldown group of two commands, a [Stack3] group of three
    and a push button. *)
Definition home_regular : list fsnode :=
  [ FsDir "X.tab"
      [ FsDir "P.panel"
          [ FsFile "10_PulldownButton_G.png"; FsFile "G_A.py";
            FsFile "G_B.py";
            FsFile "20_Stack3_S.png"; FsFile "S_1.py"; FsFile "S_2.py";
            FsFile "S_3.py";
            FsFile "30_PushButton_U.png"; FsFile "U_run.py" ] ] ].

(** The tabs that discovery finds in a home directory (none if it
    fails). *)
Definition discovered_tabs (home : list fsnode) : list ScriptTab :=
  match discover no_assemblies no_metadata "loader" loader_dir "home" home
  with
  | Ok s => pyRevitScriptTabs s
  | Raise _ => []
  end.

(** A live ribbon on which the panel [P] of tab [X] holds an item that no
    group stands for. *)
Definition ribbon_with_orphan : Ribbon :=
  {[ "X" := {[ "P" := [ new_item "Old" "" "" "" ] ]} ]}.

(** A home directory with a hidden directory, a loose file, a folder of
    tabs and two directories that extend the same tab. *)
Definition home_nested : list fsnode :=
  [ FsDir ".git" [ FsDir "Z.tab" [ FsFile "G_C.py" ] ];
    FsFile "readme.txt";
    FsDir "extensions"
      [ FsDir "X.tab" [ FsDir "P.panel" [ FsFile "10_PulldownButton_G.png";
                                          FsFile "G_A.py" ] ] ];
    FsDir "more"
      [ FsDir "X.tab" [ FsDir "P.panel" [ FsFile "G_B.py" ];
                        FsDir "Q.panel" [ FsFile "10_PushButton_H.png";
                                          FsFile "H_run.py" ] ] ] ].

(** A tab whose only panel is an empty bundle, next to a regular tab. *)
Definition home_empty_panel : list fsnode :=
  [ FsDir "E.tab" [ FsDir "P.panel" [] ];
    FsDir "X.tab" [ FsDir "P.panel" [ FsFile "10_PushButton_U.png";
                                      FsFile "U_run.py" ] ] ].

(** The state of the loop over the groups of a panel that is still
    empty. *)
Definition empty_panel_state : PanelSt :=
  {| p_items := []; p_dict := ∅; p_acc := acc0 |}.

(** A [Stack3] group of tab [X] with two commands. *)
Definition sample_command (cls : string) : ScriptCommand :=
  {| cmd_filePath := "home\X.tab\P.panel"; cmd_fileName := cls +:+ ".py";
     cmd_tooltip := ""; cmdName := cls; scriptGroupName := "S";
     className := cls; iconFileName := None; cmd_buttonIcons := None;
     cmd_tabName := "X" |}.

Definition stack_of_two : ScriptGroup :=
  {| commands := [sample_command "XSA"; sample_command "XSB"];
     sourceDir := "home\X.tab\P.panel"; sourceFile := "10_Stack3_S.png";
     sourceFileName := "10_Stack3_S"; sourceFileExt := ".png";
     groupOrder := 10; grp_panelName := "P";
     groupType := Some "Stack3"; groupName := "S";
     grp_buttonIcons := None; assemblyName := None;
     assemblyClassName := None; assemblyLocation := None;
     grp_tabName := "X" |}.

(** A tab folder with a sub-folder that carries no postfix. *)
Definition tab_with_docs : Cache.mnode Z :=
  Cache.MDir "X.tab" 100
    [ Cache.MFile "G_A.py" 5;
      Cache.MDir "docs" 1000 [ Cache.MFile "build.py" 20000 ] ].

(** The fields of a tab that [get_clean_dict] dumps, for a tab that keeps
    its hash under [tabHash]. *)
Definition dump_hash (t : Cache.component) : gmap string Cache.jval :=
  {[ "tabHash" := Cache.JStr (Cache.comp_tabHash t);
     "name" := Cache.JStr (Cache.comp_name t) ]}.

(** A stand-in for the digest, which tells the sum 21105 (the four
    modification times of [tab_with_docs]) from every other sum. *)
Definition sample_digest (mtime_sum : Z) : string :=
  if mtime_sum =? 21105 then "sum is 21105" else "another sum".

(** The console at the start of the loader, with [verbose] off. *)
Definition quiet_console : Console :=
  {| verbose := false; last_report_type := ""; stdout := "" |}.

(** The temporary folder after two earlier sessions of Revit 2016 and one
    of Revit 2015. *)
Definition temp_folder : list string :=
  [ dllname "2016" "161103120000" "jdoe";
    logfilename "2016" "161103120000" "jdoe";
    dllname "2015" "161102090000" "jdoe";
    "notes.txt" ].

(** A loaded assembly of an earlier pyRevit session. *)
Definition earlier_session_assembly : Assembly :=
  {| asm_FullName := "pyRevit2016_161103120000_jdoe, Version=1.0.0.0";
     asm_Name := "pyRevit2016_161103120000_jdoe";
     asm_Location := "temp\pyRevit2016_161103120000_jdoe.dll" |}.

(** A host with RevitPythonShell loaded before RevitPythonLoader, and the
    types of the loader assembly. *)
Definition rps_assembly : Assembly :=
  {| asm_FullName := "RevitPythonShell, Version=2016.0.0.0";
     asm_Name := "RevitPythonShell";
     asm_Location := "C:\RPS\RevitPythonShell.dll" |}.

Definition rpl_assembly : Assembly :=
  {| asm_FullName := "RevitPythonLoader, Version=1.0.0.0";
     asm_Name := "RevitPythonLoader";
     asm_Location := "C:\RPL\RevitPythonLoader.dll" |}.

Definition sample_types (a : Assembly) (name : string) : option string :=
  if Py.startswith (asm_Name a) name then Some name else None.

(** A stand-in for the two patterns on lines that hold at most one text in
    single quotes: [name = 'text'] for the first pattern, ['text'] at the
    start of the line for the second. *)
Definition between_quotes (line : string) : list string :=
  match Py.split "'" line with
  | [_; value; _] => [value]
  | _ => []
  end.

Definition sample_findall (pattern line : string) : list string :=
  if Py.startswith "^" pattern
  then if Py.startswith "'" line then between_quotes line else []
  else if Py.startswith (Py.take 7 pattern) line
       then between_quotes line else [].

(** The head of a script. *)
Definition script_lines : list string :=
  [ "# a tool";
    "__doc__ = 'Measures walls\n'";
    "'and floors.'";
    "import clr";
    "'never read'" ].


(** A tab directory with two bundled panels and a loose panel descriptor,
    in two enumerations: the entries of the directory and of both bundles
    come in another order. *)
Definition tab_entries : list fsnode :=
  [ FsDir "A.panel" [ FsFile "10_PulldownButton_G.png"; FsFile "G_a.py";
                      FsFile "20_PushButton_H.png"; FsFile "H_run.py" ];
    FsFile "0510_C_PulldownButton_K.png";
    FsFile "K_x.py";
    FsDir "B.panel" [ FsFile "10_PushButton_U.png"; FsFile "U_run.py" ] ].

Definition tab_entries_reordered : list fsnode :=
  [ FsFile "K_x.py";
    FsDir "B.panel" [ FsFile "U_run.py"; FsFile "10_PushButton_U.png" ];
    FsDir "A.panel" [ FsFile "20_PushButton_H.png"; FsFile "H_run.py";
                      FsFile "10_PulldownButton_G.png"; FsFile "G_a.py" ];
    FsFile "0510_C_PulldownButton_K.png" ].

(** What [find_scriptpanels] finds in the first enumeration. *)
Definition tab_session : Session :=
  match find_scriptpanels no_assemblies no_metadata new_session "home\X.tab"
          tab_entries "X" with
  | Ok s => s
  | Raise _ => new_session
  end.

(** A panel that a loose descriptor and a bundle both name, in the two
    enumerations. *)
Definition tab_descriptor_first : list fsnode :=
  [ FsFile "0510_P_PulldownButton_G.png";
    FsDir "P.panel" [ FsFile "20_PulldownButton_H.png" ] ].

Definition tab_bundle_first : list fsnode :=
  [ FsDir "P.panel" [ FsFile "20_PulldownButton_H.png" ];
    FsFile "0510_P_PulldownButton_G.png" ].

(** The tabs of a session in the order of the ribbon: the panels of each
    tab with their sort order and the names of their groups. *)
Definition ribbon_order (r : result Session)
    : list (string * list (string * Z * list string)) :=
  match r with
  | Ok s =>
      map (fun t =>
             (tabName t,
              map (fun p => (panelName p, panelOrder p,
                             map groupName (get_sorted_scriptgroups p)))
                  (get_sorted_scriptpanels t)))
          (pyRevitScriptTabs s)
  | Raise _ => []
  end.

(** * Properties *)

(** ** Decoders *)

Lemma is_digit_inv (c : ascii) :
  Py.is_digit c = true ->
  In c ["0"; "1"; "2"; "3"; "4"; "5"; "6"; "7"; "8"; "9"]%char.
Proof.
  destruct c as [[] [] [] [] [] [] [] []]; vm_compute; intros H;
    try discriminate H; tauto.
Qed.

Lemma digit_not_underscore (c : ascii) :
  Py.is_digit c = true -> Py.ascii_eqb c "_" = false.
Proof.
  intros H. apply is_digit_inv in H. simpl in H.
  repeat (destruct H as [<- | H]; [reflexivity |]). destruct H.
Qed.

Lemma split_digit_head (a b : ascii) (s : string) :
  Py.is_digit a = true -> Py.is_digit b = true ->
  exists w ws, Py.split "_" (String a (String b s))
               = String a (String b w) :: ws.
Proof.
  intros Ha Hb. simpl.
  rewrite (digit_not_underscore a Ha), (digit_not_underscore b Hb).
  destruct (Py.split "_" s) as [| w ws]; eauto.
Qed.

Lemma int_two_digits (a b : ascii) :
  Py.is_digit a = true -> Py.is_digit b = true ->
  exists o, Py.int (String a (String b "")) = Ok o.
Proof.
  intros Ha Hb. unfold Py.int. simpl. rewrite Ha, Hb. simpl. eauto.
Qed.

(** A loose panel descriptor whose token count is neither 4 nor 6 is
    refused. *)
Lemma ScriptPanel_init_other_counts (tabdir f tabname : string) :
  length (Py.rsplit "_" (Py.splitext (Py.basename f)).1) <> 4%nat ->
  length (Py.rsplit "_" (Py.splitext (Py.basename f)).1) <> 6%nat ->
  ScriptPanel_init tabdir f tabname false = Raise UnknownFileNameFormat.
Proof.
  intros H4 H6. unfold ScriptPanel_init.
  destruct (Py.splitext (Py.basename f)) as [fname fext]. simpl in *.
  destruct (ScriptPanel_isdescriptorfile fname fext); [| reflexivity].
  apply Nat.eqb_neq in H4, H6. rewrite H4, H6. reflexivity.
Qed.

(** A loose panel descriptor with 4 or 6 tokens is decoded. *)
Lemma ScriptPanel_init_accepts (tabdir f tabname : string) :
  ScriptPanel_isdescriptorfile (Py.splitext (Py.basename f)).1
                               (Py.splitext (Py.basename f)).2 = true ->
  length (Py.rsplit "_" (Py.splitext (Py.basename f)).1) = 4%nat
  \/ length (Py.rsplit "_" (Py.splitext (Py.basename f)).1) = 6%nat ->
  is_ok (ScriptPanel_init tabdir f tabname false) = true.
Proof.
  intros Hd Hlen. unfold ScriptPanel_init.
  destruct (Py.splitext (Py.basename f)) as [fname fext]. simpl in *.
  rewrite Hd.
  assert (Hb : ((length (Py.rsplit "_" fname) =? 4)%nat
                || (length (Py.rsplit "_" fname) =? 6)%nat) = true).
  { destruct Hlen as [-> | ->]; reflexivity. }
  rewrite Hb. clear Hb.
  unfold ScriptPanel_isdescriptorfile in Hd.
  apply andb_prop in Hd as [_ Hd].
  destruct fname as [| a [| b s]].
  - discriminate Hd.
  - simpl in Hd. rewrite andb_true_r in Hd.
    unfold Py.rsplit in Hlen. simpl in Hlen.
    rewrite (digit_not_underscore a Hd) in Hlen. simpl in Hlen.
    destruct Hlen; discriminate.
  - assert (Ha : Py.is_digit a = true /\ Py.is_digit b = true).
    { simpl in Hd. destruct s; simpl in Hd;
        repeat (apply andb_prop in Hd as [? Hd]); auto. }
    destruct Ha as [Ha Hb].
    destruct (split_digit_head a b s Ha Hb) as (w & ws & Hs).
    unfold Py.rsplit in *. rewrite Hs in *.
    destruct ws as [| name ws'].
    + simpl in Hlen. destruct Hlen; discriminate.
    + simpl. destruct (int_two_digits a b Ha Hb) as [o Ho].
      rewrite Ho. reflexivity.
Qed.

(** A script whose adjusted base name has a token count other than 2 is
    refused. *)
Lemma ScriptCommand_init_other_counts xp (siblings : list string)
    (filedir f tabname : string) :
  length (Py.rsplit "_"
            (custom_name (Py.splitext (Py.basename f)).1 tabname)) <> 2%nat ->
  ScriptCommand_init xp siblings filedir f tabname
  = Raise UnknownFileNameFormat.
Proof.
  intros H2. unfold ScriptCommand_init.
  destruct (Py.splitext (Py.basename f)) as [fname fext]. simpl in *.
  destruct (negb _ && _); [| reflexivity].
  apply Nat.eqb_neq in H2. rewrite H2. reflexivity.
Qed.

(** A script that passes the prefix and extension test and has two tokens
    is decoded into a command of that group and name. *)
Lemma ScriptCommand_init_accepts xp (siblings : list string)
    (filedir f tabname : string) :
  let fname := custom_name (Py.splitext (Py.basename f)).1 tabname in
  negb (Py.startswith "_" fname)
  && String.eqb ".py" (Py.lower (Py.splitext (Py.basename f)).2) = true ->
  length (Py.rsplit "_" fname) = 2%nat ->
  exists c, ScriptCommand_init xp siblings filedir f tabname = Ok c
            /\ Py.rsplit "_" fname = [scriptGroupName c; cmdName c].
Proof.
  intros fname Ht H2. unfold ScriptCommand_init. subst fname.
  destruct (Py.splitext (Py.basename f)) as [fname fext]. simpl in *.
  rewrite Ht, H2. simpl.
  destruct (Py.rsplit "_" (custom_name fname tabname))
    as [| g [| c [| ? ?]]]; try discriminate H2.
  eexists. split; reflexivity.
Qed.

(** A group descriptor with a numeric first token and a token count other
    than 3, 4 and 6 is not refused: the constructor returns a group without
    type and name. *)
Lemma ScriptGroup_init_five_tokens :
  exists g, ScriptGroup_init no_assemblies "dir" "10_a_b_c_d.png" "Tab" "P"
            = Ok g
            /\ length (Py.rsplit "_" "10_a_b_c_d") = 5%nat
            /\ groupType g = None /\ groupName g = "".
Proof. eexists. split; [vm_compute; reflexivity |]. auto. Qed.

(** C3, as stated, fails: the four-token name with the two-digit prefix
    [10] is not decoded into a group of sort order 10. *)
Lemma C3_counterexample :
  ~ (exists g,
       ScriptGroup_init no_assemblies "dir" "10_MyPanel_PullDown_MyGroup.png"
                        "Tab" "" = Ok g
       /\ groupOrder g = 10 /\ grp_panelName g = "MyPanel"
       /\ groupType g = Some "PullDown" /\ groupName g = "MyGroup").
Proof. intros (g & H & _). vm_compute in H. discriminate H. Qed.

(** C3 (amended): in the four-token form the first two digits of the
    numeric token are the order of the panel and the digits after them the
    sort order of the group: for every two-digit panel order [a b] the name
    [ab10_MyPanel_PullDown_MyGroup] decodes to sort order 10, panel
    [MyPanel], type [PullDown] and name [MyGroup]; the three-token name
    [10_PullDown_MyGroup] decodes to the same sort order, type and name,
    with the panel being the bundled panel the caller passes. *)
Theorem C3_group_decoding (asm : list Assembly)
    (filedir tabname bundled : string) (a b : ascii) :
  Py.is_digit a = true -> Py.is_digit b = true ->
  (exists g,
     ScriptGroup_init asm filedir
       (String a (String b "10_MyPanel_PullDown_MyGroup.png"))
       tabname bundled = Ok g
     /\ groupOrder g = 10 /\ grp_panelName g = "MyPanel"
     /\ groupType g = Some "PullDown" /\ groupName g = "MyGroup"
     /\ assemblyName g = None)
  /\ (exists g,
        ScriptGroup_init asm filedir "10_PullDown_MyGroup.png"
                         tabname bundled = Ok g
        /\ groupOrder g = 10 /\ grp_panelName g = bundled
        /\ groupType g = Some "PullDown" /\ groupName g = "MyGroup"
        /\ assemblyName g = None).
Proof.
  intros Ha Hb. split.
  - apply is_digit_inv in Ha, Hb. simpl in Ha, Hb.
    repeat (destruct Ha as [<- | Ha]; [|]); try contradiction;
      repeat (destruct Hb as [<- | Hb]; [|]); try contradiction;
      (eexists; split; [vm_compute; reflexivity | repeat split]).
  - eexists. split; [vm_compute; reflexivity | repeat split].
Qed.

Lemma C3_group_decoding_witness :
  exists g,
    ScriptGroup_init no_assemblies "dir" "0510_MyPanel_PullDown_MyGroup.png"
                     "Tab" "" = Ok g
    /\ groupOrder g = 10 /\ grp_panelName g = "MyPanel"
    /\ groupType g = Some "PullDown" /\ groupName g = "MyGroup"
    /\ assemblyName g = None.
Proof.
  exact (proj1 (C3_group_decoding no_assemblies "dir" "Tab" "" "0" "5"
                  eq_refl eq_refl)).
Defined.

(** The init script of the master tab has a base name of five tokens and
    is decoded into a command, and a loose panel descriptor of three tokens
    is refused. *)
Lemma init_script_and_three_tokens :
  (length (Py.rsplit "_" (Py.splitext (Py.basename "__init__.py")).1)
   = 5%nat
   /\ is_ok (ScriptCommand_init no_metadata [] "loader" "__init__.py"
                                "master") = true)
  /\ (length (Py.rsplit "_"
                (Py.splitext (Py.basename "100_PullDown_MyGroup.png")).1)
      = 3%nat
      /\ ScriptPanel_init "dir" "100_PullDown_MyGroup.png" "Tab" false
         = Raise UnknownFileNameFormat).
Proof. vm_compute. auto. Qed.

(** The decoder of loose panel descriptors accepts exactly the token
    counts 4 and 6, and the decoder of commands exactly 2, counted on the
    base name after the rename of the master tab's init script: every other
    token count raises [UnknownFileNameFormat], and a name of an accepted
    count that passes the descriptor test (for a command: the prefix and
    extension test) yields a descriptor. *)
Lemma panel_and_command_token_counts :
  (forall tabdir f tabname,
     length (Py.rsplit "_" (Py.splitext (Py.basename f)).1) <> 4%nat ->
     length (Py.rsplit "_" (Py.splitext (Py.basename f)).1) <> 6%nat ->
     ScriptPanel_init tabdir f tabname false = Raise UnknownFileNameFormat)
  /\ (forall tabdir f tabname,
        ScriptPanel_isdescriptorfile (Py.splitext (Py.basename f)).1
                                     (Py.splitext (Py.basename f)).2 = true ->
        length (Py.rsplit "_" (Py.splitext (Py.basename f)).1) = 4%nat
        \/ length (Py.rsplit "_" (Py.splitext (Py.basename f)).1) = 6%nat ->
        is_ok (ScriptPanel_init tabdir f tabname false) = true)
  /\ (forall xp siblings filedir f tabname,
        length (Py.rsplit "_"
                  (custom_name (Py.splitext (Py.basename f)).1 tabname))
        <> 2%nat ->
        ScriptCommand_init xp siblings filedir f tabname
        = Raise UnknownFileNameFormat)
  /\ (forall xp siblings filedir f tabname,
        negb (Py.startswith "_"
                (custom_name (Py.splitext (Py.basename f)).1 tabname))
        && String.eqb ".py" (Py.lower (Py.splitext (Py.basename f)).2)
        = true ->
        length (Py.rsplit "_"
                  (custom_name (Py.splitext (Py.basename f)).1 tabname))
        = 2%nat ->
        is_ok (ScriptCommand_init xp siblings filedir f tabname) = true).
Proof.
  split; [| split; [| split]].
  - apply ScriptPanel_init_other_counts.
  - apply ScriptPanel_init_accepts.
  - apply ScriptCommand_init_other_counts.
  - intros xp siblings filedir f tabname Ht H2.
    destruct (ScriptCommand_init_accepts xp siblings filedir f tabname Ht H2)
      as (c & -> & _). reflexivity.
Qed.

Lemma panel_and_command_token_counts_example :
  ScriptPanel_init "dir" "100_a_b_c_d.png" "Tab" false
  = Raise UnknownFileNameFormat
  /\ is_ok (ScriptPanel_init "dir" "1005_Pnl_PulldownButton_G.png" "Tab"
                             false) = true
  /\ ScriptCommand_init no_metadata [] "dir" "A_B_C.py" "Tab"
     = Raise UnknownFileNameFormat
  /\ is_ok (ScriptCommand_init no_metadata [] "dir" "MyGroup_MyCommand.py"
                               "Tab") = true.
Proof.
  destruct panel_and_command_token_counts as (H1 & H2 & H3 & H4).
  split; [| split; [| split]].
  - apply H1; vm_compute; discriminate.
  - apply H2; [reflexivity | left; reflexivity].
  - apply H3; vm_compute; discriminate.
  - apply H4; reflexivity.
Defined.

(** C4 (the code departs from the claim): the decoder of groups refuses no
    token count. A descriptor file whose first token is not a number, or
    whose token count is none of 3, 4 and 6, falls through every branch of
    [ScriptGroup.__init__], which has no [else]: the constructor returns a
    group without type, name and icon, and [find_scriptgroups] keeps it.
    The five-token name [100_a_b_c_d.png] and the one-token name [10.png]
    are such names; the decoders of panels and of commands raise
    [UnknownFileNameFormat] on names of these counts. *)
Theorem C4_group_without_type :
  (forall asm filedir f tabname bundled,
     let fname := (Py.splitext (Py.basename f)).1 in
     let fext := (Py.splitext (Py.basename f)).2 in
     ScriptGroup_isdescriptorfile fname fext = true ->
     Py.isdigit (hd "" (Py.rsplit "_" fname)) = false
     \/ (length (Py.rsplit "_" fname) <> 3%nat
         /\ length (Py.rsplit "_" fname) <> 4%nat
         /\ length (Py.rsplit "_" fname) <> 6%nat) ->
     exists g,
       ScriptGroup_init asm filedir f tabname bundled = Ok g
       /\ groupType g = None /\ groupName g = "" /\ groupOrder g = 0
       /\ grp_panelName g = bundled /\ grp_buttonIcons g = None
       /\ commands g = [])
  /\ (exists g,
        ScriptGroup_init no_assemblies "dir" "100_a_b_c_d.png" "Tab" "P"
        = Ok g
        /\ length (Py.rsplit "_" "100_a_b_c_d") = 5%nat
        /\ groupType g = None /\ groupName g = ""
        /\ exists s,
             find_scriptgroups no_assemblies no_metadata new_session "dir"
               [FsFile "100_a_b_c_d.png"] "Tab" "P" = Ok s
             /\ pyRevitScriptGroups s = [g])
  /\ (exists g,
        ScriptGroup_init no_assemblies "dir" "10.png" "Tab" "P" = Ok g
        /\ length (Py.rsplit "_" "10") = 1%nat
        /\ groupType g = None /\ groupName g = "")
  /\ ScriptPanel_init "dir" "100_a_b_c_d.png" "Tab" false
     = Raise UnknownFileNameFormat
  /\ ScriptCommand_init no_metadata [] "dir" "a_b_c_d_e.py" "Tab"
     = Raise UnknownFileNameFormat.
Proof.
  split.
  - intros asm filedir f tabname bundled fname fext Hd Hc.
    subst fname fext. unfold ScriptGroup_init.
    destruct (Py.splitext (Py.basename f)) as [fname fext].
    cbn [fst snd] in *. rewrite Hd.
    destruct (Py.rsplit "_" fname) as [| first rest] eqn:Ep.
    + eexists. split; [reflexivity |]. repeat split.
    + cbn [hd] in Hc. destruct (Py.isdigit first) eqn:Hdig.
      * destruct Hc as [Hc | (H3 & H4 & H6)]; [discriminate Hc |].
        apply Nat.eqb_neq in H3, H4, H6. rewrite H3, H4, H6.
        eexists. split; [reflexivity |]. repeat split.
      * eexists. split; [reflexivity |]. repeat split.
  - split_and!.
    + eexists. split; [vm_compute; reflexivity |].
      split_and!; try reflexivity.
      eexists. split; vm_compute; reflexivity.
    + eexists. split; [vm_compute; reflexivity |]. auto.
    + vm_compute. reflexivity.
    + vm_compute. reflexivity.
Qed.

(** ** Tree discovery *)

(** C2 (the code departs from the claim): a descriptor with four tokens and
    a two-digit prefix makes [int] raise [ValueError] in the constructor of
    the group, the loop of [find_scriptgroups] does not catch it, and the
    whole discovery ends with that exception, although the script next to
    it is well formed. [find_scriptcommands] catches every exception of its
    constructor. *)
Theorem C2_discovery_aborts :
  ScriptGroup_init no_assemblies "home\X.tab" "10_A_PulldownButton_G.png"
                   "X" "" = Raise ValueError
  /\ find_scriptgroups no_assemblies no_metadata new_session "home\X.tab"
       [FsFile "G_Cmd.py"; FsFile "10_A_PulldownButton_G.png"] "X" ""
     = Raise ValueError
  /\ discover no_assemblies no_metadata "loader" loader_dir
              "home" home_two_digit_prefix = Raise ValueError.
Proof. vm_compute. auto. Qed.

(** ** Sorting *)

Lemma ascii_compare_N (a b : ascii) :
  Ascii.compare a b = N.compare (N_of_ascii a) (N_of_ascii b).
Proof. reflexivity. Qed.

Lemma string_compare_trans_le (s1 : string) :
  forall s2 s3,
    String.compare s1 s2 <> Gt -> String.compare s2 s3 <> Gt ->
    String.compare s1 s3 <> Gt.
Proof.
  induction s1 as [| c1 s1 IH]; intros [| c2 s2] [| c3 s3]; simpl;
    try congruence.
  rewrite !ascii_compare_N.
  destruct (N.compare_spec (N_of_ascii c1) (N_of_ascii c2)) as [E12 | L12 | G12];
    destruct (N.compare_spec (N_of_ascii c2) (N_of_ascii c3)) as [E23 | L23 | G23];
    try congruence; intros H12 H23.
  - rewrite E12, E23, N.compare_refl. eauto.
  - rewrite E12. apply N.compare_lt_iff in L23. rewrite L23. discriminate.
  - rewrite <- E23. apply N.compare_lt_iff in L12. rewrite L12. discriminate.
  - assert (L13 : (N_of_ascii c1 < N_of_ascii c3)%N) by lia.
    apply N.compare_lt_iff in L13. rewrite L13. discriminate.
Qed.

Lemma string_leb_trans (s1 s2 s3 : string) :
  String.leb s1 s2 = true -> String.leb s2 s3 = true ->
  String.leb s1 s3 = true.
Proof.
  unfold String.leb. intros H12 H23.
  pose proof (string_compare_trans_le s1 s2 s3) as H.
  destruct (String.compare s1 s2), (String.compare s2 s3),
    (String.compare s1 s3); try discriminate; try reflexivity;
    exfalso; apply H; congruence.
Qed.

Section Sorted.

Context {A K : Type} (leb : K -> K -> bool) (key : A -> K).
Hypothesis leb_total : forall x y, leb x y = true \/ leb y x = true.
Hypothesis leb_trans :
  forall x y z, leb x y = true -> leb y z = true -> leb x z = true.

Definition key_le (x y : A) : Prop := leb (key x) (key y) = true.

Lemma sorted_insert_perm (x : A) (l : list A) :
  sorted_insert leb key x l ≡ₚ x :: l.
Proof.
  induction l as [| y r IH]; simpl; [reflexivity |].
  destruct (leb (key x) (key y)); [reflexivity |].
  rewrite IH. apply perm_swap.
Qed.

Lemma sorted_by_perm (l : list A) : sorted_by leb key l ≡ₚ l.
Proof.
  induction l as [| x r IH]; simpl; [reflexivity |].
  rewrite sorted_insert_perm, IH. reflexivity.
Qed.

Lemma sorted_insert_sorted (x : A) (l : list A) :
  StronglySorted key_le l -> StronglySorted key_le (sorted_insert leb key x l).
Proof.
  induction 1 as [| y r Hr IH Hy]; simpl.
  - repeat constructor.
  - destruct (leb (key x) (key y)) eqn:E.
    + constructor; [constructor; assumption |].
      constructor; [exact E |].
      eapply Forall_impl; [exact Hy |]. intros z Hz.
      unfold key_le in *. eauto.
    + constructor; [exact IH |].
      assert (Hyx : key_le y x).
      { destruct (leb_total (key x) (key y)) as [H | H];
          [congruence | exact H]. }
      rewrite sorted_insert_perm. constructor; assumption.
  Qed.

Lemma sorted_by_sorted (l : list A) : StronglySorted key_le (sorted_by leb key l).
Proof.
  induction l as [| x r IH]; simpl;
    [constructor | apply sorted_insert_sorted, IH].
Qed.

(** Two enumeration orders of the same elements sort to the same sequence
    when no two different elements tie on the key. *)
Lemma sorted_by_permutation (l l' : list A) :
  l ≡ₚ l' ->
  (forall x y, x ∈ l -> y ∈ l -> key_le x y -> key_le y x -> x = y) ->
  sorted_by leb key l = sorted_by leb key l'.
Proof.
  intros Hp Hinj.
  apply (StronglySorted_unique_strong key_le).
  - intros x y Hx Hy. apply Hinj.
    + rewrite <- (sorted_by_perm l). exact Hx.
    + rewrite Hp, <- (sorted_by_perm l'). exact Hy.
  - apply sorted_by_sorted.
  - apply sorted_by_sorted.
  - rewrite !sorted_by_perm. exact Hp.
Qed.

End Sorted.

Lemma sorted_strings_permutation (l l' : list string) :
  l ≡ₚ l' -> sorted_strings l = sorted_strings l'.
Proof.
  intros Hp. unfold sorted_strings.
  apply (sorted_by_permutation String.leb (fun s => s) String.leb_total
           string_leb_trans); [exact Hp |].
  intros x y _ _. unfold key_le. apply String.leb_antisym.
Qed.

Lemma Z_leb_total (x y : Z) : (x <=? y) = true \/ (y <=? x) = true.
Proof. lia. Qed.

Lemma Z_leb_trans (x y z : Z) :
  (x <=? y) = true -> (y <=? z) = true -> (x <=? z) = true.
Proof. lia. Qed.

Lemma sorted_by_Z_permutation {A} (key : A -> Z) (l l' : list A) :
  l ≡ₚ l' -> NoDup (map key l) ->
  sorted_by Z.leb key l = sorted_by Z.leb key l'.
Proof.
  intros Hp Hnd.
  apply (sorted_by_permutation Z.leb key Z_leb_total Z_leb_trans);
    [exact Hp |].
  intros x y Hx Hy Hxy Hyx. unfold key_le in *.
  assert (Hk : key x = key y) by lia.
  apply list_elem_of_lookup in Hx as [i Hi], Hy as [j Hj].
  assert (i = j).
  { eapply NoDup_lookup; [exact Hnd | |];
      rewrite list_lookup_fmap; [rewrite Hi | rewrite Hj]; simpl;
      [reflexivity | congruence]. }
  subst j. congruence.
Qed.

(** ** Adoption *)

Lemma mem_In (x : string) (l : list string) : Py.mem x l = true <-> In x l.
Proof.
  unfold Py.mem. rewrite existsb_exists. split.
  - intros (y & Hy & E). apply String.eqb_eq in E. congruence.
  - intros H. exists x. split; [exact H | apply String.eqb_refl].
Qed.

Lemma filter_nil {A} (P : A -> bool) (l : list A) :
  (forall x, In x l -> P x = false) -> List.filter P l = [].
Proof.
  induction l as [| x r IH]; simpl; intros H; [reflexivity |].
  rewrite (H x) by auto. apply IH. auto.
Qed.

Lemma filter_permutation {A} (P : A -> bool) (l l' : list A) :
  l ≡ₚ l' -> List.filter P l ≡ₚ List.filter P l'.
Proof.
  induction 1 as [| x l l' _ IH | x y l | l l' l'' _ IH1 _ IH2]; simpl.
  - reflexivity.
  - destruct (P x); [constructor |]; exact IH.
  - destruct (P x), (P y); try reflexivity. apply perm_swap.
  - etransitivity; eassumption.
Qed.

Lemma adoptcommands_fold (self : ScriptGroup) (m : string)
    (A0 : list string) (cs cur : list ScriptCommand) :
  fold_left
    (fun self cmd =>
       if adoptcommands_test self m A0 cmd
       then set_commands self (commands self ++ [cmd]) else self)
    cs (set_commands self cur)
  = set_commands self (cur ++ List.filter (adoptcommands_test self m A0) cs).
Proof.
  revert cur. induction cs as [| c r IH]; intros cur; simpl.
  - rewrite app_nil_r. reflexivity.
  - change (adoptcommands_test (set_commands self cur) m A0 c)
      with (adoptcommands_test self m A0 c).
    destruct (adoptcommands_test self m A0 c).
    + change (set_commands (set_commands self cur) (cur ++ [c]))
        with (set_commands self (cur ++ [c])).
      rewrite IH, <- app_assoc. reflexivity.
    + apply IH.
Qed.

(** [adoptcommands] appends, in the order of the candidates, those that
    pass the test against the names adopted before the call. *)
Lemma adoptcommands_eq (self : ScriptGroup) (cs : list ScriptCommand)
    (m : string) :
  adoptcommands self cs m
  = set_commands self
      (commands self
       ++ List.filter
            (adoptcommands_test self m (map cmd_fileName (commands self)))
            cs).
Proof.
  unfold adoptcommands. rewrite <- adoptcommands_fold.
  destruct self; reflexivity.
Qed.

Lemma adoptgroups_fold (self : ScriptPanel) (A0 : list string)
    (gs cur : list ScriptGroup) :
  fold_left
    (fun self group =>
       if adoptgroups_test self A0 group
       then set_scriptGroups self (scriptGroups self ++ [group]) else self)
    gs (set_scriptGroups self cur)
  = set_scriptGroups self (cur ++ List.filter (adoptgroups_test self A0) gs).
Proof.
  revert cur. induction gs as [| g r IH]; intros cur; simpl.
  - rewrite app_nil_r. reflexivity.
  - change (adoptgroups_test (set_scriptGroups self cur) A0 g)
      with (adoptgroups_test self A0 g).
    destruct (adoptgroups_test self A0 g).
    + change (set_scriptGroups (set_scriptGroups self cur) (cur ++ [g]))
        with (set_scriptGroups self (cur ++ [g])).
      rewrite IH, <- app_assoc. reflexivity.
    + apply IH.
Qed.

Lemma adoptgroups_eq (self : ScriptPanel) (gs : list ScriptGroup) :
  adoptgroups self gs
  = set_scriptGroups self
      (scriptGroups self
       ++ List.filter
            (adoptgroups_test self (map groupName (scriptGroups self))) gs).
Proof.
  unfold adoptgroups. rewrite <- adoptgroups_fold.
  destruct self; reflexivity.
Qed.

Lemma adopt_panels_fold (self : ScriptTab) (A0 : list string)
    (ps cur : list ScriptPanel) :
  fold_left
    (fun self panel =>
       if adopt_panels_test self A0 panel
       then set_scriptPanels self (scriptPanels self ++ [panel]) else self)
    ps (set_scriptPanels self cur)
  = set_scriptPanels self (cur ++ List.filter (adopt_panels_test self A0) ps).
Proof.
  revert cur. induction ps as [| q r IH]; intros cur; simpl.
  - rewrite app_nil_r. reflexivity.
  - change (adopt_panels_test (set_scriptPanels self cur) A0 q)
      with (adopt_panels_test self A0 q).
    destruct (adopt_panels_test self A0 q).
    + change (set_scriptPanels (set_scriptPanels self cur) (cur ++ [q]))
        with (set_scriptPanels self (cur ++ [q])).
      rewrite IH, <- app_assoc. reflexivity.
    + apply IH.
Qed.

Lemma adopt_panels_eq (self : ScriptTab) (ps : list ScriptPanel) :
  adopt_panels self ps
  = set_scriptPanels self
      (scriptPanels self
       ++ List.filter
            (adopt_panels_test self (map panelName (scriptPanels self))) ps).
Proof.
  unfold adopt_panels. rewrite <- adopt_panels_fold.
  destruct self; reflexivity.
Qed.

(** A second adoption run over candidates that were already offered adopts
    nothing: a candidate that passes the test was adopted by the first run,
    so its name is among the adopted names of the second. *)
Lemma readopt_nothing {X} (name : X -> string) (matches : X -> bool)
    (old : list X) (cs : list X) (c : X) :
  In c cs ->
  matches c
  && negb (Py.mem (name c)
             (map name
                (old ++ List.filter
                          (fun c => matches c
                                    && negb (Py.mem (name c) (map name old)))
                          cs)))
  = false.
Proof.
  intros Hc.
  destruct (matches c) eqn:Em; [| reflexivity]. simpl.
  apply negb_false_iff, mem_In.
  rewrite map_app. apply in_or_app.
  destruct (Py.mem (name c) (map name old)) eqn:E0.
  - left. apply mem_In, E0.
  - right. apply in_map. apply List.filter_In. split; [exact Hc |].
    simpl. rewrite Em, E0. reflexivity.
Qed.

Lemma adoptcommands_idempotent (self : ScriptGroup)
    (cs : list ScriptCommand) (m : string) :
  adoptcommands (adoptcommands self cs m) cs m = adoptcommands self cs m.
Proof.
  rewrite (adoptcommands_eq self). rewrite adoptcommands_eq. simpl.
  match goal with
  | |- set_commands _ (_ ++ List.filter ?P ?l) = _ =>
      rewrite (filter_nil P l); [rewrite app_nil_r; reflexivity |]
  end.
  intros c Hc.
  exact (readopt_nothing cmd_fileName
           (fun c => String.eqb (scriptGroupName c) (groupName self)
                     && (String.eqb (cmd_tabName c) (grp_tabName self)
                         || String.eqb (cmd_tabName c) m))
           (commands self) cs c Hc).
Qed.

Lemma adoptgroups_idempotent (self : ScriptPanel) (gs : list ScriptGroup) :
  adoptgroups (adoptgroups self gs) gs = adoptgroups self gs.
Proof.
  rewrite (adoptgroups_eq self). rewrite adoptgroups_eq. simpl.
  match goal with
  | |- set_scriptGroups _ (_ ++ List.filter ?P ?l) = _ =>
      rewrite (filter_nil P l); [rewrite app_nil_r; reflexivity |]
  end.
  intros g Hg.
  exact (readopt_nothing groupName
           (fun g => String.eqb (grp_panelName g) (panelName self)
                     && String.eqb (grp_tabName g) (pnl_tabName self))
           (scriptGroups self) gs g Hg).
Qed.

Lemma adopt_panels_idempotent (self : ScriptTab) (ps : list ScriptPanel) :
  adopt_panels (adopt_panels self ps) ps = adopt_panels self ps.
Proof.
  rewrite (adopt_panels_eq self). rewrite adopt_panels_eq. simpl.
  match goal with
  | |- set_scriptPanels _ (_ ++ List.filter ?P ?l) = _ =>
      rewrite (filter_nil P l); [rewrite app_nil_r; reflexivity |]
  end.
  intros q Hq.
  exact (readopt_nothing panelName
           (fun q => String.eqb (pnl_tabName q) (tabName self))
           (scriptPanels self) ps q Hq).
Qed.

(** What a call of [adoptcommands] adopts: the candidates that name the
    group and its tab (or the master tab) and whose file name the group had
    not adopted before the call. *)
Lemma adoptcommands_spec (self : ScriptGroup) (cs : list ScriptCommand)
    (m : string) (c : ScriptCommand) :
  In c (commands (adoptcommands self cs m))
  <-> In c (commands self)
      \/ (In c cs
          /\ scriptGroupName c = groupName self
          /\ (cmd_tabName c = grp_tabName self \/ cmd_tabName c = m)
          /\ ~ In (cmd_fileName c) (map cmd_fileName (commands self))).
Proof.
  rewrite adoptcommands_eq. simpl. rewrite in_app_iff, List.filter_In.
  unfold adoptcommands_test.
  rewrite !andb_true_iff, orb_true_iff, negb_true_iff, !String.eqb_eq.
  rewrite <- not_true_iff_false, mem_In. tauto.
Qed.

Lemma adoptgroups_spec (self : ScriptPanel) (gs : list ScriptGroup)
    (g : ScriptGroup) :
  In g (scriptGroups (adoptgroups self gs))
  <-> In g (scriptGroups self)
      \/ (In g gs
          /\ grp_panelName g = panelName self
          /\ grp_tabName g = pnl_tabName self
          /\ ~ In (groupName g) (map groupName (scriptGroups self))).
Proof.
  rewrite adoptgroups_eq. simpl. rewrite in_app_iff, List.filter_In.
  unfold adoptgroups_test.
  rewrite !andb_true_iff, negb_true_iff, !String.eqb_eq.
  rewrite <- not_true_iff_false, mem_In. tauto.
Qed.

Lemma adopt_panels_spec (self : ScriptTab) (ps : list ScriptPanel)
    (q : ScriptPanel) :
  In q (scriptPanels (adopt_panels self ps))
  <-> In q (scriptPanels self)
      \/ (In q ps
          /\ pnl_tabName q = tabName self
          /\ ~ In (panelName q) (map panelName (scriptPanels self))).
Proof.
  rewrite adopt_panels_eq. simpl. rewrite in_app_iff, List.filter_In.
  unfold adopt_panels_test.
  rewrite !andb_true_iff, negb_true_iff, !String.eqb_eq.
  rewrite <- not_true_iff_false, mem_In. tauto.
Qed.

(** A tab keeps every panel name once when the candidates it is offered
    are unique by panel and tab name, which is what [find_scriptpanels]
    guarantees for [pyRevitScriptPanels]. *)
Lemma adopt_panels_NoDup (self : ScriptTab) (ps : list ScriptPanel) :
  NoDup (map panelName (scriptPanels self)) ->
  NoDup (map (fun q => (panelName q, pnl_tabName q)) ps) ->
  NoDup (map panelName (scriptPanels (adopt_panels self ps))).
Proof.
  intros Hold Hps. rewrite adopt_panels_eq. simpl.
  rewrite map_app. apply NoDup_app. split; [exact Hold | split].
  - intros n Hn Hn'. apply list_elem_of_In, in_map_iff in Hn'
      as (q & <- & Hq).
    apply List.filter_In in Hq as [_ Hq]. unfold adopt_panels_test in Hq.
    apply andb_prop in Hq as [_ Hq]. apply negb_true_iff in Hq.
    apply list_elem_of_In, mem_In in Hn. congruence.
  - induction ps as [| q r IH]; simpl; [constructor |].
    apply NoDup_cons in Hps as [Hq Hr].
    destruct (adopt_panels_test self _ q) eqn:E; [| auto].
    simpl. apply NoDup_cons. split; [| auto].
    intros Hin. apply Hq.
    apply list_elem_of_In, in_map_iff in Hin as (q' & En & Hq').
    apply List.filter_In in Hq' as [Hq' E'].
    apply list_elem_of_In, in_map_iff. exists q'. split; [| exact Hq'].
    unfold adopt_panels_test in E, E'.
    apply andb_prop in E as [E _], E' as [E' _].
    apply String.eqb_eq in E, E'. congruence.
Qed.

(** Within one call the names adopted so far are not looked at again: two
    candidates of the same file name are both adopted. *)
Lemma adoptcommands_duplicates :
  exists s g c1 c2,
    discover no_assemblies no_metadata "loader" loader_dir
             "home" home_duplicate_script = Ok s
    /\ pyRevitScriptGroups s = [g]
    /\ commands g = [c1; c2]
    /\ cmd_fileName c1 = cmd_fileName c2
    /\ className c1 = className c2.
Proof.
  do 4 eexists. split; [vm_compute; reflexivity |]. repeat split.
Qed.

(** C7, as stated, fails: the reload command of the master tab is adopted by
    the group of its name in each of two tabs, neither of which is the tab
    of the command. *)
Lemma C7_counterexample :
  exists s g1 g2 c,
    discover no_assemblies no_metadata "loader" loader_dir
             "home" home_two_reload_groups = Ok s
    /\ pyRevitScriptGroups s = [g1; g2]
    /\ grp_tabName g1 = "X" /\ grp_tabName g2 = "Y"
    /\ In c (commands g1) /\ In c (commands g2)
    /\ cmd_tabName c = "master".
Proof.
  do 4 eexists. split; [vm_compute; reflexivity |].
  repeat split; simpl; auto.
Qed.

(** C7 (amended): adoption is idempotent per parent. A call adopts exactly
    the candidates that name the parent and its tab (for a command: the tab
    of the group or the master tab) and whose name the parent had not
    adopted before the call; offering the same candidates again adopts
    nothing more; and a tab that is offered panels unique by panel and tab
    name keeps every panel name once, however often directories of the same
    tab contribute. *)
Theorem C7_adoption :
  (forall g cs m, adoptcommands (adoptcommands g cs m) cs m
                  = adoptcommands g cs m)
  /\ (forall p gs, adoptgroups (adoptgroups p gs) gs = adoptgroups p gs)
  /\ (forall t ps, adopt_panels (adopt_panels t ps) ps = adopt_panels t ps)
  /\ (forall g cs m c,
        In c (commands (adoptcommands g cs m))
        <-> In c (commands g)
            \/ (In c cs
                /\ scriptGroupName c = groupName g
                /\ (cmd_tabName c = grp_tabName g \/ cmd_tabName c = m)
                /\ ~ In (cmd_fileName c) (map cmd_fileName (commands g))))
  /\ (forall p gs g,
        In g (scriptGroups (adoptgroups p gs))
        <-> In g (scriptGroups p)
            \/ (In g gs
                /\ grp_panelName g = panelName p
                /\ grp_tabName g = pnl_tabName p
                /\ ~ In (groupName g) (map groupName (scriptGroups p))))
  /\ (forall t ps q,
        In q (scriptPanels (adopt_panels t ps))
        <-> In q (scriptPanels t)
            \/ (In q ps
                /\ pnl_tabName q = tabName t
                /\ ~ In (panelName q) (map panelName (scriptPanels t))))
  /\ (forall t ps ps',
        NoDup (map panelName (scriptPanels t)) ->
        NoDup (map (fun q => (panelName q, pnl_tabName q)) (ps ++ ps')) ->
        NoDup (map panelName
                 (scriptPanels
                    (adopt_panels (adopt_panels t ps) (ps ++ ps'))))).
Proof.
  repeat split.
  - apply adoptcommands_idempotent.
  - apply adoptgroups_idempotent.
  - apply adopt_panels_idempotent.
  - apply adoptcommands_spec.
  - apply adoptcommands_spec.
  - apply adoptgroups_spec.
  - apply adoptgroups_spec.
  - apply adopt_panels_spec.
  - apply adopt_panels_spec.
  - intros t ps ps' Ht Hps.
    apply adopt_panels_NoDup; [| exact Hps].
    apply adopt_panels_NoDup; [exact Ht |].
    rewrite map_app in Hps. apply NoDup_app in Hps. tauto.
Qed.

Lemma C7_adoption_witness :
  NoDup (map panelName
           (scriptPanels
              (adopt_panels
                 (adopt_panels (ScriptTab_init "X.tab" "home\X.tab")
                    [ {| panelOrder := 0; panelName := "P";
                         scriptGroups := []; pnl_tabName := "X";
                         tabDir := "home\X.tab"; isBundled := true |} ])
                 ([ {| panelOrder := 0; panelName := "P";
                       scriptGroups := []; pnl_tabName := "X";
                       tabDir := "home\X.tab"; isBundled := true |} ]
                  ++ [ {| panelOrder := 5; panelName := "Q";
                          scriptGroups := []; pnl_tabName := "X";
                          tabDir := "other\X.tab"; isBundled := true |} ])))).
Proof.
  apply (proj2 (proj2 (proj2 (proj2 (proj2 (proj2 C7_adoption)))))).
  - vm_compute. constructor.
  - refine (bool_decide_unpack _ _). vm_compute. exact I.
Defined.

(** ** Independence of the enumeration order inside a directory *)

Lemma existsb_permutation {A} (f : A -> bool) (l l' : list A) :
  l ≡ₚ l' -> existsb f l = existsb f l'.
Proof.
  induction 1 as [| x l l' _ IH | x y l | l l' l'' _ IH1 _ IH2]; simpl.
  - reflexivity.
  - rewrite IH. reflexivity.
  - destruct (f x), (f y); reflexivity.
  - congruence.
Qed.

Lemma isdir_permutation (entries entries' : list fsnode) (n : string) :
  entries ≡ₚ entries' -> isdir entries n = isdir entries' n.
Proof. apply existsb_permutation. Qed.

Lemma listdir_permutation (entries entries' : list fsnode) :
  entries ≡ₚ entries' -> listdir entries ≡ₚ listdir entries'.
Proof. intros H. unfold listdir. rewrite H. reflexivity. Qed.

Lemma ScriptCommand_init_siblings xp (siblings siblings' : list string)
    (filedir f tabname : string) :
  siblings ≡ₚ siblings' ->
  ScriptCommand_init xp siblings filedir f tabname
  = ScriptCommand_init xp siblings' filedir f tabname.
Proof.
  intros Hp. unfold ScriptCommand_init, Py.mem.
  destruct (Py.splitext (Py.basename f)) as [fname fext].
  rewrite (existsb_permutation _ _ _ Hp). reflexivity.
Qed.

Lemma fold_left_ext {S A} (f g : S -> A -> S) (l : list A) (s : S) :
  (forall s x, f s x = g s x) -> fold_left f l s = fold_left g l s.
Proof.
  intros H. revert s. induction l as [| x r IH]; intros s; simpl;
    [reflexivity |]. rewrite H. apply IH.
Qed.

Lemma for_each_ext {S A} (f g : S -> A -> result S) (l : list A) (s : S) :
  (forall s x, f s x = g s x) -> for_each f l s = for_each g l s.
Proof.
  intros H. revert s. induction l as [| x r IH]; intros s; simpl;
    [reflexivity |]. rewrite H. destruct (g s x); simpl; auto.
Qed.

(** The commands found in a directory do not depend on the order in which
    the directory is enumerated: the listing is sorted first. *)
Lemma find_scriptcommands_permutation xp (self : Session)
    (searchdir : string) (entries entries' : list fsnode)
    (tabname : string) :
  entries ≡ₚ entries' ->
  find_scriptcommands xp self searchdir entries tabname
  = find_scriptcommands xp self searchdir entries' tabname.
Proof.
  intros Hp. unfold find_scriptcommands.
  rewrite (sorted_strings_permutation _ _ (listdir_permutation _ _ Hp)).
  apply fold_left_ext. intros s x. unfold find_scriptcommands_step.
  destruct (Py.splitext (Py.basename x)) as [fname fext].
  rewrite (isdir_permutation _ _ x Hp).
  rewrite (ScriptCommand_init_siblings xp _ _ searchdir x tabname
             (listdir_permutation _ _ Hp)).
  reflexivity.
Qed.

(** What one iteration of [find_scriptgroups] does is fixed by the commands
    found so far: it skips the entry, appends one group, or raises. *)
Lemma find_scriptgroups_step_shape asm (searchdir : string)
    (entries : list fsnode) (tabname bundledPanelName : string)
    (cmds : list ScriptCommand) (x : string) :
  (forall s, pyRevitScriptCommands s = cmds ->
             find_scriptgroups_step asm searchdir entries tabname
                                    bundledPanelName s x = Ok s)
  \/ (exists g, forall s, pyRevitScriptCommands s = cmds ->
        find_scriptgroups_step asm searchdir entries tabname
                               bundledPanelName s x
        = Ok (append_group s g))
  \/ (exists e, forall s, pyRevitScriptCommands s = cmds ->
        find_scriptgroups_step asm searchdir entries tabname
                               bundledPanelName s x = Raise e).
Proof.
  unfold find_scriptgroups_step.
  destruct (Py.splitext (Py.basename x)) as [fname fext].
  destruct (negb (isdir entries x) && _); [| left; reflexivity].
  destruct (ScriptGroup_init asm searchdir x tabname bundledPanelName)
    as [g | e].
  - right. left. exists (adoptcommands g cmds sessionSettings.masterTabName).
    intros s ->. reflexivity.
  - destruct e; try (left; reflexivity);
      right; right; eexists; reflexivity.
Qed.

Lemma same_up_to_group_order_refl (s : Session) :
  same_up_to_group_order s s.
Proof. repeat split; reflexivity. Qed.

Lemma same_up_to_group_order_trans (s1 s2 s3 : Session) :
  same_up_to_group_order s1 s2 -> same_up_to_group_order s2 s3 ->
  same_up_to_group_order s1 s3.
Proof.
  intros (Hc & Hp & Ht & Hg) (Hc' & Hp' & Ht' & Hg').
  repeat split; try congruence. rewrite Hg', Hg. reflexivity.
Qed.

Lemma same_up_to_group_order_append (s s' : Session) (g : ScriptGroup) :
  same_up_to_group_order s s' ->
  same_up_to_group_order (append_group s g) (append_group s' g).
Proof.
  intros (Hc & Hp & Ht & Hg). repeat split; simpl; auto.
  rewrite Hg. reflexivity.
Qed.

Section GroupLoop.

Variable asm : list Assembly.
Variables searchdir tabname bundledPanelName : string.
Variable entries : list fsnode.

Let step := find_scriptgroups_step asm searchdir entries tabname
                                   bundledPanelName.

Lemma step_commands (s a : Session) (x : string) :
  step s x = Ok a -> pyRevitScriptCommands a = pyRevitScriptCommands s.
Proof.
  intros H.
  destruct (find_scriptgroups_step_shape asm searchdir entries tabname
              bundledPanelName (pyRevitScriptCommands s) x)
    as [Hx | [(g & Hx) | (e & Hx)]];
    unfold step in H; rewrite (Hx s eq_refl) in H; try discriminate H;
    injection H as <-; reflexivity.
Qed.

Lemma step_related (s s' a : Session) (x : string) :
  same_up_to_group_order s s' -> step s x = Ok a ->
  exists a', step s' x = Ok a' /\ same_up_to_group_order a a'.
Proof.
  intros HR H.
  destruct (find_scriptgroups_step_shape asm searchdir entries tabname
              bundledPanelName (pyRevitScriptCommands s) x)
    as [Hx | [(g & Hx) | (e & Hx)]];
    unfold step in *; rewrite (Hx s eq_refl) in H; try discriminate H;
    injection H as <-;
    rewrite (Hx s' (proj1 HR)); eauto using same_up_to_group_order_append.
Qed.

Lemma step_swap (s a b : Session) (x y : string) :
  step s x = Ok a -> step a y = Ok b ->
  exists a' b', step s y = Ok a' /\ step a' x = Ok b'
                /\ same_up_to_group_order b b'.
Proof.
  intros Hx Hy.
  pose proof (step_commands _ _ _ Hx) as Hca.
  unfold step in *.
  destruct (find_scriptgroups_step_shape asm searchdir entries tabname
              bundledPanelName (pyRevitScriptCommands s) x)
    as [Sx | [(gx & Sx) | (e & Sx)]];
    rewrite (Sx s eq_refl) in Hx; try discriminate Hx;
    injection Hx as <-;
    destruct (find_scriptgroups_step_shape asm searchdir entries tabname
                bundledPanelName (pyRevitScriptCommands s) y)
      as [Sy | [(gy & Sy) | (e' & Sy)]];
    rewrite (Sy _ Hca) in Hy; try discriminate Hy;
    injection Hy as <-;
    rewrite (Sy s eq_refl); do 2 eexists;
    (split; [reflexivity |]);
    (split; [rewrite Sx; reflexivity |]);
    try apply same_up_to_group_order_refl.
  repeat split; simpl. rewrite <- !app_assoc. simpl.
  apply Permutation_app_head, perm_swap.
Qed.

Lemma loop_related (l : list string) :
  forall s s' s1,
    same_up_to_group_order s s' -> for_each step l s = Ok s1 ->
    exists s2, for_each step l s' = Ok s2 /\ same_up_to_group_order s1 s2.
Proof.
  induction l as [| x r IH]; intros s s' s1 HR H; simpl in *.
  - inversion H; subst. eauto.
  - destruct (step s x) as [a |] eqn:Ex; [| discriminate H]. simpl in H.
    destruct (step_related s s' a x HR Ex) as (a' & -> & HR'). simpl.
    eauto.
Qed.

Lemma loop_permutation (l l' : list string) :
  l ≡ₚ l' ->
  forall s s' s1,
    same_up_to_group_order s s' -> for_each step l s = Ok s1 ->
    exists s2, for_each step l' s' = Ok s2 /\ same_up_to_group_order s1 s2.
Proof.
  induction 1 as [| x l l' _ IH | x y l | l l' l'' _ IH1 _ IH2];
    intros s s' s1 HR H.
  - apply (loop_related [] s s' s1 HR H).
  - simpl in *.
    destruct (step s x) as [a |] eqn:Ex; [| discriminate H]. simpl in H.
    destruct (step_related s s' a x HR Ex) as (a' & -> & HR'). simpl.
    eauto.
  - simpl in H.
    destruct (step s y) as [a |] eqn:Ey; [| discriminate H]. simpl in H.
    destruct (step a x) as [b |] eqn:Ex; [| discriminate H]. simpl in H.
    destruct (step_swap s a b y x Ey Ex) as (a1 & b1 & Ex1 & Ey1 & HRb).
    destruct (step_related s s' a1 x HR Ex1) as (a2 & Ex2 & HRa).
    destruct (step_related a1 a2 b1 y HRa Ey1) as (b2 & Ey2 & HRb2).
    simpl. rewrite Ex2. simpl. rewrite Ey2. simpl.
    apply (loop_related l b b2 s1); [| exact H].
    eapply same_up_to_group_order_trans; eassumption.
  - destruct (IH1 s s s1 (same_up_to_group_order_refl s) H)
      as (sm & Hm & HRm).
    destruct (IH2 s s' sm HR Hm) as (s2 & H2 & HR2).
    exists s2. split; [exact H2 |].
    eapply same_up_to_group_order_trans; eassumption.
Qed.

End GroupLoop.

(** The groups of one directory. For any two enumeration orders of the
    same entries,
    [find_scriptgroups] succeeds on both or on none, finds the same
    commands in the same sequence and the same groups up to order, and a
    panel that adopts them has the same sorted group sequence (each group
    with its sort order, name and command sequence) whenever the adopted
    groups have pairwise distinct sort orders; likewise the sorted panels
    of a tab are the same for panels of pairwise distinct sort orders. *)
Lemma find_scriptgroups_listing_order asm xp (self : Session)
    (searchdir tabname bundledPanelName : string)
    (entries entries' : list fsnode) (panel : ScriptPanel)
    (s1 : Session) :
  entries ≡ₚ entries' ->
  find_scriptgroups asm xp self searchdir entries tabname bundledPanelName
  = Ok s1 ->
  (exists s2,
     find_scriptgroups asm xp self searchdir entries' tabname
                       bundledPanelName = Ok s2
     /\ pyRevitScriptCommands s2 = pyRevitScriptCommands s1
     /\ pyRevitScriptGroups s2 ≡ₚ pyRevitScriptGroups s1
     /\ (NoDup (map groupOrder
                  (scriptGroups
                     (adoptgroups panel (pyRevitScriptGroups s1)))) ->
         get_sorted_scriptgroups (adoptgroups panel (pyRevitScriptGroups s2))
         = get_sorted_scriptgroups
             (adoptgroups panel (pyRevitScriptGroups s1))))
  /\ (forall t t' : ScriptTab,
        scriptPanels t ≡ₚ scriptPanels t' ->
        NoDup (map panelOrder (scriptPanels t)) ->
        get_sorted_scriptpanels t = get_sorted_scriptpanels t').
Proof.
  intros Hp H1. split.
  - unfold find_scriptgroups in *.
    rewrite <- (find_scriptcommands_permutation xp self searchdir entries
                  entries' tabname Hp).
    rewrite (for_each_ext
               (find_scriptgroups_step asm searchdir entries' tabname
                                       bundledPanelName)
               (find_scriptgroups_step asm searchdir entries tabname
                                       bundledPanelName)).
    2:{ intros s x. unfold find_scriptgroups_step.
        rewrite (isdir_permutation _ _ x Hp). reflexivity. }
    destruct (loop_permutation asm searchdir tabname bundledPanelName entries
                (listdir entries) (listdir entries')
                (listdir_permutation _ _ Hp) _ _ s1
                (same_up_to_group_order_refl _) H1)
      as (s2 & H2 & Hc & _ & _ & Hg).
    exists s2. repeat split; auto.
    intros Hnd. unfold get_sorted_scriptgroups. symmetry.
    apply sorted_by_Z_permutation; [| exact Hnd].
    rewrite !adoptgroups_eq. simpl.
    apply Permutation_app_head, filter_permutation. symmetry. exact Hg.
  - intros t t' Hpt Hnd. unfold get_sorted_scriptpanels.
    apply sorted_by_Z_permutation; assumption.
Qed.

Lemma find_scriptgroups_listing_order_example :
  exists s2,
    find_scriptgroups no_assemblies no_metadata new_session
      "home\X.tab\P.panel" panel_entries_20_10 "X" "P" = Ok s2
    /\ pyRevitScriptCommands s2 = pyRevitScriptCommands session_10_20
    /\ pyRevitScriptGroups s2 ≡ₚ pyRevitScriptGroups session_10_20
    /\ (NoDup (map groupOrder
                 (scriptGroups
                    (adoptgroups panel_P
                       (pyRevitScriptGroups session_10_20)))) ->
        get_sorted_scriptgroups
          (adoptgroups panel_P (pyRevitScriptGroups s2))
        = get_sorted_scriptgroups
            (adoptgroups panel_P (pyRevitScriptGroups session_10_20))).
Proof.
  refine (proj1 (find_scriptgroups_listing_order no_assemblies no_metadata
                   new_session
                   "home\X.tab\P.panel" "X" "P" panel_entries_10_20
                   panel_entries_20_10 panel_P session_10_20 _ _)).
  - apply perm_swap.
  - vm_compute. reflexivity.
Defined.

(** ** The content-hash cache *)

Section FingerprintFacts.

Context {T : Type} (add : T -> T -> T).

Lemma add_files_touch (g : string -> T -> T) (es : list (Cache.mnode T))
    (acc : T) :
  Cache.add_files T add (map (Cache.touch_unmatched g) es) acc
  = Cache.add_files T add es acc.
Proof.
  unfold Cache.add_files. revert acc.
  induction es as [| e r IH]; intros acc; simpl; [reflexivity |].
  rewrite <- IH. f_equal.
  destruct e as [n t | n t sub]; simpl; [| reflexivity].
  destruct (Cache.patfile_search n); reflexivity.
Qed.

(** Editing files whose name the file pattern does not match leaves the sum
    of modification times as it was. *)
Lemma walk_touch_unmatched (g : string -> T -> T) :
  forall (e : Cache.mnode T) (root : string) (acc : T),
    Cache.walk T add root (Cache.touch_unmatched g e) acc
    = Cache.walk T add root e acc.
Proof.
  fix IH 1. intros [n t | n t es] root acc; [reflexivity |].
  assert (HF : Forall (fun e => forall root acc,
                         Cache.walk T add root (Cache.touch_unmatched g e) acc
                         = Cache.walk T add root e acc) es).
  { refine ((fix IHl (l : list (Cache.mnode T)) : Forall _ l :=
               match l with
               | [] => Forall_nil_2 _
               | e :: r => Forall_cons_2 _ _ _ (IH e) (IHl r)
               end) es). }
  clear IH. simpl. rewrite add_files_touch.
  generalize (if Cache.pat_search root
              then Cache.add_files T add es (add acc t) else acc).
  induction HF as [| e r He _ IHr]; intros a; simpl; [reflexivity |].
  destruct e as [n' t' | n' t' sub]; simpl.
  - apply IHr.
  - rewrite <- IHr. f_equal. apply (He (path_join root n') a).
Qed.

Lemma calculate_hash_touch_unmatched (zero : T) (md5_str : T -> string)
    (g : string -> T -> T) (tabFolder : string) (tab : Cache.mnode T) :
  Cache.calculate_hash T zero add md5_str tabFolder
                       (Cache.touch_unmatched g tab)
  = Cache.calculate_hash T zero add md5_str tabFolder tab.
Proof. unfold Cache.calculate_hash. rewrite walk_touch_unmatched. reflexivity. Qed.

End FingerprintFacts.

(** C6 (the code departs from the claim): the file pattern is searched
    anywhere in the name, so the icon [logo.py.png] is summed: editing it
    alone moves the sum from 112 to 114 and the fingerprint from the digest
    of the one to the digest of the other. *)
Theorem C6_icon_in_fingerprint (md5_str : Z -> string) :
  Cache.patfile_search "logo.py.png" = true
  /\ Cache.calculate_hash Z 0 Z.add md5_str "home\X.tab" (tab_snapshot 7)
     = md5_str 112
  /\ Cache.calculate_hash Z 0 Z.add md5_str "home\X.tab" (tab_snapshot 9)
     = md5_str 114.
Proof. repeat split. Qed.

Lemma is_cache_valid_iff (cached_pkg : Cache.component) :
  Cache.is_cache_valid cached_pkg = true
  <-> Cache.comp_subs cached_pkg = [].
Proof.
  unfold Cache.is_cache_valid.
  destruct (Cache.comp_subs cached_pkg); simpl; split; congruence.
Qed.

(** C10: [is_cached_tab_valid] returns [None] for every tab, so
    [is_cache_valid] is false for every package with at least one tab and
    true only for a package without tabs; for a package with a tab [load]
    never calls [get_cached_package]: it parses the package, calls
    [update_cache] on the parsed package, which writes the cache file of a
    package that was not loaded from cache, and builds the assembly. *)
Theorem C10_cache_never_valid
    (USER_TEMP_DIR PYREVIT_ASSEMBLY_NAME full_version_as_str : string)
    (get_clean_dict : Cache.component -> gmap string Cache.jval)
    (writable : string -> bool)
    (get_parsed_package : Cache.component -> Cache.component)
    (files : gmap string Cache.cachefile) (pkg_info : Cache.component) :
  Cache.comp_subs pkg_info <> [] ->
  let package := get_parsed_package pkg_info in
  let cache_file :=
    Cache.get_cache_file USER_TEMP_DIR PYREVIT_ASSEMBLY_NAME package in
  let events :=
    [ Cache.EvGetParsedPackage pkg_info; Cache.EvUpdateCache package;
      Cache.EvCreateAssembly (Some package) ] in
  (forall tab, Cache.is_cached_tab_valid tab = Cache.PyNone)
  /\ Cache.is_cache_valid pkg_info = false
  /\ (forall p, Cache.is_cache_valid p = true <-> Cache.comp_subs p = [])
  /\ Cache.load_package USER_TEMP_DIR PYREVIT_ASSEMBLY_NAME
       full_version_as_str get_clean_dict writable get_parsed_package
       files pkg_info
     = bind (Cache.update_cache USER_TEMP_DIR PYREVIT_ASSEMBLY_NAME
               full_version_as_str get_clean_dict writable files package)
            (fun files' => Ok (files', events))
  /\ (Cache.comp_loaded_from_cache package = false ->
      writable cache_file = true ->
      Cache.load_package USER_TEMP_DIR PYREVIT_ASSEMBLY_NAME
        full_version_as_str get_clean_dict writable get_parsed_package
        files pkg_info
      = Ok (<[cache_file :=
                Cache.serialize full_version_as_str get_clean_dict package]>
              files, events)).
Proof.
  intros Hsubs package cache_file events.
  assert (Hv : Cache.is_cache_valid pkg_info = false).
  { apply not_true_is_false. rewrite is_cache_valid_iff. exact Hsubs. }
  split; [reflexivity |]. split; [exact Hv |].
  split; [apply is_cache_valid_iff |].
  unfold Cache.load_package. rewrite Hv. split; [reflexivity |].
  intros Hl Hw. unfold Cache.update_cache, Cache.write_cache_for.
  fold package. rewrite Hl. simpl. fold cache_file. rewrite Hw. reflexivity.
Qed.

Lemma C10_cache_never_valid_witness :
  Cache.is_cache_valid cached_pkg = false
  /\ Cache.load_package "temp" "pyRevit" "4.0" (fun _ => ∅) (fun _ => true)
       (fun p => p) valid_cache_files cached_pkg
     = Ok (<[Cache.get_cache_file "temp" "pyRevit" cached_pkg :=
               Cache.serialize "4.0" (fun _ => ∅) cached_pkg]>
             valid_cache_files,
           [ Cache.EvGetParsedPackage cached_pkg;
             Cache.EvUpdateCache cached_pkg;
             Cache.EvCreateAssembly (Some cached_pkg) ]).
Proof.
  pose proof (C10_cache_never_valid "temp" "pyRevit" "4.0" (fun _ => ∅)
                (fun _ => true) (fun p => p) valid_cache_files cached_pkg)
    as H.
  destruct H as (_ & Hv & _ & _ & Hw); [discriminate |].
  split; [exact Hv |]. apply Hw; reflexivity.
Defined.

(** C5 (the code departs from the claim): the cache file of the only tab of
    the package holds the running version and the tab's current hash, and
    [get_cached_tab] would load it; [load] never asks: [is_cache_valid] is
    false, the package is parsed in full and its cache rewritten. Without a
    cache file [get_cached_tab] raises the read error, with another hash
    the cache error; [load] has no handler for either. *)
Theorem C5_valid_snapshot_unused :
  Cache.get_cached_tab "temp" "pyRevit" "4.0" mark_loaded valid_cache_files
                       cached_tab
  = Ok (Cache.Comp "X" "hash-of-X" true [])
  /\ Cache.is_cache_valid cached_pkg = false
  /\ (exists files',
        Cache.load "temp" "pyRevit" "4.0" (fun _ => ∅) (fun _ => true)
                   (fun p => p) valid_cache_files [cached_pkg]
        = Ok (files',
              [ Cache.EvGetParsedPackage cached_pkg;
                Cache.EvUpdateCache cached_pkg;
                Cache.EvCreateAssembly (Some cached_pkg) ]))
  /\ Cache.get_cached_tab "temp" "pyRevit" "4.0" mark_loaded ∅ cached_tab
     = Raise PyRevitCacheReadError
  /\ Cache.get_cached_tab "temp" "pyRevit" "4.0" mark_loaded
       valid_cache_files (Cache.Comp "X" "another-hash" false [])
     = Raise PyRevitCacheError.
Proof.
  split; [vm_compute; reflexivity |]. split; [reflexivity |].
  split; [eexists; vm_compute; reflexivity |].
  split; vm_compute; reflexivity.
Qed.

(** ** Reconciliation *)

Lemma hascommands_count (t : ScriptTab) :
  hascommands t = false <-> tab_command_count t = 0%nat.
Proof.
  unfold hascommands, tab_command_count.
  induction (scriptPanels t) as [| p ps IH]; simpl; [tauto |].
  rewrite orb_false_iff, IH. clear IH.
  assert (Hp : existsb (fun g => (0 <? length (commands g))%nat)
                       (scriptGroups p) = false
               <-> foldr (fun g m => (length (commands g) + m)%nat) 0%nat
                         (scriptGroups p) = 0%nat).
  { induction (scriptGroups p) as [| g gs IHg]; simpl; [tauto |].
    rewrite orb_false_iff, IHg, Nat.ltb_ge. lia. }
  rewrite Hp. lia.
Qed.

Lemma sorted_by_nil {A K} (leb : K -> K -> bool) (key : A -> K)
    (l : list A) :
  sorted_by leb key l = [] <-> l = [].
Proof.
  split; [| intros ->; reflexivity].
  intros H. apply Permutation_nil. rewrite <- H.
  apply sorted_by_perm.
Qed.

(** Discovery builds every tab with empty [pyRevitUIPanels] and
    [pyRevitUIButtons], and adoption keeps them. *)
Lemma adopt_panels_keeps_ui_dicts (tname tfolder : string)
    (ps : list ScriptPanel) :
  pyRevitUIPanels (adopt_panels (ScriptTab_init tname tfolder) ps) = ∅
  /\ pyRevitUIButtons (adopt_panels (ScriptTab_init tname tfolder) ps) = ∅.
Proof. rewrite adopt_panels_eq. split; reflexivity. Qed.

(** For a tab whose subtree holds no command, as discovery built it,
    [create_or_find_pyrevit_panels] skips the tab, and the loop of
    [createui] over its panels ends at once on an empty panel list and
    otherwise stops with a [KeyError] at the first panel, before any
    operation. *)
Lemma tab_without_commands (newAssemblyLocation : string) (ui : UI)
    (scriptTab : ScriptTab) :
  tab_command_count scriptTab = 0%nat ->
  pyRevitUIPanels scriptTab = ∅ ->
  hascommands scriptTab = false
  /\ create_or_find_tab ui scriptTab
     = ({| f_tab := scriptTab; f_ui := ui |}, None)
  /\ createui_tab newAssemblyLocation ui scriptTab
     = (ui, match scriptPanels scriptTab with
            | [] => None
            | _ :: _ => Some KeyError
            end).
Proof.
  intros Hcount Hdict.
  assert (Hc : hascommands scriptTab = false) by (apply hascommands_count, Hcount).
  split; [exact Hc |]. split.
  - unfold create_or_find_tab. rewrite Hc. reflexivity.
  - unfold createui_tab.
    destruct (get_sorted_scriptpanels scriptTab) as [| p ps] eqn:E.
    + apply sorted_by_nil in E. rewrite E. reflexivity.
    + assert (Hne : scriptPanels scriptTab <> []).
      { intros H. apply (sorted_by_nil Z.leb panelOrder) in H.
        unfold get_sorted_scriptpanels in E. congruence. }
      simpl. unfold createui_panel. rewrite Hdict, lookup_empty.
      destruct (scriptPanels scriptTab); [contradiction | reflexivity].
Qed.

Lemma tab_without_commands_example :
  hascommands (ScriptTab_init "Empty.tab" "home\Empty.tab") = false
  /\ create_or_find_tab {| ribbon := ∅; ui_acc := acc0 |}
       (ScriptTab_init "Empty.tab" "home\Empty.tab")
     = ({| f_tab := ScriptTab_init "Empty.tab" "home\Empty.tab";
           f_ui := {| ribbon := ∅; ui_acc := acc0 |} |}, None)
  /\ createui_tab "assembly" {| ribbon := ∅; ui_acc := acc0 |}
       (ScriptTab_init "Empty.tab" "home\Empty.tab")
     = ({| ribbon := ∅; ui_acc := acc0 |}, None).
Proof.
  apply (tab_without_commands "assembly" {| ribbon := ∅; ui_acc := acc0 |}
           (ScriptTab_init "Empty.tab" "home\Empty.tab"));
    reflexivity.
Defined.

(** ** A tab with a panel and no command *)




(** *** Counters and log *)

Lemma acc_step_refl (P : uiop -> bool) (a : Acc) : acc_step P 0 0 a a.
Proof.
  repeat split; try lia. exists []. rewrite app_nil_r. auto.
Qed.

Lemma acc_step_trans (P : uiop -> bool) (dn du dn' du' : nat)
    (a a' a'' : Acc) :
  acc_step P dn du a a' -> acc_step P dn' du' a' a'' ->
  acc_step P (dn + dn') (du + du') a a''.
Proof.
  intros (Hn & Hu & l & Hl & HP) (Hn' & Hu' & l' & Hl' & HP').
  repeat split; try lia. exists (l ++ l'). split.
  - rewrite Hl', Hl, app_assoc. reflexivity.
  - rewrite forallb_app, HP, HP'. reflexivity.
Qed.

Lemma acc_step_emit (P : uiop -> bool) (o : uiop) (a : Acc) :
  P o = true -> acc_step P 0 0 a (emit o a).
Proof.
  intros HP. repeat split; simpl; try lia. exists [o]. simpl.
  rewrite HP. auto.
Qed.

Lemma acc_step_count_new (P : uiop -> bool) (a : Acc) :
  acc_step P 1 0 a (count_new a).
Proof.
  repeat split; simpl; try lia. exists []. rewrite app_nil_r. auto.
Qed.

Lemma acc_step_count_updated (P : uiop -> bool) (a : Acc) :
  acc_step P 0 1 a (count_updated a).
Proof.
  repeat split; simpl; try lia. exists []. rewrite app_nil_r. auto.
Qed.

Lemma acc_step_new (P : uiop -> bool) (o : uiop) (a : Acc) :
  P o = true -> acc_step P 1 0 a (count_new (emit o a)).
Proof.
  intros HP.
  apply (acc_step_trans P 0 0 1 0 a (emit o a));
    [apply acc_step_emit, HP | apply acc_step_count_new].
Qed.

Lemma acc_step_updated (P : uiop -> bool) (o : uiop) (a : Acc) :
  P o = true -> acc_step P 0 1 a (count_updated (emit o a)).
Proof.
  intros HP.
  apply (acc_step_trans P 0 0 0 1 a (emit o a));
    [apply acc_step_emit, HP | apply acc_step_count_updated].
Qed.

Lemma acc_step_eq (P : uiop -> bool) (dn du dn' du' : nat) (a a' : Acc) :
  dn = dn' -> du = du' -> acc_step P dn du a a' -> acc_step P dn' du' a a'.
Proof. intros -> ->. auto. Qed.

(** *** Dictionaries built from lists *)

Lemma mem_false_iff (x : string) (l : list string) :
  Py.mem x l = false <-> ~ In x l.
Proof. rewrite <- mem_In. destruct (Py.mem x l); split; congruence. Qed.

Lemma dict_of_fold_dom {X} (key handle : X -> string) (l : list X)
    (d : gmap string string) :
  dom (fold_left (fun d b => <[key b := handle b]> d) l d)
  = dom d ∪ list_to_set (map key l).
Proof.
  revert d. induction l as [| b r IH]; intros d; simpl.
  - set_solver.
  - rewrite IH, dom_insert_L. set_solver.
Qed.

Lemma dict_of_dom {X} (key handle : X -> string) (l : list X) :
  dom (dict_of key handle l) = list_to_set (map key l).
Proof. unfold dict_of. rewrite dict_of_fold_dom. set_solver. Qed.

Lemma dict_id_fold_lookup (l : list string) (d : gmap string string)
    (k h : string) :
  (forall k h, d !! k = Some h -> h = k) ->
  fold_left (fun d b => <[b := b]> d) l d !! k = Some h -> h = k.
Proof.
  revert d. induction l as [| b r IH]; intros d Hd; simpl; [apply Hd |].
  apply IH. intros k' h'. rewrite lookup_insert.
  case_decide; [congruence | apply Hd].
Qed.

(** The dictionary of a list of names maps every name of the list to
    itself. *)
Lemma dict_id_lookup (l : list string) (k : string) :
  In k l -> dict_of (fun b => b) (fun b => b) l !! k = Some k.
Proof.
  intros Hk.
  assert (Hd : k ∈ dom (dict_of (fun b : string => b) (fun b => b) l)).
  { rewrite dict_of_dom, map_id. apply elem_of_list_to_set, list_elem_of_In, Hk. }
  apply elem_of_dom in Hd as [h Hh]. rewrite Hh. f_equal.
  apply (dict_id_fold_lookup l ∅ k h); [| exact Hh].
  intros k' h'. rewrite lookup_empty. discriminate.
Qed.

Lemma lookup_foldr_delete (ks : list string) (d : gmap string string)
    (k : string) :
  ~ In k ks -> foldr delete d ks !! k = d !! k.
Proof.
  induction ks as [| x r IH]; simpl; intros Hk; [reflexivity |].
  rewrite lookup_delete_ne by tauto. apply IH. tauto.
Qed.

Lemma dom_foldr_delete (ks : list string) (d : gmap string string) :
  dom (foldr delete d ks) = dom d ∖ list_to_set ks.
Proof.
  induction ks as [| x r IH]; simpl; [set_solver |].
  rewrite dom_delete_L, IH. set_solver.
Qed.

(** *** The items of a live panel *)

Lemma update_ri_names (h : string) (f : RibbonItem -> RibbonItem)
    (l : list RibbonItem) :
  (forall b, ri_Name (f b) = ri_Name b) ->
  map ri_Name (update_ri h f l) = map ri_Name l.
Proof.
  intros Hf. unfold update_ri. rewrite map_map. apply map_ext.
  intros b. destruct (String.eqb (ri_Name b) h); auto.
Qed.

Lemma update_ri_not_in (h : string) (f : RibbonItem -> RibbonItem)
    (l : list RibbonItem) :
  ~ In h (map ri_Name l) -> update_ri h f l = l.
Proof.
  induction l as [| b r IH]; simpl; intros Hh; [reflexivity |].
  destruct (String.eqb_spec (ri_Name b) h) as [E | _]; [tauto |].
  f_equal. apply IH. tauto.
Qed.

Lemma buttons_of_update_ne (k h : string) (f : RibbonItem -> RibbonItem)
    (l : list RibbonItem) :
  k <> h -> (forall b, ri_Name (f b) = ri_Name b) ->
  buttons_of k (update_ri h f l) = buttons_of k l.
Proof.
  intros Hk Hf. unfold buttons_of.
  induction l as [| b r IH]; simpl; [reflexivity |].
  destruct (String.eqb_spec (ri_Name b) h) as [E | N].
  - rewrite Hf.
    destruct (String.eqb_spec (ri_Name b) k) as [E' | _]; [congruence |].
    exact IH.
  - destruct (String.eqb (ri_Name b) k); [reflexivity | exact IH].
Qed.

Lemma buttons_of_update_items (h : string) (bs : list PushButton)
    (l : list RibbonItem) :
  In h (map ri_Name l) ->
  buttons_of h (update_ri h (set_ri_Items bs) l) = bs.
Proof.
  unfold buttons_of.
  induction l as [| b r IH]; simpl; intros Hh; [contradiction |].
  destruct (String.eqb_spec (ri_Name b) h) as [E | N]; simpl.
  - rewrite E, String.eqb_refl. reflexivity.
  - apply String.eqb_neq in N. rewrite N. apply IH.
    destruct Hh as [Hh | Hh]; [| exact Hh].
    apply String.eqb_neq in N. contradiction.
Qed.

Lemma buttons_of_app_l (k : string) (l l' : list RibbonItem) :
  In k (map ri_Name l) -> buttons_of k (l ++ l') = buttons_of k l.
Proof.
  unfold buttons_of.
  induction l as [| b r IH]; simpl; intros Hk; [contradiction |].
  destruct (String.eqb_spec (ri_Name b) k) as [E | N]; [reflexivity |].
  apply IH. destruct Hk; [contradiction | assumption].
Qed.

Lemma buttons_of_app_r (k : string) (l l' : list RibbonItem) :
  ~ In k (map ri_Name l) -> buttons_of k (l ++ l') = buttons_of k l'.
Proof.
  unfold buttons_of.
  induction l as [| b r IH]; simpl; intros Hk; [reflexivity |].
  destruct (String.eqb_spec (ri_Name b) k) as [E | N]; [tauto |].
  apply IH. tauto.
Qed.

(** *** The buttons of a pulldown or split group *)

(** First pass: no button of the group exists, every command gets one. *)
Lemma subbuttons_first (asm : string) (ph : PanelHandle) (item : string)
    (cmds : list ScriptCommand) :
  forall st,
    (forall c, In c cmds -> s_existing st !! className c = None) ->
    NoDup (map pb_Name (s_buttons st) ++ map className cmds) ->
    exists st',
      loop_st (createui_subbutton asm ph item) cmds st = (st', None)
      /\ s_buttons st'
         = s_buttons st
           ++ map (fun c => new_pushbutton (className c) asm (className c)
                                           (cmd_tooltip c)) cmds
      /\ s_existing st' = s_existing st
      /\ acc_step is_create (length cmds) 0 (s_acc st) (s_acc st').
Proof.
  induction cmds as [| c r IH]; intros st Hex Hnd; simpl.
  - exists st. rewrite app_nil_r. auto using acc_step_refl.
  - unfold createui_subbutton at 1. rewrite (Hex c) by (left; reflexivity).
    unfold AddPushButton. simpl.
    assert (Hfree : Py.mem (className c) (map pb_Name (s_buttons st)) = false).
    { apply mem_false_iff. intros Hin.
      apply NoDup_app in Hnd as (_ & Hdis & _).
      apply (Hdis (className c)); [apply list_elem_of_In, Hin | left]. }
    rewrite Hfree.
    edestruct IH as (st' & Hrun & Hb & He & Ha); cycle 2.
    + exists st'. rewrite Hrun. split; [reflexivity |].
      simpl in Hb, He, Ha. rewrite Hb, He, <- app_assoc.
      split; [reflexivity | split; [reflexivity |]].
      apply (acc_step_eq is_create (1 + length r) (0 + 0)); [lia | lia |].
      eapply acc_step_trans; [| exact Ha].
      apply acc_step_new. reflexivity.
    + simpl. intros c' Hc'. apply Hex. right. exact Hc'.
    + simpl. rewrite map_app. simpl. rewrite <- app_assoc. exact Hnd.
Qed.

(** Second pass: every command finds its button, none is left over. *)
Lemma subbuttons_second (asm : string) (ph : PanelHandle) (item : string)
    (cmds : list ScriptCommand) :
  forall st,
    NoDup (map className cmds) ->
    (forall c, In c cmds -> is_Some (s_existing st !! className c)) ->
    exists st',
      loop_st (createui_subbutton asm ph item) cmds st = (st', None)
      /\ s_existing st' = foldr delete (s_existing st) (map className cmds)
      /\ acc_step is_update 0 (length cmds) (s_acc st) (s_acc st').
Proof.
  induction cmds as [| c r IH]; intros st Hnd Hex; simpl.
  - exists st. auto using acc_step_refl.
  - unfold createui_subbutton at 1.
    destruct (Hex c (or_introl eq_refl)) as [h Hh]. rewrite Hh.
    apply NoDup_cons in Hnd as [Hc Hr].
    edestruct IH as (st' & Hrun & He & Ha); cycle 2.
    + exists st'. rewrite Hrun. split; [reflexivity |].
      simpl in He, Ha. split.
      * rewrite He. clear. induction (map className r) as [| x xs IHx];
          simpl; [reflexivity |].
        rewrite IHx. apply delete_delete.
      * apply (acc_step_eq is_update (0 + 0) (1 + length r)); [lia | lia |].
        eapply acc_step_trans; [| exact Ha].
        apply acc_step_updated. reflexivity.
    + exact Hr.
    + simpl. intros c' Hc'. rewrite lookup_delete_ne.
      * apply Hex. right. exact Hc'.
      * intros E. apply Hc. rewrite E.
        apply list_elem_of_In, in_map, Hc'.
Qed.

Lemma disable_orphaned_buttons_none (ph : PanelHandle) (item : string)
    (st : SubSt) :
  s_existing st = ∅ -> disable_orphaned_buttons ph item st = st.
Proof.
  intros H. unfold disable_orphaned_buttons.
  rewrite H, map_to_list_empty. reflexivity.
Qed.

Lemma buttons_of_update_fields (k h : string) (cls asm tip : option string)
    (en : option bool) (l : list RibbonItem) :
  buttons_of k (update_ri h (set_ri_fields cls asm tip en) l)
  = buttons_of k l.
Proof.
  unfold buttons_of.
  induction l as [| b r IH]; simpl; [reflexivity |].
  destruct (String.eqb (ri_Name b) h); simpl;
    destruct (String.eqb (ri_Name b) k); auto.
Qed.

Lemma set_ri_fields_name (cls asm tip : option string) (en : option bool)
    (b : RibbonItem) :
  ri_Name (set_ri_fields cls asm tip en b) = ri_Name b.
Proof. reflexivity. Qed.

Lemma set_ri_Items_name (bs : list PushButton) (b : RibbonItem) :
  ri_Name (set_ri_Items bs b) = ri_Name b.
Proof. reflexivity. Qed.

(** *** The branches of [createui] *)

Lemma createui_group_branch (asm : string) (ph : PanelHandle) (st : PanelSt)
    (g : ScriptGroup) :
  createui_group asm ph st g
  = match branch_of g with
    | BButtonGroup => createui_buttongroup asm ph st g
    | BStack => createui_stack asm ph st g
    | BSingle => createui_single asm ph st g
    | BLink => createui_link ph st g
    | BNone => (st, None)
    end.
Proof.
  unfold createui_group, branch_of.
  destruct (type_is g sessionSettings.pulldownButtonTypeName
            || (type_is g sessionSettings.splitButtonTypeName
                || type_is g sessionSettings.splitPushButtonTypeName));
    [reflexivity |].
  destruct (type_is g sessionSettings.stackedThreeTypeName); [reflexivity |].
  destruct (type_is g sessionSettings.pushButtonTypeName
            && negb (islinkbutton g)); [reflexivity |].
  destruct (type_is g sessionSettings.smartButtonTypeName
            && negb (islinkbutton g)); [reflexivity |].
  destruct (type_is g sessionSettings.linkButtonTypeName
            && islinkbutton g); reflexivity.
Qed.

Lemma AddItem_fresh (b : RibbonItem) (l : list RibbonItem) :
  ~ In (ri_Name b) (map ri_Name l) -> AddItem b l = Ok (l ++ [b]).
Proof.
  intros H. unfold AddItem. apply mem_false_iff in H. rewrite H. reflexivity.
Qed.

Lemma NoDup_app_fresh (l : list string) (k : string) :
  NoDup (l ++ [k]) -> ~ In k l.
Proof.
  intros H Hin. apply NoDup_app in H as (_ & Hdis & _).
  apply (Hdis k); [apply list_elem_of_In, Hin | left].
Qed.

(** The loop of the [Stack3] branch when no command has an item yet. *)
Lemma stack_fold_first (asm : string) (ph : PanelHandle)
    (cmds : list ScriptCommand) :
  forall k,
    (forall c, In c cmds -> p_dict (k_panel k) !! className c = None) ->
    exists k',
      fold_left (createui_stackbutton asm ph) cmds k = k'
      /\ p_items (k_panel k') = p_items (k_panel k)
      /\ p_dict (k_panel k') = p_dict (k_panel k)
      /\ stackcommands k'
         = stackcommands k
           ++ map (fun c => new_item (className c) asm (className c)
                                     (cmd_tooltip c)) cmds
      /\ acc_step is_create (length cmds) 0
           (p_acc (k_panel k)) (p_acc (k_panel k')).
Proof.
  induction cmds as [| c r IH]; intros k Hex; simpl.
  - exists k. rewrite app_nil_r. auto 6 using acc_step_refl.
  - unfold createui_stackbutton at 2.
    rewrite (Hex c) by (left; reflexivity).
    edestruct IH as (k' & Hrun & Hi & Hd & Hs & Ha); cycle 1.
    + exists k'. split; [exact Hrun |]. simpl in *.
      rewrite Hi, Hd, Hs, <- app_assoc.
      split; [reflexivity | split; [reflexivity | split; [reflexivity |]]].
      apply (acc_step_eq is_create (1 + length r) (0 + 0)); [lia | lia |].
      eapply acc_step_trans; [apply acc_step_count_new | exact Ha].
    + simpl. intros c' Hc'. apply Hex. right. exact Hc'.
Qed.

(** The loop of the [Stack3] branch when every command finds its item. *)
Lemma stack_fold_second (asm : string) (ph : PanelHandle)
    (cmds : list ScriptCommand) :
  forall k,
    NoDup (map className cmds) ->
    (forall c, In c cmds ->
               p_dict (k_panel k) !! className c = Some (className c)) ->
    exists k',
      fold_left (createui_stackbutton asm ph) cmds k = k'
      /\ map ri_Name (p_items (k_panel k')) = map ri_Name (p_items (k_panel k))
      /\ (forall x, buttons_of x (p_items (k_panel k'))
                    = buttons_of x (p_items (k_panel k)))
      /\ p_dict (k_panel k')
         = foldr delete (p_dict (k_panel k)) (map className cmds)
      /\ stackcommands k' = stackcommands k
      /\ acc_step is_update 0 (length cmds)
           (p_acc (k_panel k)) (p_acc (k_panel k')).
Proof.
  induction cmds as [| c r IH]; intros k Hnd Hex; simpl.
  - exists k. auto 7 using acc_step_refl.
  - unfold createui_stackbutton at 2.
    rewrite (Hex c) by (left; reflexivity).
    apply NoDup_cons in Hnd as [Hc Hr].
    edestruct IH as (k' & Hrun & Hn & Hb & Hd & Hs & Ha); cycle 2.
    + exists k'. split; [exact Hrun |]. simpl in *.
      rewrite Hn, Hd, Hs, update_ri_names by apply set_ri_fields_name.
      split; [reflexivity |]. split.
      { intros x. rewrite Hb. apply buttons_of_update_fields. }
      split.
      { clear. induction (map className r) as [| x xs IHx];
          simpl; [reflexivity |].
        rewrite IHx. apply delete_delete. }
      split; [reflexivity |].
      apply (acc_step_eq is_update (0 + 0) (1 + length r)); [lia | lia |].
      eapply acc_step_trans; [| exact Ha].
      apply acc_step_updated. reflexivity.
    + exact Hr.
    + simpl. intros c' Hc'. rewrite lookup_delete_ne.
      * apply Hex. right. exact Hc'.
      * intros E. apply Hc. rewrite E.
        apply list_elem_of_In, in_map, Hc'.
Qed.

(** First pass over one group: nothing of it exists in the panel. *)
Lemma group_first (asm : string) (ph : PanelHandle) (g : ScriptGroup)
    (st : PanelSt) :
  p_dict st = ∅ -> wf_group g = true ->
  NoDup (map ri_Name (p_items st) ++ group_keys g) ->
  exists st',
    createui_group asm ph st g = (st', None)
    /\ p_dict st' = ∅
    /\ map ri_Name (p_items st') = map ri_Name (p_items st) ++ group_keys g
    /\ acc_step is_create (group_buttons g) 0 (p_acc st) (p_acc st')
    /\ (forall k, In k (map ri_Name (p_items st)) ->
                  buttons_of k (p_items st') = buttons_of k (p_items st))
    /\ (branch_of g = BButtonGroup ->
        map pb_ClassName (buttons_of (groupName g) (p_items st'))
        = map className (commands g)).
Proof.
  intros Hd Hwf Hnd. rewrite createui_group_branch.
  unfold group_keys, group_buttons, wf_group in *.
  destruct (branch_of g) eqn:B.
  - (* pulldown and split groups *)
    pose proof (NoDup_app_fresh _ _ Hnd) as Hfresh.
    unfold createui_buttongroup. rewrite Hd, lookup_empty.
    rewrite AddItem_fresh by exact Hfresh. cbn [p_items p_dict p_acc].
    rewrite buttons_of_app_r by exact Hfresh.
    assert (Hb0 : buttons_of (groupName g) [new_item (groupName g) "" "" ""]
                  = []).
    { unfold buttons_of. simpl. rewrite String.eqb_refl. reflexivity. }
    rewrite Hb0.
    apply bool_decide_eq_true in Hwf.
    destruct (subbuttons_first asm ph (groupName g) (commands g)
                {| s_buttons := [];
                   s_existing := dict_of pb_ClassName pb_Name [];
                   s_acc := emit (OpAddItem ph (groupName g)) (p_acc st) |})
      as (sub & Hrun & Hb & He & Ha).
    { intros c _. apply lookup_empty. }
    { exact Hwf. }
    rewrite Hrun. cbn [s_buttons s_existing s_acc] in *.
    rewrite disable_orphaned_buttons_none by exact He.
    eexists. split; [reflexivity |]. cbn [p_items p_dict p_acc].
    assert (Hin : In (groupName g)
                     (map ri_Name (p_items st
                                   ++ [new_item (groupName g) "" "" ""]))).
    { rewrite map_app. apply in_or_app. right. left. reflexivity. }
    split; [reflexivity |]. split.
    { rewrite update_ri_names by apply set_ri_Items_name.
      rewrite map_app. reflexivity. }
    split.
    { apply (acc_step_eq is_create (0 + length (commands g)) (0 + 0));
        [lia | lia |].
      eapply acc_step_trans; [| exact Ha].
      apply acc_step_emit. reflexivity. }
    split.
    { intros k Hk.
      rewrite buttons_of_update_ne;
        [apply buttons_of_app_l, Hk | congruence | apply set_ri_Items_name]. }
    intros _. rewrite buttons_of_update_items by exact Hin.
    rewrite Hb. simpl. rewrite map_map. reflexivity.
  - (* Stack3 *)
    apply Nat.eqb_eq in Hwf.
    unfold createui_stack.
    destruct (stack_fold_first asm ph (commands g)
                {| k_panel := st; stackcommands := [] |})
      as (k' & Hrun & Hi & Hdk & Hs & Ha).
    { intros c _. simpl. rewrite Hd. apply lookup_empty. }
    rewrite Hrun. cbn [k_panel stackcommands] in *.
    rewrite Hs. simpl app. rewrite length_map, Hwf. simpl Nat.eqb.
    unfold AddStackedItems. rewrite Hi, map_map. simpl.
    assert (Hex : existsb
                    (fun b => Py.mem (ri_Name b) (map ri_Name (p_items st)))
                    (map (fun c => new_item (className c) asm (className c)
                                            (cmd_tooltip c)) (commands g))
                  = false).
    { apply not_true_is_false. intros H.
      apply existsb_exists in H as (b & Hb & Hm).
      apply in_map_iff in Hb as (c & <- & Hc). simpl in Hm.
      apply mem_In in Hm. apply NoDup_app in Hnd as (_ & Hdis & _).
      apply (Hdis (className c)); [apply list_elem_of_In, Hm |].
      apply list_elem_of_In, in_map, Hc. }
    rewrite Hex.
    assert (Hnd2 : NoDup (map className (commands g))).
    { apply NoDup_app in Hnd. tauto. }
    rewrite (bool_decide_eq_true_2 _ Hnd2). simpl.
    eexists. split; [reflexivity |]. cbn [p_items p_dict p_acc].
    split; [congruence |]. split.
    { rewrite map_app, map_map. reflexivity. }
    split.
    { apply (acc_step_eq is_create (length (commands g) + 0) (0 + 0));
        [lia | lia |].
      eapply acc_step_trans; [exact Ha |].
      apply acc_step_emit. reflexivity. }
    split; [intros k Hk; apply buttons_of_app_l, Hk | discriminate].
  - (* push and smart buttons *)
    unfold createui_single.
    destruct (last (commands g)) as [c |].
    + pose proof (NoDup_app_fresh _ _ Hnd) as Hfresh.
      rewrite Hd, lookup_empty.
      rewrite AddItem_fresh by exact Hfresh.
      eexists. split; [reflexivity |]. cbn [p_items p_dict p_acc].
      split; [reflexivity |]. split; [rewrite map_app; reflexivity |].
      split; [apply acc_step_new; reflexivity |].
      split; [intros k Hk; apply buttons_of_app_l, Hk | discriminate].
    + exists st. rewrite app_nil_r.
      split; [reflexivity |]. split; [exact Hd |]. split; [reflexivity |].
      split; [apply acc_step_refl |]. split; [reflexivity | discriminate].
  - (* link buttons *)
    pose proof (NoDup_app_fresh _ _ Hnd) as Hfresh.
    unfold createui_link. rewrite Hd, lookup_empty.
    rewrite AddItem_fresh by exact Hfresh.
    eexists. split; [reflexivity |]. cbn [p_items p_dict p_acc].
    split; [reflexivity |]. split; [rewrite map_app; reflexivity |].
    split; [apply acc_step_new; reflexivity |].
    split; [intros k Hk; apply buttons_of_app_l, Hk | discriminate].
  - exists st. rewrite app_nil_r.
    split; [reflexivity |]. split; [exact Hd |]. split; [reflexivity |].
    split; [apply acc_step_refl |]. split; [reflexivity | discriminate].
Qed.

(** Second pass over one group: everything of it is found in the panel. *)
Lemma group_second (asm : string) (ph : PanelHandle) (g : ScriptGroup)
    (st : PanelSt) :
  wf_group g = true -> NoDup (group_keys g) ->
  (forall k, In k (group_keys g) -> p_dict st !! k = Some k) ->
  (branch_of g = BButtonGroup ->
   map pb_ClassName (buttons_of (groupName g) (p_items st))
   = map className (commands g)) ->
  exists st',
    createui_group asm ph st g = (st', None)
    /\ p_dict st' = foldr delete (p_dict st) (group_keys g)
    /\ map ri_Name (p_items st') = map ri_Name (p_items st)
    /\ acc_step is_update 0 (group_buttons g) (p_acc st) (p_acc st')
    /\ (forall k, ~ In k (group_keys g) ->
                  buttons_of k (p_items st') = buttons_of k (p_items st)).
Proof.
  intros Hwf Hnd Hk Hsub. rewrite createui_group_branch.
  unfold group_keys, group_buttons, wf_group in *.
  destruct (branch_of g) eqn:B.
  - (* pulldown and split groups *)
    specialize (Hsub eq_refl).
    unfold createui_buttongroup.
    rewrite (Hk (groupName g)) by (left; reflexivity).
    cbn [p_items p_dict p_acc].
    apply bool_decide_eq_true in Hwf.
    set (buttons := buttons_of (groupName g) (p_items st)) in *.
    assert (Hdom : dom (dict_of pb_ClassName pb_Name buttons)
                   = list_to_set (map className (commands g))).
    { rewrite dict_of_dom, Hsub. reflexivity. }
    destruct (subbuttons_second asm ph (groupName g) (commands g)
                {| s_buttons := buttons;
                   s_existing := dict_of pb_ClassName pb_Name buttons;
                   s_acc := emit (OpUpdateItem ph (groupName g)) (p_acc st) |}
                Hwf)
      as (sub & Hrun & He & Ha).
    { intros c Hc. cbn [s_existing]. apply elem_of_dom. rewrite Hdom.
      apply elem_of_list_to_set, list_elem_of_In, in_map, Hc. }
    rewrite Hrun. cbn [s_buttons s_existing s_acc] in *.
    assert (He' : s_existing sub = ∅).
    { apply dom_empty_iff_L. rewrite He, dom_foldr_delete, Hdom.
      set_solver. }
    rewrite disable_orphaned_buttons_none by exact He'.
    eexists. split; [reflexivity |]. cbn [p_items p_dict p_acc].
    split; [reflexivity |]. split.
    { apply update_ri_names, set_ri_Items_name. }
    split.
    { apply (acc_step_eq is_update (0 + 0) (0 + length (commands g)));
        [lia | lia |].
      eapply acc_step_trans; [| exact Ha].
      apply acc_step_emit. reflexivity. }
    intros k Hkn. apply buttons_of_update_ne;
      [intros E; apply Hkn; left; congruence | apply set_ri_Items_name].
  - (* Stack3 *)
    apply Nat.eqb_eq in Hwf. unfold createui_stack.
    destruct (stack_fold_second asm ph (commands g)
                {| k_panel := st; stackcommands := [] |} Hnd)
      as (k' & Hrun & Hn & Hb & Hdk & Hs & Ha).
    { intros c Hc. simpl. apply Hk, in_map, Hc. }
    rewrite Hrun. cbn [k_panel stackcommands] in *. rewrite Hs. simpl.
    eexists. split; [reflexivity |].
    split; [exact Hdk |]. split; [exact Hn |]. split; [exact Ha |].
    intros k _. apply Hb.
  - (* push and smart buttons *)
    unfold createui_single.
    destruct (last (commands g)) as [c |].
    + rewrite (Hk (className c)) by (left; reflexivity).
      eexists. split; [reflexivity |]. cbn [p_items p_dict p_acc].
      split; [reflexivity |]. split.
      { apply update_ri_names, set_ri_fields_name. }
      split; [apply acc_step_updated; reflexivity |].
      intros k _. apply buttons_of_update_fields.
    + exists st. split; [reflexivity |]. split; [reflexivity |].
      split; [reflexivity |]. split; [apply acc_step_refl | reflexivity].
  - (* link buttons *)
    unfold createui_link.
    rewrite (Hk (groupName g)) by (left; reflexivity).
    eexists. split; [reflexivity |]. cbn [p_items p_dict p_acc].
    split; [reflexivity |]. split.
    { apply update_ri_names, set_ri_fields_name. }
    split; [apply acc_step_updated; reflexivity |].
    intros k _. apply buttons_of_update_fields.
  - exists st. split; [reflexivity |]. split; [reflexivity |].
    split; [reflexivity |]. split; [apply acc_step_refl | reflexivity].
Qed.

Lemma buttongroup_key (g : ScriptGroup) :
  branch_of g = BButtonGroup -> group_keys g = [groupName g].
Proof. intros B. unfold group_keys. rewrite B. reflexivity. Qed.

(** First pass over the groups of a panel. *)
Lemma groups_first (asm : string) (ph : PanelHandle)
    (gs : list ScriptGroup) :
  forall st,
    p_dict st = ∅ -> forallb wf_group gs = true ->
    NoDup (map ri_Name (p_items st) ++ groups_keys gs) ->
    exists st',
      loop_st (createui_group asm ph) gs st = (st', None)
      /\ p_dict st' = ∅
      /\ map ri_Name (p_items st') = map ri_Name (p_items st) ++ groups_keys gs
      /\ acc_step is_create (groups_buttons gs) 0 (p_acc st) (p_acc st')
      /\ (forall k, In k (map ri_Name (p_items st)) ->
                    buttons_of k (p_items st') = buttons_of k (p_items st))
      /\ (forall g, In g gs -> branch_of g = BButtonGroup ->
                    map pb_ClassName (buttons_of (groupName g) (p_items st'))
                    = map className (commands g)).
Proof.
  induction gs as [| g r IH]; intros st Hd Hwf Hnd.
  - exists st. unfold groups_keys. simpl. rewrite app_nil_r.
    split; [reflexivity |]. split; [exact Hd |]. split; [reflexivity |].
    split; [apply acc_step_refl |]. split; [reflexivity | contradiction].
  - simpl in Hwf. apply andb_prop in Hwf as [Hg Hr].
    change (groups_keys (g :: r)) with (group_keys g ++ groups_keys r) in *.
    assert (Hnd1 : NoDup (map ri_Name (p_items st) ++ group_keys g)).
    { rewrite app_assoc in Hnd. apply NoDup_app in Hnd. tauto. }
    destruct (group_first asm ph g st Hd Hg Hnd1)
      as (st1 & Hrun1 & Hd1 & Hn1 & Ha1 & Hf1 & Hs1).
    destruct (IH st1 Hd1 Hr) as (st' & Hrun & Hd' & Hn' & Ha' & Hf' & Hs').
    { rewrite Hn1, <- app_assoc. exact Hnd. }
    exists st'. simpl. rewrite Hrun1. split; [exact Hrun |].
    split; [exact Hd' |]. split.
    { rewrite Hn', Hn1, app_assoc. reflexivity. }
    split.
    { apply (acc_step_eq is_create (group_buttons g + groups_buttons r)
               (0 + 0)); [reflexivity | reflexivity |].
      eapply acc_step_trans; eassumption. }
    split.
    { intros k Hk. rewrite Hf'; [apply Hf1, Hk |].
      rewrite Hn1. apply in_or_app. left. exact Hk. }
    intros g' [<- | Hg'] B.
    + rewrite Hf'; [apply Hs1, B |].
      rewrite Hn1, (buttongroup_key g B). apply in_or_app. right. left.
      reflexivity.
    + apply Hs'; assumption.
Qed.

(** Second pass over the groups of a panel. *)
Lemma groups_second (asm : string) (ph : PanelHandle)
    (gs : list ScriptGroup) :
  forall st,
    forallb wf_group gs = true -> NoDup (groups_keys gs) ->
    (forall k, In k (groups_keys gs) -> p_dict st !! k = Some k) ->
    (forall g, In g gs -> branch_of g = BButtonGroup ->
               map pb_ClassName (buttons_of (groupName g) (p_items st))
               = map className (commands g)) ->
    exists st',
      loop_st (createui_group asm ph) gs st = (st', None)
      /\ dom (p_dict st') = dom (p_dict st) ∖ list_to_set (groups_keys gs)
      /\ map ri_Name (p_items st') = map ri_Name (p_items st)
      /\ acc_step is_update 0 (groups_buttons gs) (p_acc st) (p_acc st').
Proof.
  induction gs as [| g r IH]; intros st Hwf Hnd Hk Hsub.
  - exists st. unfold groups_keys. simpl.
    split; [reflexivity |]. split; [set_solver |]. split; [reflexivity |].
    apply acc_step_refl.
  - simpl in Hwf. apply andb_prop in Hwf as [Hg Hr].
    change (groups_keys (g :: r)) with (group_keys g ++ groups_keys r) in *.
    apply NoDup_app in Hnd as (Hndg & Hdis & Hndr).
    destruct (group_second asm ph g st Hg Hndg)
      as (st1 & Hrun1 & Hd1 & Hn1 & Ha1 & Hf1).
    { intros k Hin. apply Hk, in_or_app. left. exact Hin. }
    { intros B. apply Hsub; [left; reflexivity | exact B]. }
    destruct (IH st1 Hr Hndr) as (st' & Hrun & Hd' & Hn' & Ha').
    { intros k Hin. rewrite Hd1, lookup_foldr_delete.
      - apply Hk, in_or_app. right. exact Hin.
      - intros Hin'. apply (Hdis k); apply list_elem_of_In; assumption. }
    { intros g' Hg' B. rewrite Hf1; [apply Hsub; [right |]; assumption |].
      intros Hin. apply (Hdis (groupName g')); [apply list_elem_of_In, Hin |].
      apply list_elem_of_In. unfold groups_keys.
      apply in_concat. exists (group_keys g'). split; [apply in_map, Hg' |].
      rewrite (buttongroup_key g' B). left. reflexivity. }
    exists st'. simpl. rewrite Hrun1. split; [exact Hrun |]. split.
    { rewrite Hd', Hd1, dom_foldr_delete, list_to_set_app_L. set_solver. }
    split; [congruence |].
    apply (acc_step_eq is_update (0 + 0)
             (group_buttons g + groups_buttons r));
      [reflexivity | reflexivity |].
    eapply acc_step_trans; eassumption.
Qed.

(** *** One panel *)

Lemma disable_orphaned_items_none (ph : PanelHandle) (st : PanelSt) :
  p_dict st = ∅ -> disable_orphaned_items ph st = st.
Proof.
  intros H. unfold disable_orphaned_items.
  rewrite H, map_to_list_empty. reflexivity.
Qed.

(** First pass over a panel that was just created. *)
Lemma panel_first (asm : string) (t : ScriptTab) (ui : UI)
    (p : ScriptPanel) (ph : PanelHandle) :
  pyRevitUIPanels t !! panelName p = Some ph ->
  pyRevitUIButtons t !! panelName p = Some [] ->
  panel_items (ribbon ui) ph = [] ->
  wf_panel p = true ->
  exists items acc',
    createui_panel asm t ui p
    = ({| ribbon := set_panel_items (ribbon ui) ph items; ui_acc := acc' |},
       None)
    /\ panel_ready p items
    /\ acc_step is_create (groups_buttons (get_sorted_scriptgroups p)) 0
         (ui_acc ui) acc'.
Proof.
  intros Hp Hb Hi Hwf. unfold createui_panel. rewrite Hp, Hb, Hi.
  unfold wf_panel in Hwf. apply andb_prop in Hwf as [Hnd Hwf].
  apply bool_decide_eq_true in Hnd.
  destruct (groups_first asm ph (get_sorted_scriptgroups p)
              {| p_items := []; p_dict := dict_of (fun b => b) (fun b => b) [];
                 p_acc := ui_acc ui |} eq_refl Hwf Hnd)
    as (st' & Hrun & Hd & Hn & Ha & _ & Hs).
  rewrite Hrun. rewrite disable_orphaned_items_none by exact Hd.
  exists (p_items st'), (p_acc st'). split; [reflexivity |].
  split; [| exact Ha]. split; [exact Hn | exact Hs].
Qed.

(** Second pass over a panel that holds what the first pass left. *)
Lemma panel_second (asm : string) (t : ScriptTab) (ui : UI)
    (p : ScriptPanel) (ph : PanelHandle) (items : list RibbonItem) :
  pyRevitUIPanels t !! panelName p = Some ph ->
  pyRevitUIButtons t !! panelName p = Some (map ri_Name items) ->
  panel_items (ribbon ui) ph = items ->
  panel_ready p items ->
  wf_panel p = true ->
  exists items' acc',
    createui_panel asm t ui p
    = ({| ribbon := set_panel_items (ribbon ui) ph items'; ui_acc := acc' |},
       None)
    /\ acc_step is_update 0 (groups_buttons (get_sorted_scriptgroups p))
         (ui_acc ui) acc'.
Proof.
  intros Hp Hb Hi [Hn Hs] Hwf. unfold createui_panel. rewrite Hp, Hb, Hi.
  unfold wf_panel in Hwf. apply andb_prop in Hwf as [Hnd Hwf].
  apply bool_decide_eq_true in Hnd. unfold panel_keys in *.
  destruct (groups_second asm ph (get_sorted_scriptgroups p)
              {| p_items := items;
                 p_dict := dict_of (fun b => b) (fun b => b)
                                   (map ri_Name items);
                 p_acc := ui_acc ui |} Hwf Hnd)
    as (st' & Hrun & Hd & _ & Ha).
  { intros k Hk. cbn [p_dict]. apply dict_id_lookup. rewrite Hn. exact Hk. }
  { exact Hs. }
  rewrite Hrun. cbn [p_dict] in Hd.
  assert (Hd' : p_dict st' = ∅).
  { apply dom_empty_iff_L. rewrite Hd, dict_of_dom, map_id, Hn. set_solver. }
  rewrite disable_orphaned_items_none by exact Hd'.
  exists (p_items st'), (p_acc st'). split; [reflexivity | exact Ha].
Qed.

(** *** The panels of one tab *)

Lemma set_panel_items_same (r : Ribbon) (tn pn : string)
    (items : list RibbonItem) (ps : gmap string (list RibbonItem)) :
  r !! tn = Some ps ->
  set_panel_items r (tn, pn) items !! tn = Some (<[pn := items]> ps).
Proof.
  intros H. unfold set_panel_items. cbn [fst snd].
  rewrite lookup_alter_eq, H. reflexivity.
Qed.

Lemma set_panel_items_other (r : Ribbon) (tn pn k : string)
    (items : list RibbonItem) :
  k <> tn -> set_panel_items r (tn, pn) items !! k = r !! k.
Proof.
  intros H. unfold set_panel_items. cbn [fst snd].
  apply lookup_alter_ne. congruence.
Qed.

Lemma panel_items_lookup (r : Ribbon) (tn pn : string)
    (ps : gmap string (list RibbonItem)) (items : list RibbonItem) :
  r !! tn = Some ps -> ps !! pn = Some items ->
  panel_items r (tn, pn) = items.
Proof.
  intros H1 H2. unfold panel_items. cbn [fst snd]. rewrite H1. simpl.
  rewrite H2. reflexivity.
Qed.

(** First pass over panels of a tab that were just created. *)
Lemma panels_first (asm : string) (t : ScriptTab) (l : list ScriptPanel) :
  forall ui ps,
    NoDup (map panelName l) ->
    forallb wf_panel l = true ->
    ribbon ui !! tabName t = Some ps ->
    (forall p, In p l ->
       pyRevitUIPanels t !! panelName p = Some (tabName t, panelName p)
       /\ pyRevitUIButtons t !! panelName p = Some []
       /\ ps !! panelName p = Some []) ->
    exists ui' ps',
      loop_st (createui_panel asm t) l ui = (ui', None)
      /\ ribbon ui' !! tabName t = Some ps'
      /\ (forall k, k <> tabName t -> ribbon ui' !! k = ribbon ui !! k)
      /\ (forall pn, ~ In pn (map panelName l) -> ps' !! pn = ps !! pn)
      /\ (forall p, In p l ->
            exists items, ps' !! panelName p = Some items
                          /\ panel_ready p items)
      /\ acc_step is_create (panels_buttons l) 0 (ui_acc ui) (ui_acc ui').
Proof.
  induction l as [| p r IH]; intros ui ps Hnd Hwf Hps Hpre.
  - exists ui, ps. simpl.
    split; [reflexivity |]. split; [exact Hps |].
    split; [reflexivity |]. split; [reflexivity |].
    split; [contradiction | apply acc_step_refl].
  - simpl in Hnd, Hwf. apply NoDup_cons in Hnd as [Hp Hr].
    apply andb_prop in Hwf as [Hwp Hwr].
    destruct (Hpre p (or_introl eq_refl)) as (Hh & Hb & Hi).
    destruct (panel_first asm t ui p (tabName t, panelName p) Hh Hb
                (panel_items_lookup _ _ _ _ _ Hps Hi) Hwp)
      as (items & acc1 & Hrun1 & Hready & Ha1).
    set (ui1 := {| ribbon := set_panel_items (ribbon ui)
                               (tabName t, panelName p) items;
                   ui_acc := acc1 |}) in *.
    destruct (IH ui1 (<[panelName p := items]> ps) Hr Hwr)
      as (ui' & ps' & Hrun & Hps' & Hframe & Hkeep & Hpost & Ha).
    { apply set_panel_items_same, Hps. }
    { intros q Hq. destruct (Hpre q (or_intror Hq)) as (Hh' & Hb' & Hi').
      split; [exact Hh' |]. split; [exact Hb' |].
      rewrite lookup_insert_ne; [exact Hi' |].
      intros E. apply Hp. rewrite E. apply list_elem_of_In, in_map, Hq. }
    exists ui', ps'. simpl. rewrite Hrun1. split; [exact Hrun |].
    split; [exact Hps' |]. split.
    { intros k Hk. rewrite Hframe by exact Hk.
      apply set_panel_items_other, Hk. }
    split.
    { intros pn Hpn. rewrite Hkeep by tauto.
      apply lookup_insert_ne. tauto. }
    split.
    { intros q [<- | Hq]; [| apply Hpost, Hq].
      exists items. split; [| exact Hready].
      rewrite Hkeep; [apply lookup_insert_eq |].
      intros Hin. apply Hp, list_elem_of_In, Hin. }
    apply (acc_step_eq is_create
             (groups_buttons (get_sorted_scriptgroups p) + panels_buttons r)
             (0 + 0)); [reflexivity | reflexivity |].
    eapply acc_step_trans; eassumption.
Qed.

(** Second pass over panels of a tab that hold what the first pass left. *)
Lemma panels_second (asm : string) (t : ScriptTab) (l : list ScriptPanel) :
  forall ui ps,
    NoDup (map panelName l) ->
    forallb wf_panel l = true ->
    ribbon ui !! tabName t = Some ps ->
    (forall p, In p l ->
       pyRevitUIPanels t !! panelName p = Some (tabName t, panelName p)
       /\ exists items,
            pyRevitUIButtons t !! panelName p = Some (map ri_Name items)
            /\ ps !! panelName p = Some items
            /\ panel_ready p items) ->
    exists ui',
      loop_st (createui_panel asm t) l ui = (ui', None)
      /\ (forall k, k <> tabName t -> ribbon ui' !! k = ribbon ui !! k)
      /\ acc_step is_update 0 (panels_buttons l) (ui_acc ui) (ui_acc ui').
Proof.
  induction l as [| p r IH]; intros ui ps Hnd Hwf Hps Hpre.
  - exists ui. simpl.
    split; [reflexivity |]. split; [reflexivity | apply acc_step_refl].
  - simpl in Hnd, Hwf. apply NoDup_cons in Hnd as [Hp Hr].
    apply andb_prop in Hwf as [Hwp Hwr].
    destruct (Hpre p (or_introl eq_refl)) as (Hh & items & Hb & Hi & Hready).
    destruct (panel_second asm t ui p (tabName t, panelName p) items Hh Hb
                (panel_items_lookup _ _ _ _ _ Hps Hi) Hready Hwp)
      as (items' & acc1 & Hrun1 & Ha1).
    set (ui1 := {| ribbon := set_panel_items (ribbon ui)
                               (tabName t, panelName p) items';
                   ui_acc := acc1 |}) in *.
    destruct (IH ui1 (<[panelName p := items']> ps) Hr Hwr)
      as (ui' & Hrun & Hframe & Ha).
    { apply set_panel_items_same, Hps. }
    { intros q Hq.
      destruct (Hpre q (or_intror Hq)) as (Hh' & its & Hb' & Hi' & Hr').
      split; [exact Hh' |]. exists its.
      split; [exact Hb' |]. split; [| exact Hr'].
      rewrite lookup_insert_ne; [exact Hi' |].
      intros E. apply Hp. rewrite E. apply list_elem_of_In, in_map, Hq. }
    exists ui'. simpl. rewrite Hrun1. split; [exact Hrun |]. split.
    { intros k Hk. rewrite Hframe by exact Hk.
      apply set_panel_items_other, Hk. }
    apply (acc_step_eq is_update (0 + 0)
             (groups_buttons (get_sorted_scriptgroups p) + panels_buttons r));
      [reflexivity | reflexivity |].
    eapply acc_step_trans; eassumption.
Qed.

(** *** One tab in [createui] *)

Lemma sorted_panels_In (t : ScriptTab) (p : ScriptPanel) :
  In p (get_sorted_scriptpanels t) <-> In p (scriptPanels t).
Proof.
  unfold get_sorted_scriptpanels. rewrite <- !list_elem_of_In.
  rewrite (sorted_by_perm Z.leb panelOrder (scriptPanels t)). reflexivity.
Qed.

Lemma forallb_permutation {A} (f : A -> bool) (l l' : list A) :
  l ≡ₚ l' -> forallb f l = forallb f l'.
Proof.
  induction 1 as [| x l l' _ IH | x y l | l l' l'' _ IH1 _ IH2]; simpl.
  - reflexivity.
  - rewrite IH. reflexivity.
  - destruct (f x), (f y); reflexivity.
  - congruence.
Qed.

Lemma tab_tree_ok_sorted (t : ScriptTab) :
  tab_tree_ok t = true ->
  (hascommands t = true \/ get_sorted_scriptpanels t = [])
  /\ NoDup (map panelName (get_sorted_scriptpanels t))
  /\ forallb wf_panel (get_sorted_scriptpanels t) = true.
Proof.
  unfold tab_tree_ok. intros H.
  apply andb_prop in H as [H Hw]. apply andb_prop in H as [Hc Hn].
  apply bool_decide_eq_true in Hn.
  pose proof (sorted_by_perm Z.leb panelOrder (scriptPanels t)) as Hp.
  fold (get_sorted_scriptpanels t) in Hp.
  split; [| split].
  - apply orb_prop in Hc as [Hc | Hc]; [left; exact Hc | right].
    apply bool_decide_eq_true in Hc. unfold get_sorted_scriptpanels.
    rewrite Hc. reflexivity.
  - rewrite Hp. exact Hn.
  - rewrite (forallb_permutation _ _ _ Hp). exact Hw.
Qed.

(** First [createui] over a tab whose panels were just created. *)
Lemma tab_first (asm : string) (t : ScriptTab) (ui : UI) :
  tab_tree_ok t = true /\ tab_created t (ribbon ui !! tabName t) ->
  exists ui',
    createui_tab asm ui t = (ui', None)
    /\ (tab_tree_ok t = true /\ tab_done t (ribbon ui' !! tabName t))
    /\ (forall k, k <> tabName t -> ribbon ui' !! k = ribbon ui !! k)
    /\ acc_step is_create (panels_buttons (get_sorted_scriptpanels t)) 0
         (ui_acc ui) (ui_acc ui').
Proof.
  intros [Hok Hcr]. unfold createui_tab.
  destruct (tab_tree_ok_sorted t Hok) as (Hc & Hnd & Hwf).
  destruct (hascommands t) eqn:Ec.
  - destruct (Hcr Ec) as (ps & Hps & Hpre).
    destruct (panels_first asm t (get_sorted_scriptpanels t) ui ps Hnd Hwf
                Hps)
      as (ui' & ps' & Hrun & Hps' & Hframe & _ & Hpost & Ha).
    { intros p Hp. apply Hpre, sorted_panels_In, Hp. }
    exists ui'. split; [exact Hrun |]. split; [| split; assumption].
    split; [exact Hok |]. intros _. exists ps'. split; [exact Hps' |].
    intros p Hp. apply Hpost, sorted_panels_In, Hp.
  - destruct Hc as [Hc | Hc]; [discriminate |]. rewrite Hc.
    exists ui. simpl. split; [reflexivity |]. split.
    { split; [exact Hok |]. intros H. congruence. }
    split; [reflexivity | apply acc_step_refl].
Qed.

(** Second [createui] over a tab whose panels were found again. *)
Lemma tab_second (asm : string) (t : ScriptTab) (ui : UI) :
  tab_tree_ok t = true /\ tab_found t (ribbon ui !! tabName t) ->
  exists ui',
    createui_tab asm ui t = (ui', None)
    /\ True
    /\ (forall k, k <> tabName t -> ribbon ui' !! k = ribbon ui !! k)
    /\ acc_step is_update 0 (panels_buttons (get_sorted_scriptpanels t))
         (ui_acc ui) (ui_acc ui').
Proof.
  intros [Hok Hfd]. unfold createui_tab.
  destruct (tab_tree_ok_sorted t Hok) as (Hc & Hnd & Hwf).
  destruct (hascommands t) eqn:Ec.
  - destruct (Hfd Ec) as (ps & Hps & Hpre).
    destruct (panels_second asm t (get_sorted_scriptpanels t) ui ps Hnd Hwf
                Hps)
      as (ui' & Hrun & Hframe & Ha).
    { intros p Hp. apply Hpre, sorted_panels_In, Hp. }
    exists ui'. auto.
  - destruct Hc as [Hc | Hc]; [discriminate |]. rewrite Hc.
    exists ui. simpl. split; [reflexivity |]. split; [exact I |].
    split; [reflexivity | apply acc_step_refl].
Qed.

(** *** Loops over tabs of different names *)

Section IndependentTabs.

Variable step : UI -> ScriptTab -> UI * option exn.
Variables Pre Post :
  ScriptTab -> option (gmap string (list RibbonItem)) -> Prop.
Variable P : uiop -> bool.
Variables dn du : ScriptTab -> nat.

Hypothesis Hstep :
  forall t ui,
    Pre t (ribbon ui !! tabName t) ->
    exists ui',
      step ui t = (ui', None)
      /\ Post t (ribbon ui' !! tabName t)
      /\ (forall k, k <> tabName t -> ribbon ui' !! k = ribbon ui !! k)
      /\ acc_step P (dn t) (du t) (ui_acc ui) (ui_acc ui').

Lemma independent_tabs (tabs : list ScriptTab) :
  forall ui,
    NoDup (map tabName tabs) ->
    (forall t, In t tabs -> Pre t (ribbon ui !! tabName t)) ->
    exists ui',
      loop_st step tabs ui = (ui', None)
      /\ (forall t, In t tabs -> Post t (ribbon ui' !! tabName t))
      /\ (forall k, ~ In k (map tabName tabs) ->
                    ribbon ui' !! k = ribbon ui !! k)
      /\ acc_step P (foldr (fun t n => (dn t + n)%nat) 0%nat tabs)
           (foldr (fun t n => (du t + n)%nat) 0%nat tabs)
           (ui_acc ui) (ui_acc ui').
Proof.
  induction tabs as [| t r IH]; intros ui Hnd Hpre.
  - exists ui. simpl. split; [reflexivity |]. split; [contradiction |].
    split; [reflexivity | apply acc_step_refl].
  - simpl in Hnd. apply NoDup_cons in Hnd as [Ht Hr].
    destruct (Hstep t ui (Hpre t (or_introl eq_refl)))
      as (ui1 & Hrun1 & Hpost1 & Hframe1 & Ha1).
    destruct (IH ui1 Hr) as (ui' & Hrun & Hpost & Hframe & Ha).
    { intros t' Ht'. rewrite Hframe1; [apply Hpre; right; exact Ht' |].
      intros E. apply Ht. rewrite <- E.
      apply list_elem_of_In, in_map, Ht'. }
    exists ui'. simpl. rewrite Hrun1. split; [exact Hrun |]. split.
    { intros t' [<- | Ht']; [| apply Hpost, Ht'].
      rewrite Hframe; [exact Hpost1 |].
      intros Hin. apply Ht, list_elem_of_In, Hin. }
    split.
    { intros k Hk. rewrite Hframe by tauto. apply Hframe1.
      intros E. apply Hk. left. congruence. }
    eapply acc_step_trans; eassumption.
Qed.

End IndependentTabs.

(** *** [create_or_find_pyrevit_panels] *)

(** The panels of a tab that was just created are all created. *)
Lemma find_panels_first (l : list ScriptPanel) :
  forall st ps,
    NoDup (map panelName l) ->
    ribbon (f_ui st) !! tabName (f_tab st) = Some ps ->
    (forall p, In p l -> ps !! panelName p = None) ->
    exists st' ps',
      loop_st (create_or_find_panel ∅) l st = (st', None)
      /\ tabName (f_tab st') = tabName (f_tab st)
      /\ scriptPanels (f_tab st') = scriptPanels (f_tab st)
      /\ ribbon (f_ui st') !! tabName (f_tab st) = Some ps'
      /\ (forall k, k <> tabName (f_tab st) ->
                    ribbon (f_ui st') !! k = ribbon (f_ui st) !! k)
      /\ (forall p, In p l ->
            pyRevitUIPanels (f_tab st') !! panelName p
            = Some (tabName (f_tab st), panelName p)
            /\ pyRevitUIButtons (f_tab st') !! panelName p = Some []
            /\ ps' !! panelName p = Some [])
      /\ (forall pn, ~ In pn (map panelName l) ->
            pyRevitUIPanels (f_tab st') !! pn
            = pyRevitUIPanels (f_tab st) !! pn
            /\ pyRevitUIButtons (f_tab st') !! pn
               = pyRevitUIButtons (f_tab st) !! pn
            /\ ps' !! pn = ps !! pn)
      /\ acc_step is_create 0 0 (ui_acc (f_ui st)) (ui_acc (f_ui st')).
Proof.
  induction l as [| p r IH]; intros st ps Hnd Hps Hfree.
  - exists st, ps. simpl. split; [reflexivity |].
    split; [reflexivity |]. split; [reflexivity |]. split; [exact Hps |].
    split; [reflexivity |]. split; [contradiction |].
    split; [auto | apply acc_step_refl].
  - simpl in Hnd. apply NoDup_cons in Hnd as [Hp Hr].
    simpl. unfold create_or_find_panel at 1.
    rewrite lookup_empty, Hps, (Hfree p (or_introl eq_refl)).
    match goal with
    | |- context [loop_st _ r ?s] => set (st1 := s)
    end.
    destruct (IH st1 (<[panelName p := []]> ps) Hr)
      as (st' & ps' & Hrun & Htn & Hsp & Hps' & Hframe & Hpost & Hkeep & Ha).
    { simpl. apply lookup_insert_eq. }
    { intros q Hq. rewrite lookup_insert_ne; [apply Hfree; right; exact Hq |].
      intros E. apply Hp. rewrite E. apply list_elem_of_In, in_map, Hq. }
    simpl in Htn, Hsp, Hps', Hframe, Hpost, Hkeep, Ha.
    exists st', ps'. split; [exact Hrun |]. split; [exact Htn |].
    split; [exact Hsp |]. split; [exact Hps' |]. split.
    { intros k Hk. rewrite Hframe by exact Hk.
      apply lookup_insert_ne. congruence. }
    split.
    { intros q [<- | Hq]; [| apply Hpost, Hq].
      destruct (Hkeep (panelName p)) as (H1 & H2 & H3).
      { intros Hin. apply Hp, list_elem_of_In, Hin. }
      rewrite H1, H2, H3, !lookup_insert_eq. auto. }
    split.
    { intros pn Hpn. destruct (Hkeep pn) as (H1 & H2 & H3); [tauto |].
      rewrite H1, H2, H3, !lookup_insert_ne by tauto. auto. }
    apply (acc_step_eq is_create (0 + 0) (0 + 0)); [reflexivity .. |].
    eapply acc_step_trans; [| exact Ha].
    apply acc_step_emit. reflexivity.
Qed.

(** The panels of a tab that exists with all of them are all found. *)
Lemma find_panels_second (tn : string)
    (ps : gmap string (list RibbonItem)) (l : list ScriptPanel) :
  forall st,
    NoDup (map panelName l) ->
    ribbon (f_ui st) !! tn = Some ps ->
    (forall p, In p l -> is_Some (ps !! panelName p)) ->
    exists st',
      loop_st (create_or_find_panel
                 (map_imap (fun pn _ => Some (tn, pn)) ps)) l st
      = (st', None)
      /\ tabName (f_tab st') = tabName (f_tab st)
      /\ scriptPanels (f_tab st') = scriptPanels (f_tab st)
      /\ f_ui st' = f_ui st
      /\ (forall p, In p l ->
            pyRevitUIPanels (f_tab st') !! panelName p
            = Some (tn, panelName p)
            /\ pyRevitUIButtons (f_tab st') !! panelName p
               = Some (map ri_Name (default [] (ps !! panelName p))))
      /\ (forall pn, ~ In pn (map panelName l) ->
            pyRevitUIPanels (f_tab st') !! pn
            = pyRevitUIPanels (f_tab st) !! pn
            /\ pyRevitUIButtons (f_tab st') !! pn
               = pyRevitUIButtons (f_tab st) !! pn).
Proof.
  induction l as [| p r IH]; intros st Hnd Hps Hex.
  - exists st. simpl. split; [reflexivity |].
    split; [reflexivity |]. split; [reflexivity |]. split; [reflexivity |].
    split; [contradiction | auto].
  - simpl in Hnd. apply NoDup_cons in Hnd as [Hp Hr].
    simpl. unfold create_or_find_panel at 1.
    destruct (Hex p (or_introl eq_refl)) as [items Hi].
    rewrite map_lookup_imap, Hi. simpl.
    match goal with
    | |- context [loop_st _ r ?s] => set (st1 := s)
    end.
    destruct (IH st1 Hr) as (st' & Hrun & Htn & Hsp & Hui & Hpost & Hkeep).
    { exact Hps. }
    { intros q Hq. apply Hex. right. exact Hq. }
    simpl in Htn, Hsp, Hui, Hpost, Hkeep.
    exists st'. split; [exact Hrun |]. split; [exact Htn |].
    split; [exact Hsp |]. split; [exact Hui |]. split.
    { intros q [<- | Hq]; [| apply Hpost, Hq].
      destruct (Hkeep (panelName p)) as (H1 & H2).
      { intros Hin. apply Hp, list_elem_of_In, Hin. }
      rewrite H1, H2, !lookup_insert_eq, Hi. simpl.
      rewrite (panel_items_lookup _ _ _ _ _ Hps Hi). auto. }
    intros pn Hpn. destruct (Hkeep pn) as (H1 & H2); [tauto |].
    rewrite H1, H2, !lookup_insert_ne by tauto. auto.
Qed.

Lemma hascommands_ext (t t' : ScriptTab) :
  scriptPanels t' = scriptPanels t -> hascommands t' = hascommands t.
Proof. unfold hascommands. intros ->. reflexivity. Qed.

Lemma tab_tree_ok_of_wf (t t' : ScriptTab) :
  scriptPanels t' = scriptPanels t -> wf_tab t = true ->
  tab_tree_ok t' = true.
Proof.
  intros Hsp Hwf. unfold wf_tab in Hwf. unfold tab_tree_ok.
  rewrite (hascommands_ext t t' Hsp), Hsp.
  apply andb_prop in Hwf as [Hwf _]. apply andb_prop in Hwf as [Hwf _].
  exact Hwf.
Qed.

Lemma wf_tab_dicts (t : ScriptTab) :
  wf_tab t = true -> pyRevitUIPanels t = ∅ /\ pyRevitUIButtons t = ∅.
Proof.
  unfold wf_tab. intros H.
  apply andb_prop in H as [H Hb]. apply andb_prop in H as [_ Hp].
  apply bool_decide_eq_true in Hb, Hp. auto.
Qed.

(** A tab that is not on the ribbon is created with all its panels. *)
Lemma find_tab_first (t : ScriptTab) (ui : UI) :
  wf_tab t = true -> ribbon ui !! tabName t = None ->
  exists st,
    create_or_find_tab ui t = (st, None)
    /\ tabName (f_tab st) = tabName t
    /\ scriptPanels (f_tab st) = scriptPanels t
    /\ tab_created (f_tab st) (ribbon (f_ui st) !! tabName t)
    /\ (forall k, k <> tabName t ->
                  ribbon (f_ui st) !! k = ribbon ui !! k)
    /\ acc_step is_create 0 0 (ui_acc ui) (ui_acc (f_ui st)).
Proof.
  intros Hwf Hnone. unfold create_or_find_tab.
  pose proof (tab_tree_ok_of_wf t t eq_refl Hwf) as Hok.
  destruct (tab_tree_ok_sorted t Hok) as (_ & Hnd & _).
  destruct (hascommands t) eqn:Ec.
  - rewrite Hnone.
    destruct (find_panels_first (get_sorted_scriptpanels t)
                {| f_tab := t;
                   f_ui := {| ribbon := <[tabName t := ∅]> (ribbon ui);
                              ui_acc := emit (OpCreateRibbonTab (tabName t))
                                             (ui_acc ui) |} |}
                ∅ Hnd)
      as (st' & ps' & Hrun & Htn & Hsp & Hps' & Hframe & Hpost & _ & Ha).
    { simpl. apply lookup_insert_eq. }
    { intros p _. apply lookup_empty. }
    simpl in Htn, Hsp, Hps', Hframe, Hpost, Ha.
    exists st'. split; [exact Hrun |]. split; [exact Htn |].
    split; [exact Hsp |]. split.
    { intros _. exists ps'. split; [exact Hps' |].
      intros p Hp. rewrite Htn. apply Hpost, sorted_panels_In.
      rewrite <- Hsp. exact Hp. }
    split.
    { intros k Hk. rewrite Hframe by exact Hk.
      apply lookup_insert_ne. congruence. }
    apply (acc_step_eq is_create (0 + 0) (0 + 0)); [reflexivity .. |].
    eapply acc_step_trans; [| exact Ha].
    apply acc_step_emit. reflexivity.
  - eexists. split; [reflexivity |]. simpl.
    split; [reflexivity |]. split; [reflexivity |]. split.
    { intros H. congruence. }
    split; [reflexivity | apply acc_step_refl].
Qed.

(** A tab that the first run completed is found with all its panels, and
    nothing is created. *)
Lemma find_tab_second (t : ScriptTab) (ui : UI) :
  wf_tab t = true -> tab_done t (ribbon ui !! tabName t) ->
  exists t',
    create_or_find_tab ui t = ({| f_tab := t'; f_ui := ui |}, None)
    /\ tabName t' = tabName t
    /\ scriptPanels t' = scriptPanels t
    /\ tab_found t' (ribbon ui !! tabName t).
Proof.
  intros Hwf Hdone. unfold create_or_find_tab.
  pose proof (tab_tree_ok_of_wf t t eq_refl Hwf) as Hok.
  destruct (tab_tree_ok_sorted t Hok) as (_ & Hnd & _).
  destruct (hascommands t) eqn:Ec.
  - destruct (Hdone Ec) as (ps & Hps & Hitems). rewrite Hps.
    destruct (find_panels_second (tabName t) ps (get_sorted_scriptpanels t)
                {| f_tab := t; f_ui := ui |} Hnd Hps)
      as (st' & Hrun & Htn & Hsp & Hui & Hpost & _).
    { intros p Hp. apply sorted_panels_In in Hp.
      destruct (Hitems p Hp) as (items & -> & _). eauto. }
    simpl in Htn, Hsp, Hui, Hpost.
    exists (f_tab st'). rewrite Hrun. destruct st' as [t' ui'].
    simpl in *. subst ui'. split; [reflexivity |]. split; [exact Htn |].
    split; [exact Hsp |].
    intros _. exists ps. split; [reflexivity |].
    intros p Hp. rewrite Hsp in Hp.
    destruct (Hpost p (proj2 (sorted_panels_In t p) Hp)) as (H1 & H2).
    destruct (Hitems p Hp) as (items & Hi & Hready).
    rewrite Htn. split; [exact H1 |].
    exists items. rewrite H2, Hi. auto.
  - exists t. split; [reflexivity |]. split; [reflexivity |].
    split; [reflexivity |]. intros H. congruence.
Qed.

(** [create_or_find_pyrevit_panels] on a ribbon that holds none of the
    tabs. *)
Lemma create_panels_first (tabs : list ScriptTab) :
  forall ui,
    NoDup (map tabName tabs) -> forallb wf_tab tabs = true ->
    (forall t, In t tabs -> ribbon ui !! tabName t = None) ->
    exists tabs' ui',
      create_or_find_pyrevit_panels tabs ui = ((tabs', ui'), None)
      /\ map tabName tabs' = map tabName tabs
      /\ map scriptPanels tabs' = map scriptPanels tabs
      /\ (forall t', In t' tabs' ->
            tab_tree_ok t' = true
            /\ tab_created t' (ribbon ui' !! tabName t'))
      /\ (forall k, ~ In k (map tabName tabs) ->
                    ribbon ui' !! k = ribbon ui !! k)
      /\ acc_step is_create 0 0 (ui_acc ui) (ui_acc ui').
Proof.
  induction tabs as [| t r IH]; intros ui Hnd Hwf Hnone.
  - exists [], ui. simpl. split; [reflexivity |].
    split; [reflexivity |]. split; [reflexivity |].
    split; [contradiction |]. split; [reflexivity | apply acc_step_refl].
  - simpl in Hnd, Hwf. apply NoDup_cons in Hnd as [Ht Hr].
    apply andb_prop in Hwf as [Hwt Hwr].
    destruct (find_tab_first t ui Hwt (Hnone t (or_introl eq_refl)))
      as (st & Hrun1 & Htn & Hsp & Hcr & Hframe1 & Ha1).
    destruct (IH (f_ui st) Hr Hwr)
      as (tabs' & ui' & Hrun & Hnames & Hpanels & Hpost & Hframe & Ha).
    { intros t' Ht'. rewrite Hframe1; [apply Hnone; right; exact Ht' |].
      intros E. apply Ht. rewrite <- E.
      apply list_elem_of_In, in_map, Ht'. }
    exists (f_tab st :: tabs'), ui'. simpl. rewrite Hrun1, Hrun.
    split; [reflexivity |]. split; [congruence |]. split; [congruence |].
    split.
    { intros t' [<- | Ht']; [| apply Hpost, Ht'].
      split; [apply (tab_tree_ok_of_wf t); assumption |].
      rewrite Htn, Hframe; [exact Hcr |].
      intros Hin. apply Ht, list_elem_of_In, Hin. }
    split.
    { intros k Hk. rewrite Hframe by tauto. apply Hframe1.
      intros E. apply Hk. left. congruence. }
    apply (acc_step_eq is_create (0 + 0) (0 + 0)); [reflexivity .. |].
    eapply acc_step_trans; eassumption.
Qed.

(** [create_or_find_pyrevit_panels] on the ribbon that the first run
    left. *)
Lemma find_panels_again (tabs : list ScriptTab) (ui : UI) :
  forallb wf_tab tabs = true ->
  (forall t, In t tabs -> tab_done t (ribbon ui !! tabName t)) ->
  exists tabs',
    create_or_find_pyrevit_panels tabs ui = ((tabs', ui), None)
    /\ map tabName tabs' = map tabName tabs
    /\ map scriptPanels tabs' = map scriptPanels tabs
    /\ (forall t', In t' tabs' ->
          tab_tree_ok t' = true
          /\ tab_found t' (ribbon ui !! tabName t')).
Proof.
  induction tabs as [| t r IH]; intros Hwf Hdone.
  - exists []. simpl. split; [reflexivity |].
    split; [reflexivity |]. split; [reflexivity | contradiction].
  - simpl in Hwf. apply andb_prop in Hwf as [Hwt Hwr].
    destruct (find_tab_second t ui Hwt (Hdone t (or_introl eq_refl)))
      as (t' & Hrun1 & Htn & Hsp & Hfd).
    destruct IH as (tabs' & Hrun & Hnames & Hpanels & Hpost);
      [exact Hwr | intros q Hq; apply Hdone; right; exact Hq |].
    exists (t' :: tabs'). simpl. rewrite Hrun1. simpl. rewrite Hrun.
    split; [reflexivity |]. split; [congruence |]. split; [congruence |].
    intros q [<- | Hq]; [| apply Hpost, Hq].
    split; [apply (tab_tree_ok_of_wf t); assumption |].
    rewrite Htn. exact Hfd.
Qed.

(** *** The two runs *)

Lemma tab_done_ext (t t' : ScriptTab)
    (o : option (gmap string (list RibbonItem))) :
  scriptPanels t' = scriptPanels t ->
  tab_done t' o -> tab_done t o.
Proof.
  unfold tab_done. intros Hsp H Hc.
  rewrite <- (hascommands_ext t t' Hsp) in Hc.
  destruct (H Hc) as (ps & Hps & Hi). exists ps. split; [exact Hps |].
  intros p Hp. apply Hi. rewrite Hsp. exact Hp.
Qed.

Lemma tab_done_transfer (r : Ribbon) (tabs : list ScriptTab) :
  forall tabs',
    map tabName tabs' = map tabName tabs ->
    map scriptPanels tabs' = map scriptPanels tabs ->
    (forall t', In t' tabs' -> tab_done t' (r !! tabName t')) ->
    forall t, In t tabs -> tab_done t (r !! tabName t).
Proof.
  induction tabs as [| t0 rest IH]; intros tabs' Hn Hs Hd t Ht;
    [contradiction |].
  destruct tabs' as [| t0' rest']; [discriminate |].
  simpl in Hn, Hs. injection Hn as Hn0 Hn. injection Hs as Hs0 Hs.
  destruct Ht as [<- | Ht].
  - apply (tab_done_ext t0 t0' _ Hs0). rewrite <- Hn0.
    apply Hd. left. reflexivity.
  - apply (IH rest' Hn Hs); [| exact Ht].
    intros t' Ht'. apply Hd. right. exact Ht'.
Qed.

Lemma tabs_buttons_ext (tabs : list ScriptTab) :
  forall tabs',
    map scriptPanels tabs' = map scriptPanels tabs ->
    tabs_buttons tabs' = tabs_buttons tabs.
Proof.
  induction tabs as [| t r IH]; intros [| t' r'] Hs; try discriminate;
    [reflexivity |].
  simpl in Hs. injection Hs as Hs0 Hs. simpl.
  unfold get_sorted_scriptpanels. rewrite Hs0, (IH r' Hs). reflexivity.
Qed.

Lemma foldr_zero {A} (l : list A) :
  foldr (fun _ n => (0 + n)%nat) 0%nat l = 0%nat.
Proof. induction l; simpl; auto. Qed.

Lemma acc_step_from_acc0 (P : uiop -> bool) (dn du : nat) (a : Acc) :
  acc_step P dn du acc0 a ->
  newbuttoncount a = dn /\ updatedbuttoncount a = du
  /\ forallb P (oplog a) = true.
Proof.
  intros (Hn & Hu & l & Hl & HP). simpl in *.
  rewrite Hl. auto.
Qed.

Lemma forallb_existsb_false (P Q : uiop -> bool) (l : list uiop) :
  (forall o, P o = true -> Q o = false) ->
  forallb P l = true -> existsb Q l = false.
Proof.
  intros HPQ. induction l as [| o r IH]; simpl; [reflexivity |].
  intros H. apply andb_prop in H as [Ho Hr].
  rewrite (HPQ o Ho), (IH Hr). reflexivity.
Qed.

(** The first run on an empty ribbon creates everything; the ribbon it
    leaves has every panel ready for a second run. *)
Lemma first_run (asm : string) (tabs : list ScriptTab) :
  wf_tabs tabs = true ->
  exists ui1,
    createpyrevitui asm tabs ∅ = (ui1, None)
    /\ acc_step is_create (tabs_buttons tabs) 0 acc0 (ui_acc ui1)
    /\ forall t, In t tabs -> tab_done t (ribbon ui1 !! tabName t).
Proof.
  intros Hwf. unfold wf_tabs in Hwf. apply andb_prop in Hwf as [Hnd Hwf].
  apply bool_decide_eq_true in Hnd.
  destruct (create_panels_first tabs {| ribbon := ∅; ui_acc := acc0 |}
              Hnd Hwf)
    as (tabs' & uiA & HrunA & Hnames & Hpanels & HpostA & _ & HaA).
  { intros t _. apply lookup_empty. }
  destruct (independent_tabs (createui_tab asm)
              (fun t o => tab_tree_ok t = true /\ tab_created t o)
              (fun t o => tab_tree_ok t = true /\ tab_done t o)
              is_create
              (fun t => panels_buttons (get_sorted_scriptpanels t))
              (fun _ => 0%nat)
              (tab_first asm) tabs' uiA)
    as (ui1 & HrunB & HpostB & _ & HaB).
  { rewrite Hnames. exact Hnd. }
  { exact HpostA. }
  exists ui1. unfold createpyrevitui, createui. rewrite HrunA.
  split; [exact HrunB |]. split.
  - rewrite foldr_zero in HaB.
    fold (tabs_buttons tabs') in HaB.
    rewrite (tabs_buttons_ext tabs tabs' Hpanels) in HaB.
    apply (acc_step_eq is_create (0 + tabs_buttons tabs) (0 + 0));
      [reflexivity .. |].
    eapply acc_step_trans; eassumption.
  - apply (tab_done_transfer (ribbon ui1) tabs tabs' Hnames Hpanels).
    intros t' Ht'. apply HpostB, Ht'.
Qed.

(** A run on a ribbon that an earlier run left ready finds everything. *)
Lemma second_run (asm : string) (tabs : list ScriptTab) (r : Ribbon) :
  wf_tabs tabs = true ->
  (forall t, In t tabs -> tab_done t (r !! tabName t)) ->
  exists ui2,
    createpyrevitui asm tabs r = (ui2, None)
    /\ acc_step is_update 0 (tabs_buttons tabs) acc0 (ui_acc ui2).
Proof.
  intros Hwf Hdone. unfold wf_tabs in Hwf.
  apply andb_prop in Hwf as [Hnd Hwf]. apply bool_decide_eq_true in Hnd.
  destruct (find_panels_again tabs {| ribbon := r; ui_acc := acc0 |}
              Hwf Hdone)
    as (tabs' & HrunA & Hnames & Hpanels & HpostA).
  destruct (independent_tabs (createui_tab asm)
              (fun t o => tab_tree_ok t = true /\ tab_found t o)
              (fun _ _ => True)
              is_update
              (fun _ => 0%nat)
              (fun t => panels_buttons (get_sorted_scriptpanels t))
              (tab_second asm) tabs' {| ribbon := r; ui_acc := acc0 |})
    as (ui2 & HrunB & _ & _ & HaB).
  { rewrite Hnames. exact Hnd. }
  { exact HpostA. }
  exists ui2. unfold createpyrevitui, createui. rewrite HrunA.
  split; [exact HrunB |].
  rewrite foldr_zero in HaB. fold (tabs_buttons tabs') in HaB.
  rewrite (tabs_buttons_ext tabs tabs' Hpanels) in HaB. exact HaB.
Qed.

(** C1, as stated, fails. From an empty ribbon, a [Stack3] group of two
    commands is counted as two buttons created on the first run and again
    on the second, where nothing is updated; and an item that no group
    stands for is disabled by every run, the second included. *)
Lemma C1_counterexample :
  (let run1 := createpyrevitui "assembly1"
                 (discovered_tabs home_stack_of_two) ∅ in
   let run2 := createpyrevitui "assembly2"
                 (discovered_tabs home_stack_of_two) (ribbon run1.1) in
   run1.2 = None /\ newbuttoncount (ui_acc run1.1) = 2%nat
   /\ run2.2 = None /\ newbuttoncount (ui_acc run2.1) = 2%nat
   /\ updatedbuttoncount (ui_acc run2.1) = 0%nat)
  /\ (let run1 := createpyrevitui "assembly1"
                    (discovered_tabs home_regular) ribbon_with_orphan in
      let run2 := createpyrevitui "assembly2"
                    (discovered_tabs home_regular) (ribbon run1.1) in
      run1.2 = None /\ run2.2 = None
      /\ In (OpDisableItem ("X", "P") "Old") (oplog (ui_acc run2.1))).
Proof.
  split.
  - vm_compute. repeat split.
  - vm_compute. repeat split. auto 10.
Qed.

(** C1 (amended): for a desired tree in which tab names differ, every tab
    with a panel has a command, the panels of a tab have different names,
    the ribbon item names used in a panel differ, the class names inside a
    pulldown or split group differ and every [Stack3] group has exactly
    three commands, the run on an empty live ribbon completes, counts every
    button as created and none as updated, and disables nothing; the second
    run, on the ribbon the first one left and with the same tree, completes,
    counts no button as created and every button as updated, and its log
    holds updates only: no create and no disable. *)
Theorem C1_second_run_updates (asm1 asm2 : string) (tabs : list ScriptTab) :
  wf_tabs tabs = true ->
  exists ui1 ui2,
    createpyrevitui asm1 tabs ∅ = (ui1, None)
    /\ newbuttoncount (ui_acc ui1) = tabs_buttons tabs
    /\ updatedbuttoncount (ui_acc ui1) = 0%nat
    /\ forallb is_create (oplog (ui_acc ui1)) = true
    /\ existsb is_disable (oplog (ui_acc ui1)) = false
    /\ createpyrevitui asm2 tabs (ribbon ui1) = (ui2, None)
    /\ newbuttoncount (ui_acc ui2) = 0%nat
    /\ updatedbuttoncount (ui_acc ui2) = tabs_buttons tabs
    /\ forallb is_update (oplog (ui_acc ui2)) = true
    /\ existsb is_create (oplog (ui_acc ui2)) = false
    /\ existsb is_disable (oplog (ui_acc ui2)) = false.
Proof.
  intros Hwf.
  destruct (first_run asm1 tabs Hwf) as (ui1 & Hrun1 & Ha1 & Hdone).
  destruct (second_run asm2 tabs (ribbon ui1) Hwf Hdone)
    as (ui2 & Hrun2 & Ha2).
  apply acc_step_from_acc0 in Ha1 as (Hn1 & Hu1 & Hl1).
  apply acc_step_from_acc0 in Ha2 as (Hn2 & Hu2 & Hl2).
  exists ui1, ui2.
  split; [exact Hrun1 |]. split; [exact Hn1 |]. split; [exact Hu1 |].
  split; [exact Hl1 |]. split.
  { apply (forallb_existsb_false is_create); [| exact Hl1].
    intros []; simpl; congruence. }
  split; [exact Hrun2 |]. split; [exact Hn2 |]. split; [exact Hu2 |].
  split; [exact Hl2 |]. split.
  - apply (forallb_existsb_false is_update); [| exact Hl2].
    intros []; simpl; congruence.
  - apply (forallb_existsb_false is_update); [| exact Hl2].
    intros []; simpl; congruence.
Qed.

Lemma C1_second_run_updates_witness :
  tabs_buttons (discovered_tabs home_regular) = 6%nat
  /\ exists ui1 ui2,
       createpyrevitui "assembly1" (discovered_tabs home_regular) ∅
       = (ui1, None)
       /\ newbuttoncount (ui_acc ui1)
          = tabs_buttons (discovered_tabs home_regular)
       /\ updatedbuttoncount (ui_acc ui1) = 0%nat
       /\ forallb is_create (oplog (ui_acc ui1)) = true
       /\ existsb is_disable (oplog (ui_acc ui1)) = false
       /\ createpyrevitui "assembly2" (discovered_tabs home_regular)
            (ribbon ui1) = (ui2, None)
       /\ newbuttoncount (ui_acc ui2) = 0%nat
       /\ updatedbuttoncount (ui_acc ui2)
          = tabs_buttons (discovered_tabs home_regular)
       /\ forallb is_update (oplog (ui_acc ui2)) = true
       /\ existsb is_create (oplog (ui_acc ui2)) = false
       /\ existsb is_disable (oplog (ui_acc ui2)) = false.
Proof.
  split; [vm_compute; reflexivity |].
  apply (C1_second_run_updates "assembly1" "assembly2"
           (discovered_tabs home_regular)).
  vm_compute. reflexivity.
Defined.

(** ** Strings: splitting, replacing, and the names decoded from files *)

(** [c in s] for a character. *)
Lemma contains_char_cons (c a : ascii) (r : string) :
  Py.contains (String c "") (String a r)
  = Py.ascii_eqb c a || Py.contains (String c "") r.
Proof.
  simpl. destruct r; simpl; rewrite andb_true_r; reflexivity.
Qed.

Lemma contains_char_nil (c : ascii) : Py.contains (String c "") "" = false.
Proof. reflexivity. Qed.

Lemma contains_char_app (c : ascii) (a b : string) :
  Py.contains (String c "") (a +:+ b)
  = Py.contains (String c "") a || Py.contains (String c "") b.
Proof.
  induction a as [| x a IH].
  - reflexivity.
  - change (String x a +:+ b) with (String x (a +:+ b)).
    rewrite !contains_char_cons, IH, orb_assoc. reflexivity.
Qed.

Lemma contains_char_drop (c : ascii) (n : nat) : forall s,
  Py.contains (String c "") (Py.drop n s) = true ->
  Py.contains (String c "") s = true.
Proof.
  induction n as [| n IH]; intros s H; [destruct s; exact H |].
  destruct s as [| a r]; [exact H |].
  rewrite contains_char_cons. apply orb_true_iff. right.
  apply IH. exact H.
Qed.

(** Joining the pieces of a split with the separator gives the string
    back. *)
Lemma split_nonempty (sep : ascii) (s : string) : Py.split sep s <> [].
Proof.
  destruct s as [| c r]; simpl; [discriminate |].
  destruct (Py.ascii_eqb c sep); [discriminate |].
  destruct (Py.split sep r); discriminate.
Qed.

Lemma concat_split (sep : ascii) (s : string) :
  String.concat (String sep "") (Py.split sep s) = s.
Proof.
  induction s as [| c r IH]; [reflexivity |].
  simpl. destruct (Py.ascii_eqb c sep) eqn:E.
  - apply Ascii.eqb_eq in E. subst c.
    destruct (Py.split sep r) as [| w ws] eqn:Es;
      [exfalso; exact (split_nonempty sep r Es) |].
    change (String.concat (String sep "") ("" :: w :: ws))
      with (String sep (String.concat (String sep "") (w :: ws))).
    rewrite IH. reflexivity.
  - destruct (Py.split sep r) as [| w ws] eqn:Es;
      [exfalso; exact (split_nonempty sep r Es) |].
    rewrite <- IH. destruct ws; reflexivity.
Qed.

(** No piece of a split holds the separator. *)
Lemma split_pieces (sep : ascii) (s : string) :
  Forall (fun w => Py.contains (String sep "") w = false) (Py.split sep s).
Proof.
  induction s as [| c r IH]; simpl.
  - repeat constructor.
  - destruct (Py.ascii_eqb c sep) eqn:E.
    + constructor; [reflexivity | exact IH].
    + destruct (Py.split sep r) as [| w ws]; [repeat constructor |].
      * rewrite contains_char_cons.
        unfold Py.ascii_eqb in *. rewrite Ascii.eqb_sym, E. reflexivity.
      * inversion IH as [| ? ? Hw Hws]; subst. constructor; [| exact Hws].
        rewrite contains_char_cons.
        unfold Py.ascii_eqb in *. rewrite Ascii.eqb_sym, E. exact Hw.
Qed.

(** The characters of [s.replace(old, new)] come from [s] or from [new]. *)
Lemma replace_aux_chars (c : ascii) (old new : string) (fuel : nat) :
  forall s,
    Py.contains (String c "") (Py.replace_aux fuel old new s) = true ->
    Py.contains (String c "") s = true
    \/ Py.contains (String c "") new = true.
Proof.
  induction fuel as [| f IH]; intros s H; [left; exact H |].
  destruct s as [| a r]; [left; exact H |].
  cbn [Py.replace_aux] in H.
  destruct (Py.startswith old (String a r)).
  - rewrite contains_char_app in H. apply orb_true_iff in H as [H | H];
      [right; exact H |].
    destruct (IH _ H) as [H' | H']; [left | right; exact H'].
    apply (contains_char_drop c (String.length old)). exact H'.
  - rewrite contains_char_cons in H. apply orb_true_iff in H as [H | H].
    + left. rewrite contains_char_cons, H. reflexivity.
    + destruct (IH _ H) as [H' | H']; [left | right; exact H'].
      rewrite contains_char_cons, H'. apply orb_true_r.
Qed.

Lemma replace_chars (c : ascii) (old new s : string) :
  Py.contains (String c "") s = false ->
  Py.contains (String c "") new = false ->
  Py.contains (String c "") (Py.replace old new s) = false.
Proof.
  intros Hs Hn. unfold Py.replace. destruct old as [| o old']; [exact Hs |].
  destruct (Py.contains (String c "") (Py.replace_aux _ _ _ _)) eqn:E;
    [| reflexivity].
  destruct (replace_aux_chars c _ _ _ _ E); congruence.
Qed.

(** Replacing a character by a text without it leaves no occurrence. *)
Lemma replace_aux_char_gone (c : ascii) (new : string) (fuel : nat) :
  Py.contains (String c "") new = false ->
  forall s, (String.length s <= fuel)%nat ->
    Py.contains (String c "") (Py.replace_aux fuel (String c "") new s)
    = false.
Proof.
  intros Hn. induction fuel as [| f IH]; intros s Hl.
  - destruct s; [reflexivity | simpl in Hl; lia].
  - destruct s as [| a r]; [reflexivity |].
    cbn [Py.replace_aux]. simpl in Hl.
    cbn [Py.startswith]. destruct (Py.ascii_eqb c a) eqn:E.
    + replace (Py.startswith "" r) with true by (destruct r; reflexivity).
      cbn [andb String.length Py.drop].
      rewrite contains_char_app, Hn. cbn [orb].
      apply IH. destruct r; simpl in *; lia.
    + cbn [andb]. rewrite contains_char_cons, E. cbn [orb].
      apply IH. lia.
Qed.

Lemma replace_char_gone (c : ascii) (new s : string) :
  Py.contains (String c "") new = false ->
  Py.contains (String c "") (Py.replace (String c "") new s) = false.
Proof.
  intros Hn. unfold Py.replace. apply replace_aux_char_gone; [exact Hn | lia].
Qed.

Lemma take_drop (n : nat) : forall s, Py.take n s +:+ Py.drop n s = s.
Proof.
  induction n as [| n IH]; intros [| a r]; try reflexivity.
  change (String a (Py.take n r +:+ Py.drop n r) = String a r).
  rewrite IH. reflexivity.
Qed.

Lemma append_empty_r (s : string) : s +:+ "" = s.
Proof.
  induction s as [| a r IH]; [reflexivity |].
  change (String a (r +:+ "") = String a r). rewrite IH. reflexivity.
Qed.

(** [op.splitext] cuts the name in two. *)
Lemma splitext_app (s : string) :
  (Py.splitext s).1 +:+ (Py.splitext s).2 = s.
Proof.
  unfold Py.splitext. destruct (Py.rfind "." s) as [i |]; simpl.
  - destruct (Py.all_dots (Py.take i s)); simpl.
    + apply append_empty_r.
    + apply take_drop.
  - apply append_empty_r.
Qed.

(** What an accepted script file name says about the command. *)
Lemma ScriptCommand_init_Ok xp (siblings : list string)
    (filedir f tabname : string) (cmd : ScriptCommand) :
  ScriptCommand_init xp siblings filedir f tabname = Ok cmd ->
  let fname := custom_name (Py.splitext (Py.basename f)).1 tabname in
  negb (Py.startswith "_" fname)
  && String.eqb ".py" (Py.lower (Py.splitext (Py.basename f)).2) = true
  /\ Py.rsplit "_" fname = [scriptGroupName cmd; cmdName cmd]
  /\ cmd_filePath cmd = filedir /\ cmd_fileName cmd = f
  /\ cmd_tabName cmd = tabname
  /\ className cmd
     = clean_classname (tabname +:+ scriptGroupName cmd +:+ cmdName cmd).
Proof.
  unfold ScriptCommand_init.
  destruct (Py.splitext (Py.basename f)) as [fname0 fext]. simpl.
  destruct (negb _ && _); [| discriminate].
  destruct (Py.rsplit "_" (custom_name fname0 tabname))
    as [| g [| c [| ? ?]]]; simpl; try discriminate.
  intros H. injection H as <-. simpl. auto 10.
Qed.

(** The name under which a smart button imports its script, and the address
    compiled into the command class: [getscriptbasename] gives back the base
    name the command was decoded from (after the adjustment of the init
    script's name) and [getfullscriptaddress] the file it was found as; for
    a script outside the master tab the base name and the extension make up
    the file name. *)
Theorem script_basename_roundtrip xp (siblings : list string)
    (filedir f tabname : string) (cmd : ScriptCommand) :
  ScriptCommand_init xp siblings filedir f tabname = Ok cmd ->
  getscriptbasename cmd
  = custom_name (Py.splitext (Py.basename f)).1 tabname
  /\ getfullscriptaddress cmd = path_join filedir f
  /\ (tabname <> sessionSettings.masterTabName ->
      getscriptbasename cmd +:+ (Py.splitext (Py.basename f)).2
      = Py.basename f).
Proof.
  intros H. apply ScriptCommand_init_Ok in H.
  destruct H as (_ & Hs & Hp & Hf & _ & _).
  assert (Hb : getscriptbasename cmd
               = custom_name (Py.splitext (Py.basename f)).1 tabname).
  { rewrite <- (concat_split "_" (custom_name _ tabname)).
    unfold Py.rsplit in Hs. rewrite Hs. reflexivity. }
  split; [exact Hb |]. split.
  - unfold getfullscriptaddress. rewrite Hp, Hf. reflexivity.
  - intros Hm. rewrite Hb. unfold custom_name.
    replace (String.eqb tabname sessionSettings.masterTabName) with false.
    + rewrite andb_false_r. apply splitext_app.
    + symmetry. apply String.eqb_neq. exact Hm.
Qed.

Lemma script_basename_roundtrip_witness :
  exists cmd,
    ScriptCommand_init no_metadata ["Tools_Measure.py"] "home\X.tab"
      "Tools_Measure.py" "X" = Ok cmd
    /\ getscriptbasename cmd = "Tools_Measure"
    /\ getfullscriptaddress cmd = "home\X.tab\Tools_Measure.py".
Proof.
  eexists. split; [vm_compute; reflexivity |].
  destruct (script_basename_roundtrip no_metadata ["Tools_Measure.py"]
              "home\X.tab" "Tools_Measure.py" "X" _ eq_refl) as (H1 & H2 & _).
  split; [exact H1 | exact H2].
Defined.

Ltac break_match_in H :=
  unfold bind in H;
  repeat match type of H with
         | context [match ?x with _ => _ end] =>
             lazymatch x with
             | context [match _ with _ => _ end] => fail
             | _ => destruct x eqn:?; simpl in H; try discriminate H
             end
         end.

(** The group name and the group type of a decoded group are pieces of the
    descriptor's base name (or were left at their initial values). *)
Lemma ScriptGroup_init_pieces asm (filedir f tabname bundled : string)
    (g : ScriptGroup) :
  ScriptGroup_init asm filedir f tabname bundled = Ok g ->
  (groupName g = ""
   \/ In (groupName g) (Py.split "_" (Py.splitext (Py.basename f)).1))
  /\ forall t, groupType g = Some t ->
               In t (Py.split "_" (Py.splitext (Py.basename f)).1).
Proof.
  unfold ScriptGroup_init, Py.rsplit.
  destruct (Py.splitext (Py.basename f)) as [fname fext]. simpl.
  destruct (ScriptGroup_isdescriptorfile fname fext); [| discriminate].
  destruct (Py.split "_" fname)
    as [| p0 [| p1 [| p2 [| p3 [| p4 [| p5 [| p6 l]]]]]]];
    simpl; intros H; break_match_in H;
    injection H as <-; simpl;
    (split; [auto 10 | intros t Ht; try discriminate Ht;
                       injection Ht as <-; auto 10]).
Qed.

Lemma ScriptPanel_init_pieces (tabdir f tabname : string) (p : ScriptPanel) :
  ScriptPanel_init tabdir f tabname false = Ok p ->
  In (panelName p) (Py.split "_" (Py.splitext (Py.basename f)).1).
Proof.
  unfold ScriptPanel_init, Py.rsplit.
  destruct (Py.splitext (Py.basename f)) as [fname fext]. simpl.
  destruct (ScriptPanel_isdescriptorfile fname fext); [| discriminate].
  destruct (_ || _); [| discriminate].
  destruct (Py.split "_" fname) as [| p0 [| p1 l]];
    simpl; intros H; try discriminate H.
  break_match_in H; injection H as <-; simpl; auto.
Qed.

Lemma split_piece_clean (sep : ascii) (s w : string) :
  In w (Py.split sep s) -> Py.contains (String sep "") w = false.
Proof.
  intros H. exact (proj1 (List.Forall_forall _ _) (split_pieces sep s) w H).
Qed.

(** No name decoded from a file name holds an underscore: not the group
    name and command name of a script, not the name and type of a group,
    not the name of a panel given by a descriptor file. *)
Theorem decoded_names_without_underscore :
  (forall xp siblings filedir f tabname cmd,
      ScriptCommand_init xp siblings filedir f tabname = Ok cmd ->
      Py.contains "_" (scriptGroupName cmd) = false
      /\ Py.contains "_" (cmdName cmd) = false)
  /\ (forall asm filedir f tabname bundled g,
         ScriptGroup_init asm filedir f tabname bundled = Ok g ->
         Py.contains "_" (groupName g) = false
         /\ forall t, groupType g = Some t -> Py.contains "_" t = false)
  /\ (forall tabdir f tabname p,
         ScriptPanel_init tabdir f tabname false = Ok p ->
         Py.contains "_" (panelName p) = false).
Proof.
  split; [| split].
  - intros xp siblings filedir f tabname cmd H.
    apply ScriptCommand_init_Ok in H. destruct H as (_ & Hs & _).
    unfold Py.rsplit in Hs.
    split;
      apply (split_piece_clean "_"
               (custom_name (Py.splitext (Py.basename f)).1 tabname));
      rewrite Hs; simpl; auto.
  - intros asm filedir f tabname bundled g H.
    apply ScriptGroup_init_pieces in H. destruct H as [Hn Ht]. split.
    + destruct Hn as [-> | Hn]; [reflexivity |].
      exact (split_piece_clean "_" _ _ Hn).
    + intros t E. exact (split_piece_clean "_" _ _ (Ht t E)).
  - intros tabdir f tabname p H.
    exact (split_piece_clean "_" _ _ (ScriptPanel_init_pieces _ _ _ _ H)).
Qed.

Lemma decoded_names_without_underscore_witness :
  exists g,
    ScriptGroup_init no_assemblies "home\X.tab" "1005_Tools_PulldownButton_Edit.png"
      "X" "" = Ok g
    /\ groupName g = "Edit"
    /\ Py.contains "_" (groupName g) = false.
Proof.
  eexists. split; [vm_compute; reflexivity |]. split; [reflexivity |].
  destruct decoded_names_without_underscore as (_ & H & _).
  exact (proj1 (H no_assemblies "home\X.tab"
                  "1005_Tools_PulldownButton_Edit.png" "X" "" _ eq_refl)).
Defined.

(** The user name that goes into the name of the session assembly holds
    no [@] and no dot, whatever the host reports. *)
Theorem get_username_clean (uname : string) :
  Py.contains "@" (get_username uname) = false
  /\ Py.contains "." (get_username uname) = false.
Proof.
  unfold get_username. split.
  - apply replace_chars; [| reflexivity].
    pose proof (split_pieces "@" uname) as HF.
    destruct (Py.split "@" uname) as [| w ws] eqn:E;
      [exfalso; exact (split_nonempty "@" uname E) |].
    inversion HF; subst. assumption.
  - apply replace_char_gone. reflexivity.
Qed.

(** *** Class names *)

Lemma replace_specialcharacters_keeps (c : ascii)
    (table : list (string * string)) :
  Forall (fun e => Py.contains (String c "") e.2 = false) table ->
  forall s, Py.contains (String c "") s = false ->
            Py.contains (String c "") (replace_specialcharacters table s)
            = false.
Proof.
  unfold replace_specialcharacters.
  induction 1 as [| [k r] rest Hr _ IH]; intros s Hs; [exact Hs |].
  simpl. apply IH. apply replace_chars; [exact Hs | exact Hr].
Qed.

Lemma replace_specialcharacters_removes (c : ascii) (repl : string)
    (table : list (string * string)) :
  Forall (fun e => Py.contains (String c "") e.2 = false) table ->
  In (String c "", repl) table ->
  forall s, Py.contains (String c "") (replace_specialcharacters table s)
            = false.
Proof.
  induction 1 as [| [k r] rest Hr Hrest IH]; intros Hin s; [contradiction |].
  destruct Hin as [E | Hin].
  - injection E as -> ->.
    apply (replace_specialcharacters_keeps c rest Hrest).
    apply replace_char_gone. exact Hr.
  - exact (IH Hin _).
Qed.

(** No replacement text of the table holds a character that the table
    replaces. *)
Lemma specialcharacters_replacements (c : ascii) (repl : string) :
  In (String c "", repl) sessionSettings.specialcharacters ->
  Forall (fun e => Py.contains (String c "") e.2 = false)
         sessionSettings.specialcharacters.
Proof.
  unfold sessionSettings.specialcharacters. intros H.
  repeat (destruct H as [H | H];
          [ try discriminate H; injection H as <- <-;
            repeat constructor
          | ]).
  contradiction.
Qed.

Lemma clean_classname_eq (s : string) :
  clean_classname s
  = replace_specialcharacters sessionSettings.specialcharacters s.
Proof. unfold clean_classname, replace_specialcharacters. reflexivity. Qed.

(** The class name of a command holds none of the characters that the
    table of special characters replaces, in whatever order the dictionary
    is iterated. *)
Theorem classname_without_special_characters (c : ascii) (repl : string) :
  In (String c "", repl) sessionSettings.specialcharacters ->
  (forall table s,
      table ≡ₚ sessionSettings.specialcharacters ->
      Py.contains (String c "") (replace_specialcharacters table s) = false)
  /\ forall xp siblings filedir f tabname cmd,
       ScriptCommand_init xp siblings filedir f tabname = Ok cmd ->
       Py.contains (String c "") (className cmd) = false.
Proof.
  intros Hin.
  assert (Hall : forall table s,
             table ≡ₚ sessionSettings.specialcharacters ->
             Py.contains (String c "") (replace_specialcharacters table s)
             = false).
  { intros table s Hp.
    apply (replace_specialcharacters_removes c repl).
    - rewrite Hp. exact (specialcharacters_replacements c repl Hin).
    - rewrite Hp. exact Hin. }
  split; [exact Hall |].
  intros xp siblings filedir f tabname cmd H.
  apply ScriptCommand_init_Ok in H. destruct H as (_ & _ & _ & _ & _ & ->).
  rewrite clean_classname_eq.
  apply Hall. reflexivity.
Qed.

Lemma classname_without_special_characters_witness :
  clean_classname "My Tab.Tools-Measure" = "MyTabDOTToolsMINUSMeasure"
  /\ Py.contains "-"
       (replace_specialcharacters (rev sessionSettings.specialcharacters)
          "My Tab.Tools-Measure") = false.
Proof.
  split; [vm_compute; reflexivity |].
  apply (proj1 (classname_without_special_characters "-" "MINUS"
                  ltac:(vm_compute; tauto))).
  symmetry. apply Permutation_rev.
Defined.

(** A replacement whose first character does not occur changes nothing. *)
Lemma replace_aux_absent (c : ascii) (old new : string) (fuel : nat) :
  forall s, Py.contains (String c "") s = false ->
            Py.replace_aux fuel (String c old) new s = s.
Proof.
  induction fuel as [| n IH]; intros s Hs; [reflexivity |].
  destruct s as [| a r]; [reflexivity |].
  rewrite contains_char_cons in Hs. apply orb_false_iff in Hs as [Ha Hr].
  cbn [Py.replace_aux Py.startswith]. rewrite Ha. cbn [andb].
  rewrite (IH r Hr). reflexivity.
Qed.

(** The first characters of the keys of the table. *)
Lemma replace_specialcharacters_id (table : list (string * string))
    (s : string) :
  forallb (fun e => match e.1 with
                    | String c _ => negb (Py.contains (String c "") s)
                    | EmptyString => true
                    end) table = true ->
  replace_specialcharacters table s = s.
Proof.
  unfold replace_specialcharacters.
  induction table as [| [k r] rest IH]; intros H; [reflexivity |].
  simpl in H. apply andb_prop in H as [Hk Hrest]. simpl.
  assert (E : Py.replace k r s = s).
  { destruct k as [| c k']; [reflexivity |].
    apply negb_true_iff in Hk. unfold Py.replace.
    apply replace_aux_absent. exact Hk. }
  rewrite E. exact (IH Hrest).
Qed.

(** A name in which no key of the table starts is left as it is by the
    replacements. The table lists the parentheses and the slash only behind
    a backslash, so a name without backslash keeps them. *)
Theorem classname_keeps_other_characters (s : string) :
  forallb (fun e => match e.1 with
                    | String c _ => negb (Py.contains (String c "") s)
                    | EmptyString => true
                    end) sessionSettings.specialcharacters = true ->
  clean_classname s = s.
Proof.
  intros H. rewrite clean_classname_eq.
  apply replace_specialcharacters_id. exact H.
Qed.

Lemma classname_keeps_other_characters_witness :
  clean_classname "Tab(1)/x" = "Tab(1)/x".
Proof.
  apply (classname_keeps_other_characters "Tab(1)/x").
  vm_compute. reflexivity.
Defined.

(** ** Discovery: what the session lists keep *)

Lemma session_grows_refl (s : Session) : session_grows s s.
Proof. unfold session_grows. split_and!; reflexivity. Qed.

Lemma session_grows_trans (s1 s2 s3 : Session) :
  session_grows s1 s2 -> session_grows s2 s3 -> session_grows s1 s3.
Proof.
  intros (A1 & B1 & C1 & D1) (A2 & B2 & C2 & D2).
  unfold session_grows. split_and!; etrans; eassumption.
Qed.

Lemma session_grows_command (s : Session) (c : ScriptCommand) :
  session_grows s (append_command s c).
Proof.
  unfold session_grows; simpl.
  split_and!; try reflexivity; apply prefix_app_r; reflexivity.
Qed.

Lemma session_grows_group (s : Session) (g : ScriptGroup) :
  session_grows s (append_group s g).
Proof.
  unfold session_grows; simpl.
  split_and!; try reflexivity; apply prefix_app_r; reflexivity.
Qed.

Lemma session_grows_panel (s : Session) (p : ScriptPanel) :
  session_grows s (append_panel s p).
Proof.
  unfold session_grows; simpl.
  split_and!; try reflexivity; apply prefix_app_r; reflexivity.
Qed.

(** Loops keep what every iteration keeps. *)
Lemma fold_left_inv {S A} (I : S -> Prop) (f : S -> A -> S) (l : list A) :
  (forall s x, I s -> I (f s x)) -> forall s, I s -> I (fold_left f l s).
Proof.
  intros Hf. induction l as [| x r IH]; intros s Hs; [exact Hs |].
  simpl. apply IH, Hf, Hs.
Qed.

Lemma for_each_inv {S A} (I : S -> Prop) (body : S -> A -> result S)
    (l : list A) :
  (forall s x s', I s -> body s x = Ok s' -> I s') ->
  forall s s', I s -> for_each body l s = Ok s' -> I s'.
Proof.
  intros Hb. induction l as [| x r IH]; intros s s' Hs H; simpl in H.
  - injection H as <-. exact Hs.
  - destruct (body s x) as [s1 |] eqn:E; [| discriminate H].
    simpl in H. exact (IH s1 s' (Hb _ _ _ Hs E) H).
Qed.

Lemma find_scriptcommands_grows xp (s : Session) (searchdir : string)
    (entries : list fsnode) (tabname : string) :
  session_grows s (find_scriptcommands xp s searchdir entries tabname).
Proof.
  unfold find_scriptcommands.
  apply (fold_left_inv (session_grows s)); [| apply session_grows_refl].
  intros s1 x H1. apply (session_grows_trans _ _ _ H1).
  unfold find_scriptcommands_step.
  destruct (Py.splitext (Py.basename x)) as [fname fext].
  destruct (_ && _); [| apply session_grows_refl].
  destruct (ScriptCommand_init _ _ _ _ _);
    [apply session_grows_command | apply session_grows_refl].
Qed.

Lemma find_scriptgroups_step_grows asm (searchdir : string)
    (entries : list fsnode) (tabname bundled : string)
    (s s' : Session) (x : string) :
  find_scriptgroups_step asm searchdir entries tabname bundled s x = Ok s' ->
  session_grows s s'.
Proof.
  unfold find_scriptgroups_step.
  destruct (Py.splitext (Py.basename x)) as [fname fext].
  destruct (_ && _).
  - destruct (ScriptGroup_init _ _ _ _ _) as [g | []]; intros H;
      try discriminate H; injection H as <-;
      [apply session_grows_group | apply session_grows_refl ..].
  - intros H. injection H as <-. apply session_grows_refl.
Qed.

Lemma find_scriptgroups_grows asm xp (s s' : Session) (searchdir : string)
    (entries : list fsnode) (tabname bundled : string) :
  find_scriptgroups asm xp s searchdir entries tabname bundled = Ok s' ->
  session_grows s s'.
Proof.
  unfold find_scriptgroups.
  apply (for_each_inv (session_grows s)).
  - intros s1 x s2 H1 H. apply (session_grows_trans _ _ _ H1).
    exact (find_scriptgroups_step_grows _ _ _ _ _ _ _ _ H).
  - apply find_scriptcommands_grows.
Qed.

(** The search for commands and groups leaves the panels alone. *)
Lemma find_scriptgroups_panels asm xp (s s' : Session) (searchdir : string)
    (entries : list fsnode) (tabname bundled : string) :
  find_scriptgroups asm xp s searchdir entries tabname bundled = Ok s' ->
  pyRevitScriptPanels s' = pyRevitScriptPanels s.
Proof.
  unfold find_scriptgroups.
  apply (for_each_inv
           (fun x => pyRevitScriptPanels x = pyRevitScriptPanels s)).
  - intros s1 x s2 H1. unfold find_scriptgroups_step.
    destruct (Py.splitext (Py.basename x)) as [fname fext].
    destruct (_ && _).
    + destruct (ScriptGroup_init _ _ _ _ _) as [g | []]; intros H;
        try discriminate H; injection H as <-; exact H1.
    + intros H. injection H as <-. exact H1.
  - unfold find_scriptcommands.
    apply (fold_left_inv
             (fun x => pyRevitScriptPanels x = pyRevitScriptPanels s));
      [| reflexivity].
    intros s1 x H1. unfold find_scriptcommands_step.
    destruct (Py.splitext (Py.basename x)) as [fname fext].
    destruct (_ && _); [| exact H1].
    destruct (ScriptCommand_init _ _ _ _ _); exact H1.
Qed.

Lemma adoptgroups_names (p : ScriptPanel) (gs : list ScriptGroup) :
  panelName (adoptgroups p gs) = panelName p
  /\ pnl_tabName (adoptgroups p gs) = pnl_tabName p.
Proof. rewrite adoptgroups_eq. split; reflexivity. Qed.

Lemma panels_unique_append (s : Session) (p : ScriptPanel) :
  panels_unique s ->
  (panelName p, pnl_tabName p)
    ∉ map (fun x => (panelName x, pnl_tabName x)) (pyRevitScriptPanels s) ->
  panels_unique (append_panel s p).
Proof.
  unfold panels_unique. simpl. intros Hn Hp.
  rewrite map_app. apply NoDup_app. split; [exact Hn |]. split.
  - intros x Hx Hx'. simpl in Hx'. apply list_elem_of_singleton in Hx'.
    subst x. exact (Hp Hx).
  - simpl. apply NoDup_singleton.
Qed.

Lemma find_scriptpanels_step_grows asm xp (tabdir : string)
    (entries : list fsnode) (tabname : string) (s s' : Session)
    (x : string) :
  find_scriptpanels_step asm xp tabdir entries tabname s x = Ok s' ->
  session_grows s s' /\ (panels_unique s -> panels_unique s').
Proof.
  unfold find_scriptpanels_step.
  destruct (Py.splitext (Py.basename x)) as [fname fext].
  set (bundled := _ && _ && _).
  destruct (bundled || _);
    [| intros H; injection H as <-; split; [apply session_grows_refl | auto]].
  destruct (ScriptPanel_init _ _ _ _) as [p | e].
  - intros H.
    assert (Hg : exists s1,
               (if bundled
                then find_scriptgroups asm xp s (path_join tabdir x)
                       (subdir entries x) tabname (panelName p)
                else Ok s) = Ok s1
               /\ session_grows s s1
               /\ pyRevitScriptPanels s1 = pyRevitScriptPanels s).
    { destruct bundled.
      - destruct (find_scriptgroups _ _ _ _ _ _ _) as [s1 |] eqn:E;
          [| discriminate H].
        exists s1. split; [reflexivity |]. split.
        + exact (find_scriptgroups_grows _ _ _ _ _ _ _ _ E).
        + exact (find_scriptgroups_panels _ _ _ _ _ _ _ _ E).
      - exists s. split; [reflexivity |]. split;
          [apply session_grows_refl | reflexivity]. }
    destruct Hg as (s1 & E1 & Hg1 & Hp1). rewrite E1 in H. simpl in H.
    destruct (bool_decide _) eqn:Ed; injection H as <-.
    + split; [exact Hg1 |]. unfold panels_unique. rewrite Hp1. auto.
    + split.
      * exact (session_grows_trans _ _ _ Hg1 (session_grows_panel _ _)).
      * intros Hu. apply panels_unique_append.
        -- unfold panels_unique. rewrite Hp1. exact Hu.
        -- destruct (adoptgroups_names p (pyRevitScriptGroups s1))
             as [-> ->].
           apply bool_decide_eq_false in Ed. exact Ed.
  - destruct e; intros H; try discriminate H. injection H as <-.
    split; [apply session_grows_refl | auto].
Qed.

Lemma find_scriptpanels_grows asm xp (s s' : Session) (tabdir : string)
    (entries : list fsnode) (tabname : string) :
  find_scriptpanels asm xp s tabdir entries tabname = Ok s' ->
  session_grows s s' /\ (panels_unique s -> panels_unique s').
Proof.
  unfold find_scriptpanels.
  destruct (find_scriptgroups _ _ _ _ _ _ _) as [s1 |] eqn:E;
    [| discriminate].
  simpl. intros H.
  pose proof (find_scriptgroups_grows _ _ _ _ _ _ _ _ E) as Hg1.
  pose proof (find_scriptgroups_panels _ _ _ _ _ _ _ _ E) as Hp1.
  apply (for_each_inv
           (fun x => session_grows s x
                     /\ (panels_unique s -> panels_unique x)))
    with (s := s1) in H; [exact H | |].
  - intros a x b [Ha Hu] Hs.
    destruct (find_scriptpanels_step_grows _ _ _ _ _ _ _ _ Hs) as [Hb Hub].
    split; [exact (session_grows_trans _ _ _ Ha Hb) | auto].
  - split; [exact Hg1 |]. unfold panels_unique. rewrite Hp1. auto.
Qed.

(** *** Tabs *)

Lemma session_extends_refl (s : Session) : session_extends s s.
Proof. unfold session_extends. split_and!; reflexivity. Qed.

Lemma session_extends_trans (s1 s2 s3 : Session) :
  session_extends s1 s2 -> session_extends s2 s3 -> session_extends s1 s3.
Proof.
  intros (A1 & B1 & C1 & D1) (A2 & B2 & C2 & D2).
  unfold session_extends. split_and!; etrans; eassumption.
Qed.

Lemma adopt_panels_fields (t : ScriptTab) (ps : list ScriptPanel) :
  tabName (adopt_panels t ps) = tabName t
  /\ tabDirName (adopt_panels t ps) = tabDirName t
  /\ pyRevitUIPanels (adopt_panels t ps) = pyRevitUIPanels t
  /\ pyRevitUIButtons (adopt_panels t ps) = pyRevitUIButtons t.
Proof. rewrite adopt_panels_eq. repeat split. Qed.

Lemma adopt_panels_as_discovered (t : ScriptTab) (ps : list ScriptPanel) :
  tab_as_discovered t ->
  NoDup (map (fun p => (panelName p, pnl_tabName p)) ps) ->
  tab_as_discovered (adopt_panels t ps).
Proof.
  intros (Hn & Hd & Hp & Hu & Hb) Hps.
  destruct (adopt_panels_fields t ps) as (En & Ed & Eu & Eb).
  unfold tab_as_discovered. rewrite En, Ed, Eu, Eb.
  split_and!; try assumption.
  - apply adopt_panels_NoDup; assumption.
  - intros p Hin. apply adopt_panels_spec in Hin.
    destruct Hin as [Hin | (_ & Ht & _)]; [exact (Hp p Hin) | exact Ht].
Qed.

Lemma ScriptTab_init_as_discovered (tname tfolder : string) :
  tab_as_discovered (ScriptTab_init tname tfolder).
Proof.
  unfold tab_as_discovered. simpl. split_and!; try reflexivity.
  - apply NoDup_nil. trivial.
  - intros p [].
Qed.

Lemma find_scripttab_inv asm xp (s s' : Session)
    (fulltabpath dirName : string) (entries : list fsnode) :
  session_inv s ->
  find_scripttab asm xp s fulltabpath dirName entries = Ok s' ->
  session_extends s s' /\ session_inv s'.
Proof.
  intros (Hu & Hd & Ht). unfold find_scripttab.
  destruct (List.find _ (rev (pyRevitScriptTabs s))) as [t |] eqn:Ef.
  - apply List.find_some in Ef as [Hin Heq].
    apply in_rev in Hin. apply String.eqb_eq in Heq.
    destruct (find_scriptpanels _ _ _ _ _ _) as [s1 |] eqn:E;
      [| discriminate]. simpl. intros H. injection H as <-.
    destruct (find_scriptpanels_grows _ _ _ _ _ _ _ E)
      as [(A & B & C & D) Hu1].
    specialize (Hu1 Hu). unfold panels_unique in Hu1.
    assert (Hta : tab_as_discovered
                    (adopt_panels t (pyRevitScriptPanels s1))).
    { apply adopt_panels_as_discovered; [| exact Hu1].
      exact (proj1 (List.Forall_forall _ _) Ht t Hin). }
    assert (Hmap : map tabDirName
                     (map (fun x => if String.eqb (tabDirName x) dirName
                                    then adopt_panels t
                                           (pyRevitScriptPanels s1)
                                    else x) (pyRevitScriptTabs s1))
                   = map tabDirName (pyRevitScriptTabs s)).
    { rewrite D, map_map. apply map_ext. intros x.
      destruct (String.eqb (tabDirName x) dirName) eqn:Ex; [| reflexivity].
      apply String.eqb_eq in Ex.
      rewrite (proj1 (proj2 (adopt_panels_fields t _))). congruence. }
    split.
    + unfold session_extends. simpl. rewrite Hmap.
      split_and!; try assumption. reflexivity.
    + unfold session_inv, panels_unique. simpl. rewrite Hmap.
      split_and!; try assumption.
      rewrite D. apply List.Forall_forall. intros x Hx.
      apply in_map_iff in Hx as (y & <- & Hy).
      destruct (String.eqb (tabDirName y) dirName); [exact Hta |].
      exact (proj1 (List.Forall_forall _ _) Ht y Hy).
  - destruct (find_scriptpanels _ _ _ _ _ _) as [s1 |] eqn:E;
      [| discriminate]. simpl. intros H. injection H as <-.
    destruct (find_scriptpanels_grows _ _ _ _ _ _ _ E)
      as [(A & B & C & D) Hu1].
    specialize (Hu1 Hu). unfold panels_unique in Hu1.
    assert (Hfresh : ~ In dirName (map tabDirName (pyRevitScriptTabs s))).
    { intros Hin. apply in_map_iff in Hin as (y & Hy & Hin).
      apply in_rev in Hin.
      pose proof (List.find_none _ _ Ef y Hin) as Hn. simpl in Hn.
      apply String.eqb_neq in Hn. contradiction. }
    destruct (adopt_panels_fields (ScriptTab_init dirName fulltabpath)
                (pyRevitScriptPanels s1)) as (_ & Ed & _).
    split.
    + unfold session_extends. simpl. rewrite D, map_app.
      split_and!; try assumption. apply prefix_app_r. reflexivity.
    + unfold session_inv, panels_unique. simpl. rewrite D, map_app.
      split_and!; try assumption.
      * apply NoDup_app. split; [exact Hd |]. split.
        -- intros x Hx Hx'. simpl in Hx'.
           apply list_elem_of_singleton in Hx'. subst x.
           rewrite Ed in Hx. simpl in Hx.
           apply list_elem_of_In in Hx. contradiction.
        -- simpl. apply NoDup_singleton.
      * apply Forall_app. split; [exact Ht |].
        apply Forall_cons_2; [| apply Forall_nil_2].
        apply adopt_panels_as_discovered; [| exact Hu1].
        apply ScriptTab_init_as_discovered.
Qed.

(** Induction on a directory snapshot. *)
Lemma fsnode_nested_ind (P : fsnode -> Prop) :
  (forall n, P (FsFile n)) ->
  (forall n es, Forall P es -> P (FsDir n es)) ->
  forall e, P e.
Proof.
  intros Hf Hd. fix IH 1. intros [n | n es]; [apply Hf |].
  apply Hd.
  induction es as [| e r IHr]; [apply Forall_nil_2 |].
  apply Forall_cons_2; [apply IH | exact IHr].
Qed.

Section TabsInvariant.

Variables (asm : list Assembly) (xp : string -> string -> string -> string).
Variable I : Session -> Prop.
Hypothesis Htab :
  forall s s' fulltabpath dirName entries,
    I s -> find_scripttab asm xp s fulltabpath dirName entries = Ok s' ->
    I s'.

Lemma find_scripttabs_entry_inv (e : fsnode) :
  forall homeDir s s',
    I s -> find_scripttabs_entry asm xp homeDir e s = Ok s' -> I s'.
Proof.
  induction e as [n | n es IHes] using fsnode_nested_ind;
    intros homeDir s s' Hs H; simpl in H.
  - injection H as <-. exact Hs.
  - destruct (negb _ && Py.endswith _ _);
      [exact (Htab _ _ _ _ _ Hs H) |].
    destruct (negb _); [| injection H as <-; exact Hs].
    revert s Hs H. induction IHes as [| e r He _ IHr]; intros s Hs H.
    + injection H as <-. exact Hs.
    + destruct (find_scripttabs_entry asm xp _ e s) as [s1 |] eqn:E;
        [| discriminate H].
      simpl in H. exact (IHr s1 (He _ _ _ Hs E) H).
Qed.

Lemma find_scripttabs_inv (homeDir : string) (entries : list fsnode)
    (s s' : Session) :
  I s -> find_scripttabs asm xp s homeDir entries = Ok s' -> I s'.
Proof.
  unfold find_scripttabs. apply for_each_inv.
  intros a e b Ha H. exact (find_scripttabs_entry_inv e _ _ _ Ha H).
Qed.

End TabsInvariant.

Lemma find_scripttab_extends asm xp (s s' : Session)
    (fulltabpath dirName : string) (entries : list fsnode) :
  find_scripttab asm xp s fulltabpath dirName entries = Ok s' ->
  session_extends s s'.
Proof.
  unfold find_scripttab.
  destruct (List.find _ (rev (pyRevitScriptTabs s))) as [t |] eqn:Ef.
  - apply List.find_some in Ef as [_ Heq]. apply String.eqb_eq in Heq.
    destruct (find_scriptpanels _ _ _ _ _ _) as [s1 |] eqn:E;
      [| discriminate]. simpl. intros H. injection H as <-.
    destruct (find_scriptpanels_grows _ _ _ _ _ _ _ E)
      as [(A & B & C & D) _].
    unfold session_extends. simpl. split_and!; try assumption.
    rewrite D, map_map.
    erewrite map_ext; [reflexivity |]. intros x. simpl.
    destruct (String.eqb (tabDirName x) dirName) eqn:Ex; [| reflexivity].
    apply String.eqb_eq in Ex.
    rewrite (proj1 (proj2 (adopt_panels_fields t _))). congruence.
  - destruct (find_scriptpanels _ _ _ _ _ _) as [s1 |] eqn:E;
      [| discriminate]. simpl. intros H. injection H as <-.
    destruct (find_scriptpanels_grows _ _ _ _ _ _ _ E)
      as [(A & B & C & D) _].
    unfold session_extends. simpl. rewrite D, map_app.
    split_and!; try assumption. apply prefix_app_r. reflexivity.
Qed.

(** Discovery only appends: whatever the session held before
    [find_scripttabs] ran is still there afterwards, in the same order and
    in front of what was found: the commands, the groups, the panels, and
    the tabs by directory name. *)
Theorem discovery_only_appends asm xp (s s' : Session) (homeDir : string)
    (entries : list fsnode) :
  find_scripttabs asm xp s homeDir entries = Ok s' ->
  pyRevitScriptCommands s `prefix_of` pyRevitScriptCommands s'
  /\ pyRevitScriptGroups s `prefix_of` pyRevitScriptGroups s'
  /\ pyRevitScriptPanels s `prefix_of` pyRevitScriptPanels s'
  /\ map tabDirName (pyRevitScriptTabs s)
     `prefix_of` map tabDirName (pyRevitScriptTabs s').
Proof.
  intros H.
  apply (find_scripttabs_inv asm xp (session_extends s)) in H;
    [exact H | | apply session_extends_refl].
  intros a b path dir es Ha Hb.
  exact (session_extends_trans _ _ _ Ha
           (find_scripttab_extends _ _ _ _ _ _ _ Hb)).
Qed.

Lemma discovery_only_appends_witness :
  exists s s',
    discover no_assemblies no_metadata "loader" loader_dir "home"
      home_regular = Ok s
    /\ find_scripttabs no_assemblies no_metadata s "home" home_nested
       = Ok s'
    /\ pyRevitScriptCommands s `prefix_of` pyRevitScriptCommands s'
    /\ length (pyRevitScriptCommands s) = 7%nat
    /\ length (pyRevitScriptCommands s') = 10%nat.
Proof.
  eexists. eexists. split; [vm_compute; reflexivity |].
  split; [vm_compute; reflexivity |].
  split; [| split; reflexivity].
  refine (proj1 (discovery_only_appends no_assemblies no_metadata _ _
                   "home" home_nested _)).
  vm_compute. reflexivity.
Defined.

Lemma create_reload_button_grows xp (s : Session) (loaderDir : string)
    (entries : list fsnode) :
  session_grows s (create_reload_button xp s loaderDir entries)
  /\ pyRevitScriptPanels (create_reload_button xp s loaderDir entries)
     = pyRevitScriptPanels s.
Proof.
  unfold create_reload_button.
  apply (fold_left_inv
           (fun x => session_grows s x
                     /\ pyRevitScriptPanels x = pyRevitScriptPanels s)).
  - intros a x [Ha Hp].
    destruct (_ && _); [| split; assumption].
    destruct (ScriptCommand_init _ _ _ _ _); [| split; assumption].
    split; [| exact Hp].
    exact (session_grows_trans _ _ _ Ha (session_grows_command _ _)).
  - split; [apply session_grows_refl | reflexivity].
Qed.

Lemma discover_inv asm xp (loaderDir : string) (loaderEntries : list fsnode)
    (homeDir : string) (homeEntries : list fsnode) (s : Session) :
  discover asm xp loaderDir loaderEntries homeDir homeEntries = Ok s ->
  session_inv s.
Proof.
  unfold discover. intros H.
  apply (find_scripttabs_inv asm xp session_inv) in H; [exact H | |].
  - intros a b path dir es Ha Hb.
    exact (proj2 (find_scripttab_inv _ _ _ _ _ _ _ Ha Hb)).
  - destruct (create_reload_button_grows xp new_session loaderDir
                loaderEntries) as [(_ & _ & _ & Ht) Hp].
    unfold session_inv, panels_unique. rewrite Ht, Hp. simpl.
    split_and!; [apply NoDup_nil; trivial .. | apply Forall_nil_2].
Qed.

(** What discovery guarantees about the tree it returns: the tabs differ
    by directory name; the panels of the session differ by panel name and
    tab name; every tab is named after its directory, its panels carry its
    tab name and differ by panel name, and nothing of the live ribbon is
    attached to it yet. *)
Theorem discovered_tree_unique asm xp (loaderDir : string)
    (loaderEntries : list fsnode) (homeDir : string)
    (homeEntries : list fsnode) (s : Session) :
  discover asm xp loaderDir loaderEntries homeDir homeEntries = Ok s ->
  NoDup (map tabDirName (pyRevitScriptTabs s))
  /\ NoDup (map (fun p => (panelName p, pnl_tabName p))
                (pyRevitScriptPanels s))
  /\ Forall
       (fun t =>
          tabName t = Py.replace sessionSettings.tabPostfix "" (tabDirName t)
          /\ NoDup (map panelName (scriptPanels t))
          /\ (forall p, In p (scriptPanels t) -> pnl_tabName p = tabName t)
          /\ pyRevitUIPanels t = ∅ /\ pyRevitUIButtons t = ∅)
       (pyRevitScriptTabs s).
Proof.
  intros H. destruct (discover_inv _ _ _ _ _ _ _ H) as (Hu & Hd & Ht).
  split; [exact Hd |]. split; [exact Hu | exact Ht].
Qed.

Lemma discovered_tree_unique_witness :
  exists s,
    discover no_assemblies no_metadata "loader" loader_dir "home"
      home_nested = Ok s
    /\ map tabDirName (pyRevitScriptTabs s) = ["X.tab"]
    /\ map (fun t => map panelName (scriptPanels t)) (pyRevitScriptTabs s)
       = [["P"; "Q"]]
    /\ NoDup (map tabDirName (pyRevitScriptTabs s)).
Proof.
  eexists. split; [vm_compute; reflexivity |].
  split; [reflexivity |]. split; [reflexivity |].
  refine (proj1 (discovered_tree_unique no_assemblies no_metadata "loader"
                   loader_dir "home" home_nested _ _)).
  vm_compute. reflexivity.
Defined.

(** *** Entries that are never looked at *)

Lemma find_scripttabs_entry_hidden asm xp (homeDir : string) (e : fsnode)
    (s : Session) :
  visible_dir e = false ->
  find_scripttabs_entry asm xp homeDir e s = Ok s.
Proof.
  unfold visible_dir. destruct e as [n | n es]; [reflexivity |].
  simpl. intros H. rewrite H. reflexivity.
Qed.

(** Loose files and directories whose name starts with a dot or an
    underscore contribute nothing to the discovery: with or without them
    in the listing of the home directory the result is the same. *)
Theorem hidden_entries_ignored asm xp (s : Session) (homeDir : string)
    (entries : list fsnode) :
  find_scripttabs asm xp s homeDir (List.filter visible_dir entries)
  = find_scripttabs asm xp s homeDir entries.
Proof.
  unfold find_scripttabs. revert s.
  induction entries as [| e r IH]; intros s; [reflexivity |].
  simpl. destruct (visible_dir e) eqn:E.
  - simpl. destruct (find_scripttabs_entry asm xp homeDir e s);
      simpl; [apply IH | reflexivity].
  - rewrite (find_scripttabs_entry_hidden _ _ _ _ _ E). simpl. apply IH.
Qed.

(** ** The sorted children of a panel and of a tab *)

Section Stable.

Context {A : Type} (key : A -> Z).

Lemma sorted_insert_stable (k : Z) (x : A) (l : list A) :
  List.filter (fun y => key y =? k) (sorted_insert Z.leb key x l)
  = List.filter (fun y => key y =? k) (x :: l).
Proof.
  induction l as [| y r IH]; [reflexivity |].
  cbn [sorted_insert]. destruct (key x <=? key y) eqn:E; [reflexivity |].
  cbn [List.filter] in *. rewrite IH.
  destruct (key y =? k) eqn:Ey, (key x =? k) eqn:Ex; try reflexivity.
  apply Z.eqb_eq in Ey, Ex. apply Z.leb_gt in E. lia.
Qed.

Lemma sorted_by_stable (k : Z) (l : list A) :
  List.filter (fun y => key y =? k) (sorted_by Z.leb key l)
  = List.filter (fun y => key y =? k) l.
Proof.
  induction l as [| x r IH]; [reflexivity |].
  cbn [sorted_by]. rewrite sorted_insert_stable.
  cbn [List.filter]. rewrite IH. reflexivity.
Qed.

Lemma sorted_by_Z_sorted (l : list A) :
  StronglySorted (fun x y => key x <= key y) (sorted_by Z.leb key l).
Proof.
  pose proof (sorted_by_sorted Z.leb key Z_leb_total Z_leb_trans l) as H.
  induction H as [| x r Hr IH Hx]; constructor; [exact IH |].
  eapply List.Forall_impl; [| exact Hx].
  intros y Hy. unfold key_le in Hy. apply Z.leb_le. exact Hy.
Qed.

End Stable.

(** [get_sorted_scriptpanels] and [get_sorted_scriptgroups] return the
    children they were given, each once, in non-decreasing order of their
    sort key, and children of the same key in the order in which they were
    adopted. *)
Theorem sorted_children_stable (t : ScriptTab) (p : ScriptPanel) :
  (get_sorted_scriptpanels t ≡ₚ scriptPanels t
   /\ StronglySorted (fun x y => panelOrder x <= panelOrder y)
                     (get_sorted_scriptpanels t)
   /\ forall k, List.filter (fun x => panelOrder x =? k)
                            (get_sorted_scriptpanels t)
                = List.filter (fun x => panelOrder x =? k) (scriptPanels t))
  /\ (get_sorted_scriptgroups p ≡ₚ scriptGroups p
      /\ StronglySorted (fun x y => groupOrder x <= groupOrder y)
                        (get_sorted_scriptgroups p)
      /\ forall k, List.filter (fun x => groupOrder x =? k)
                               (get_sorted_scriptgroups p)
                   = List.filter (fun x => groupOrder x =? k)
                                 (scriptGroups p)).
Proof.
  unfold get_sorted_scriptpanels, get_sorted_scriptgroups.
  split; (split; [apply sorted_by_perm |]);
    (split; [apply sorted_by_Z_sorted | intros k; apply sorted_by_stable]).
Qed.

(** ** Reconciliation never removes *)

Lemma items_keep_refl (l : list RibbonItem) : items_keep l l.
Proof. split; [reflexivity | intros h; reflexivity]. Qed.

Lemma items_keep_trans (l1 l2 l3 : list RibbonItem) :
  items_keep l1 l2 -> items_keep l2 l3 -> items_keep l1 l3.
Proof.
  intros [A1 B1] [A2 B2]. split; [etrans; eassumption |].
  intros h. etrans; [apply B1 | apply B2].
Qed.

Lemma buttons_of_not_in (h : string) (l : list RibbonItem) :
  ~ In h (map ri_Name l) -> buttons_of h l = [].
Proof.
  intros Hn. unfold buttons_of.
  destruct (List.find _ l) as [b |] eqn:E; [| reflexivity].
  apply List.find_some in E as [Hin Heq]. apply String.eqb_eq in Heq.
  exfalso. apply Hn. apply in_map_iff. exists b. auto.
Qed.

Lemma items_keep_app (l bs : list RibbonItem) : items_keep l (l ++ bs).
Proof.
  split; [rewrite map_app; apply prefix_app_r; reflexivity |].
  intros h. destruct (in_dec string_dec h (map ri_Name l)) as [Hin | Hn].
  - rewrite (buttons_of_app_l h l bs Hin). reflexivity.
  - rewrite (buttons_of_not_in h l Hn). apply prefix_nil.
Qed.

Lemma items_keep_update_fields (h : string) (cls asm tip : option string)
    (en : option bool) (l : list RibbonItem) :
  items_keep l (update_ri h (set_ri_fields cls asm tip en) l).
Proof.
  split.
  - rewrite update_ri_names; [reflexivity |].
    intros b. apply set_ri_fields_name.
  - intros k. rewrite buttons_of_update_fields. reflexivity.
Qed.

Lemma items_keep_update_items (h : string) (bs : list PushButton)
    (l : list RibbonItem) :
  map pb_Name (buttons_of h l) `prefix_of` map pb_Name bs ->
  items_keep l (update_ri h (set_ri_Items bs) l).
Proof.
  intros Hp. split.
  - rewrite update_ri_names; [reflexivity |].
    intros b. apply set_ri_Items_name.
  - intros k. destruct (string_dec k h) as [-> | Hk].
    + destruct (in_dec string_dec h (map ri_Name l)) as [Hin | Hn].
      * rewrite (buttons_of_update_items h bs l Hin). exact Hp.
      * rewrite (update_ri_not_in h _ l Hn). reflexivity.
    + rewrite (buttons_of_update_ne k h _ l Hk); [reflexivity |].
      intros b. apply set_ri_Items_name.
Qed.

Lemma update_pb_names (h : string) (cls asm tip : option string)
    (en : option bool) (l : list PushButton) :
  map pb_Name (update_pb h (set_pb_fields cls asm tip en) l)
  = map pb_Name l.
Proof.
  unfold update_pb. rewrite map_map. apply map_ext. intros b.
  destruct (String.eqb (pb_Name b) h); reflexivity.
Qed.

(** A loop keeps a preorder that every iteration keeps, also when it ends
    with an exception. *)
Lemma loop_st_keeps {S A} (R : S -> S -> Prop)
    (body : S -> A -> S * option exn) (l : list A) :
  (forall s, R s s) ->
  (forall s1 s2 s3, R s1 s2 -> R s2 s3 -> R s1 s3) ->
  (forall s x, R s (body s x).1) ->
  forall s, R s (loop_st body l s).1.
Proof.
  intros Hr Ht Hb. induction l as [| x r IH]; intros s; [apply Hr |].
  simpl. pose proof (Hb s x) as H1.
  destruct (body s x) as [s1 [e |]]; simpl in *; [exact H1 |].
  exact (Ht _ _ _ H1 (IH s1)).
Qed.

Lemma fold_left_keeps {S A} (R : S -> S -> Prop) (f : S -> A -> S)
    (l : list A) :
  (forall s, R s s) ->
  (forall s1 s2 s3, R s1 s2 -> R s2 s3 -> R s1 s3) ->
  (forall s x, R s (f s x)) ->
  forall s, R s (fold_left f l s).
Proof.
  intros Hr Ht Hf. induction l as [| x r IH]; intros s; [apply Hr |].
  simpl. exact (Ht _ _ _ (Hf s x) (IH _)).
Qed.

Section KeepsGroup.

Variable asm : string.
Variable ph : PanelHandle.

Lemma createui_subbutton_keeps (item : string) (st : SubSt)
    (cmd : ScriptCommand) :
  map pb_Name (s_buttons st)
  `prefix_of`
  map pb_Name (s_buttons (createui_subbutton asm ph item st cmd).1).
Proof.
  unfold createui_subbutton.
  destruct (s_existing st !! className cmd) as [pb |].
  - simpl. rewrite update_pb_names. reflexivity.
  - unfold AddPushButton. destruct (Py.mem _ _); simpl; [reflexivity |].
    rewrite map_app. apply prefix_app_r. reflexivity.
Qed.

Lemma subbuttons_keep (item : string) (cmds : list ScriptCommand)
    (st : SubSt) :
  map pb_Name (s_buttons st)
  `prefix_of`
  map pb_Name
    (s_buttons (loop_st (createui_subbutton asm ph item) cmds st).1).
Proof.
  apply (loop_st_keeps
           (fun a b => map pb_Name (s_buttons a)
                       `prefix_of` map pb_Name (s_buttons b))).
  - intros s. reflexivity.
  - intros s1 s2 s3 H1 H2. etrans; eassumption.
  - apply createui_subbutton_keeps.
Qed.

Lemma disable_orphaned_buttons_keeps (item : string) (st : SubSt) :
  map pb_Name (s_buttons st)
  `prefix_of` map pb_Name (s_buttons (disable_orphaned_buttons ph item st)).
Proof.
  unfold disable_orphaned_buttons.
  apply (fold_left_keeps
           (fun a b => map pb_Name (s_buttons a)
                       `prefix_of` map pb_Name (s_buttons b))).
  - intros s. reflexivity.
  - intros s1 s2 s3 H1 H2. etrans; eassumption.
  - intros s [k o]. simpl. rewrite update_pb_names. reflexivity.
Qed.

Lemma createui_buttongroup_keeps (st : PanelSt) (g : ScriptGroup) :
  items_keep (p_items st) (p_items (createui_buttongroup asm ph st g).1).
Proof.
  unfold createui_buttongroup.
  set (found := match p_dict st !! groupName g with
                | Some _ => _ | None => _ end).
  assert (Hf : match found with
               | Ok (st1, _) => items_keep (p_items st) (p_items st1)
               | Raise _ => True
               end).
  { subst found. destruct (p_dict st !! groupName g).
    - simpl. apply items_keep_refl.
    - unfold AddItem. destruct (Py.mem _ _); simpl; [exact I |].
      apply items_keep_app. }
  destruct found as [[st1 h] | e]; [| apply items_keep_refl].
  destruct (loop_st _ _ _) as [sub err] eqn:El. simpl.
  apply (items_keep_trans _ _ _ Hf).
  apply items_keep_update_items.
  pose proof (subbuttons_keep h (commands g)
                {| s_buttons := buttons_of h (p_items st1);
                   s_existing := dict_of pb_ClassName pb_Name
                                   (buttons_of h (p_items st1));
                   s_acc := p_acc st1 |}) as Hl.
  rewrite El in Hl. simpl in Hl.
  destruct err; [exact Hl |].
  etrans; [exact Hl | apply disable_orphaned_buttons_keeps].
Qed.

Lemma createui_stack_keeps (st : PanelSt) (g : ScriptGroup) :
  items_keep (p_items st) (p_items (createui_stack asm ph st g).1).
Proof.
  unfold createui_stack.
  set (k := fold_left _ _ _).
  assert (Hk : items_keep (p_items st) (p_items (k_panel k))).
  { subst k.
    apply (fold_left_keeps
             (fun a b => items_keep (p_items (k_panel a))
                                    (p_items (k_panel b)))
             (createui_stackbutton asm ph) (commands g)
             (fun s => items_keep_refl _)
             (fun s1 s2 s3 => items_keep_trans _ _ _)).
    intros s c. unfold createui_stackbutton.
    destruct (p_dict (k_panel s) !! className c); simpl;
      [apply items_keep_update_fields | apply items_keep_refl]. }
  destruct (_ =? 3)%nat; [| exact Hk].
  unfold AddStackedItems. destruct (_ || _); simpl; [exact Hk |].
  exact (items_keep_trans _ _ _ Hk (items_keep_app _ _)).
Qed.

Lemma createui_single_keeps (st : PanelSt) (g : ScriptGroup) :
  items_keep (p_items st) (p_items (createui_single asm ph st g).1).
Proof.
  unfold createui_single.
  destruct (last (commands g)) as [cmd |]; [| apply items_keep_refl].
  destruct (p_dict st !! className cmd); simpl;
    [apply items_keep_update_fields |].
  unfold AddItem. destruct (Py.mem _ _); simpl;
    [apply items_keep_refl | apply items_keep_app].
Qed.

Lemma createui_link_keeps (st : PanelSt) (g : ScriptGroup) :
  items_keep (p_items st) (p_items (createui_link ph st g).1).
Proof.
  unfold createui_link.
  destruct (p_dict st !! groupName g); simpl;
    [apply items_keep_update_fields |].
  unfold AddItem. destruct (Py.mem _ _); simpl;
    [apply items_keep_refl | apply items_keep_app].
Qed.

Lemma createui_group_keeps (st : PanelSt) (g : ScriptGroup) :
  items_keep (p_items st) (p_items (createui_group asm ph st g).1).
Proof.
  rewrite createui_group_branch. destruct (branch_of g).
  - apply createui_buttongroup_keeps.
  - apply createui_stack_keeps.
  - apply createui_single_keeps.
  - apply createui_link_keeps.
  - apply items_keep_refl.
Qed.

Lemma disable_orphaned_items_keeps (st : PanelSt) :
  items_keep (p_items st) (p_items (disable_orphaned_items ph st)).
Proof.
  unfold disable_orphaned_items.
  apply (fold_left_keeps
           (fun a b => items_keep (p_items a) (p_items b)) _ _
           (fun s => items_keep_refl _)
           (fun s1 s2 s3 => items_keep_trans _ _ _)).
  intros s [k o]. simpl. apply items_keep_update_fields.
Qed.

End KeepsGroup.

Lemma ribbon_keeps_refl (r : Ribbon) : ribbon_keeps r r.
Proof.
  split; [| intros ph; apply items_keep_refl].
  intros tn ps H. exists ps. split; [exact H | reflexivity].
Qed.

Lemma ribbon_keeps_trans (r1 r2 r3 : Ribbon) :
  ribbon_keeps r1 r2 -> ribbon_keeps r2 r3 -> ribbon_keeps r1 r3.
Proof.
  intros [A1 B1] [A2 B2]. split.
  - intros tn ps H. destruct (A1 tn ps H) as (ps2 & H2 & D2).
    destruct (A2 tn ps2 H2) as (ps3 & H3 & D3).
    exists ps3. split; [exact H3 | set_solver].
  - intros ph. exact (items_keep_trans _ _ _ (B1 ph) (B2 ph)).
Qed.

Lemma set_panel_items_keeps (r : Ribbon) (ph : PanelHandle)
    (items : list RibbonItem) :
  items_keep (panel_items r ph) items ->
  ribbon_keeps r (set_panel_items r ph items).
Proof.
  intros Hk. destruct ph as [tn pn]. unfold set_panel_items. cbn [fst snd].
  split.
  - intros k ps H. destruct (string_dec k tn) as [-> | Hne].
    + rewrite lookup_alter_eq, H. simpl. eexists. split; [reflexivity |].
      rewrite dom_insert_L. set_solver.
    + rewrite lookup_alter_ne by congruence.
      exists ps. split; [exact H | reflexivity].
  - intros [k q]. unfold panel_items in *. cbn [fst snd] in *.
    destruct (string_dec k tn) as [-> | Hne].
    + rewrite lookup_alter_eq.
      destruct (r !! tn) as [ps |]; simpl in *; [| apply items_keep_refl].
      destruct (string_dec q pn) as [-> | Hq].
      * rewrite lookup_insert_eq. simpl. exact Hk.
      * rewrite lookup_insert_ne by congruence. apply items_keep_refl.
    + rewrite lookup_alter_ne by congruence. apply items_keep_refl.
Qed.

Section KeepsRibbon.

Variable asm : string.

Lemma createui_panel_keeps (t : ScriptTab) (ui : UI) (p : ScriptPanel) :
  ribbon_keeps (ribbon ui) (ribbon (createui_panel asm t ui p).1).
Proof.
  unfold createui_panel.
  destruct (pyRevitUIPanels t !! panelName p) as [h |];
    [| apply ribbon_keeps_refl].
  destruct (pyRevitUIButtons t !! panelName p) as [bs |];
    [| apply ribbon_keeps_refl].
  set (st0 := {| p_items := panel_items (ribbon ui) h;
                 p_dict := dict_of (fun b => b) (fun b => b) bs;
                 p_acc := ui_acc ui |}).
  pose proof (loop_st_keeps
                (fun a b => items_keep (p_items a) (p_items b))
                (createui_group asm h) (get_sorted_scriptgroups p)
                (fun s => items_keep_refl _)
                (fun s1 s2 s3 => items_keep_trans _ _ _)
                (createui_group_keeps asm h) st0) as Hl.
  destruct (loop_st _ _ st0) as [st err]. simpl in *.
  apply set_panel_items_keeps.
  destruct err; [exact Hl |].
  exact (items_keep_trans _ _ _ Hl (disable_orphaned_items_keeps h st)).
Qed.

Lemma createui_keeps (tabs : list ScriptTab) (ui : UI) :
  ribbon_keeps (ribbon ui) (ribbon (createui asm tabs ui).1).
Proof.
  unfold createui.
  apply (loop_st_keeps (fun a b => ribbon_keeps (ribbon a) (ribbon b)) _ _
           (fun s => ribbon_keeps_refl _)
           (fun s1 s2 s3 => ribbon_keeps_trans _ _ _)).
  intros s t. unfold createui_tab.
  apply (loop_st_keeps (fun a b => ribbon_keeps (ribbon a) (ribbon b)) _ _
           (fun s => ribbon_keeps_refl _)
           (fun s1 s2 s3 => ribbon_keeps_trans _ _ _)).
  intros a p. apply createui_panel_keeps.
Qed.

End KeepsRibbon.

Lemma create_or_find_panel_keeps (found : gmap string PanelHandle)
    (st : FindSt) (panel : ScriptPanel) :
  ribbon_keeps (ribbon (f_ui st))
               (ribbon (f_ui (create_or_find_panel found st panel).1)).
Proof.
  unfold create_or_find_panel.
  destruct (found !! panelName panel); [apply ribbon_keeps_refl |].
  destruct (ribbon (f_ui st) !! tabName (f_tab st)) as [ps |] eqn:Et;
    [| apply ribbon_keeps_refl].
  destruct (ps !! panelName panel) eqn:Ep; [apply ribbon_keeps_refl |].
  simpl. split.
  - intros k qs H. destruct (string_dec k (tabName (f_tab st))) as [-> | Hne].
    + rewrite lookup_insert_eq. eexists. split; [reflexivity |].
      rewrite Et in H. injection H as <-. rewrite dom_insert_L. set_solver.
    + rewrite lookup_insert_ne by congruence.
      exists qs. split; [exact H | reflexivity].
  - intros [k q]. unfold panel_items. cbn [fst snd].
    destruct (string_dec k (tabName (f_tab st))) as [-> | Hne].
    + rewrite lookup_insert_eq, Et. simpl.
      destruct (string_dec q (panelName panel)) as [-> | Hq].
      * rewrite lookup_insert_eq, Ep. apply items_keep_refl.
      * rewrite lookup_insert_ne by congruence. apply items_keep_refl.
    + rewrite lookup_insert_ne by congruence. apply items_keep_refl.
Qed.

Lemma create_or_find_tab_keeps (ui : UI) (t : ScriptTab) :
  ribbon_keeps (ribbon ui) (ribbon (f_ui (create_or_find_tab ui t).1)).
Proof.
  unfold create_or_find_tab.
  destruct (hascommands t); [| apply ribbon_keeps_refl].
  set (start := match ribbon ui !! tabName t with
                | Some _ => _ | None => _ end).
  assert (Hs : ribbon_keeps (ribbon ui) (ribbon start.1)).
  { subst start. destruct (ribbon ui !! tabName t) eqn:Et;
      [apply ribbon_keeps_refl |].
    simpl. split.
    - intros k qs H. destruct (string_dec k (tabName t)) as [-> | Hne];
        [congruence |].
      rewrite lookup_insert_ne by congruence.
      exists qs. split; [exact H | reflexivity].
    - intros [k q]. unfold panel_items. cbn [fst snd].
      destruct (string_dec k (tabName t)) as [-> | Hne].
      + rewrite lookup_insert_eq, Et. simpl. rewrite lookup_empty.
        apply items_keep_refl.
      + rewrite lookup_insert_ne by congruence. apply items_keep_refl. }
  destruct start as [ui1 found]. simpl in Hs.
  apply (ribbon_keeps_trans _ _ _ Hs).
  apply (loop_st_keeps
           (fun a b => ribbon_keeps (ribbon (f_ui a)) (ribbon (f_ui b)))
           (create_or_find_panel found) (get_sorted_scriptpanels t)
           (fun s => ribbon_keeps_refl _)
           (fun s1 s2 s3 => ribbon_keeps_trans _ _ _)
           (create_or_find_panel_keeps found)
           {| f_tab := t; f_ui := ui1 |}).
Qed.

Lemma create_or_find_pyrevit_panels_keeps (tabs : list ScriptTab) :
  forall ui,
    ribbon_keeps (ribbon ui)
                 (ribbon (create_or_find_pyrevit_panels tabs ui).1.2).
Proof.
  induction tabs as [| t r IH]; intros ui; [apply ribbon_keeps_refl |].
  simpl. pose proof (create_or_find_tab_keeps ui t) as Ht.
  destruct (create_or_find_tab ui t) as [st [e |]]; simpl in *;
    [exact Ht |].
  specialize (IH (f_ui st)).
  destruct (create_or_find_pyrevit_panels r (f_ui st)) as [[r' ui'] err].
  simpl in *. exact (ribbon_keeps_trans _ _ _ Ht IH).
Qed.

(** Reconciliation never removes anything from the live ribbon: after
    [createpyrevitui], whether it completed or stopped with an exception,
    every tab and every panel is still there, every panel lists the item
    names it listed before, in the same order and in front of the new
    ones, and so does every item with the names of its buttons. An item or
    button that no group or command stands for is disabled, never taken
    away. *)
Theorem reconciliation_never_removes (asm : string) (tabs : list ScriptTab)
    (r : Ribbon) :
  let r' := ribbon (createpyrevitui asm tabs r).1 in
  (forall tn ps, r !! tn = Some ps ->
                 exists ps', r' !! tn = Some ps' /\ dom ps ⊆ dom ps')
  /\ forall tn pn,
       map ri_Name (panel_items r (tn, pn))
       `prefix_of` map ri_Name (panel_items r' (tn, pn))
       /\ forall item,
            map pb_Name (buttons_of item (panel_items r (tn, pn)))
            `prefix_of`
            map pb_Name (buttons_of item (panel_items r' (tn, pn))).
Proof.
  intros r'.
  assert (H : ribbon_keeps r r').
  { subst r'. unfold createpyrevitui.
    pose proof (create_or_find_pyrevit_panels_keeps tabs
                  {| ribbon := r; ui_acc := acc0 |}) as H1.
    destruct (create_or_find_pyrevit_panels _ _) as [[tabs' ui] [e |]];
      simpl in *; [exact H1 |].
    exact (ribbon_keeps_trans _ _ _ H1 (createui_keeps asm tabs' ui)). }
  destruct H as [Ht Hi]. split; [exact Ht |].
  intros tn pn. exact (Hi (tn, pn)).
Qed.

(** ** A stack of other than three new buttons *)

Lemma stack_fold_new (asm : string) (ph : PanelHandle)
    (cmds : list ScriptCommand) :
  forall k,
    (forall c, In c cmds -> p_dict (k_panel k) !! className c = None) ->
    let k' := fold_left (createui_stackbutton asm ph) cmds k in
    p_items (k_panel k') = p_items (k_panel k)
    /\ p_dict (k_panel k') = p_dict (k_panel k)
    /\ oplog (p_acc (k_panel k')) = oplog (p_acc (k_panel k))
    /\ updatedbuttoncount (p_acc (k_panel k'))
       = updatedbuttoncount (p_acc (k_panel k))
    /\ newbuttoncount (p_acc (k_panel k'))
       = (newbuttoncount (p_acc (k_panel k)) + length cmds)%nat
    /\ length (stackcommands k')
       = (length (stackcommands k) + length cmds)%nat.
Proof.
  induction cmds as [| c r IH]; intros k Hk; simpl.
  - repeat split; lia.
  - assert (Hc : p_dict (k_panel k) !! className c = None)
      by (apply Hk; left; reflexivity).
    set (k1 := createui_stackbutton asm ph k c).
    assert (E1 : p_items (k_panel k1) = p_items (k_panel k)
                 /\ p_dict (k_panel k1) = p_dict (k_panel k)
                 /\ oplog (p_acc (k_panel k1)) = oplog (p_acc (k_panel k))
                 /\ updatedbuttoncount (p_acc (k_panel k1))
                    = updatedbuttoncount (p_acc (k_panel k))
                 /\ newbuttoncount (p_acc (k_panel k1))
                    = S (newbuttoncount (p_acc (k_panel k)))
                 /\ length (stackcommands k1)
                    = S (length (stackcommands k))).
    { subst k1. unfold createui_stackbutton. rewrite Hc. simpl.
      rewrite length_app. simpl. repeat split; lia. }
    destruct E1 as (A1 & B1 & C1 & D1 & E1 & F1).
    destruct (IH k1) as (A & B & C & D & E & F).
    { intros c' Hc'. rewrite B1. apply Hk. right. exact Hc'. }
    rewrite A, B, C, D, E, F, A1, B1, C1, D1, E1, F1.
    repeat split; lia.
Qed.

(** A [Stack3] group whose commands are all new and are not exactly three
    puts nothing on the panel and logs nothing, yet counts every one of its
    commands as a created button. *)
Theorem stack_of_other_size (asm : string) (ph : PanelHandle)
    (st : PanelSt) (g : ScriptGroup) :
  (forall c, In c (commands g) -> p_dict st !! className c = None) ->
  length (commands g) <> 3%nat ->
  let r := createui_stack asm ph st g in
  r.2 = None
  /\ p_items r.1 = p_items st
  /\ p_dict r.1 = p_dict st
  /\ oplog (p_acc r.1) = oplog (p_acc st)
  /\ updatedbuttoncount (p_acc r.1) = updatedbuttoncount (p_acc st)
  /\ newbuttoncount (p_acc r.1)
     = (newbuttoncount (p_acc st) + length (commands g))%nat.
Proof.
  intros Hnew Hlen r. subst r. unfold createui_stack.
  destruct (stack_fold_new asm ph (commands g)
              {| k_panel := st; stackcommands := [] |} Hnew)
    as (A & B & C & D & E & F).
  simpl in *.
  replace (length (stackcommands _) =? 3)%nat with false.
  - simpl. auto 10.
  - symmetry. apply Nat.eqb_neq. rewrite F. exact Hlen.
Qed.

Lemma stack_of_other_size_witness :
  let r := createui_stack "assembly" ("X", "P") empty_panel_state
             stack_of_two in
  r.2 = None /\ p_items r.1 = [] /\ oplog (p_acc r.1) = []
  /\ newbuttoncount (p_acc r.1) = 2%nat.
Proof.
  destruct (stack_of_other_size "assembly" ("X", "P") empty_panel_state
              stack_of_two) as (A & B & _ & C & _ & D).
  - intros c _. apply lookup_empty.
  - discriminate.
  - simpl. auto.
Defined.

(** ** Panel handles and the exceptions of the reconciliation *)

Lemma loop_st_error {S A} (body : S -> A -> S * option exn) (l : list A) :
  forall s s' e,
    loop_st body l s = (s', Some e) ->
    exists x s0, In x l /\ (body s0 x).2 = Some e.
Proof.
  induction l as [| x r IH]; intros s s' e H; simpl in H; [discriminate |].
  destruct (body s x) as [s1 [e1 |]] eqn:E.
  - injection H as <- <-. exists x, s. rewrite E. split; [left |]; auto.
  - destruct (IH _ _ _ H) as (y & s0 & Hy & He).
    exists y, s0. split; [right |]; auto.
Qed.

Lemma createui_group_error (asm : string) (ph : PanelHandle) (st : PanelSt)
    (g : ScriptGroup) (e : exn) :
  (createui_group asm ph st g).2 = Some e -> e = ArgumentException.
Proof.
  rewrite createui_group_branch. destruct (branch_of g).
  - unfold createui_buttongroup.
    destruct (p_dict st !! groupName g).
    + destruct (loop_st _ _ _) as [sub err] eqn:El. simpl. intros ->.
      destruct (loop_st_error _ _ _ _ _ El) as (c & s0 & _ & Hc).
      unfold createui_subbutton in Hc.
      destruct (s_existing s0 !! className c); [discriminate Hc |].
      unfold AddPushButton in Hc. destruct (Py.mem _ _); simpl in Hc;
        congruence.
    + unfold AddItem. destruct (Py.mem _ _); simpl; [congruence |].
      destruct (loop_st _ _ _) as [sub err] eqn:El. simpl. intros ->.
      destruct (loop_st_error _ _ _ _ _ El) as (c & s0 & _ & Hc).
      unfold createui_subbutton in Hc.
      destruct (s_existing s0 !! className c); [discriminate Hc |].
      unfold AddPushButton in Hc. destruct (Py.mem _ _); simpl in Hc;
        congruence.
  - unfold createui_stack. destruct (_ =? 3)%nat; [| discriminate].
    unfold AddStackedItems. destruct (_ || _); simpl; congruence.
  - unfold createui_single. destruct (last (commands g)); [| discriminate].
    destruct (p_dict st !! _); [discriminate |].
    unfold AddItem. destruct (Py.mem _ _); discriminate.
  - unfold createui_link. destruct (p_dict st !! _); [discriminate |].
    unfold AddItem. destruct (Py.mem _ _); simpl; congruence.
  - discriminate.
Qed.

Lemma createui_panel_keyerror (asm : string) (t : ScriptTab) (ui : UI)
    (p : ScriptPanel) :
  (createui_panel asm t ui p).2 = Some KeyError ->
  pyRevitUIPanels t !! panelName p = None
  \/ pyRevitUIButtons t !! panelName p = None.
Proof.
  unfold createui_panel.
  destruct (pyRevitUIPanels t !! panelName p) as [h |]; [| auto].
  destruct (pyRevitUIButtons t !! panelName p) as [bs |]; [| auto].
  destruct (loop_st _ _ _) as [st err] eqn:El. simpl. intros ->.
  destruct (loop_st_error _ _ _ _ _ El) as (g & s0 & _ & Hg).
  apply createui_group_error in Hg. discriminate Hg.
Qed.

(** What the loop over the panels of a tab leaves in the dictionaries. *)
Lemma create_or_find_panels_prepared (found : gmap string PanelHandle)
    (l : list ScriptPanel) :
  forall st st' err,
    loop_st (create_or_find_panel found) l st = (st', err) ->
    tabName (f_tab st') = tabName (f_tab st)
    /\ scriptPanels (f_tab st') = scriptPanels (f_tab st)
    /\ (forall k, is_Some (pyRevitUIPanels (f_tab st) !! k) ->
                  is_Some (pyRevitUIPanels (f_tab st') !! k))
    /\ (forall k, is_Some (pyRevitUIButtons (f_tab st) !! k) ->
                  is_Some (pyRevitUIButtons (f_tab st') !! k))
    /\ match err with
       | Some e => e = ArgumentException
       | None =>
           forall p, In p l ->
             is_Some (pyRevitUIPanels (f_tab st') !! panelName p)
             /\ is_Some (pyRevitUIButtons (f_tab st') !! panelName p)
       end.
Proof.
  induction l as [| p r IH]; intros st st' err H; simpl in H.
  - injection H as <- <-. split_and!; auto. intros p [].
  - assert (Hstep :
      let r1 := create_or_find_panel found st p in
      tabName (f_tab r1.1) = tabName (f_tab st)
      /\ scriptPanels (f_tab r1.1) = scriptPanels (f_tab st)
      /\ (forall k, is_Some (pyRevitUIPanels (f_tab st) !! k) ->
                    is_Some (pyRevitUIPanels (f_tab r1.1) !! k))
      /\ (forall k, is_Some (pyRevitUIButtons (f_tab st) !! k) ->
                    is_Some (pyRevitUIButtons (f_tab r1.1) !! k))
      /\ match r1.2 with
         | Some e => e = ArgumentException
         | None =>
             is_Some (pyRevitUIPanels (f_tab r1.1) !! panelName p)
             /\ is_Some (pyRevitUIButtons (f_tab r1.1) !! panelName p)
         end).
    { unfold create_or_find_panel.
      destruct (found !! panelName p); simpl.
      - split_and!; try reflexivity;
          try (intros k Hk; apply lookup_insert_is_Some';
               right; exact Hk);
          rewrite lookup_insert_eq; eauto.
      - destruct (ribbon (f_ui st) !! tabName (f_tab st)) as [ps |];
          simpl; [| split_and!; auto].
        destruct (ps !! panelName p); simpl; [split_and!; auto |].
        split_and!; try reflexivity;
          try (intros k Hk; apply lookup_insert_is_Some';
               right; exact Hk);
          rewrite lookup_insert_eq; eauto. }
    destruct (create_or_find_panel found st p) as [st1 [e |]];
      simpl in Hstep.
    + injection H as <- <-. exact Hstep.
    + destruct Hstep as (A1 & B1 & C1 & D1 & [E1 F1]).
      destruct (IH _ _ _ H) as (A & B & C & D & E).
      split_and!; try congruence; auto.
      destruct err; [exact E |].
      intros q [<- | Hq]; [split; auto | exact (E q Hq)].
Qed.

Lemma create_or_find_tab_prepared (ui : UI) (t : ScriptTab) :
  let r := create_or_find_tab ui t in
  tabName (f_tab r.1) = tabName t
  /\ scriptPanels (f_tab r.1) = scriptPanels t
  /\ match r.2 with
     | Some e => e = ArgumentException
     | None =>
         hascommands t = true ->
         forall p, In p (scriptPanels t) ->
           is_Some (pyRevitUIPanels (f_tab r.1) !! panelName p)
           /\ is_Some (pyRevitUIButtons (f_tab r.1) !! panelName p)
     end.
Proof.
  unfold create_or_find_tab. destruct (hascommands t); simpl;
    [| split_and!; auto; discriminate].
  destruct (match ribbon ui !! tabName t with
            | Some _ => _ | None => _ end) as [ui1 found].
  destruct (loop_st _ _ _) as [st' err] eqn:El.
  destruct (create_or_find_panels_prepared _ _ _ _ _ El)
    as (A & B & _ & _ & E).
  simpl in *. split_and!; auto.
  destruct err; [exact E |].
  intros _ p Hp. apply E, sorted_panels_In, Hp.
Qed.

Lemma create_or_find_pyrevit_panels_prepared (tabs : list ScriptTab) :
  forall ui tabs' ui' err,
    create_or_find_pyrevit_panels tabs ui = ((tabs', ui'), err) ->
    match err with
    | Some e => e = ArgumentException
    | None =>
        Forall2
          (fun t t' =>
             tabName t' = tabName t
             /\ scriptPanels t' = scriptPanels t
             /\ (hascommands t = true ->
                 forall p, In p (scriptPanels t) ->
                   is_Some (pyRevitUIPanels t' !! panelName p)
                   /\ is_Some (pyRevitUIButtons t' !! panelName p)))
          tabs tabs'
    end.
Proof.
  induction tabs as [| t r IH]; intros ui tabs' ui' err H; simpl in H.
  - injection H as <- <- <-. constructor.
  - pose proof (create_or_find_tab_prepared ui t) as Ht.
    destruct (create_or_find_tab ui t) as [st [e |]]; simpl in Ht.
    + injection H as <- <- <-. exact (proj2 (proj2 Ht)).
    + destruct (create_or_find_pyrevit_panels r (f_ui st))
        as [[r' ui1] err1] eqn:Er.
      injection H as <- <- <-. specialize (IH _ _ _ _ Er).
      destruct err1; [exact IH |].
      constructor; [exact Ht | exact IH].
Qed.

(** When [create_or_find_pyrevit_panels] completes, every tab that has a
    command holds a panel handle and a list of buttons for each of its
    panels, under the panel's name; the tree below the tabs is left as it
    was. *)
Theorem panel_handles_prepared (tabs tabs' : list ScriptTab) (ui ui' : UI) :
  create_or_find_pyrevit_panels tabs ui = ((tabs', ui'), None) ->
  Forall2
    (fun t t' =>
       tabName t' = tabName t
       /\ scriptPanels t' = scriptPanels t
       /\ (hascommands t = true ->
           forall p, In p (scriptPanels t) ->
             is_Some (pyRevitUIPanels t' !! panelName p)
             /\ is_Some (pyRevitUIButtons t' !! panelName p)))
    tabs tabs'.
Proof.
  intros H. exact (create_or_find_pyrevit_panels_prepared _ _ _ _ _ H).
Qed.

Lemma panel_handles_prepared_witness :
  exists tabs' ui',
    create_or_find_pyrevit_panels (discovered_tabs home_regular)
      {| ribbon := ∅; ui_acc := acc0 |} = ((tabs', ui'), None)
    /\ map (fun t => map fst (map_to_list (pyRevitUIPanels t))) tabs'
       = [["P"]]
    /\ Forall2 (fun t t' => scriptPanels t' = scriptPanels t)
               (discovered_tabs home_regular) tabs'.
Proof.
  eexists. eexists. split; [vm_compute; reflexivity |].
  split; [vm_compute; reflexivity |].
  eapply Forall2_impl.
  - eapply (panel_handles_prepared (discovered_tabs home_regular) _
              {| ribbon := ∅; ui_acc := acc0 |}).
    vm_compute. reflexivity.
  - intros t t' (_ & H & _). exact H.
Defined.

(** The only tab at which [createpyrevitui] can stop with a [KeyError] is
    one that has a panel but no command: its panels were never looked up
    or created, and [createui] indexes them all the same. *)
Theorem keyerror_only_without_commands (asm : string)
    (tabs : list ScriptTab) (r : Ribbon) :
  (createpyrevitui asm tabs r).2 = Some KeyError ->
  exists t, In t tabs /\ hascommands t = false /\ scriptPanels t <> [].
Proof.
  unfold createpyrevitui.
  destruct (create_or_find_pyrevit_panels tabs _) as [[tabs' ui] err]
    eqn:Ef.
  pose proof (create_or_find_pyrevit_panels_prepared _ _ _ _ _ Ef) as Hp.
  destruct err as [e |]; simpl; [intros H; congruence |].
  intros H. unfold createui in H.
  destruct (loop_st (createui_tab asm) _ _) as [ui2 err2] eqn:El.
  simpl in H. subst err2.
  destruct (loop_st_error _ _ _ _ _ El) as (t' & ui0 & Ht' & Herr).
  unfold createui_tab in Herr.
  destruct (loop_st (createui_panel asm t') _ ui0) as [ui3 err3] eqn:Ep.
  simpl in Herr. subst err3.
  destruct (loop_st_error _ _ _ _ _ Ep) as (p & ui1 & Hp' & Hk).
  apply sorted_panels_In in Hp'.
  apply createui_panel_keyerror in Hk.
  apply list_elem_of_In in Ht'.
  apply list_elem_of_lookup in Ht' as [i Hi].
  destruct (Forall2_lookup_r _ _ _ _ _ Hp Hi) as (t & Hti & Hn & Hs & Hc).
  exists t. split; [apply list_elem_of_In, list_elem_of_lookup; eauto |].
  rewrite <- Hs. split; [| intros E; rewrite E in Hp'; exact Hp'].
  destruct (hascommands t) eqn:Eh; [| reflexivity].
  rewrite <- Hs in Hc. destruct (Hc eq_refl p Hp') as [[? H1] [? H2]].
  destruct Hk; congruence.
Qed.

Lemma keyerror_only_without_commands_witness :
  (createpyrevitui "assembly" (discovered_tabs home_empty_panel) ∅).2
  = Some KeyError
  /\ exists t, In t (discovered_tabs home_empty_panel)
               /\ hascommands t = false /\ scriptPanels t <> [].
Proof.
  split; [vm_compute; reflexivity |].
  apply (keyerror_only_without_commands "assembly" _ ∅).
  vm_compute. reflexivity.
Defined.

(** ** The cache files *)

Section CacheFacts.

Variables USER_TEMP_DIR PYREVIT_ASSEMBLY_NAME full_version_as_str : string.
Variable load_from_cache :
  Cache.component -> gmap string Cache.jval -> result Cache.component.
Variable get_clean_dict : Cache.component -> gmap string Cache.jval.
Variable writable : string -> bool.
Variable get_parsed_package : Cache.component -> Cache.component.

Local Abbreviation cache_file := (Cache.get_cache_file USER_TEMP_DIR
                                PYREVIT_ASSEMBLY_NAME).
Local Abbreviation get_cached_tab :=
  (Cache.get_cached_tab USER_TEMP_DIR PYREVIT_ASSEMBLY_NAME
     full_version_as_str load_from_cache).
Local Abbreviation read_cache_for :=
  (Cache.read_cache_for USER_TEMP_DIR PYREVIT_ASSEMBLY_NAME).
Local Abbreviation write_cache_for :=
  (Cache.write_cache_for USER_TEMP_DIR PYREVIT_ASSEMBLY_NAME
     full_version_as_str get_clean_dict writable).
Local Abbreviation update_cache :=
  (Cache.update_cache USER_TEMP_DIR PYREVIT_ASSEMBLY_NAME
     full_version_as_str get_clean_dict writable).
Local Abbreviation serialize :=
  (Cache.serialize full_version_as_str get_clean_dict).
Local Abbreviation load :=
  (Cache.load USER_TEMP_DIR PYREVIT_ASSEMBLY_NAME full_version_as_str
     get_clean_dict writable get_parsed_package).

(** [get_cached_tab] hands out the tab loaded from its cache file exactly
    when the file holds an object whose [tabHash] is the hash of the tab
    and whose [cacheVersion] is the running version, and the load itself
    succeeds; what it hands out is what the load returns. It raises
    [PyRevitCacheReadError] exactly when the file is missing or cannot be
    parsed. In every other case it raises [PyRevitCacheError], an expired
    cache included: the [PyRevitCacheExpiredError] raised inside the [try]
    never reaches the caller. *)
Theorem get_cached_tab_outcomes (files : gmap string Cache.cachefile)
    (cached_tab : Cache.component) :
  (forall t,
     get_cached_tab files cached_tab = Ok t
     <-> exists d,
           files !! cache_file cached_tab = Some (Cache.JsonObject d)
           /\ d !! "tabHash"
              = Some (Cache.JStr (Cache.comp_tabHash cached_tab))
           /\ d !! "cacheVersion" = Some (Cache.JStr full_version_as_str)
           /\ load_from_cache cached_tab d = Ok t)
  /\ (get_cached_tab files cached_tab = Raise PyRevitCacheReadError
      <-> files !! cache_file cached_tab = None
          \/ files !! cache_file cached_tab = Some Cache.Unreadable)
  /\ (forall e,
        get_cached_tab files cached_tab = Raise e ->
        e = PyRevitCacheReadError \/ e = PyRevitCacheError).
Proof.
  unfold Cache.get_cached_tab, Cache.read_cache_for.
  destruct (files !! cache_file cached_tab) as [[| | d] |] eqn:Ef; simpl.
  - split_and!.
    + intros t. split; [discriminate |]. intros (d & H & _). discriminate H.
    + split; auto.
    + intros e H. injection H as <-. auto.
  - split_and!.
    + intros t. split; [discriminate |]. intros (d & H & _). discriminate H.
    + split; [discriminate |]. intros [H | H]; discriminate H.
    + intros e H. injection H as <-. auto.
  - destruct (d !! "tabHash") as [h |] eqn:Eh.
    2:{ split_and!.
        - intros t. split; [discriminate |].
          intros (d' & H & H' & _). injection H as <-. congruence.
        - split; [discriminate |]. intros [H | H]; discriminate H.
        - intros e H. injection H as <-. auto. }
    destruct (bool_decide (h = _)) eqn:Bh.
    2:{ apply bool_decide_eq_false in Bh. split_and!.
        - intros t. split; [discriminate |].
          intros (d' & H & H' & _). injection H as <-. congruence.
        - split; [discriminate |]. intros [H | H]; discriminate H.
        - intros e H. injection H as <-. auto. }
    apply bool_decide_eq_true in Bh. subst h.
    destruct (d !! "cacheVersion") as [v |] eqn:Ev.
    2:{ split_and!.
        - intros t. split; [discriminate |].
          intros (d' & H & _ & H' & _). injection H as <-. congruence.
        - split; [discriminate |]. intros [H | H]; discriminate H.
        - intros e H. injection H as <-. auto. }
    destruct (bool_decide (v = _)) eqn:Bv.
    2:{ apply bool_decide_eq_false in Bv. split_and!.
        - intros t. split; [discriminate |].
          intros (d' & H & _ & H' & _). injection H as <-. congruence.
        - split; [discriminate |]. intros [H | H]; discriminate H.
        - intros e H. injection H as <-. auto. }
    apply bool_decide_eq_true in Bv. subst v.
    destruct (load_from_cache cached_tab d) as [t0 | e0] eqn:El.
    + split_and!.
      * intros t. split.
        -- intros H. injection H as <-. exists d. auto.
        -- intros (d' & H & _ & _ & H'). injection H as <-. congruence.
      * split; [discriminate |]. intros [H | H]; discriminate H.
      * discriminate.
    + split_and!.
      * intros t. split; [discriminate |].
        intros (d' & H & _ & _ & H'). injection H as <-. congruence.
      * split; [discriminate |]. intros [H | H]; discriminate H.
      * intros e H. injection H as <-. auto.
  - split_and!.
    + intros t. split; [discriminate |]. intros (d & H & _). discriminate H.
    + split; auto.
    + intros e H. injection H as <-. auto.
Qed.

(** Writing and reading back: after [update_cache] wrote the cache of a
    parsed tab that dumps at least one field, [read_cache_for] returns the
    dumped fields together with the version; when the tab dumps no field,
    the file just written cannot be read back. When the dumped fields hold
    the hash of the tab and no version of their own, [get_cached_tab]
    accepts the file and loads the tab from it. *)
Theorem cache_write_read (files files' : gmap string Cache.cachefile)
    (parsed_tab : Cache.component) :
  Cache.comp_loaded_from_cache parsed_tab = false ->
  update_cache files parsed_tab = Ok files' ->
  (get_clean_dict parsed_tab = ∅ ->
   read_cache_for files' parsed_tab = Raise PyRevitCacheReadError)
  /\ (get_clean_dict parsed_tab <> ∅ ->
      read_cache_for files' parsed_tab
      = Ok (Cache.JsonObject
              (get_clean_dict parsed_tab
               ∪ {[ "cacheVersion" := Cache.JStr full_version_as_str ]})))
  /\ (get_clean_dict parsed_tab !! "tabHash"
      = Some (Cache.JStr (Cache.comp_tabHash parsed_tab)) ->
      get_clean_dict parsed_tab !! "cacheVersion" = None ->
      get_cached_tab files' parsed_tab
      = match load_from_cache parsed_tab
                (get_clean_dict parsed_tab
                 ∪ {[ "cacheVersion" := Cache.JStr full_version_as_str ]})
        with
        | Ok t => Ok t
        | Raise _ => Raise PyRevitCacheError
        end).
Proof.
  intros Hl. unfold Cache.update_cache, Cache.write_cache_for.
  rewrite Hl. simpl. destruct (writable _); [| discriminate].
  intros H. injection H as <-.
  assert (He : get_clean_dict parsed_tab = ∅ ->
               read_cache_for
                 (<[cache_file parsed_tab := serialize parsed_tab]> files)
                 parsed_tab = Raise PyRevitCacheReadError).
  { intros E. unfold Cache.read_cache_for, Cache.serialize.
    rewrite lookup_insert_eq, bool_decide_eq_true_2 by exact E.
    reflexivity. }
  assert (Hr : get_clean_dict parsed_tab <> ∅ ->
               read_cache_for
                 (<[cache_file parsed_tab := serialize parsed_tab]> files)
                 parsed_tab
               = Ok (Cache.JsonObject
                       (get_clean_dict parsed_tab
                        ∪ {[ "cacheVersion"
                             := Cache.JStr full_version_as_str ]}))).
  { intros E. unfold Cache.read_cache_for, Cache.serialize.
    rewrite lookup_insert_eq, bool_decide_eq_false_2 by exact E.
    reflexivity. }
  split; [exact He |]. split; [exact Hr |].
  intros Hh Hv. unfold Cache.get_cached_tab. rewrite Hr.
  2:{ intros E. rewrite E, lookup_empty in Hh. discriminate Hh. }
  simpl.
  rewrite (lookup_union_Some_l _ _ _ _ Hh).
  rewrite bool_decide_eq_true_2 by reflexivity.
  rewrite (lookup_union_r _ _ _ Hv), lookup_singleton_eq.
  rewrite bool_decide_eq_true_2 by reflexivity.
  reflexivity.
Qed.

End CacheFacts.

Lemma cache_write_read_witness :
  exists files',
    Cache.update_cache "temp" "pyRevit" "4.0" dump_hash (fun _ => true) ∅
      cached_tab = Ok files'
    /\ Cache.get_cached_tab "temp" "pyRevit" "4.0" mark_loaded files'
         cached_tab
       = Ok (Cache.Comp "X" "hash-of-X" true []).
Proof.
  eexists. split; [reflexivity |].
  refine (proj2 (proj2 (cache_write_read "temp" "pyRevit" "4.0" mark_loaded
                          dump_hash (fun _ => true) ∅ _ cached_tab eq_refl
                          eq_refl))
            _ _).
  - reflexivity.
  - reflexivity.
Defined.

(** *** Strings put together *)

Lemma append_cons (a : ascii) (s t : string) :
  String a s +:+ t = String a (s +:+ t).
Proof. reflexivity. Qed.

Lemma append_assoc (a b c : string) : (a +:+ b) +:+ c = a +:+ (b +:+ c).
Proof.
  induction a as [| x a IH]; [reflexivity |].
  rewrite !append_cons, IH. reflexivity.
Qed.

Lemma append_length (a b : string) :
  String.length (a +:+ b) = (String.length a + String.length b)%nat.
Proof.
  induction a as [| x a IH]; [reflexivity |].
  rewrite append_cons. simpl. rewrite IH. reflexivity.
Qed.

Lemma append_inj_l (a b c : string) : a +:+ b = a +:+ c -> b = c.
Proof.
  induction a as [| x a IH]; [auto |].
  rewrite !append_cons. intros H. injection H as H. auto.
Qed.

Lemma append_inj_r (c : string) : forall a b, a +:+ c = b +:+ c -> a = b.
Proof.
  induction a as [| x a IH]; intros [| y b] H.
  - reflexivity.
  - exfalso. apply (f_equal String.length) in H.
    rewrite !append_length in H. simpl in H. lia.
  - exfalso. apply (f_equal String.length) in H.
    rewrite !append_length in H. simpl in H. lia.
  - rewrite !append_cons in H. injection H as -> H.
    rewrite (IH b H). reflexivity.
Qed.

Lemma lower_app (a b : string) :
  Py.lower (a +:+ b) = Py.lower a +:+ Py.lower b.
Proof.
  induction a as [| x a IH]; [reflexivity |].
  rewrite append_cons. simpl. rewrite IH. reflexivity.
Qed.

Lemma startswith_app (p a b : string) :
  Py.startswith p a = true -> Py.startswith p (a +:+ b) = true.
Proof.
  revert a. induction p as [| x p IH]; intros a H.
  - destruct (a +:+ b); reflexivity.
  - destruct a as [| y a]; [discriminate H |].
    rewrite append_cons. simpl in *.
    apply andb_prop in H as [H1 H2]. rewrite H1, (IH a H2). reflexivity.
Qed.

Lemma contains_cons (p : string) (a : ascii) (s : string) :
  Py.contains p (String a s)
  = Py.startswith p (String a s) || Py.contains p s.
Proof. reflexivity. Qed.

Lemma contains_app_l (p a b : string) :
  Py.contains p a = true -> Py.contains p (a +:+ b) = true.
Proof.
  induction a as [| x a IH]; intros H.
  - simpl in H. rewrite orb_false_r in H.
    destruct p; [| discriminate H]. destruct ("" +:+ b); reflexivity.
  - rewrite append_cons, contains_cons.
    rewrite contains_cons in H. apply orb_true_iff in H as [H | H].
    + rewrite <- append_cons, (startswith_app _ _ b H). reflexivity.
    + rewrite (IH H). apply orb_true_r.
Qed.

Lemma contains_app_r (p a b : string) :
  Py.contains p b = true -> Py.contains p (a +:+ b) = true.
Proof.
  intros H. induction a as [| x a IH]; [exact H |].
  rewrite append_cons, contains_cons, IH. apply orb_true_r.
Qed.

Lemma startswith_refl (p : string) : Py.startswith p p = true.
Proof.
  induction p as [| x p IH]; [reflexivity |].
  simpl. unfold Py.ascii_eqb. rewrite Ascii.eqb_refl, IH. reflexivity.
Qed.

Lemma contains_refl (p : string) : Py.contains p p = true.
Proof.
  destruct p; [reflexivity |].
  rewrite contains_cons, startswith_refl. reflexivity.
Qed.

Lemma endswith_app (p s : string) :
  Py.endswith p s = true -> exists x, s = x +:+ p.
Proof.
  unfold Py.endswith. intros H. apply andb_prop in H as [_ H].
  apply String.eqb_eq in H.
  exists (Py.take (String.length s - String.length p) s).
  pose proof (take_drop (String.length s - String.length p) s) as E.
  rewrite H in E. symmetry. exact E.
Qed.

Section CacheIsolation.

Variables USER_TEMP_DIR PYREVIT_ASSEMBLY_NAME full_version_as_str : string.
Variable get_clean_dict : Cache.component -> gmap string Cache.jval.
Variable writable : string -> bool.
Variable get_parsed_package : Cache.component -> Cache.component.

Lemma get_cache_file_inj (t t' : Cache.component) :
  Cache.get_cache_file USER_TEMP_DIR PYREVIT_ASSEMBLY_NAME t
  = Cache.get_cache_file USER_TEMP_DIR PYREVIT_ASSEMBLY_NAME t' ->
  Cache.comp_name t = Cache.comp_name t'.
Proof.
  unfold Cache.get_cache_file, path_join. intros H.
  rewrite ?append_assoc in H.
  apply append_inj_l in H. apply append_inj_l in H.
  apply append_inj_l in H. apply append_inj_l in H.
  exact (append_inj_r _ _ _ H).
Qed.

(** The cache file of a tab is told by the name of the tab alone: writing
    the cache of one tab leaves what is read for a tab of another name as
    it was, and two tabs of the same name, wherever they come from, share
    one cache file: the second reads what the first wrote, its dumped
    fields with the version, or nothing readable when the first dumped no
    field. *)
Theorem cache_file_per_tab_name (files files' : gmap string Cache.cachefile)
    (t t' : Cache.component) :
  Cache.write_cache_for USER_TEMP_DIR PYREVIT_ASSEMBLY_NAME
    full_version_as_str get_clean_dict writable files t = Ok files' ->
  (Cache.comp_name t' <> Cache.comp_name t ->
   Cache.read_cache_for USER_TEMP_DIR PYREVIT_ASSEMBLY_NAME files' t'
   = Cache.read_cache_for USER_TEMP_DIR PYREVIT_ASSEMBLY_NAME files t')
  /\ (Cache.comp_name t' = Cache.comp_name t ->
      Cache.read_cache_for USER_TEMP_DIR PYREVIT_ASSEMBLY_NAME files' t'
      = if bool_decide (get_clean_dict t = ∅)
        then Raise PyRevitCacheReadError
        else Ok (Cache.JsonObject
                   (get_clean_dict t
                    ∪ {[ "cacheVersion"
                         := Cache.JStr full_version_as_str ]}))).
Proof.
  unfold Cache.write_cache_for. destruct (writable _); [| discriminate].
  intros H. injection H as <-. unfold Cache.read_cache_for. split.
  - intros Hn. rewrite lookup_insert_ne; [reflexivity |].
    intros E. apply Hn. symmetry. exact (get_cache_file_inj _ _ E).
  - intros Hn.
    assert (E : Cache.get_cache_file USER_TEMP_DIR PYREVIT_ASSEMBLY_NAME t'
                = Cache.get_cache_file USER_TEMP_DIR PYREVIT_ASSEMBLY_NAME
                    t).
    { unfold Cache.get_cache_file. rewrite Hn. reflexivity. }
    rewrite E, lookup_insert_eq. unfold Cache.serialize.
    destruct (bool_decide (get_clean_dict t = ∅)); reflexivity.
Qed.

(** A cache file that cannot be written stops [load] altogether: the
    packages before it were loaded, the package itself and every package
    after it get no assembly. *)
Theorem load_stops_at_unwritable_cache
    (files files1 : gmap string Cache.cachefile)
    (before after : list Cache.component) (pkg_info : Cache.component)
    (events : list Cache.load_event) :
  Cache.load USER_TEMP_DIR PYREVIT_ASSEMBLY_NAME full_version_as_str
    get_clean_dict writable get_parsed_package files before
  = Ok (files1, events) ->
  Cache.comp_subs pkg_info <> [] ->
  Cache.comp_loaded_from_cache (get_parsed_package pkg_info) = false ->
  writable (Cache.get_cache_file USER_TEMP_DIR PYREVIT_ASSEMBLY_NAME
              (get_parsed_package pkg_info)) = false ->
  Cache.load USER_TEMP_DIR PYREVIT_ASSEMBLY_NAME full_version_as_str
    get_clean_dict writable get_parsed_package files
    (before ++ pkg_info :: after)
  = Raise PyRevitCacheWriteError.
Proof.
  intros Hb Hs Hl Hw. revert files files1 events Hb.
  induction before as [| p r IH]; intros files files1 events Hb.
  - simpl. unfold Cache.load_package.
    replace (Cache.is_cache_valid pkg_info) with false.
    + unfold Cache.update_cache, Cache.write_cache_for.
      rewrite Hl, Hw. reflexivity.
    + symmetry. destruct (Cache.is_cache_valid pkg_info) eqn:E;
        [| reflexivity].
      apply is_cache_valid_iff in E. contradiction.
  - simpl in *.
    destruct (Cache.load_package _ _ _ _ _ _ files p) as [[f1 e1] |];
      [| discriminate Hb].
    simpl in *.
    destruct (Cache.load _ _ _ _ _ _ f1 r) as [[f2 e2] |] eqn:Er;
      [| discriminate Hb].
    rewrite (IH f1 f2 e2 Er). reflexivity.
Qed.

End CacheIsolation.

Lemma cache_file_per_tab_name_witness :
  Cache.read_cache_for "temp" "pyRevit"
    (<[Cache.get_cache_file "temp" "pyRevit" cached_tab :=
         Cache.serialize "4.0" dump_hash cached_tab]> ∅)
    (Cache.Comp "Y" "" false [])
  = Raise PyRevitCacheReadError.
Proof.
  refine (eq_trans
            (proj1 (cache_file_per_tab_name "temp" "pyRevit" "4.0"
                      dump_hash (fun _ => true) ∅ _ cached_tab
                      (Cache.Comp "Y" "" false []) eq_refl) _) _).
  - discriminate.
  - reflexivity.
Defined.

Lemma load_stops_at_unwritable_cache_witness :
  Cache.load "temp" "pyRevit" "4.0" dump_hash (fun _ => false)
    (fun p => p) ∅ [empty_pkg; cached_pkg; cached_pkg]
  = Raise PyRevitCacheWriteError.
Proof.
  apply (load_stops_at_unwritable_cache "temp" "pyRevit" "4.0" dump_hash
           (fun _ => false) (fun p => p) ∅ ∅ [empty_pkg] [cached_pkg]
           cached_pkg
           [Cache.EvGetCachedPackage empty_pkg;
            Cache.EvCreateAssembly None]).
  - reflexivity.
  - discriminate.
  - reflexivity.
  - reflexivity.
Defined.

(** ** The directory pattern of the fingerprint *)

Lemma pat_search_join (root name : string) :
  Cache.pat_search root = true ->
  Cache.pat_search (path_join root name) = true.
Proof.
  unfold Cache.pat_search, path_join. intros H.
  rewrite lower_app. apply orb_true_iff in H as [H | H].
  - rewrite (contains_app_l _ _ _ H). reflexivity.
  - rewrite (contains_app_l _ _ _ H). apply orb_true_r.
Qed.

Lemma pat_search_tab_folder (homeDir dirName : string) :
  Py.endswith sessionSettings.tabPostfix dirName = true ->
  Cache.pat_search (path_join homeDir dirName) = true.
Proof.
  intros H. apply endswith_app in H as [x ->].
  unfold Cache.pat_search, path_join.
  apply orb_true_iff. right.
  rewrite !lower_app. apply contains_app_r, contains_app_r, contains_app_r.
  reflexivity.
Qed.

Section FingerprintPattern.

Context {T : Type} (add : T -> T -> T).

Lemma walk_under_pattern :
  forall (e : Cache.mnode T) (root : string) (acc : T),
    Cache.pat_search root = true ->
    Cache.walk T add root e acc = walk_all add e acc.
Proof.
  fix IH 1. intros [n t | n t es] root acc Hroot; [reflexivity |].
  assert (HF : Forall (fun e => forall root acc,
                         Cache.pat_search root = true ->
                         Cache.walk T add root e acc = walk_all add e acc)
                      es).
  { refine ((fix IHl (l : list (Cache.mnode T)) : Forall _ l :=
               match l with
               | [] => Forall_nil_2 _
               | e :: r => Forall_cons_2 _ _ _ (IH e) (IHl r)
               end) es). }
  clear IH. simpl. rewrite Hroot.
  generalize (Cache.add_files T add es (add acc t)).
  induction HF as [| e r He _ IHr]; intros a; simpl; [reflexivity |].
  destruct e as [n' t' | n' t' sub]; simpl.
  - apply IHr.
  - rewrite <- IHr. f_equal.
    apply (He (path_join root n') a). apply pat_search_join, Hroot.
Qed.

(** In the folder of a tab the directory pattern of [calculate_hash]
    filters nothing: the path of every directory below it holds the tab
    postfix, so every directory, whatever its name and depth, adds its
    modification time and those of its files that match the file
    pattern. *)
Theorem fingerprint_counts_every_directory (zero : T)
    (md5_str : T -> string) (homeDir dirName : string)
    (tab : Cache.mnode T) :
  Py.endswith sessionSettings.tabPostfix dirName = true ->
  Cache.calculate_hash T zero add md5_str (path_join homeDir dirName) tab
  = md5_str (walk_all add tab zero).
Proof.
  intros H. unfold Cache.calculate_hash.
  rewrite (walk_under_pattern tab _ zero (pat_search_tab_folder _ _ H)).
  reflexivity.
Qed.

End FingerprintPattern.

Lemma fingerprint_counts_every_directory_witness :
  Cache.calculate_hash Z 0 Z.add sample_digest "home\X.tab" tab_with_docs
  = "sum is 21105".
Proof.
  exact (fingerprint_counts_every_directory Z.add 0 sample_digest "home"
           "X.tab" tab_with_docs eq_refl).
Defined.

(** ** Console reports *)

Lemma reportv_all_quiet (messages : list (string * bool)) :
  forall c,
    verbose c = false ->
    let c' := reportv_all messages c in
    verbose c' = false
    /\ stdout c'
       = stdout c +:+ repeat_string verbose_disabled_char (length messages)
    /\ last_report_type c'
       = match messages with
         | [] => last_report_type c
         | _ :: _ => "disabledverbose"
         end.
Proof.
  induction messages as [| [m t] r IH]; intros c Hv; simpl.
  - split; [exact Hv |]. split; [| reflexivity].
    symmetry. apply append_empty_r.
  - assert (H1 : reportv m t c
                 = {| verbose := false;
                      last_report_type := "disabledverbose";
                      stdout := stdout c +:+ verbose_disabled_char |}).
    { unfold reportv. rewrite Hv. unfold report, set_last_report_type.
      simpl. rewrite Hv. reflexivity. }
    unfold reportv_all in *. simpl. rewrite H1.
    destruct (IH {| verbose := false;
                    last_report_type := "disabledverbose";
                    stdout := stdout c +:+ verbose_disabled_char |}
                 eq_refl) as (A & B & C). simpl in *.
    split; [exact A |]. split.
    + rewrite B, append_assoc. reflexivity.
    + rewrite C. destruct r; reflexivity.
Qed.

(** With [verbose] off, every [reportv] writes one bar and nothing of its
    message, without ending the line; the first [report] after a run of
    them starts on a line of its own. *)
Theorem quiet_reports (messages : list (string * bool)) (message : string)
    (c : Console) :
  verbose c = false ->
  messages <> [] ->
  stdout (report message false true (reportv_all messages c))
  = stdout c +:+ repeat_string "|" (length messages) +:+ nl +:+ message
    +:+ nl.
Proof.
  intros Hv Hne.
  destruct (reportv_all_quiet messages c Hv) as (_ & B & C).
  unfold report. simpl. rewrite B, C.
  destruct messages; [contradiction |]. simpl.
  rewrite !append_assoc. reflexivity.
Qed.

Lemma quiet_reports_witness :
  stdout (report "3 buttons created..." false true
            (reportv_all [("Creating panel: P", false);
                          ("Creating push button: U", false)]
               quiet_console))
  = "||" +:+ nl +:+ "3 buttons created..." +:+ nl.
Proof.
  apply (quiet_reports [("Creating panel: P", false);
                        ("Creating push button: U", false)]
           "3 buttons created..." quiet_console).
  - reflexivity.
  - discriminate.
Defined.

(** ** The files of earlier sessions *)

Lemma filter_filter_and {A} (P Q : A -> bool) (l : list A) :
  List.filter P (List.filter Q l) = List.filter (fun x => Q x && P x) l.
Proof.
  induction l as [| x r IH]; [reflexivity |].
  simpl. destruct (Q x); simpl; [destruct (P x) |]; rewrite IH; reflexivity.
Qed.

(** Removing, one after the other, the names of a listing that pass a
    test. *)
Lemma remove_loop (P : string -> bool) (listing : list string) :
  forall files,
    fold_left (fun files f => if P f then remove_file f files else files)
              listing files
    = List.filter
        (fun x => negb (existsb (fun f => P f && String.eqb x f) listing))
        files.
Proof.
  induction listing as [| f r IH]; intros files; simpl.
  - symmetry. apply forallb_filter_id. apply forallb_forall. auto.
  - rewrite IH. destruct (P f); simpl.
    + unfold remove_file. rewrite filter_filter_and.
      apply filter_ext. intros x. rewrite negb_orb. reflexivity.
    + reflexivity.
Qed.

Lemma remove_loop_self (P : string -> bool) (files : list string) :
  fold_left (fun files f => if P f then remove_file f files else files)
            files files
  = List.filter (fun x => negb (P x)) files.
Proof.
  rewrite remove_loop. apply filter_ext_in. intros x Hx. f_equal.
  destruct (P x) eqn:E.
  - apply existsb_exists. exists x. rewrite E, String.eqb_refl. auto.
  - destruct (existsb _ files) eqn:Ex; [| reflexivity].
    apply existsb_exists in Ex as (f & _ & Hf).
    apply andb_prop in Hf as [Hp He]. apply String.eqb_eq in He.
    congruence.
Qed.

Lemma cleanup_eq (revitinstances : nat) (loaded : list Assembly)
    (sid : string) (removable : string -> bool) (files : list string) :
  cleanup revitinstances loaded sid removable files
  = if (revitinstances =? 1)%nat && negb (isreloading loaded)
    then List.filter
           (fun f => negb (Py.startswith sid f && Py.endswith "dll" f
                           && removable f)) files
    else files.
Proof.
  unfold cleanup.
  destruct (1 <? revitinstances)%nat eqn:E1.
  - apply Nat.ltb_lt in E1.
    replace (revitinstances =? 1)%nat with false; [reflexivity |].
    symmetry. apply Nat.eqb_neq. lia.
  - destruct (_ && _); [| reflexivity].
    rewrite <- remove_loop_self. apply fold_left_ext.
    intros s f. destruct (Py.startswith sid f && Py.endswith "dll" f);
      reflexivity.
Qed.

(** [cleanup] deletes from the temporary folder exactly the files that
    can be removed and whose name starts with the session identifier and
    ends with [dll], and it does so only when one single Revit process
    runs and no pyRevit assembly is loaded. Everything else stays, in the
    order of the listing. *)
Theorem cleanup_deletes_session_dlls (revitinstances : nat)
    (loaded : list Assembly) (sid : string) (removable : string -> bool)
    (files : list string) :
  cleanup revitinstances loaded sid removable files
  = List.filter
      (fun f => negb ((revitinstances =? 1)%nat
                      && negb (isreloading loaded)
                      && Py.startswith sid f && Py.endswith "dll" f
                      && removable f))
      files.
Proof.
  rewrite cleanup_eq. destruct (_ && negb _); simpl.
  - reflexivity.
  - symmetry. apply forallb_filter_id. apply forallb_forall. auto.
Qed.

Lemma startswith_prefix (a b : string) : Py.startswith a (a +:+ b) = true.
Proof. apply startswith_app, startswith_refl. Qed.

Lemma drop_app (a b : string) (k : nat) :
  Py.drop (String.length a + k) (a +:+ b) = Py.drop k b.
Proof.
  induction a as [| x a IH]; [reflexivity |].
  rewrite append_cons. simpl. exact IH.
Qed.

Lemma endswith_suffix (p a b : string) :
  Py.endswith p b = true -> Py.endswith p (a +:+ b) = true.
Proof.
  unfold Py.endswith. intros H. apply andb_prop in H as [Hl He].
  apply Nat.leb_le in Hl. rewrite append_length.
  apply andb_true_intro. split; [apply Nat.leb_le; lia |].
  replace (String.length a + String.length b - String.length p)%nat
    with (String.length a + (String.length b - String.length p))%nat
    by lia.
  rewrite drop_app. exact He.
Qed.

Lemma mem_filter_false (P : string -> bool) (x : string)
    (l : list string) :
  P x = false -> Py.mem x (List.filter P l) = false.
Proof.
  intros H. destruct (Py.mem x (List.filter P l)) eqn:E; [| reflexivity].
  apply mem_In, filter_In in E as [_ E]. congruence.
Qed.

(** The names that [createassembly] gives to the assembly and to the log
    of a session are names that a later start recognises: the assembly
    starts with the session identifier of its Revit version and ends with
    [dll], so [cleanup] deletes it; the log starts with the assembly
    identifier and ends with [log]. *)
Theorem session_files_recognised (revitVersion timestamp username : string)
    (files : list string) :
  Py.startswith (sessionidentifier revitVersion)
                (dllname revitVersion timestamp username) = true
  /\ Py.endswith "dll" (dllname revitVersion timestamp username) = true
  /\ Py.startswith assemblyidentifier
                   (logfilename revitVersion timestamp username) = true
  /\ Py.endswith "log" (logfilename revitVersion timestamp username) = true
  /\ Py.mem (dllname revitVersion timestamp username)
            (cleanup 1 [] (sessionidentifier revitVersion) (fun _ => true)
                     files) = false.
Proof.
  assert (H1 : Py.startswith (sessionidentifier revitVersion)
                 (dllname revitVersion timestamp username) = true).
  { unfold dllname, sessionname. rewrite !append_assoc.
    apply startswith_prefix. }
  assert (H2 : Py.endswith "dll" (dllname revitVersion timestamp username)
               = true).
  { unfold dllname. apply endswith_suffix. reflexivity. }
  split; [exact H1 |]. split; [exact H2 |]. split; [| split].
  - unfold logfilename, sessionname, sessionidentifier, assemblyidentifier.
    rewrite !append_assoc. apply startswith_prefix.
  - unfold logfilename. apply endswith_suffix. reflexivity.
  - rewrite cleanup_eq.
    change ((1 =? 1)%nat && negb (isreloading [])) with true. cbv iota.
    apply mem_filter_false. rewrite H1, H2. reflexivity.
Qed.

Lemma find_loaded_pyrevit_assemblies_eq (assemblies loaded : list Assembly) :
  find_loaded_pyrevit_assemblies assemblies loaded
  = loaded
    ++ List.filter
         (fun a => Py.contains sessionSettings.pyRevitAssemblyName
                               (asm_FullName a)) assemblies.
Proof.
  unfold find_loaded_pyrevit_assemblies. revert loaded.
  induction assemblies as [| a r IH]; intros loaded; simpl.
  - rewrite app_nil_r. reflexivity.
  - rewrite IH. destruct (Py.contains _ _); [| reflexivity].
    rewrite <- app_assoc. reflexivity.
Qed.

(** On a reload nothing is deleted and nothing archived: when an assembly
    of the host has [pyRevit] in its full name, [cleanup] and
    [archivelogs] leave the temporary folder and the archive as they
    are. *)
Theorem reload_keeps_files (assemblies : list Assembly)
    (revitinstances : nat) (sid : string) (removable movable : string -> bool)
    (archive_exists : bool) (files archive : list string) :
  existsb (fun a => Py.contains "pyRevit" (asm_FullName a)) assemblies
  = true ->
  let loaded := find_loaded_pyrevit_assemblies assemblies [] in
  isreloading loaded = true
  /\ cleanup revitinstances loaded sid removable files = files
  /\ archivelogs archive_exists revitinstances loaded movable files archive
     = (files, archive).
Proof.
  intros H loaded.
  assert (Hr : isreloading loaded = true).
  { subst loaded. rewrite find_loaded_pyrevit_assemblies_eq. simpl.
    apply existsb_exists in H as (a & Ha & Hc).
    unfold isreloading. apply Nat.ltb_lt.
    assert (Hin : In a (List.filter
                          (fun a => Py.contains
                                      sessionSettings.pyRevitAssemblyName
                                      (asm_FullName a)) assemblies))
      by (apply filter_In; auto).
    destruct (List.filter _ assemblies); [contradiction | simpl; lia]. }
  split; [exact Hr |]. split.
  - unfold cleanup. rewrite Hr, andb_false_r.
    destruct (1 <? revitinstances)%nat; reflexivity.
  - unfold archivelogs. rewrite Hr, andb_false_r.
    destruct archive_exists, (1 <? revitinstances)%nat; reflexivity.
Qed.

Lemma reload_keeps_files_witness :
  cleanup 1 (find_loaded_pyrevit_assemblies [earlier_session_assembly] [])
    (sessionidentifier "2016") (fun _ => true) temp_folder = temp_folder
  /\ cleanup 1 [] (sessionidentifier "2016") (fun _ => true) temp_folder
     = [ logfilename "2016" "161103120000" "jdoe";
         dllname "2015" "161102090000" "jdoe"; "notes.txt" ].
Proof.
  split; [| vm_compute; reflexivity].
  exact (proj1 (proj2 (reload_keeps_files [earlier_session_assembly] 1
                         (sessionidentifier "2016") (fun _ => true)
                         (fun _ => true) true temp_folder [] eq_refl))).
Defined.

Lemma remove_file_In (f x : string) (l : list string) :
  In x (remove_file f l) <-> In x l /\ x <> f.
Proof.
  unfold remove_file. rewrite filter_In, negb_true_iff, String.eqb_neq.
  reflexivity.
Qed.

Lemma move_loop (P : string -> bool) (listing : list string) :
  forall files archive,
    let r := fold_left
               (fun '(files, archive) f =>
                  if P f
                  then (remove_file f files, remove_file f archive ++ [f])
                  else (files, archive))
               listing (files, archive) in
    r.1 = fold_left (fun files f => if P f then remove_file f files
                                    else files) listing files
    /\ forall x, In x r.2
                 <-> In x archive \/ (In x listing /\ P x = true).
Proof.
  induction listing as [| f l IH]; intros files archive; simpl.
  - split; [reflexivity |]. intros x. tauto.
  - destruct (P f) eqn:E.
    + destruct (IH (remove_file f files) (remove_file f archive ++ [f]))
        as [A B].
      split; [exact A |]. intros x. rewrite B, in_app_iff, remove_file_In.
      simpl. destruct (string_dec x f) as [-> | Hne].
      * intuition.
      * intuition congruence.
    + destruct (IH files archive) as [A B]. split; [exact A |].
      intros x. rewrite B. intuition congruence.
Qed.

Lemma archivelogs_eq (archive_exists : bool) (revitinstances : nat)
    (loaded : list Assembly) (movable : string -> bool)
    (files archive : list string) :
  archivelogs archive_exists revitinstances loaded movable files archive
  = if archive_exists && (revitinstances =? 1)%nat
       && negb (isreloading loaded)
    then fold_left
           (fun '(files, archive) f =>
              if Py.startswith assemblyidentifier f && Py.endswith "log" f
                 && movable f
              then (remove_file f files, remove_file f archive ++ [f])
              else (files, archive))
           files (files, archive)
    else (files, archive).
Proof.
  unfold archivelogs. destruct archive_exists; [| reflexivity].
  cbn [andb]. destruct (1 <? revitinstances)%nat eqn:E1.
  - apply Nat.ltb_lt in E1.
    replace (revitinstances =? 1)%nat with false; [reflexivity |].
    symmetry. apply Nat.eqb_neq. lia.
  - destruct (_ && _); [| reflexivity].
    apply fold_left_ext. intros [s a] f.
    destruct (Py.startswith assemblyidentifier f && Py.endswith "log" f),
      (movable f); reflexivity.
Qed.

(** [archivelogs] moves to the archive folder the files of the temporary
    folder that can be moved and whose name starts with the assembly
    identifier and ends with [log], the logs of every Revit version
    alike, when the archive folder exists, one single Revit process runs
    and no pyRevit assembly is loaded; otherwise both folders stay as they
    are. *)
Theorem archivelogs_moves_logs (archive_exists : bool)
    (revitinstances : nat) (loaded : list Assembly)
    (movable : string -> bool) (files archive : list string) :
  let moved f :=
    archive_exists && (revitinstances =? 1)%nat
    && negb (isreloading loaded)
    && (Py.startswith assemblyidentifier f && Py.endswith "log" f
        && movable f) in
  let r := archivelogs archive_exists revitinstances loaded movable files
             archive in
  r.1 = List.filter (fun f => negb (moved f)) files
  /\ forall x, In x r.2 <-> In x archive \/ (In x files /\ moved x = true).
Proof.
  intros moved r. subst moved r. rewrite archivelogs_eq.
  destruct (archive_exists && (revitinstances =? 1)%nat
            && negb (isreloading loaded)); cbn [andb].
  - destruct (move_loop
                (fun f => Py.startswith assemblyidentifier f
                          && Py.endswith "log" f && movable f)
                files files archive) as [A B].
    split; [| exact B]. rewrite A. apply remove_loop_self.
  - split.
    + symmetry. apply forallb_filter_id, forallb_forall. auto.
    + intros x. split; [auto | intros [H | [_ H]]];
        [exact H | discriminate H].
Qed.

Lemma archivelogs_example :
  archivelogs true 1 [] (fun _ => true) temp_folder []
  = ([ dllname "2016" "161103120000" "jdoe";
       dllname "2015" "161102090000" "jdoe"; "notes.txt" ],
     [ logfilename "2016" "161103120000" "jdoe" ]).
Proof. vm_compute. reflexivity. Qed.

(** ** The command loader class *)

Lemma existsb_find {A} (P : A -> bool) (l : list A) :
  existsb P l = match List.find P l with Some _ => true | None => false end.
Proof.
  induction l as [| a r IH]; [reflexivity |].
  simpl. destruct (P a); [reflexivity | exact IH].
Qed.

Lemma existsb_orb {A} (P Q : A -> bool) (l : list A) :
  existsb (fun a => P a || Q a) l = existsb P l || existsb Q l.
Proof.
  induction l as [| a r IH]; [reflexivity |].
  simpl. rewrite IH. destruct (P a), (Q a), (existsb P r); reflexivity.
Qed.

Section CommandLoaderFacts.

Variable GetType : Assembly -> string -> option string.
Variable logScriptUsage : bool.

(** [find_commandloader_class] succeeds exactly when an assembly of the
    host has [RevitPythonLoader] or [RevitPythonShell] in its full name; a
    RevitPythonLoader assembly is taken whenever there is one, wherever it
    stands among the assemblies; the class with the logger is taken only
    when script usage is logged; and the base constructor that
    [createassembly] then asks for takes as many strings as the generated
    constructor loads, unless script usage is logged and only
    RevitPythonShell was found, in which case no constructor is asked
    for. *)
Theorem command_loader_choice (assemblies : list Assembly) :
  let r := find_commandloader_class GetType logScriptUsage assemblies
             no_loader in
  let rpl a := Py.contains "RevitPythonLoader" (asm_FullName a) in
  let rps a := Py.contains "RevitPythonShell" (asm_FullName a) in
  r.2 = existsb (fun a => rpl a || rps a) assemblies
  /\ isrplfound r.1 = existsb rpl assemblies
  /\ commandLoaderAssembly r.1
     = (if existsb rpl assemblies then List.find rpl assemblies
        else List.find rps assemblies)
  /\ (isrplloggerfound r.1 = true ->
      logScriptUsage = true /\ isrplfound r.1 = true
      /\ exists a, commandLoaderAssembly r.1 = Some a
                   /\ commandLoaderClass r.1
                      = GetType a
                          "RevitPythonLoader.CommandLoaderBaseWithLogger")
  /\ match base_constructor logScriptUsage r.1 with
     | Some n => loaded_arguments logScriptUsage r.1 = n
     | None => logScriptUsage = true /\ existsb rpl assemblies = false
     end.
Proof.
  intros r rpl rps. subst r. unfold find_commandloader_class.
  fold rpl rps.
  rewrite existsb_orb, (existsb_find rpl), (existsb_find rps).
  destruct (List.find rpl assemblies) as [a |] eqn:Ea.
  - unfold base_constructor, loaded_arguments.
    destruct logScriptUsage.
    + destruct (GetType a "RevitPythonLoader.CommandLoaderBaseWithLogger")
        eqn:Eg; simpl; split_and!; try reflexivity; try discriminate.
      intros _. split_and!; try reflexivity.
      exists a. rewrite Eg. auto.
    + simpl. split_and!; try reflexivity. discriminate.
  - unfold base_constructor, loaded_arguments.
    destruct (List.find rps assemblies) as [a |] eqn:Es; simpl;
      destruct logScriptUsage; simpl; split_and!;
        try reflexivity; try discriminate.
Qed.

End CommandLoaderFacts.

Lemma command_loader_example :
  let r := find_commandloader_class sample_types true
             [rps_assembly; rpl_assembly] no_loader in
  commandLoaderAssembly r.1 = Some rpl_assembly
  /\ commandLoaderClass r.1
     = Some "RevitPythonLoader.CommandLoaderBaseWithLogger"
  /\ base_constructor true r.1 = Some 2%nat
  /\ base_constructor true
       (find_commandloader_class sample_types true [rps_assembly]
          no_loader).1 = None.
Proof. vm_compute. auto. Qed.

(** ** The reload button *)

Lemma basename_plain (s : string) :
  Py.contains "/" s = false -> Py.contains "\" s = false ->
  Py.basename s = s.
Proof.
  destruct s as [| c r]; [reflexivity |].
  rewrite !contains_char_cons. intros H1 H2.
  apply orb_false_iff in H1 as [A1 B1]. apply orb_false_iff in H2 as [A2 B2].
  cbn [Py.basename]. unfold Py.ascii_eqb in *.
  rewrite (Ascii.eqb_sym c "/"), (Ascii.eqb_sym c "\"), A1, A2, B1, B2.
  reflexivity.
Qed.

Lemma lower_ascii_dot (c : ascii) :
  Py.lower_ascii c = "."%char -> c = "."%char.
Proof.
  destruct c as [[] [] [] [] [] [] [] []]; vm_compute;
    intros H; try discriminate H; reflexivity.
Qed.

Lemma lower_py_ext (fext : string) :
  String.eqb ".py" (Py.lower fext) = true ->
  exists a b, fext = String "." (String a (String b "")).
Proof.
  intros H. apply String.eqb_eq in H.
  destruct fext as [| c0 [| c1 [| c2 [| c3 r]]]]; try discriminate H.
  simpl in H. injection H as H0 _ _. symmetry in H0.
  apply lower_ascii_dot in H0. subst c0. eauto.
Qed.

Lemma contains_length (p : string) :
  forall s, Py.contains p s = true ->
            (String.length p <= String.length s)%nat.
Proof.
  assert (Hs : forall p s, Py.startswith p s = true ->
                           (String.length p <= String.length s)%nat).
  { clear. induction p as [| a p IH]; intros s H; [simpl; lia |].
    destruct s as [| b s]; [discriminate H |].
    simpl in H. apply andb_prop in H as [_ H]. apply IH in H.
    simpl. lia. }
  induction s as [| b s IH]; intros H.
  - simpl in H. rewrite orb_false_r in H. exact (Hs _ _ H).
  - rewrite contains_cons in H. apply orb_true_iff in H as [H | H].
    + exact (Hs _ _ H).
    + apply IH in H. simpl. lia.
Qed.

Lemma startswith_app_dot (r : string) :
  forall p a,
    Py.contains "." p = false ->
    Py.startswith p (a +:+ String "." r) = true ->
    Py.startswith p a = true.
Proof.
  induction p as [| c p IH]; intros a Hp H; [destruct a; reflexivity |].
  rewrite contains_char_cons in Hp. apply orb_false_iff in Hp as [Hc Hp].
  destruct a as [| x a].
  - simpl in H. apply andb_prop in H as [H _].
    unfold Py.ascii_eqb in *. rewrite Ascii.eqb_sym in H. congruence.
  - rewrite append_cons in H. simpl in *.
    apply andb_prop in H as [H1 H2]. rewrite H1. exact (IH a Hp H2).
Qed.

Lemma contains_app_dot (p r : string) :
  Py.contains "." p = false ->
  (String.length r < String.length p)%nat ->
  forall a,
    Py.contains p (a +:+ String "." r) = true -> Py.contains p a = true.
Proof.
  intros Hp Hl. induction a as [| x a IH]; intros H.
  - exfalso. change ("" +:+ String "." r) with (String "." r) in H.
    rewrite contains_cons in H. apply orb_true_iff in H as [H | H].
    + apply (startswith_app_dot r p "" Hp) in H.
      destruct p; [simpl in Hl; lia | discriminate H].
    + apply contains_length in H. lia.
  - rewrite append_cons, contains_cons in H. rewrite contains_cons.
    apply orb_true_iff in H as [H | H].
    + rewrite <- append_cons in H.
      rewrite (startswith_app_dot r p _ Hp H). reflexivity.
    + rewrite (IH H). apply orb_true_r.
Qed.

Lemma startswith_lower (p : string) :
  forall s, Py.startswith p s = true ->
            Py.startswith (Py.lower p) (Py.lower s) = true.
Proof.
  induction p as [| a p IH]; intros s H; [destruct s; reflexivity |].
  destruct s as [| b s]; [discriminate H |].
  simpl in *. apply andb_prop in H as [H1 H2].
  unfold Py.ascii_eqb in *. apply Ascii.eqb_eq in H1. subst b.
  rewrite Ascii.eqb_refl, (IH s H2). reflexivity.
Qed.

Lemma contains_lower (p s : string) :
  Py.contains p s = true -> Py.contains (Py.lower p) (Py.lower s) = true.
Proof.
  induction s as [| b s IH]; intros H.
  - simpl in H. rewrite orb_false_r in H.
    apply startswith_lower in H. simpl in *. rewrite H. reflexivity.
  - rewrite contains_cons in H.
    change (Py.lower (String b s))
      with (String (Py.lower_ascii b) (Py.lower s)).
    rewrite contains_cons. apply orb_true_iff in H as [H | H].
    + apply startswith_lower in H. simpl in H. simpl. rewrite H.
      reflexivity.
    + rewrite (IH H). apply orb_true_r.
Qed.

(** A script of the loader directory that holds the name of the init
    script and is accepted as a command of the master tab is the reload
    command. *)
Lemma reload_command xp (siblings : list string) (loaderDir fname : string)
    (cmd : ScriptCommand) :
  Py.contains "/" fname = false -> Py.contains "\" fname = false ->
  Py.contains sessionSettings.pyRevitInitScriptName fname = true ->
  ScriptCommand_init xp siblings loaderDir fname
    sessionSettings.masterTabName = Ok cmd ->
  scriptGroupName cmd = "pyRevit" /\ cmdName cmd = "reloadScripts"
  /\ className cmd = "masterpyRevitreloadScripts"
  /\ cmd_tabName cmd = "master" /\ cmd_filePath cmd = loaderDir
  /\ cmd_fileName cmd = fname.
Proof.
  intros Hs1 Hs2 Hc H. apply ScriptCommand_init_Ok in H.
  destruct H as (Ht & Hsp & Hp & Hf & Htab & Hcls).
  rewrite (basename_plain fname Hs1 Hs2) in *.
  apply andb_prop in Ht as [_ Hext].
  destruct (lower_py_ext _ Hext) as (a & b & Efext).
  pose proof (splitext_app fname) as Happ. rewrite Efext in Happ.
  rewrite <- Happ in Hc.
  apply (contains_app_dot "__init__" (String a (String b ""))) in Hc;
    [| reflexivity | simpl; lia].
  apply contains_lower in Hc.
  assert (Hn : custom_name (Py.splitext fname).1
                 sessionSettings.masterTabName = "pyRevit_reloadScripts").
  { unfold custom_name. rewrite String.eqb_refl, andb_true_r.
    change (Py.lower sessionSettings.pyRevitInitScriptName)
      with (Py.lower "__init__").
    rewrite Hc. reflexivity. }
  rewrite Hn in Hsp.
  change (Py.rsplit "_" "pyRevit_reloadScripts")
    with ["pyRevit"; "reloadScripts"] in Hsp.
  injection Hsp as Eg Ec. rewrite Hcls, <- Eg, <- Ec.
  split_and!; auto.
Qed.

Lemma reload_loop xp (loaderDir : string) (entries : list fsnode)
    (siblings names : list string) :
  Forall (fun name => Py.contains "/" name = false
                      /\ Py.contains "\" name = false) names ->
  forall self,
  exists added,
    pyRevitScriptCommands
      (fold_left
         (fun self fname =>
            if negb (isdir entries fname)
               && Py.contains sessionSettings.pyRevitInitScriptName fname
            then match ScriptCommand_init xp siblings loaderDir fname
                         sessionSettings.masterTabName with
                 | Ok cmd => append_command self cmd
                 | Raise _ => self
                 end
            else self) names self)
    = pyRevitScriptCommands self ++ added
    /\ Forall (fun cmd =>
                 scriptGroupName cmd = "pyRevit"
                 /\ cmdName cmd = "reloadScripts"
                 /\ className cmd = "masterpyRevitreloadScripts"
                 /\ cmd_tabName cmd = "master"
                 /\ cmd_filePath cmd = loaderDir) added.
Proof.
  induction 1 as [| f r [Hf1 Hf2] _ IH]; intros self.
  - exists []. simpl. rewrite app_nil_r. split; [reflexivity | constructor].
  - simpl.
    destruct (negb (isdir entries f)
              && Py.contains sessionSettings.pyRevitInitScriptName f)
      eqn:Et; [| apply IH].
    apply andb_prop in Et as [_ Hc].
    destruct (ScriptCommand_init xp siblings loaderDir f
                sessionSettings.masterTabName) as [cmd |] eqn:Ec;
      [| apply IH].
    destruct (IH (append_command self cmd)) as (added & Ha & HF).
    exists (cmd :: added). split.
    + rewrite Ha. simpl. rewrite <- app_assoc. reflexivity.
    + constructor; [| exact HF].
      destruct (reload_command xp siblings loaderDir f cmd Hf1 Hf2 Hc Ec)
        as (A & B & C & D & E & _).
      auto.
Qed.

(** [create_reload_button] adds nothing but reload commands: every command
    it appends to the session is the command [reloadScripts] of group
    [pyRevit] in the master tab, with the class name
    [masterpyRevitreloadScripts], whatever the loader directory holds. *)
Theorem reload_button_identity xp (self : Session) (loaderDir : string)
    (entries : list fsnode) :
  Forall (fun name => Py.contains "/" name = false
                      /\ Py.contains "\" name = false) (listdir entries) ->
  exists added,
    pyRevitScriptCommands (create_reload_button xp self loaderDir entries)
    = pyRevitScriptCommands self ++ added
    /\ Forall (fun cmd =>
                 scriptGroupName cmd = "pyRevit"
                 /\ cmdName cmd = "reloadScripts"
                 /\ className cmd = "masterpyRevitreloadScripts"
                 /\ cmd_tabName cmd = "master"
                 /\ cmd_filePath cmd = loaderDir) added.
Proof.
  intros Hnames.
  exact (reload_loop xp loaderDir entries (listdir entries)
           (listdir entries) Hnames self).
Qed.

Lemma reload_button_identity_witness :
  map className
    (pyRevitScriptCommands
       (create_reload_button no_metadata new_session "loader"
          [FsFile "__init__.py"; FsFile "__init__.ini";
           FsFile "my__init__script.PY"; FsFile "other_tool.py"]))
  = ["masterpyRevitreloadScripts"; "masterpyRevitreloadScripts"]
  /\ exists added,
       pyRevitScriptCommands
         (create_reload_button no_metadata new_session "loader"
            [FsFile "__init__.py"; FsFile "__init__.ini";
             FsFile "my__init__script.PY"; FsFile "other_tool.py"])
       = [] ++ added
       /\ Forall (fun cmd =>
                    scriptGroupName cmd = "pyRevit"
                    /\ cmdName cmd = "reloadScripts"
                    /\ className cmd = "masterpyRevitreloadScripts"
                    /\ cmd_tabName cmd = "master"
                    /\ cmd_filePath cmd = "loader") added.
Proof.
  split; [vm_compute; reflexivity |].
  apply (reload_button_identity no_metadata new_session "loader").
  repeat constructor.
Defined.

(** ** A panel descriptor is a group descriptor *)

Lemma split_cons_digit (c : ascii) (s : string) :
  Py.is_digit c = true ->
  exists w ws, Py.split "_" s = w :: ws
               /\ Py.split "_" (String c s) = String c w :: ws.
Proof.
  intros Hc. simpl. rewrite (digit_not_underscore c Hc).
  destruct (Py.split "_" s) as [| w ws] eqn:E;
    [exfalso; exact (split_nonempty "_" s E) |].
  eauto.
Qed.

(** The first token of a name that starts with three digits and has more
    than one token has at least three characters. *)
Lemma first_token_three (fname order name : string) (rest : list string) :
  Py.isdigit (Py.take 3 fname) = true ->
  Py.split "_" fname = order :: name :: rest ->
  exists a b c w, order = String a (String b (String c w)).
Proof.
  intros Hd Hs.
  destruct fname as [| a [| b [| c s]]].
  - discriminate Hd.
  - simpl in Hd. rewrite andb_true_r in Hd. simpl in Hs.
    rewrite (digit_not_underscore a Hd) in Hs. discriminate Hs.
  - simpl in Hd. rewrite andb_true_r in Hd.
    apply andb_prop in Hd as [Ha Hb]. simpl in Hs.
    rewrite (digit_not_underscore a Ha), (digit_not_underscore b Hb) in Hs.
    discriminate Hs.
  - assert (H3 : Py.is_digit a = true /\ Py.is_digit b = true
                 /\ Py.is_digit c = true).
    { simpl in Hd. rewrite andb_true_r in Hd.
      apply andb_prop in Hd as [Ha Hd]. apply andb_prop in Hd as [Hb Hc].
      auto. }
    destruct H3 as (Ha & Hb & Hc).
    destruct (split_cons_digit c s Hc) as (w1 & ws1 & E1 & E1').
    destruct (split_cons_digit b (String c s) Hb) as (w2 & ws2 & E2 & E2').
    destruct (split_cons_digit a (String b (String c s)) Ha)
      as (w3 & ws3 & E3 & E3').
    rewrite E3' in Hs. injection Hs as <- _.
    rewrite E2' in E3. injection E3 as <- _.
    rewrite E1' in E2. injection E2 as <- _.
    eauto.
Qed.

Lemma isdigit_take_2 (fname : string) :
  Py.isdigit (Py.take 3 fname) = true -> Py.isdigit (Py.take 2 fname) = true.
Proof.
  destruct fname as [| a [| b [| c s]]]; simpl; try tauto.
  rewrite !andb_true_r. intros H.
  apply andb_prop in H as [Ha H]. apply andb_prop in H as [Hb _].
  rewrite Ha, Hb. reflexivity.
Qed.

Lemma findassembly_error (asm : list Assembly) (n : string) (e : exn) :
  findassembly asm n = Raise e -> e = UnknownAssembly.
Proof.
  unfold findassembly. destruct (List.find _ asm); [discriminate |].
  intros H. injection H as <-. reflexivity.
Qed.

Lemma adoptgroups_single (p : ScriptPanel) (g : ScriptGroup) :
  scriptGroups p = [] ->
  grp_panelName g = panelName p -> grp_tabName g = pnl_tabName p ->
  scriptGroups (adoptgroups p [g]) = [g].
Proof.
  intros H0 H1 H2. rewrite adoptgroups_eq. unfold adoptgroups_test.
  cbn [List.filter scriptGroups set_scriptGroups].
  rewrite H0, H1, H2, !String.eqb_refl. reflexivity.
Qed.

(** A descriptor file that gives a panel gives a group of that panel as
    well: when [ScriptPanel] accepts a file whose first token is a number,
    [ScriptGroup] decodes the same file into a group that carries the
    name and the tab of the panel, which the panel then adopts; the only
    exception left is an unknown assembly. *)
Theorem panel_descriptor_defines_group (asm : list Assembly)
    (tabdir f tabname bundled : string) (p : ScriptPanel) :
  ScriptPanel_init tabdir f tabname false = Ok p ->
  Py.isdigit (hd "" (Py.rsplit "_" (Py.splitext (Py.basename f)).1))
  = true ->
  match ScriptGroup_init asm tabdir f tabname bundled with
  | Ok g =>
      grp_panelName g = panelName p /\ grp_tabName g = pnl_tabName p
      /\ is_Some (groupType g)
      /\ scriptGroups (adoptgroups p [g]) = [g]
  | Raise e => e = UnknownAssembly
  end.
Proof.
  unfold ScriptPanel_init, ScriptGroup_init, Py.rsplit.
  destruct (Py.splitext (Py.basename f)) as [fname fext]. simpl.
  unfold ScriptPanel_isdescriptorfile, ScriptGroup_isdescriptorfile.
  intros Hp Hdig.
  destruct (String.eqb sessionSettings.iconFileFormat (Py.lower fext));
    [| simpl in Hp; discriminate Hp].
  destruct (Py.isdigit (Py.take 3 fname)) eqn:Hd;
    [| simpl in Hp; discriminate Hp].
  rewrite (isdigit_take_2 fname Hd). cbn [andb] in *.
  destruct ((length (Py.split "_" fname) =? 4)%nat
            || (length (Py.split "_" fname) =? 6)%nat) eqn:Hlen;
    [| discriminate Hp].
  destruct (Py.split "_" fname) as [| order [| name rest]] eqn:Es;
    try discriminate Hp.
  destruct (first_token_three fname order name rest Hd Es)
    as (a & b & c & w & ->).
  cbn [Py.take] in Hp.
  destruct (Py.int (String a (String b ""))) as [o |] eqn:Eo;
    [| simpl in Hp; discriminate Hp].
  simpl in Hp. injection Hp as <-. cbn [hd] in Hdig. rewrite Hdig.
  assert (Hint : exists o', Py.int (String c w) = Ok o').
  { unfold Py.int.
    assert (Hall : Py.isdigit (String c w) = true).
    { cbn [Py.isdigit Py.all_digits] in *.
      apply andb_prop in Hdig as [_ Hdig].
      apply andb_prop in Hdig as [_ Hdig]. exact Hdig. }
    rewrite Hall. eauto. }
  destruct Hint as [o' Ho'].
  destruct rest as [| gtype [| gname [| aname [| acls [| x rest']]]]];
    try discriminate Hlen; simpl; rewrite Ho'; simpl.
  - split_and!; eauto.
    apply adoptgroups_single; reflexivity.
  - destruct (findassembly asm aname) as [a1 | e1] eqn:E1; simpl;
      [| exact (findassembly_error _ _ _ E1)].
    destruct (findassembly asm (asm_Name a1)) as [a2 | e2] eqn:E2; simpl;
      [| exact (findassembly_error _ _ _ E2)].
    split_and!; eauto. apply adoptgroups_single; reflexivity.
Qed.

Lemma panel_descriptor_defines_group_witness :
  exists p g,
    ScriptPanel_init "home\X.tab" "1005_Tools_PulldownButton_Edit.png" "X"
      false = Ok p
    /\ ScriptGroup_init no_assemblies "home\X.tab"
         "1005_Tools_PulldownButton_Edit.png" "X" "" = Ok g
    /\ panelOrder p = 10 /\ groupOrder g = 5
    /\ grp_panelName g = panelName p.
Proof.
  eexists. eexists. split; [vm_compute; reflexivity |].
  split; [vm_compute; reflexivity |].
  split; [reflexivity |]. split; [reflexivity |].
  pose proof (panel_descriptor_defines_group no_assemblies "home\X.tab"
                "1005_Tools_PulldownButton_Edit.png" "X" "" _ eq_refl
                eq_refl) as H.
  exact (proj1 H).
Defined.

(** ** Script metadata *)

Section ScriptFileContentsFacts.

Variable findall : string -> string -> list string.

Lemma extractparameter_loop_before (param : string)
    (before rest : list string) (text : string) :
  Forall (fun l => findall (paramfinder_pattern param) l = []) before ->
  extractparameter_loop findall param (before ++ rest) false text
  = extractparameter_loop findall param rest false text.
Proof.
  induction 1 as [| l r Hl _ IH]; [reflexivity |].
  simpl. rewrite Hl. exact IH.
Qed.

Lemma concat_empty_cons (v : string) (vs : list string) :
  String.concat "" (v :: vs) = v +:+ String.concat "" vs.
Proof.
  destruct vs; [symmetry; apply append_empty_r | reflexivity].
Qed.

Lemma extractparameter_loop_continued (param : string)
    (continued : list string) (values : list string) :
  Forall2 (fun l v => head (findall paramfinderex_pattern l) = Some v)
          continued values ->
  forall text after,
    match after with
    | [] => True
    | l :: _ => findall paramfinderex_pattern l = []
    end ->
    extractparameter_loop findall param (continued ++ after) true text
    = text +:+ String.concat "" values.
Proof.
  induction 1 as [| l v ls vs Hl _ IH]; intros text after Ha.
  - simpl. destruct after as [| l r].
    + simpl. symmetry. apply append_empty_r.
    + simpl. rewrite Ha. symmetry. apply append_empty_r.
  - rewrite concat_empty_cons. cbn [app extractparameter_loop negb].
    destruct (findall paramfinderex_pattern l) as [| v' r'];
      [discriminate Hl |].
    simpl in Hl. injection Hl as ->. rewrite (IH _ _ Ha).
    apply append_assoc.
Qed.

(** What [extractparameter] reads: the first match in the first line that
    the parameter pattern matches, followed by the first matches of the
    lines that directly follow it and start with a quoted text; the first
    line that does not ends the reading, and nothing after it counts. A
    file without a matching line gives the empty text. *)
Theorem extractparameter_reads (param : string)
    (before continued after : list string) (line value : string)
    (more values : list string) :
  Forall (fun l => findall (paramfinder_pattern param) l = []) before ->
  findall (paramfinder_pattern param) line = value :: more ->
  Forall2 (fun l v => head (findall paramfinderex_pattern l) = Some v)
          continued values ->
  match after with
  | [] => True
  | l :: _ => findall paramfinderex_pattern l = []
  end ->
  extractparameter findall (before ++ line :: continued ++ after)
    param
  = unescape (value +:+ String.concat "" values)
  /\ extractparameter findall before param = "".
Proof.
  intros Hb Hl Hc Ha. unfold extractparameter. split.
  - rewrite (extractparameter_loop_before param before _ "" Hb).
    simpl. rewrite Hl.
    rewrite (extractparameter_loop_continued param continued values Hc
               value after Ha).
    reflexivity.
  - rewrite <- (app_nil_r before).
    rewrite (extractparameter_loop_before param before [] "" Hb).
    reflexivity.
Qed.

End ScriptFileContentsFacts.

Lemma extractparameter_reads_witness :
  extractparameter sample_findall script_lines "__doc__"
  = "Measures walls" +:+ nl +:+ "and floors.".
Proof.
  refine (eq_trans
            (proj1 (extractparameter_reads sample_findall "__doc__"
                      ["# a tool"] ["'and floors.'"]
                      ["import clr"; "'never read'"]
                      "__doc__ = 'Measures walls\n'" "Measures walls\n" []
                      ["and floors."] _ _ _ _)) _).
  - repeat constructor.
  - reflexivity.
  - repeat constructor.
  - reflexivity.
  - vm_compute. reflexivity.
Defined.

(** ** The enumeration order of a tab directory *)

Section TabDirectoryFacts.

Variable asm : list Assembly.
Variable xp : string -> string -> string -> string.

Lemma session_eta (s : Session) :
  {| pyRevitScriptPanels := pyRevitScriptPanels s;
     pyRevitScriptGroups := pyRevitScriptGroups s;
     pyRevitScriptCommands := pyRevitScriptCommands s;
     pyRevitScriptTabs := pyRevitScriptTabs s |} = s.
Proof. destruct s; reflexivity. Qed.

Lemma with_found_nil (s : Session) : with_found s [] [] = s.
Proof. unfold with_found. simpl. rewrite !app_nil_r. apply session_eta. Qed.

Lemma find_scriptcommands_step_found (searchdir : string)
    (entries : list fsnode) (tabname x : string) :
  exists more,
    forall self cmds,
      find_scriptcommands_step xp searchdir entries tabname
        (with_found self cmds []) x
      = with_found self (cmds ++ more) [].
Proof.
  unfold find_scriptcommands_step.
  destruct (Py.splitext (Py.basename x)) as [fname fext].
  destruct (negb (isdir entries x) && _).
  - destruct (ScriptCommand_init xp (listdir entries) searchdir x tabname)
      as [cmd | e].
    + exists [cmd]. intros s c. unfold append_command, with_found. simpl.
      rewrite app_assoc. reflexivity.
    + exists []. intros s c. rewrite app_nil_r. reflexivity.
  - exists []. intros s c. rewrite app_nil_r. reflexivity.
Qed.

Lemma find_scriptcommands_loop_found (searchdir : string)
    (entries : list fsnode) (tabname : string) (files : list string) :
  exists more,
    forall self cmds,
      fold_left (find_scriptcommands_step xp searchdir entries tabname)
                files (with_found self cmds [])
      = with_found self (cmds ++ more) [].
Proof.
  induction files as [| x r IH].
  - exists []. intros s c. rewrite app_nil_r. reflexivity.
  - destruct (find_scriptcommands_step_found searchdir entries tabname x)
      as (m1 & H1).
    destruct IH as (m2 & H2). exists (m1 ++ m2). intros s c. simpl.
    rewrite H1, H2, app_assoc. reflexivity.
Qed.

(** [find_scriptcommands] appends the commands of the directory to the
    commands of the session and changes nothing else. *)
Lemma find_scriptcommands_found (self : Session) (searchdir : string)
    (entries : list fsnode) (tabname : string) :
  find_scriptcommands xp self searchdir entries tabname
  = with_found self (found_commands xp searchdir entries tabname) [].
Proof.
  unfold found_commands, find_scriptcommands.
  destruct (find_scriptcommands_loop_found searchdir entries tabname
              (sorted_strings (listdir entries))) as (more & H).
  rewrite <- (with_found_nil self) at 1.
  rewrite <- (with_found_nil new_session).
  rewrite !H. reflexivity.
Qed.

Lemma find_scriptgroups_step_decode (searchdir : string)
    (entries : list fsnode) (tabname bundled : string) (self : Session)
    (cmds : list ScriptCommand) (acc : list ScriptGroup) (x : string) :
  find_scriptgroups_step asm searchdir entries tabname bundled
    (with_found self cmds acc) x
  = match decode_group asm searchdir entries tabname bundled x with
    | Ok found => Ok (with_found self cmds (acc ++ found))
    | Raise e => Raise e
    end.
Proof.
  unfold find_scriptgroups_step, decode_group.
  destruct (Py.splitext (Py.basename x)) as [fname fext].
  destruct (negb (isdir entries x) && _);
    [| rewrite app_nil_r; reflexivity].
  destruct (ScriptGroup_init asm searchdir x tabname bundled) as [g | e].
  - unfold append_group, with_found. simpl.
    rewrite map_app, app_assoc. reflexivity.
  - destruct e; try reflexivity; rewrite app_nil_r; reflexivity.
Qed.

Lemma find_scriptgroups_loop_decode (searchdir : string)
    (entries : list fsnode) (tabname bundled : string) (self : Session)
    (cmds : list ScriptCommand) (files : list string) :
  forall acc,
    for_each (find_scriptgroups_step asm searchdir entries tabname bundled)
             files (with_found self cmds acc)
    = match decode_groups
              (decode_group asm searchdir entries tabname bundled) files with
      | Ok found => Ok (with_found self cmds (acc ++ found))
      | Raise e => Raise e
      end.
Proof.
  induction files as [| x r IH]; intros acc; simpl.
  - rewrite app_nil_r. reflexivity.
  - rewrite find_scriptgroups_step_decode.
    destruct (decode_group asm searchdir entries tabname bundled x)
      as [found | e]; simpl; [| reflexivity].
    rewrite IH.
    destruct (decode_groups _ r) as [more | e]; simpl; [| reflexivity].
    rewrite app_assoc. reflexivity.
Qed.

(** [find_scriptgroups] in closed form: the commands of the directory are
    appended, then its groups, each after adopting from all commands found
    so far. *)
Lemma find_scriptgroups_found (self : Session) (searchdir : string)
    (entries : list fsnode) (tabname bundled : string) :
  find_scriptgroups asm xp self searchdir entries tabname bundled
  = match decoded_groups asm searchdir entries tabname bundled with
    | Ok groups0 =>
        Ok (with_found self (found_commands xp searchdir entries tabname)
                       groups0)
    | Raise e => Raise e
    end.
Proof.
  unfold find_scriptgroups, decoded_groups.
  rewrite find_scriptcommands_found.
  apply (find_scriptgroups_loop_decode searchdir entries tabname bundled self
           _ (listdir entries) []).
Qed.

(** One iteration of the loop of [find_scriptpanels] is the contribution
    of the entry. *)
Lemma find_scriptpanels_step_contribution (tabdir : string)
    (entries : list fsnode) (tabname : string) (self : Session)
    (x : string) :
  find_scriptpanels_step asm xp tabdir entries tabname self x
  = contribute self (contribution_of asm xp tabdir entries tabname x).
Proof.
  unfold find_scriptpanels_step, contribution_of, is_panel_bundled,
    is_panel_defined_by_png.
  destruct (Py.splitext (Py.basename x)) as [fname fext]. cbn [snd].
  set (b := isdir entries x && _ && _).
  destruct (b || _); [| reflexivity].
  destruct (ScriptPanel_init tabdir x tabname b) as [p | e];
    [| destruct e; reflexivity].
  destruct b.
  - rewrite find_scriptgroups_found.
    destruct (decoded_groups asm _ _ _ _) as [g0 | e]; [| reflexivity].
    simpl. unfold collect_panel, panel_id.
    destruct (bool_decide _); reflexivity.
  - simpl. rewrite with_found_nil. unfold collect_panel, panel_id.
    destruct (bool_decide _); reflexivity.
Qed.

End TabDirectoryFacts.

(** *** The loop over independent entries, in closed form *)

Lemma adoptcommands_names (g : ScriptGroup) (cs : list ScriptCommand)
    (m : string) :
  groupName (adoptcommands g cs m) = groupName g
  /\ grp_panelName (adoptcommands g cs m) = grp_panelName g
  /\ grp_tabName (adoptcommands g cs m) = grp_tabName g
  /\ groupOrder (adoptcommands g cs m) = groupOrder g.
Proof. rewrite adoptcommands_eq. repeat split. Qed.

Lemma adoptgroups_fields (p : ScriptPanel) (gs : list ScriptGroup) :
  panelOrder (adoptgroups p gs) = panelOrder p
  /\ panelName (adoptgroups p gs) = panelName p
  /\ pnl_tabName (adoptgroups p gs) = pnl_tabName p
  /\ tabDir (adoptgroups p gs) = tabDir p
  /\ isBundled (adoptgroups p gs) = isBundled p.
Proof. rewrite adoptgroups_eq. repeat split. Qed.

Lemma filter_app_middle {A} (P : A -> bool) (a b c : list A) :
  (forall x, In x b -> P x = false) ->
  List.filter P ((a ++ b) ++ c) = List.filter P (a ++ c).
Proof.
  intros H. rewrite !List.filter_app, (filter_nil P b H), app_nil_r.
  reflexivity.
Qed.

Section PanelLoopFacts.

Variable act : string -> contribution.
Variable s0 : Session.

Local Abbreviation step := (fun s x => contribute s (act x)).

Lemma cmds_of_snoc (l : list string) (x : string) :
  cmds_of act (l ++ [x]) = cmds_of act l ++ contributed_commands (act x).
Proof.
  unfold cmds_of. rewrite flat_map_app. simpl. rewrite app_nil_r.
  reflexivity.
Qed.

Lemma groups_of_snoc (l : list string) (x : string) :
  groups_of act s0 (l ++ [x]) = groups_of act s0 l ++ own_groups act s0 x.
Proof.
  unfold groups_of. rewrite flat_map_app. simpl. rewrite app_nil_r.
  reflexivity.
Qed.

Lemma adopted_panel_id (x : string) (q : ScriptPanel) :
  adopted_panel act s0 x = Some q ->
  exists p, contributed_panel (act x) = Some p /\ panel_id q = panel_id p.
Proof.
  unfold adopted_panel. destruct (contributed_panel (act x)) as [p |];
    [| discriminate].
  intros H. injection H as <-. exists p. split; [reflexivity |].
  unfold panel_id.
  destruct (adoptgroups_fields p (pyRevitScriptGroups s0
                                   ++ own_groups act s0 x))
    as (_ & -> & -> & _). reflexivity.
Qed.

Lemma new_panels_snoc (l : list string) (x : string) :
  forall seen,
    new_panels act s0 seen (l ++ [x])
    = new_panels act s0 seen l
      ++ match adopted_panel act s0 x with
         | Some q =>
             if bool_decide
                  (panel_id q
                   ∈ seen ++ map panel_id (new_panels act s0 seen l))
             then [] else [q]
         | None => []
         end.
Proof.
  induction l as [| y r IH]; intros seen; simpl.
  - rewrite app_nil_r.
    destruct (adopted_panel act s0 x) as [q |]; [| reflexivity].
    destruct (bool_decide (panel_id q ∈ seen)); reflexivity.
  - destruct (adopted_panel act s0 y) as [qy |]; [| apply IH].
    destruct (bool_decide (panel_id qy ∈ seen)) eqn:Ey; [apply IH |].
    simpl. rewrite IH. f_equal. f_equal.
    destruct (adopted_panel act s0 x) as [q |]; [| reflexivity].
    rewrite (bool_decide_ext
               (panel_id q
                ∈ (panel_id qy :: seen)
                  ++ map panel_id
                       (new_panels act s0 (panel_id qy :: seen) r))
               (panel_id q
                ∈ seen
                  ++ panel_id qy
                     :: map panel_id
                          (new_panels act s0 (panel_id qy :: seen) r)));
      [reflexivity |].
    rewrite !list_elem_of_In, !in_app_iff. simpl. tauto.
Qed.

Lemma after_entries_nil : after_entries act s0 [] = s0.
Proof.
  unfold after_entries. simpl. rewrite !app_nil_r. apply session_eta.
Qed.

(** Scripts of entries that leave [x] alone are not adopted by the groups
    of [x]. *)
Lemma own_groups_alone (l : list string) (x : string) :
  (forall y, In y l -> leaves_alone (act y) (act x) = true) ->
  map (fun g =>
         adoptcommands g
           ((pyRevitScriptCommands s0 ++ cmds_of act l)
            ++ contributed_commands (act x))
           sessionSettings.masterTabName)
      (contributed_groups (act x))
  = own_groups act s0 x.
Proof.
  intros H. unfold own_groups. apply map_ext_in. intros g Hg.
  rewrite !adoptcommands_eq. f_equal. f_equal.
  apply filter_app_middle. intros c Hc.
  unfold cmds_of in Hc. apply in_flat_map in Hc as (y & Hy & Hc).
  specialize (H y Hy). unfold leaves_alone in H.
  apply andb_prop in H as [H _].
  rewrite forallb_forall in H. specialize (H c Hc).
  rewrite forallb_forall in H. specialize (H g Hg).
  apply negb_true_iff in H. unfold adoptcommands_test. rewrite H.
  reflexivity.
Qed.

(** Groups of entries that leave [x] alone are not adopted by the panel
    of [x]. *)
Lemma adopted_panel_alone (l : list string) (x : string)
    (p : ScriptPanel) :
  (forall y, In y l -> leaves_alone (act y) (act x) = true) ->
  contributed_panel (act x) = Some p ->
  adoptgroups p ((pyRevitScriptGroups s0 ++ groups_of act s0 l)
                 ++ own_groups act s0 x)
  = adoptgroups p (pyRevitScriptGroups s0 ++ own_groups act s0 x).
Proof.
  intros H Hp. rewrite !adoptgroups_eq. f_equal. f_equal.
  apply filter_app_middle. intros g Hg.
  unfold groups_of in Hg. apply in_flat_map in Hg as (y & Hy & Hg).
  unfold own_groups in Hg. apply in_map_iff in Hg as (g0 & <- & Hg0).
  specialize (H y Hy). unfold leaves_alone in H.
  apply andb_prop in H as [_ H]. rewrite Hp in H.
  apply andb_prop in H as [H _].
  rewrite forallb_forall in H. specialize (H g0 Hg0).
  apply negb_true_iff in H. unfold adoptgroups_test.
  destruct (adoptcommands_names g0
              (pyRevitScriptCommands s0 ++ contributed_commands (act y))
              sessionSettings.masterTabName) as (_ & -> & _).
  rewrite H. reflexivity.
Qed.

Lemma contribute_after (l : list string) (x : string) :
  (forall y, In y l -> leaves_alone (act y) (act x) = true) ->
  (forall e, act x <> Failure e) ->
  contribute (after_entries act s0 l) (act x)
  = Ok (after_entries act s0 (l ++ [x])).
Proof.
  intros H Hok.
  pose proof (own_groups_alone l x H) as Hg.
  pose proof (adopted_panel_alone l x) as Hp.
  pose proof (new_panels_snoc l x
                (map panel_id (pyRevitScriptPanels s0))) as Hn.
  pose proof (cmds_of_snoc l x) as Hc.
  pose proof (groups_of_snoc l x) as Hgs.
  unfold adopted_panel in Hn.
  destruct (act x) as [| e | p cmds g0] eqn:Ea.
  - simpl in *. unfold after_entries.
    rewrite Hn, Hc, Hgs, !app_nil_r.
    unfold own_groups. rewrite Ea. simpl. rewrite !app_nil_r. reflexivity.
  - exfalso. exact (Hok e eq_refl).
  - simpl in *. f_equal. specialize (Hp p H eq_refl).
    unfold collect_panel, with_found, after_entries. simpl.
    rewrite Hg. rewrite map_app in *.
    destruct (adoptgroups_fields p (pyRevitScriptGroups s0
                                     ++ own_groups act s0 x))
      as (_ & Hn1 & Hn2 & _).
    assert (Hid : panel_id (adoptgroups p (pyRevitScriptGroups s0
                                           ++ own_groups act s0 x))
                  = panel_id p).
    { unfold panel_id. rewrite Hn1, Hn2. reflexivity. }
    rewrite Hid in Hn. rewrite Hn, Hc, Hgs.
    destruct (bool_decide _); simpl.
    + rewrite app_nil_r, !app_assoc. reflexivity.
    + unfold append_panel. simpl. rewrite Hp, !app_assoc. reflexivity.
Qed.

Lemma run_after (r : list string) :
  forall l,
    NoDup (l ++ r) ->
    (forall x y, In x (l ++ r) -> In y (l ++ r) -> x <> y ->
                 leaves_alone (act x) (act y) = true) ->
    (forall x e, In x r -> act x <> Failure e) ->
    for_each step r (after_entries act s0 l)
    = Ok (after_entries act s0 (l ++ r)).
Proof.
  induction r as [| x r IH]; intros l Hnd Hind Hok; simpl.
  - rewrite app_nil_r. reflexivity.
  - rewrite contribute_after.
    + simpl. replace (l ++ x :: r) with ((l ++ [x]) ++ r)
        by (rewrite <- app_assoc; reflexivity).
      apply IH.
      * rewrite <- app_assoc. exact Hnd.
      * rewrite <- app_assoc. exact Hind.
      * intros y e Hy. apply Hok. right. exact Hy.
    + intros y Hy. apply Hind.
      * apply in_or_app. left. exact Hy.
      * apply in_or_app. right. left. reflexivity.
      * intros ->. apply NoDup_app in Hnd as (_ & Hd & _).
        apply (Hd x); [apply list_elem_of_In; exact Hy |].
        apply list_elem_of_In. left. reflexivity.
    + intros e. apply Hok. left. reflexivity.
Qed.

Lemma run_no_failure (l : list string) :
  forall s s',
    for_each step l s = Ok s' ->
    forall x e, In x l -> act x <> Failure e.
Proof.
  induction l as [| y r IH]; intros s s' H x e Hx; [destruct Hx |].
  simpl in H. destruct (contribute s (act y)) as [s1 |] eqn:E;
    [| discriminate H].
  simpl in H. destruct Hx as [<- | Hx].
  - intros Ha. rewrite Ha in E. discriminate E.
  - exact (IH _ _ H x e Hx).
Qed.

End PanelLoopFacts.

(** *** Two enumerations compared *)

Lemma same_panel_refl (p : ScriptPanel) : same_panel p p.
Proof. repeat split; reflexivity. Qed.

Lemma same_panels_refl (l : list ScriptPanel) : same_panels l l.
Proof.
  exists l. split; [reflexivity |].
  induction l; constructor; auto using same_panel_refl.
Qed.

Lemma forallb_pointwise {A} (f g : A -> bool) (l : list A) :
  (forall x, f x = g x) -> forallb f l = forallb g l.
Proof.
  intros H. induction l as [| x r IH]; simpl; [reflexivity |].
  rewrite H, IH. reflexivity.
Qed.

Lemma leaves_alone_same (a a' b b' : contribution) :
  same_contribution a a' -> same_contribution b b' ->
  leaves_alone a' b' = leaves_alone a b.
Proof.
  intros Ha Hb. unfold leaves_alone.
  assert (Hc : contributed_commands a' = contributed_commands a).
  { destruct a, a'; try contradiction; try reflexivity.
    destruct Ha as (_ & -> & _). reflexivity. }
  assert (Hpa : contributed_panel a' = contributed_panel a).
  { destruct a, a'; try contradiction; try reflexivity.
    destruct Ha as (-> & _). reflexivity. }
  assert (Hpb : contributed_panel b' = contributed_panel b).
  { destruct b, b'; try contradiction; try reflexivity.
    destruct Hb as (-> & _). reflexivity. }
  assert (Hga : contributed_groups a ≡ₚ contributed_groups a').
  { destruct a, a'; try contradiction; try reflexivity.
    destruct Ha as (_ & _ & H). exact H. }
  assert (Hgb : contributed_groups b ≡ₚ contributed_groups b').
  { destruct b, b'; try contradiction; try reflexivity.
    destruct Hb as (_ & _ & H). exact H. }
  rewrite Hc, Hpa, Hpb. f_equal.
  - apply forallb_pointwise. intros c. symmetry. apply forallb_permutation.
    exact Hgb.
  - destruct (contributed_panel b); [| reflexivity].
    rewrite (forallb_permutation _ _ _ Hga). reflexivity.
Qed.

Lemma flat_map_pointwise {A B} (f g : A -> list B) (l : list A) :
  (forall x, In x l -> f x ≡ₚ g x) -> flat_map f l ≡ₚ flat_map g l.
Proof.
  induction l as [| x r IH]; intros H; simpl; [reflexivity |].
  apply Permutation_app; [apply H; left; reflexivity |].
  apply IH. intros y Hy. apply H. right. exact Hy.
Qed.

Section TwoRuns.

Variables act act' : string -> contribution.
Variables s0 s0' : Session.
Variables L L' : list string.

Hypothesis HL : L ≡ₚ L'.
Hypothesis Hact : forall x, In x L -> same_contribution (act x) (act' x).
Hypothesis Hc0 : pyRevitScriptCommands s0' = pyRevitScriptCommands s0.
Hypothesis Hp0 : pyRevitScriptPanels s0' = pyRevitScriptPanels s0.
Hypothesis Hg0 : pyRevitScriptGroups s0 ≡ₚ pyRevitScriptGroups s0'.
Hypothesis Hind :
  forall x y, In x L -> In y L -> x <> y ->
              leaves_alone (act x) (act y) = true.

Lemma same_commands (x : string) :
  In x L -> contributed_commands (act' x) = contributed_commands (act x).
Proof.
  intros Hx. specialize (Hact x Hx).
  destruct (act x), (act' x); try contradiction; try reflexivity.
  destruct Hact as (_ & -> & _). reflexivity.
Qed.

Lemma same_groups (x : string) :
  In x L -> contributed_groups (act x) ≡ₚ contributed_groups (act' x).
Proof.
  intros Hx. specialize (Hact x Hx).
  destruct (act x), (act' x); try contradiction; try reflexivity.
  destruct Hact as (_ & _ & H). exact H.
Qed.

Lemma same_contributed_panel (x : string) :
  In x L -> contributed_panel (act' x) = contributed_panel (act x).
Proof.
  intros Hx. specialize (Hact x Hx).
  destruct (act x), (act' x); try contradiction; try reflexivity.
  destruct Hact as (-> & _). reflexivity.
Qed.

Lemma same_own_groups (x : string) :
  In x L -> own_groups act s0 x ≡ₚ own_groups act' s0' x.
Proof.
  intros Hx. unfold own_groups.
  rewrite Hc0, (same_commands x Hx).
  apply Permutation_map, same_groups, Hx.
Qed.

Lemma two_runs_commands :
  pyRevitScriptCommands (after_entries act s0 L)
  ≡ₚ pyRevitScriptCommands (after_entries act' s0' L').
Proof.
  simpl. rewrite Hc0. apply Permutation_app_head. unfold cmds_of.
  rewrite <- (Permutation_flat_map _ HL).
  apply flat_map_pointwise. intros x Hx.
  rewrite (same_commands x Hx). reflexivity.
Qed.

Lemma two_runs_groups :
  pyRevitScriptGroups (after_entries act s0 L)
  ≡ₚ pyRevitScriptGroups (after_entries act' s0' L').
Proof.
  simpl. apply Permutation_app; [exact Hg0 |]. unfold groups_of.
  rewrite <- (Permutation_flat_map _ HL).
  apply flat_map_pointwise. intros x Hx. apply same_own_groups, Hx.
Qed.

Lemma same_adopted_panel (x : string) :
  In x L ->
  match adopted_panel act s0 x, adopted_panel act' s0' x with
  | Some q, Some q' => same_panel q q'
  | None, None => True
  | _, _ => False
  end.
Proof.
  intros Hx. unfold adopted_panel. rewrite (same_contributed_panel x Hx).
  destruct (contributed_panel (act x)) as [p |]; [| exact I].
  rewrite !adoptgroups_eq. repeat split. simpl.
  apply Permutation_app_head, filter_permutation.
  apply Permutation_app; [exact Hg0 | apply same_own_groups, Hx].
Qed.

(** Two different entries that name one panel give the same panel: the
    panel adopts nothing from either directory. *)
Lemma adopted_panel_shared (x y : string) (q q' : ScriptPanel) :
  In x L -> In y L ->
  adopted_panel act s0 x = Some q -> adopted_panel act s0 y = Some q' ->
  panel_id q = panel_id q' -> q = q'.
Proof.
  intros Hx Hy Hq Hq' Hid.
  destruct (String.eqb x y) eqn:Exy.
  { apply String.eqb_eq in Exy. subst y. congruence. }
  apply String.eqb_neq in Exy.
  pose proof (Hind x y Hx Hy Exy) as Hxy.
  assert (Hyx : leaves_alone (act y) (act x) = true).
  { apply Hind; auto. }
  unfold adopted_panel in Hq, Hq'.
  destruct (contributed_panel (act x)) as [p |] eqn:Ep; [| discriminate].
  destruct (contributed_panel (act y)) as [p' |] eqn:Ep'; [| discriminate].
  injection Hq as <-. injection Hq' as <-.
  unfold panel_id in Hid.
  destruct (adoptgroups_fields p (pyRevitScriptGroups s0
                                   ++ own_groups act s0 x))
    as (_ & Hn1 & Hn2 & _).
  destruct (adoptgroups_fields p' (pyRevitScriptGroups s0
                                    ++ own_groups act s0 y))
    as (_ & Hn1' & Hn2' & _).
  rewrite Hn1, Hn2, Hn1', Hn2' in Hid. injection Hid as Hname Htab.
  unfold leaves_alone in Hxy, Hyx. rewrite Ep' in Hxy. rewrite Ep in Hyx.
  rewrite Ep in Hxy. rewrite Ep' in Hyx.
  apply andb_prop in Hxy as [_ Hxy]. apply andb_prop in Hxy as [Gx Px].
  apply andb_prop in Hyx as [_ Hyx]. apply andb_prop in Hyx as [Gy _].
  rewrite Hname, String.eqb_refl in Px. simpl in Px.
  apply bool_decide_eq_true in Px. subst p'.
  rewrite !adoptgroups_eq. f_equal. f_equal.
  rewrite !List.filter_app. f_equal.
  rewrite !filter_nil; [reflexivity | |].
  - intros g Hg. unfold own_groups in Hg.
    apply in_map_iff in Hg as (g0 & <- & Hin0).
    rewrite forallb_forall in Gy. specialize (Gy g0 Hin0).
    apply negb_true_iff in Gy. unfold adoptgroups_test.
    destruct (adoptcommands_names g0
                (pyRevitScriptCommands s0 ++ contributed_commands (act y))
                sessionSettings.masterTabName) as (_ & -> & _).
    rewrite Gy. reflexivity.
  - intros g Hg. unfold own_groups in Hg.
    apply in_map_iff in Hg as (g0 & <- & Hin0).
    rewrite forallb_forall in Gx. specialize (Gx g0 Hin0).
    apply negb_true_iff in Gx. unfold adoptgroups_test.
    destruct (adoptcommands_names g0
                (pyRevitScriptCommands s0 ++ contributed_commands (act x))
                sessionSettings.masterTabName) as (_ & -> & _).
    rewrite Gx. reflexivity.
Qed.

End TwoRuns.

Section NewPanels.

Variable act : string -> contribution.
Variable s0 : Session.

Lemma new_panels_seen_ext (l : list string) :
  forall seen seen',
    (forall i, i ∈ seen <-> i ∈ seen') ->
    new_panels act s0 seen l = new_panels act s0 seen' l.
Proof.
  induction l as [| x r IH]; intros seen seen' H; simpl; [reflexivity |].
  destruct (adopted_panel act s0 x) as [q |]; [| apply IH, H].
  rewrite (bool_decide_ext _ _ (H (panel_id q))).
  destruct (bool_decide (panel_id q ∈ seen')); [apply IH, H |].
  f_equal. apply IH. intros i. rewrite !elem_of_cons, H. reflexivity.
Qed.

Lemma new_panels_perm (l l' : list string) :
  l ≡ₚ l' ->
  (forall x y q q', In x l -> In y l ->
     adopted_panel act s0 x = Some q -> adopted_panel act s0 y = Some q' ->
     panel_id q = panel_id q' -> q = q') ->
  forall seen, new_panels act s0 seen l ≡ₚ new_panels act s0 seen l'.
Proof.
  induction 1 as [| x l l' Hp IH | x y l | l l' l'' Hp1 IH1 Hp2 IH2];
    intros Hsh seen.
  - reflexivity.
  - assert (Hsh' : forall x y q q', In x l -> In y l ->
              adopted_panel act s0 x = Some q ->
              adopted_panel act s0 y = Some q' ->
              panel_id q = panel_id q' -> q = q').
    { intros a b q q' Ha Hb. apply Hsh; right; assumption. }
    simpl. destruct (adopted_panel act s0 x) as [q |]; [| apply IH, Hsh'].
    destruct (bool_decide (panel_id q ∈ seen)); [apply IH, Hsh' |].
    constructor. apply IH, Hsh'.
  - simpl.
    destruct (adopted_panel act s0 y) as [qy |] eqn:Ey;
      destruct (adopted_panel act s0 x) as [qx |] eqn:Ex;
      try reflexivity.
    destruct (decide (panel_id qy = panel_id qx)) as [Hid | Hid].
    + assert (qy = qx).
      { apply (Hsh y x qy qx); simpl; auto. }
      subst qy. destruct (bool_decide (panel_id qx ∈ seen)) eqn:Es;
        [reflexivity |].
      rewrite bool_decide_eq_true_2 by (left). reflexivity.
    + rewrite (bool_decide_ext (panel_id qx ∈ panel_id qy :: seen)
                               (panel_id qx ∈ seen)).
      2:{ rewrite elem_of_cons. split; [intros [E | H]; [| exact H] | auto].
          exfalso. apply Hid. symmetry. exact E. }
      rewrite (bool_decide_ext (panel_id qy ∈ panel_id qx :: seen)
                               (panel_id qy ∈ seen)).
      2:{ rewrite elem_of_cons. split; [intros [E | H]; [| exact H] | auto].
          exfalso. apply Hid. exact E. }
      destruct (bool_decide (panel_id qy ∈ seen)),
               (bool_decide (panel_id qx ∈ seen)); try reflexivity.
      rewrite (new_panels_seen_ext l (panel_id qx :: panel_id qy :: seen)
                 (panel_id qy :: panel_id qx :: seen)).
      * apply perm_swap.
      * intros i. rewrite !elem_of_cons. tauto.
  - etransitivity; [apply IH1, Hsh |]. apply IH2.
    intros a b q q' Ha Hb. apply Hsh.
    + eapply Permutation_in; [symmetry; exact Hp1 | exact Ha].
    + eapply Permutation_in; [symmetry; exact Hp1 | exact Hb].
Qed.

End NewPanels.

Lemma same_panel_id (q q' : ScriptPanel) :
  same_panel q q' -> panel_id q' = panel_id q.
Proof. intros (_ & Hn & Ht & _). unfold panel_id. congruence. Qed.

Lemma new_panels_pointwise (act act' : string -> contribution)
    (s0 s0' : Session) (l : list string) :
  (forall x, In x l ->
     match adopted_panel act s0 x, adopted_panel act' s0' x with
     | Some q, Some q' => same_panel q q'
     | None, None => True
     | _, _ => False
     end) ->
  forall seen,
    Forall2 same_panel (new_panels act s0 seen l)
            (new_panels act' s0' seen l).
Proof.
  induction l as [| x r IH]; intros H seen; simpl; [constructor |].
  assert (Hr : forall y, In y r ->
            match adopted_panel act s0 y, adopted_panel act' s0' y with
            | Some q, Some q' => same_panel q q'
            | None, None => True
            | _, _ => False
            end) by (intros y Hy; apply H; right; exact Hy).
  specialize (H x (or_introl eq_refl)).
  destruct (adopted_panel act s0 x) as [q |],
           (adopted_panel act' s0' x) as [q' |]; try contradiction;
    [| apply IH, Hr].
  rewrite (same_panel_id q q' H).
  destruct (bool_decide (panel_id q ∈ seen)); [apply IH, Hr |].
  constructor; [exact H | apply IH, Hr].
Qed.

(** *** Two enumerations of one snapshot *)

Lemma NoDup_map_eq {A B} (f : A -> B) (l : list A) (a b : A) :
  NoDup (map f l) -> In a l -> In b l -> f a = f b -> a = b.
Proof.
  induction l as [| x r IH]; intros Hnd Ha Hb E; [destruct Ha |].
  simpl in Hnd. apply NoDup_cons in Hnd as [Hx Hnd].
  destruct Ha as [<- | Ha], Hb as [<- | Hb]; auto.
  - exfalso. apply Hx. rewrite E. apply list_elem_of_In, in_map, Hb.
  - exfalso. apply Hx. rewrite <- E. apply list_elem_of_In, in_map, Ha.
Qed.

Lemma find_perm_unique {A} (P : A -> bool) (l m : list A) :
  l ≡ₚ m ->
  (forall a b, In a l -> In b l -> P a = true -> P b = true -> a = b) ->
  List.find P l = List.find P m.
Proof.
  induction 1 as [| x l l' Hp IH | x y l | l l' l'' Hp1 IH1 Hp2 IH2];
    intros Hu; simpl.
  - reflexivity.
  - destruct (P x); [reflexivity |]. apply IH.
    intros a b Ha Hb. apply Hu; right; assumption.
  - destruct (P y) eqn:Ey, (P x) eqn:Ex; try reflexivity.
    f_equal. apply Hu; simpl; auto.
  - rewrite IH1 by exact Hu. apply IH2.
    intros a b Ha Hb. apply Hu.
    + eapply Permutation_in; [symmetry; exact Hp1 | exact Ha].
    + eapply Permutation_in; [symmetry; exact Hp1 | exact Hb].
Qed.

Lemma same_node_refl (e : fsnode) : same_node e e.
Proof. repeat split; reflexivity. Qed.

Lemma same_snapshot_permutation (entries entries' : list fsnode) :
  entries ≡ₚ entries' -> same_snapshot entries entries'.
Proof.
  intros H. exists entries'. split; [exact H |]. clear H.
  induction entries' as [| e r IH]; constructor;
    [apply same_node_refl | exact IH].
Qed.

Lemma Forall2_same_node_listdir (m entries' : list fsnode) :
  Forall2 same_node m entries' -> listdir entries' = listdir m.
Proof.
  unfold listdir.
  induction 1 as [| e e' r r' (Hn & _) _ IH]; simpl; [reflexivity |].
  rewrite Hn, IH. reflexivity.
Qed.

Lemma snapshot_listdir (entries entries' : list fsnode) :
  same_snapshot entries entries' -> listdir entries ≡ₚ listdir entries'.
Proof.
  intros (m & Hp & Hf). rewrite (Forall2_same_node_listdir _ _ Hf).
  apply listdir_permutation, Hp.
Qed.

Lemma snapshot_isdir (entries entries' : list fsnode) (n : string) :
  same_snapshot entries entries' -> isdir entries n = isdir entries' n.
Proof.
  intros (m & Hp & Hf).
  rewrite (isdir_permutation _ _ n Hp). clear Hp. unfold isdir.
  induction Hf as [| e e' r r' (Hn & Hd & _) _ IH]; simpl;
    [reflexivity |]. rewrite Hn, Hd, IH. reflexivity.
Qed.

Lemma snapshot_subdir (entries entries' : list fsnode) (n : string) :
  same_snapshot entries entries' ->
  NoDup (listdir entries) -> subdir entries n ≡ₚ subdir entries' n.
Proof.
  intros (m & Hp & Hf) Hnd. unfold subdir.
  rewrite (find_perm_unique _ _ _ Hp).
  2:{ intros a b Ha Hb Pa Pb. apply (NoDup_map_eq fs_name entries);
        auto.
      apply andb_prop in Pa as [Pa _]. apply andb_prop in Pb as [Pb _].
      apply String.eqb_eq in Pa, Pb. congruence. }
  clear Hp Hnd. induction Hf as [| e e' r r' (Hn & Hd & He) _ IH]; simpl;
    [reflexivity |]. rewrite Hn, Hd.
  destruct (String.eqb (fs_name e) n && fs_isdir e); [exact He | exact IH].
Qed.

Section Listing.

Variable asm : list Assembly.
Variable xp : string -> string -> string -> string.
Variables entries entries' : list fsnode.
Hypothesis Hlist : listdir entries ≡ₚ listdir entries'.
Hypothesis Hisdir : forall n, isdir entries n = isdir entries' n.

Lemma found_commands_listing (searchdir tabname : string) :
  found_commands xp searchdir entries' tabname
  = found_commands xp searchdir entries tabname.
Proof.
  unfold found_commands, find_scriptcommands.
  rewrite <- (sorted_strings_permutation _ _ Hlist).
  f_equal. apply fold_left_ext. intros s x.
  unfold find_scriptcommands_step.
  destruct (Py.splitext (Py.basename x)) as [fname fext].
  rewrite <- Hisdir.
  rewrite (ScriptCommand_init_siblings xp _ _ searchdir x tabname Hlist).
  reflexivity.
Qed.

Lemma decode_group_listing (searchdir tabname bundled x : string) :
  decode_group asm searchdir entries' tabname bundled x
  = decode_group asm searchdir entries tabname bundled x.
Proof. unfold decode_group. rewrite <- Hisdir. reflexivity. Qed.

End Listing.

Lemma same_decoded_trans (a b c : result (list ScriptGroup)) :
  same_decoded a b -> same_decoded b c -> same_decoded a c.
Proof.
  destruct a, b, c; simpl; try tauto. intros H1 H2. etransitivity; eauto.
Qed.

Lemma decode_groups_ext (f g : string -> result (list ScriptGroup))
    (l : list string) :
  (forall x, f x = g x) -> decode_groups f l = decode_groups g l.
Proof.
  intros H. induction l as [| x r IH]; simpl; [reflexivity |].
  rewrite H, IH. reflexivity.
Qed.

Lemma decode_groups_perm (f : string -> result (list ScriptGroup))
    (l l' : list string) :
  l ≡ₚ l' -> same_decoded (decode_groups f l) (decode_groups f l').
Proof.
  induction 1 as [| x l l' _ IH | x y l | l l' l'' _ IH1 _ IH2]; simpl.
  - reflexivity.
  - destruct (f x) as [a |]; simpl; [| exact I].
    destruct (decode_groups f l), (decode_groups f l'); simpl in *;
      try contradiction; [| exact I].
    apply Permutation_app_head, IH.
  - destruct (f y) as [a |], (f x) as [b |]; simpl; try exact I.
    destruct (decode_groups f l); simpl; [| exact I].
    rewrite !app_assoc. apply Permutation_app_tail, Permutation_app_comm.
  - eapply same_decoded_trans; eassumption.
Qed.

Lemma decoded_groups_listing (asm : list Assembly)
    (entries entries' : list fsnode) (searchdir tabname bundled : string) :
  listdir entries ≡ₚ listdir entries' ->
  (forall n, isdir entries n = isdir entries' n) ->
  same_decoded (decoded_groups asm searchdir entries tabname bundled)
               (decoded_groups asm searchdir entries' tabname bundled).
Proof.
  intros Hl Hd. unfold decoded_groups.
  rewrite (decode_groups_ext
             (decode_group asm searchdir entries' tabname bundled)
             (decode_group asm searchdir entries tabname bundled)).
  - apply decode_groups_perm, Hl.
  - intros x. apply decode_group_listing, Hd.
Qed.

Lemma contribution_of_snapshot (asm : list Assembly)
    (xp : string -> string -> string -> string)
    (entries entries' : list fsnode) (tabdir tabname x : string) :
  same_snapshot entries entries' -> NoDup (listdir entries) ->
  same_contribution (contribution_of asm xp tabdir entries tabname x)
                    (contribution_of asm xp tabdir entries' tabname x).
Proof.
  intros Hs Hnd. unfold contribution_of, is_panel_bundled.
  rewrite <- (snapshot_isdir entries entries' x Hs).
  set (b := isdir entries x && _ && _).
  destruct (b || _); [| exact I].
  destruct (ScriptPanel_init tabdir x tabname b) as [p | e];
    [| destruct e; exact I].
  destruct b; [| repeat split; reflexivity].
  pose proof (snapshot_subdir entries entries' x Hs Hnd) as Hsub.
  assert (Hl : listdir (subdir entries x) ≡ₚ listdir (subdir entries' x))
    by (apply listdir_permutation, Hsub).
  assert (Hd : forall n, isdir (subdir entries x) n
                         = isdir (subdir entries' x) n)
    by (intros n; apply isdir_permutation, Hsub).
  pose proof (decoded_groups_listing asm _ _ (path_join tabdir x) tabname
                (panelName p) Hl Hd) as Hg.
  rewrite (found_commands_listing xp _ _ Hl Hd).
  destruct (decoded_groups asm _ (subdir entries x) _ _),
           (decoded_groups asm _ (subdir entries' x) _ _);
    simpl in *; try contradiction; auto.
Qed.

(** *** Sorting two lists of the same panels *)

Lemma sorted_insert_Forall2 {A} (R : A -> A -> Prop) (key : A -> Z)
    (x y : A) (l l' : list A) :
  (forall a b, R a b -> key b = key a) ->
  R x y -> Forall2 R l l' ->
  Forall2 R (sorted_insert Z.leb key x l) (sorted_insert Z.leb key y l').
Proof.
  intros Hk Hxy H. induction H as [| a b r r' Hab Hr IH]; simpl.
  - repeat constructor. exact Hxy.
  - rewrite (Hk x y Hxy), (Hk a b Hab).
    destruct (key x <=? key a); repeat constructor; auto.
Qed.

Lemma sorted_by_Forall2 {A} (R : A -> A -> Prop) (key : A -> Z)
    (l l' : list A) :
  (forall a b, R a b -> key b = key a) ->
  Forall2 R l l' ->
  Forall2 R (sorted_by Z.leb key l) (sorted_by Z.leb key l').
Proof.
  intros Hk H. induction H as [| a b r r' Hab Hr IH]; simpl;
    [constructor |].
  apply sorted_insert_Forall2; assumption.
Qed.

Lemma same_panels_filter (P : ScriptPanel -> bool) (l l' : list ScriptPanel) :
  (forall p q, same_panel p q -> P q = P p) ->
  same_panels l l' -> same_panels (List.filter P l) (List.filter P l').
Proof.
  intros HP (m & Hp & Hf). exists (List.filter P m).
  split; [apply filter_permutation, Hp |]. clear Hp.
  induction Hf as [| p q r r' Hpq _ IH]; simpl; [constructor |].
  rewrite (HP p q Hpq). destruct (P p); [constructor |]; assumption.
Qed.

Lemma same_panels_app_head (a l l' : list ScriptPanel) :
  same_panels l l' -> same_panels (a ++ l) (a ++ l').
Proof.
  intros (m & Hp & Hf). exists (a ++ m).
  split; [apply Permutation_app_head, Hp |].
  apply Forall2_app; [| exact Hf].
  clear. induction a; constructor; auto using same_panel_refl.
Qed.

Lemma same_panel_sorted_groups (p q : ScriptPanel) :
  same_panel p q -> NoDup (map groupOrder (scriptGroups p)) ->
  set_scriptGroups q (get_sorted_scriptgroups q)
  = set_scriptGroups p (get_sorted_scriptgroups p).
Proof.
  intros (Ho & Hn & Ht & Hd & Hb & Hg) Hnd.
  unfold set_scriptGroups, get_sorted_scriptgroups.
  rewrite Ho, Hn, Ht, Hd, Hb.
  rewrite (sorted_by_Z_permutation groupOrder _ _ Hg Hnd). reflexivity.
Qed.

Lemma same_panels_sorted_tree (t1 t2 : ScriptTab) :
  same_panels (scriptPanels t1) (scriptPanels t2) ->
  NoDup (map panelOrder (scriptPanels t1)) ->
  Forall (fun p => NoDup (map groupOrder (scriptGroups p)))
         (scriptPanels t1) ->
  sorted_tree t2 = sorted_tree t1.
Proof.
  intros (m & Hp & Hf) Hnd Hgs. unfold sorted_tree, get_sorted_scriptpanels.
  rewrite (sorted_by_Z_permutation panelOrder _ _ Hp Hnd).
  assert (Hm : Forall (fun p => NoDup (map groupOrder (scriptGroups p)))
                      (sorted_by Z.leb panelOrder m)).
  { rewrite List.Forall_forall in *. intros p Hin. apply Hgs.
    apply list_elem_of_In. rewrite Hp.
    rewrite <- (sorted_by_perm Z.leb panelOrder m).
    apply list_elem_of_In, Hin. }
  pose proof (sorted_by_Forall2 same_panel panelOrder m (scriptPanels t2)
                (fun a b H => proj1 H) Hf) as Hs.
  induction Hs as [| p q r r' Hpq _ IH]; simpl; [reflexivity |].
  inversion Hm as [| ? ? Hp1 Hr1]; subst.
  rewrite (same_panel_sorted_groups p q Hpq Hp1), (IH Hr1). reflexivity.
Qed.

Lemma independent_entries_In (asm : list Assembly)
    (xp : string -> string -> string -> string)
    (tabdir : string) (entries : list fsnode) (tabname : string) :
  independent_entries asm xp tabdir entries tabname = true ->
  forall x y, In x (listdir entries) -> In y (listdir entries) -> x <> y ->
    leaves_alone (contribution_of asm xp tabdir entries tabname x)
                 (contribution_of asm xp tabdir entries tabname y) = true.
Proof.
  unfold independent_entries. intros H x y Hx Hy Hxy.
  rewrite forallb_forall in H. specialize (H x Hx).
  rewrite forallb_forall in H. specialize (H y Hy).
  apply orb_true_iff in H as [H | H]; [| exact H].
  apply String.eqb_eq in H. contradiction.
Qed.

(** The loop of [find_scriptpanels] over independent entries in closed
    form. *)
Lemma find_scriptpanels_closed (asm : list Assembly)
    (xp : string -> string -> string -> string) (self : Session)
    (tabdir tabname : string) (entries : list fsnode)
    (groups0 : list ScriptGroup) :
  NoDup (listdir entries) ->
  (forall x y, In x (listdir entries) -> In y (listdir entries) -> x <> y ->
     leaves_alone (contribution_of asm xp tabdir entries tabname x)
                  (contribution_of asm xp tabdir entries tabname y) = true) ->
  (forall x e, In x (listdir entries) ->
     contribution_of asm xp tabdir entries tabname x <> Failure e) ->
  decoded_groups asm tabdir entries tabname "" = Ok groups0 ->
  find_scriptpanels asm xp self tabdir entries tabname
  = Ok (after_entries (contribution_of asm xp tabdir entries tabname)
          (with_found self (found_commands xp tabdir entries tabname)
                      groups0)
          (listdir entries)).
Proof.
  intros Hnd Hind Hok Hdec. unfold find_scriptpanels.
  rewrite find_scriptgroups_found, Hdec. simpl.
  rewrite (for_each_ext _
             (fun s x =>
                contribute s (contribution_of asm xp tabdir entries tabname
                                              x))).
  2:{ intros s x. apply find_scriptpanels_step_contribution. }
  rewrite <- (after_entries_nil
                (contribution_of asm xp tabdir entries tabname)
                (with_found self _ groups0)) at 1.
  apply (run_after _ _ (listdir entries) []); assumption.
Qed.

Lemma find_scriptpanels_no_failure (asm : list Assembly)
    (xp : string -> string -> string -> string) (self s1 : Session)
    (tabdir tabname : string) (entries : list fsnode) :
  find_scriptpanels asm xp self tabdir entries tabname = Ok s1 ->
  (exists groups0, decoded_groups asm tabdir entries tabname "" = Ok groups0)
  /\ forall x e, In x (listdir entries) ->
       contribution_of asm xp tabdir entries tabname x <> Failure e.
Proof.
  unfold find_scriptpanels. rewrite find_scriptgroups_found.
  destruct (decoded_groups asm tabdir entries tabname "") as [g0 | e];
    [| discriminate].
  simpl. intros H. split; [eauto |].
  rewrite (for_each_ext _
             (fun s x =>
                contribute s (contribution_of asm xp tabdir entries tabname
                                              x))) in H.
  2:{ intros s x. apply find_scriptpanels_step_contribution. }
  exact (run_no_failure _ _ _ _ H).
Qed.

Lemma sorted_insert_keys {A} (key : A -> Z) (x : A) (l : list A) :
  map key (sorted_insert Z.leb key x l)
  = sorted_insert Z.leb (fun z => z) (key x) (map key l).
Proof.
  induction l as [| y r IH]; simpl; [reflexivity |].
  destruct (key x <=? key y); simpl; [reflexivity |].
  rewrite IH. reflexivity.
Qed.

Lemma sorted_by_keys {A} (key : A -> Z) (l : list A) :
  map key (sorted_by Z.leb key l)
  = sorted_by Z.leb (fun z => z) (map key l).
Proof.
  induction l as [| x r IH]; simpl; [reflexivity |].
  rewrite sorted_insert_keys, IH. reflexivity.
Qed.

Lemma sorted_Z_permutation (l l' : list Z) :
  l ≡ₚ l' ->
  sorted_by Z.leb (fun z => z) l = sorted_by Z.leb (fun z => z) l'.
Proof.
  intros Hp.
  apply (sorted_by_permutation Z.leb (fun z => z) Z_leb_total Z_leb_trans);
    [exact Hp |].
  intros x y _ _ Hxy Hyx. unfold key_le in *. lia.
Qed.

Lemma same_panels_orders (l l' : list ScriptPanel) :
  same_panels l l' ->
  map panelOrder (sorted_by Z.leb panelOrder l')
  = map panelOrder (sorted_by Z.leb panelOrder l).
Proof.
  intros (m & Hp & Hf). rewrite !sorted_by_keys.
  apply sorted_Z_permutation.
  assert (E : map panelOrder l' = map panelOrder m).
  { clear Hp. induction Hf as [| p q r r' (Ho & _) _ IH]; simpl;
      [reflexivity |]. rewrite Ho, IH. reflexivity. }
  rewrite E, Hp. reflexivity.
Qed.

Lemma same_panels_sorted (l l' : list ScriptPanel) :
  same_panels l l' ->
  same_panels (sorted_by Z.leb panelOrder l) (sorted_by Z.leb panelOrder l').
Proof.
  intros (m & Hp & Hf). exists (sorted_by Z.leb panelOrder m). split.
  - rewrite !sorted_by_perm. exact Hp.
  - apply sorted_by_Forall2; [| exact Hf]. intros a b H. exact (proj1 H).
Qed.

Lemma same_contribution_failure (a a' : contribution) :
  same_contribution a a' ->
  (forall e, a <> Failure e) -> forall e, a' <> Failure e.
Proof.
  destruct a, a'; try contradiction; try discriminate.
  intros _ H e'. exfalso. exact (H e eq_refl).
Qed.

(** C8 (amended): among entries of a tab directory that leave each other
    alone, discovery depends on the enumeration order through the order of
    its lists only. For two enumerations of one snapshot of the directory
    (its entries in any order, the entries of every bundled panel in any
    order), [find_scriptpanels] succeeds on both or on none, and finds the
    same commands, the same groups, each with the same commands in the
    same sequence, and the same panels, each with the same sort order and
    the same groups. For a tab that adopts the panels,
    [get_sorted_scriptpanels] returns the same panels after either run,
    with the same sequence of sort orders, so that only panels of equal
    sort order can change places; and [get_sorted_scriptpanels] and
    [get_sorted_scriptgroups] return the same sequences whenever the sort
    orders of the panels of the tab, and of the groups of each panel, are
    pairwise different. *)
Theorem C8_listing_order (asm : list Assembly)
    (xp : string -> string -> string -> string) (self : Session)
    (tabdir tabname : string) (entries entries' : list fsnode)
    (s1 : Session) :
  same_snapshot entries entries' ->
  NoDup (listdir entries) ->
  independent_entries asm xp tabdir entries tabname = true ->
  find_scriptpanels asm xp self tabdir entries tabname = Ok s1 ->
  exists s2,
    find_scriptpanels asm xp self tabdir entries' tabname = Ok s2
    /\ pyRevitScriptCommands s1 ≡ₚ pyRevitScriptCommands s2
    /\ pyRevitScriptGroups s1 ≡ₚ pyRevitScriptGroups s2
    /\ same_panels (pyRevitScriptPanels s1) (pyRevitScriptPanels s2)
    /\ forall t : ScriptTab,
         let t1 := adopt_panels t (pyRevitScriptPanels s1) in
         let t2 := adopt_panels t (pyRevitScriptPanels s2) in
         same_panels (get_sorted_scriptpanels t1) (get_sorted_scriptpanels t2)
         /\ map panelOrder (get_sorted_scriptpanels t2)
            = map panelOrder (get_sorted_scriptpanels t1)
         /\ (NoDup (map panelOrder (scriptPanels t1)) ->
             Forall (fun p => NoDup (map groupOrder (scriptGroups p)))
                    (scriptPanels t1) ->
             sorted_tree t2 = sorted_tree t1).
Proof.
  intros Hsnap Hnd Hindb H1.
  pose proof (independent_entries_In asm xp tabdir entries tabname Hindb)
    as Hind.
  destruct (find_scriptpanels_no_failure asm xp self s1 tabdir tabname
              entries H1) as ((g0 & Hdec) & Hok).
  rewrite (find_scriptpanels_closed asm xp self tabdir tabname entries g0
             Hnd Hind Hok Hdec) in H1.
  injection H1 as <-.
  pose proof (snapshot_listdir _ _ Hsnap) as HL.
  pose proof (fun n => snapshot_isdir entries entries' n Hsnap) as Hdir.
  set (act := contribution_of asm xp tabdir entries tabname) in *.
  set (act' := contribution_of asm xp tabdir entries' tabname).
  assert (Hact : forall x, In x (listdir entries) ->
                           same_contribution (act x) (act' x)).
  { intros x _. apply contribution_of_snapshot; assumption. }
  assert (Hact' : forall x, same_contribution (act x) (act' x)).
  { intros x. apply contribution_of_snapshot; assumption. }
  pose proof (decoded_groups_listing asm entries entries' tabdir tabname ""
                HL Hdir) as Hdec'.
  rewrite Hdec in Hdec'.
  destruct (decoded_groups asm tabdir entries' tabname "") as [g0' |] eqn:E';
    [| contradiction].
  simpl in Hdec'.
  assert (Hnd' : NoDup (listdir entries')) by (rewrite <- HL; exact Hnd).
  assert (Hin : forall x, In x (listdir entries') -> In x (listdir entries)).
  { intros x Hx. eapply Permutation_in; [symmetry; exact HL | exact Hx]. }
  assert (Hind' : forall x y, In x (listdir entries') ->
                    In y (listdir entries') -> x <> y ->
                    leaves_alone (act' x) (act' y) = true).
  { intros x y Hx Hy Hxy.
    rewrite (leaves_alone_same (act x) (act' x) (act y) (act' y)
               (Hact' x) (Hact' y)).
    apply Hind; auto. }
  assert (Hok' : forall x e, In x (listdir entries') ->
                             act' x <> Failure e).
  { intros x e Hx. apply (same_contribution_failure (act x) (act' x)
                            (Hact' x)).
    intros e0. apply Hok, Hin, Hx. }
  set (s0 := with_found self (found_commands xp tabdir entries tabname) g0).
  set (s0' := with_found self (found_commands xp tabdir entries' tabname)
                         g0').
  assert (Hc0 : pyRevitScriptCommands s0' = pyRevitScriptCommands s0).
  { unfold s0, s0'. simpl.
    rewrite (found_commands_listing xp entries entries' HL Hdir).
    reflexivity. }
  assert (Hg0 : pyRevitScriptGroups s0 ≡ₚ pyRevitScriptGroups s0').
  { unfold s0, s0'. simpl.
    rewrite (found_commands_listing xp entries entries' HL Hdir).
    apply Permutation_app_head, Permutation_map, Hdec'. }
  assert (Hpanels :
    same_panels (pyRevitScriptPanels (after_entries act s0 (listdir entries)))
                (pyRevitScriptPanels
                   (after_entries act' s0' (listdir entries')))).
  { simpl. apply same_panels_app_head.
    exists (new_panels act s0 (map panel_id (pyRevitScriptPanels self))
                       (listdir entries')).
    split.
    - apply new_panels_perm; [exact HL |].
      intros x y q q' Hx Hy.
      apply (adopted_panel_shared act s0 (listdir entries) Hind); assumption.
    - apply new_panels_pointwise. intros x Hx.
      apply (same_adopted_panel act act' s0 s0' (listdir entries) Hact Hc0
               Hg0 x (Hin x Hx)). }
  exists (after_entries act' s0' (listdir entries')).
  split.
  { apply (find_scriptpanels_closed asm xp self tabdir tabname entries' g0');
      assumption. }
  split.
  { apply two_runs_commands; assumption. }
  split.
  { apply two_runs_groups; assumption. }
  split; [exact Hpanels |].
  intros t.
  assert (Ht : same_panels
                 (scriptPanels
                    (adopt_panels t
                       (pyRevitScriptPanels
                          (after_entries act s0 (listdir entries)))))
                 (scriptPanels
                    (adopt_panels t
                       (pyRevitScriptPanels
                          (after_entries act' s0' (listdir entries')))))).
  { rewrite !adopt_panels_eq. cbn [scriptPanels set_scriptPanels].
    apply same_panels_app_head, same_panels_filter; [| exact Hpanels].
    intros p q (_ & Hn & Htn & _). unfold adopt_panels_test.
    rewrite Hn, Htn. reflexivity. }
  split; [apply same_panels_sorted, Ht |].
  split; [apply same_panels_orders, Ht |].
  intros Hnp Hng. apply same_panels_sorted_tree; assumption.
Qed.

Lemma tab_entries_same_snapshot :
  same_snapshot tab_entries tab_entries_reordered.
Proof.
  exists [ FsFile "K_x.py";
           FsDir "B.panel" [ FsFile "10_PushButton_U.png";
                             FsFile "U_run.py" ];
           FsDir "A.panel" [ FsFile "10_PulldownButton_G.png";
                             FsFile "G_a.py";
                             FsFile "20_PushButton_H.png";
                             FsFile "H_run.py" ];
           FsFile "0510_C_PulldownButton_K.png" ].
  split.
  - unfold tab_entries.
    apply (Permutation_app_comm
             [ FsDir "A.panel" _; FsFile "0510_C_PulldownButton_K.png" ]
             [ FsFile "K_x.py"; FsDir "B.panel" _ ]).
  - repeat (constructor; try reflexivity);
      repeat split; try reflexivity; try apply perm_swap.
    apply (Permutation_app_comm
             [ FsFile "10_PulldownButton_G.png"; FsFile "G_a.py" ]
             [ FsFile "20_PushButton_H.png"; FsFile "H_run.py" ]).
Qed.

(** C8, as stated, fails in three ways. Panels of equal sort order come
    out in the order of the enumeration, and the sort order of every
    bundled panel is 0: the bundled panels [A] and [B] of one tab change
    places with the enumeration. Groups of equal sort order do the same.
    And a panel that two entries name takes its sort order and its groups
    from the entry that is enumerated first. *)
Lemma C8_counterexample :
  (same_snapshot tab_entries tab_entries_reordered
   /\ ribbon_order
        (discover no_assemblies no_metadata "loader" loader_dir "home"
                  [FsDir "X.tab" tab_entries])
      = [("X", [("A", 0, ["G"; "H"]); ("B", 0, ["U"]); ("C", 5, ["K"])])]
   /\ ribbon_order
        (discover no_assemblies no_metadata "loader" loader_dir "home"
                  [FsDir "X.tab" tab_entries_reordered])
      = [("X", [("B", 0, ["U"]); ("A", 0, ["G"; "H"]); ("C", 5, ["K"])])])
  /\ (panel_entries_AB ≡ₚ panel_entries_BA
      /\ children_sequences
           (discover no_assemblies no_metadata "loader" loader_dir "home"
                     (home_with_panel panel_entries_AB))
         = [("P", ["A"; "B"])]
      /\ children_sequences
           (discover no_assemblies no_metadata "loader" loader_dir "home"
                     (home_with_panel panel_entries_BA))
         = [("P", ["B"; "A"])])
  /\ (tab_descriptor_first ≡ₚ tab_bundle_first
      /\ ribbon_order
           (discover no_assemblies no_metadata "loader" loader_dir "home"
                     [FsDir "X.tab" tab_descriptor_first])
         = [("X", [("P", 5, ["G"])])]
      /\ ribbon_order
           (discover no_assemblies no_metadata "loader" loader_dir "home"
                     [FsDir "X.tab" tab_bundle_first])
         = [("X", [("P", 0, ["G"; "H"])])]).
Proof.
  split; [| split].
  - split; [exact tab_entries_same_snapshot |].
    split; vm_compute; reflexivity.
  - split; [apply perm_swap |]. split; vm_compute; reflexivity.
  - split; [apply perm_swap |]. split; vm_compute; reflexivity.
Qed.

Lemma C8_listing_order_witness :
  exists s2,
    find_scriptpanels no_assemblies no_metadata new_session "home\X.tab"
      tab_entries_reordered "X" = Ok s2
    /\ pyRevitScriptCommands tab_session ≡ₚ pyRevitScriptCommands s2
    /\ pyRevitScriptGroups tab_session ≡ₚ pyRevitScriptGroups s2
    /\ same_panels (pyRevitScriptPanels tab_session)
                   (pyRevitScriptPanels s2)
    /\ forall t : ScriptTab,
         let t1 := adopt_panels t (pyRevitScriptPanels tab_session) in
         let t2 := adopt_panels t (pyRevitScriptPanels s2) in
         same_panels (get_sorted_scriptpanels t1) (get_sorted_scriptpanels t2)
         /\ map panelOrder (get_sorted_scriptpanels t2)
            = map panelOrder (get_sorted_scriptpanels t1)
         /\ (NoDup (map panelOrder (scriptPanels t1)) ->
             Forall (fun p => NoDup (map groupOrder (scriptGroups p)))
                    (scriptPanels t1) ->
             sorted_tree t2 = sorted_tree t1).
Proof.
  apply (C8_listing_order no_assemblies no_metadata new_session "home\X.tab"
           "X" tab_entries tab_entries_reordered tab_session).
  - exact tab_entries_same_snapshot.
  - refine (bool_decide_unpack _ _). vm_compute. exact I.
  - vm_compute. reflexivity.
  - vm_compute. reflexivity.
Defined.
